(** * AMM agent simulation: a shallow embedding of the simulation engine

    The Python sources embedded here are [simulator/agent_base.py],
    [simulator/market_maker.py], [simulator/trader.py] and
    [simulator/run_simulation.py].  Python integers are [Z], Python floats are
    IEEE-754 binary64 values ([spec_float] at precision 53, the exact
    arithmetic of CPython), exceptions are values of [exn] and every method is
    a function of the state it reads and writes. *)

From Stdlib Require Import ZArith List String Bool Lia DecimalString.
From Stdlib Require Import SpecFloat RelationClasses.
Import ListNotations.
Local Open Scope string_scope.
Local Open Scope Z_scope.

(** ** Python values, exceptions and effects *)
Module Py.

(** The exception classes the engine can meet.  All but [KeyboardInterrupt]
    derive from Python's [Exception]; [Web3Error] stands for whatever the
    web3 client raises (connection errors, reverts, timeouts). *)
Inductive exn_class :=
| ZeroDivisionError | OverflowError | ValueError | IndexError | KeyError
| TypeError | PlainException | Web3Error | KeyboardInterrupt.

Record exn := Exn { exn_class_of : exn_class; exn_msg : string }.

(** [isinstance(e, Exception)]: what [except Exception] catches. *)
Definition is_Exception (e : exn) : bool :=
  match exn_class_of e with
  | KeyboardInterrupt => false
  | _ => true
  end.

(** [str(e)] *)
Definition str (e : exn) : string := exn_msg e.

Inductive outcome (A : Type) :=
| Ok (a : A)
| Raise (e : exn).
Arguments Ok {A} a.
Arguments Raise {A} e.

(** A method running over a mutable state [S]: it returns or raises, and the
    mutations made before a raise persist. *)
Definition M (S A : Type) : Type := S -> outcome A * S.

Definition ret {S A} (a : A) : M S A := fun s => (Ok a, s).
Definition raise {S A} (e : exn) : M S A := fun s => (Raise e, s).
Definition bind {S A B} (m : M S A) (k : A -> M S B) : M S B :=
  fun s => match m s with
           | (Ok a, s') => k a s'
           | (Raise e, s') => (Raise e, s')
           end.
Definition get {S} : M S S := fun s => (Ok s, s).
Definition gets {S A} (f : S -> A) : M S A := fun s => (Ok (f s), s).
Definition modify {S} (f : S -> S) : M S unit := fun s => (Ok tt, f s).
(** A call that only reads the state. *)
Definition read {S A} (f : S -> outcome A) : M S A := fun s => (f s, s).
(** A pure computation that may raise. *)
Definition lift_outcome {S A} (o : outcome A) : M S A := fun s => (o, s).

(** [try: m  except Exception as e: h e] *)
Definition try_except {S A} (m : M S A) (h : exn -> M S A) : M S A :=
  fun s => match m s with
           | (Ok a, s') => (Ok a, s')
           | (Raise e, s') => if is_Exception e then h e s' else (Raise e, s')
           end.

(** Running a method of a part of the state (an inherited method, a call on
    a member object) inside a method of the whole. *)
Definition zoom {S T A} (proj : S -> T) (inj : T -> S -> S) (m : M T A) : M S A :=
  fun s => let '(r, t') := m (proj s) in (r, inj t' s).

Definition obind {A B} (o : outcome A) (k : A -> outcome B) : outcome B :=
  match o with
  | Ok a => k a
  | Raise e => Raise e
  end.

Declare Scope py_scope.
Delimit Scope py_scope with py.
Notation "x <- m ;; k" := (bind m (fun x => k))
  (at level 61, m at next level, right associativity) : py_scope.
Notation "' pat <- m ;; k" := (bind m (fun x => match x with pat => k end))
  (at level 61, pat pattern, m at next level, right associativity) : py_scope.
Notation "m ;; k" := (bind m (fun _ => k))
  (at level 61, right associativity) : py_scope.
Notation "x <-- o ;;; k" := (obind o (fun x => k))
  (at level 61, o at next level, right associativity) : py_scope.

(** *** Floats: IEEE-754 binary64 *)

Definition prec : Z := 53.
Definition emax : Z := 1024.
Definition float := spec_float.

Definition fadd : float -> float -> float := SFadd prec emax.
Definition fsub : float -> float -> float := SFsub prec emax.
Definition fmul : float -> float -> float := SFmul prec emax.
Definition fdiv : float -> float -> float := SFdiv prec emax.
Definition fsqrt : float -> float := SFsqrt prec emax.
Definition fabs : float -> float := SFabs.
Definition feqb : float -> float -> bool := SFeqb.
Definition fltb : float -> float -> bool := SFltb.
Definition fleb : float -> float -> bool := SFleb.

(** The integer [n] as the float mantissa [n * 2^0], not yet rounded. *)
Definition Z2SF (n : Z) : float :=
  match n with
  | Z0 => S754_zero false
  | Zpos p => S754_finite false p 0
  | Zneg p => S754_finite true p 0
  end.

(** The float nearest to the integer [n] (ties to even), infinite when [n]
    is out of range. *)
Definition round_Z (n : Z) : float := binary_normalize prec emax n 0 false.

(** The float nearest to the fraction [num / den]: the value of a decimal
    literal such as [0.9] ([lit 9 10]). *)
Definition lit (num den : Z) : float := fdiv (Z2SF num) (Z2SF den).

Definition f0 : float := S754_zero false.
Definition f1 : float := round_Z 1.

Definition is_nan (x : float) : bool :=
  match x with S754_nan => true | _ => false end.
Definition is_inf (x : float) : bool :=
  match x with S754_infinity _ => true | _ => false end.
Definition is_finite (x : float) : bool :=
  match x with S754_zero _ | S754_finite _ _ _ => true | _ => false end.

(** [float(n)] *)
Definition float_of_int (n : Z) : outcome float :=
  let x := round_Z n in
  if is_inf x then Raise (Exn OverflowError "int too large to convert to float")
  else Ok x.

(** [int(x)]: truncation towards zero. *)
Definition int_of_float (x : float) : outcome Z :=
  match x with
  | S754_nan => Raise (Exn ValueError "cannot convert float NaN to integer")
  | S754_infinity _ =>
      Raise (Exn OverflowError "cannot convert float infinity to integer")
  | S754_zero _ => Ok 0
  | S754_finite s m e =>
      Ok (cond_Zopp s (if 0 <=? e then Z.shiftl (Zpos m) e
                       else Z.shiftr (Zpos m) (- e)))
  end.

(** [a / b] on two integers: the correctly rounded quotient. *)
Definition int_truediv (a b : Z) : outcome float :=
  if b =? 0 then Raise (Exn ZeroDivisionError "division by zero")
  else
    let q := fdiv (Z2SF a) (Z2SF b) in
    if is_inf q
    then Raise (Exn OverflowError "integer division result too large for a float")
    else Ok q.

(** [x / y] on two floats. *)
Definition float_truediv (x y : float) : outcome float :=
  if feqb y f0 then Raise (Exn ZeroDivisionError "float division by zero")
  else Ok (fdiv x y).

(** [math.sqrt(x)] *)
Definition math_sqrt (x : float) : outcome float :=
  match x with
  | S754_finite true _ _ | S754_infinity true =>
      Raise (Exn ValueError "math domain error")
  | _ => Ok (fsqrt x)
  end.

(** *** Numbers: [int] or [float] *)
Inductive num :=
| PInt (z : Z)
| PFloat (f : float).

Definition to_float (x : num) : outcome float :=
  match x with
  | PInt z => float_of_int z
  | PFloat f => Ok f
  end.

Definition arith (iop : Z -> Z -> Z) (fop : float -> float -> float)
    (x y : num) : outcome num :=
  match x, y with
  | PInt a, PInt b => Ok (PInt (iop a b))
  | _, _ => a <-- to_float x ;;; b <-- to_float y ;;; Ok (PFloat (fop a b))
  end%py.

Definition add := arith Z.add fadd.
Definition sub := arith Z.sub fsub.
Definition mul := arith Z.mul fmul.

Definition truediv (x y : num) : outcome num :=
  match x, y with
  | PInt a, PInt b => q <-- int_truediv a b ;;; Ok (PFloat q)
  | _, _ =>
      a <-- to_float x ;;; b <-- to_float y ;;;
      q <-- float_truediv a b ;;; Ok (PFloat q)
  end%py.

(** [int(x)] *)
Definition int (x : num) : outcome Z :=
  match x with
  | PInt z => Ok z
  | PFloat f => int_of_float f
  end.

(** Comparison of an integer with a float is exact in Python. *)
Definition compare_Z_float (n : Z) (x : float) : option comparison :=
  match x with
  | S754_nan => None
  | S754_infinity s => Some (if s then Gt else Lt)
  | S754_zero _ => Some (n ?= 0)
  | S754_finite s m e =>
      let v := cond_Zopp s (Zpos m) in
      Some (if 0 <=? e then n ?= Z.shiftl v e else Z.shiftl n (- e) ?= v)
  end.

Definition compare (x y : num) : option comparison :=
  match x, y with
  | PInt a, PInt b => Some (a ?= b)
  | PFloat a, PFloat b => SFcompare a b
  | PInt a, PFloat b => compare_Z_float a b
  | PFloat a, PInt b => option_map CompOpp (compare_Z_float b a)
  end.

Definition lt (x y : num) : bool :=
  match compare x y with Some Lt => true | _ => false end.
Definition gt (x y : num) : bool := lt y x.
Definition eq (x y : num) : bool :=
  match compare x y with Some Eq => true | _ => false end.
Definition le (x y : num) : bool :=
  match compare x y with Some (Lt | Eq) => true | _ => false end.

(** [abs(x)] *)
Definition abs (x : num) : num :=
  match x with
  | PInt z => PInt (Z.abs z)
  | PFloat f => PFloat (fabs f)
  end.

(** [-x] *)
Definition neg (x : num) : num :=
  match x with
  | PInt z => PInt (- z)
  | PFloat f => PFloat (SFopp f)
  end.

(** [min(a, b)] on integers and on numbers: the first of the least. *)
Definition min_int (a b : Z) : Z := if b <? a then b else a.
Definition min_num (a b : num) : num := if lt b a then b else a.

End Py.

Import Py.
Local Open Scope py_scope.

(** ** The external collaborators: ledger client and random source *)

Definition addr := string.

(** The state-changing contract calls the agents submit. *)
Inductive call :=
| approve (spender : addr) (amount : Z)
| transfer (to : addr) (amount : Z)
| addLiquidity (amount_a amount_b amount_a_min amount_b_min : Z) (to : addr)
| removeLiquidity (lp_amount min_amount_a min_amount_b : Z) (to : addr)
| swapExactTokensForTokens (amount_in min_amount_out : Z) (token_in to : addr).

(** The transaction dictionary: [build_transaction] fills the call,
    [send_transaction] adds the five sender fields. *)
Record Transaction := {
  tx_to : addr;
  tx_call : call;
  tx_from : option addr;
  tx_nonce : option Z;
  tx_gas : option Z;
  tx_gasPrice : option Z;
  tx_chainId : option Z
}.

Record Receipt := { status : Z; gasUsed : Z }.

(** A balance as [get_all_balances] stores it: the [Decimal] that
    [from_wei] returns (kept as its amount of wei), or a number. *)
Inductive balance :=
| BDecimal (wei : Z)
| BNum (n : num).

(** The web3 client and the deployed contracts, over a ledger state [L].
    Reads leave the ledger as it is; submitting and waiting change it.  Any
    call may raise.  Unsigned results of the contract ABI are [N]. *)
Class Web3 (L : Type) := {
  account_from_key : string -> addr;
  eth_get_transaction_count : addr -> L -> outcome N;
  eth_get_balance : addr -> L -> outcome N;
  eth_chain_id : L -> outcome Z;
  eth_block_number : L -> outcome Z;
  eth_latest_timestamp : L -> outcome Z;
  from_wei_ether : N -> outcome balance;
  balanceOf : addr -> addr -> L -> outcome N;
  decimals : addr -> L -> outcome N;
  getReserves : addr -> L -> outcome (N * N);
  getAmountOut : addr -> Z -> Z -> Z -> L -> outcome N;
  build_transaction : addr -> call -> L -> outcome Transaction;
  sign_transaction : addr -> Transaction -> outcome Transaction;
  send_raw_transaction : Transaction -> L -> outcome string * L;
  wait_for_transaction_receipt : string -> L -> outcome Receipt * L
}.

(** [random.Random]: a generator state [R], seeded by an integer. *)
Class Random (R : Type) := {
  Random_seed : Z -> R;
  rng_random : R -> float * R;
  rng_randbelow : Z -> R -> Z * R
}.

(** One entry of the [contracts] dictionary. *)
Record ContractInfo := { ci_address : addr; ci_abi : string }.

(** Dictionaries with string keys, in insertion order. *)
Fixpoint dict_get {V} (k : string) (d : list (string * V)) : option V :=
  match d with
  | [] => None
  | (k', v) :: d' => if String.eqb k k' then Some v else dict_get k d'
  end.

Fixpoint dict_set {V} (k : string) (v : V) (d : list (string * V)) : list (string * V) :=
  match d with
  | [] => [(k, v)]
  | (k', v') :: d' =>
      if String.eqb k k' then (k, v) :: d' else (k', v') :: dict_set k v d'
  end.

(** [l[i]] on a list: a negative index counts from the end. *)
Definition list_getitem {A} (l : list A) (i : Z) : outcome A :=
  let n := Z.of_nat (List.length l) in
  let j := if i <? 0 then i + n else i in
  match (if j <? 0 then None else nth_error l (Z.to_nat j)) with
  | Some v => Ok v
  | None => Raise (Exn IndexError "list index out of range")
  end.

(** [l[start:]] on a list. *)
Definition list_slice_from {A} (l : list A) (start : Z) : list A :=
  let n := Z.of_nat (List.length l) in
  let k := if start <? 0 then Z.max (start + n) 0 else Z.min start n in
  skipn (Z.to_nat k) l.

(** [sub in s] *)
Definition str_contains (sub s : string) : bool :=
  match String.index 0 sub s with Some _ => true | None => false end.

Inductive TradeDetails :=
| ADD_LIQUIDITY (amount_a amount_b : Z) (tx_hash : string)
| REMOVE_LIQUIDITY (lp_amount : Z) (tx_hash : string)
| SWAP (amount_in : Z) (token_in token_out : addr) (min_amount_out : Z)
       (tx_hash : string).

Record TradeRecord := {
  tr_timestamp : Z;
  tr_block_number : Z;
  tr_agent_id : string;
  tr_details : TradeDetails
}.

(** The dictionary [get_performance_stats] returns. *)
Record PerformanceStats := {
  ps_agent_id : string;
  ps_address : addr;
  ps_pnl : num;
  ps_total_gas_used : Z;
  ps_transaction_count : Z;
  ps_avg_gas_per_tx : float;
  ps_current_balances : list (string * balance);
  ps_trade_count : nat
}.

(** The entries of [actions_taken]. *)
Inductive ActionRecord :=
| add_initial_liquidity (amount_a amount_b : Z) (tx_hash : string)
| rebalance_remove (lp_amount : Z) (tx_hash : string)
| random_swap (token_in : addr) (amount : Z) (tx_hash : string)
| momentum_buy_a (momentum : float) (amount : Z) (tx_hash : string)
| momentum_sell_a (momentum : float) (amount : Z) (tx_hash : string)
| arbitrage_leg_1 (expected_profit : Z) (profit_percentage : num) (tx_hash : string).

(** The [actions] dictionary a [step] returns; the optional keys are
    absent ([None]) until the step sets them. *)
Record ActionReport := {
  ar_agent_id : string;
  ar_agent_type : string;
  actions_taken : list ActionRecord;
  ar_performance : option (Z * float * float);
  ar_momentum : option float;
  ar_price_history_length : option nat;
  error : option string
}.

Definition new_actions (id type : string) : ActionReport :=
  {| ar_agent_id := id; ar_agent_type := type; actions_taken := [];
     ar_performance := None; ar_momentum := None;
     ar_price_history_length := None; error := None |}.

Definition append_action (a : ActionRecord) (r : ActionReport) : ActionReport :=
  {| ar_agent_id := ar_agent_id r; ar_agent_type := ar_agent_type r;
     actions_taken := actions_taken r ++ [a];
     ar_performance := ar_performance r; ar_momentum := ar_momentum r;
     ar_price_history_length := ar_price_history_length r; error := error r |}.

Definition set_performance (p : Z * float * float) (r : ActionReport) : ActionReport :=
  {| ar_agent_id := ar_agent_id r; ar_agent_type := ar_agent_type r;
     actions_taken := actions_taken r;
     ar_performance := Some p; ar_momentum := ar_momentum r;
     ar_price_history_length := ar_price_history_length r; error := error r |}.

Definition set_momentum (m : float) (n : nat) (r : ActionReport) : ActionReport :=
  {| ar_agent_id := ar_agent_id r; ar_agent_type := ar_agent_type r;
     actions_taken := actions_taken r;
     ar_performance := ar_performance r; ar_momentum := Some m;
     ar_price_history_length := Some n; error := error r |}.

Definition set_error (msg : string) (r : ActionReport) : ActionReport :=
  {| ar_agent_id := ar_agent_id r; ar_agent_type := ar_agent_type r;
     actions_taken := actions_taken r;
     ar_performance := ar_performance r; ar_momentum := ar_momentum r;
     ar_price_history_length := ar_price_history_length r; error := Some msg |}.

(** Helpers shared by all classes: the state of a method is the object
    [X] together with the ledger [L]. *)
Section Methods.
Context {L : Type} {X : Type}.

Definition self : M (X * L) X := gets fst.
Definition update_self (f : X -> X) : M (X * L) unit :=
  modify (fun s => (f (fst s), snd s)).
(** A read-only call on the ledger. *)
Definition w3_read {A} (f : L -> outcome A) : M (X * L) A :=
  read (fun s => f (snd s)).
(** A call that changes the ledger. *)
Definition w3_send {A} (f : L -> outcome A * L) : M (X * L) A :=
  fun s => let '(r, l') := f (snd s) in (r, (fst s, l')).

(** [try: m  except: h] with a bare [except], which catches everything. *)
Definition try_except_all {S A} (m : M S A) (h : M S A) : M S A :=
  fun s => match m s with
           | (Ok a, s') => (Ok a, s')
           | (Raise _, s') => h s'
           end.

End Methods.

(** A subclass holds the fields of its superclass; [inherited m] runs the
    superclass method [m] on a subclass object. *)
Class Inherits (Sub Super : Type) := {
  upcast : Sub -> Super;
  with_super : Super -> Sub -> Sub
}.

Definition inherited {L Sub Super} `{Inherits Sub Super} {A}
    (m : M (Super * L) A) : M (Sub * L) A :=
  zoom (fun s => (upcast (fst s), snd s))
       (fun t s => (with_super (fst t) (fst s), snd t)) m.

(** The shape every [step] has: build the [actions] dictionary, run the
    body under [try], and on [except Exception as e] store [str(e)] under
    ['error']; return [actions] either way.  The body works on the
    dictionary and on the state [S]; what it wrote before raising stays. *)
Definition on_self {S A} (m : M S A) : M (ActionReport * S) A :=
  zoom snd (fun s' p => (fst p, s')) m.

Definition update_actions {S} (f : ActionReport -> ActionReport)
    : M (ActionReport * S) unit :=
  modify (fun p => (f (fst p), snd p)).

Definition guarded_step {S} (actions : ActionReport)
    (body : M (ActionReport * S) unit) : M S ActionReport :=
  fun s =>
    match try_except body (fun e => update_actions (set_error (str e))) (actions, s) with
    | (Ok _, (actions', s')) => (Ok actions', s')
    | (Raise e, (_, s')) => (Raise e, s')
    end.

(** [if tx_hash:] on an optional string: [None] and [''] are false. *)
Definition truthy (tx_hash : option string) : bool :=
  match tx_hash with
  | Some EmptyString | None => false
  | Some _ => true
  end.

(** ** agent_base.py *)
Module AgentBase.

Record t (R : Type) := {
  agent_id : string;
  contracts : list (string * ContractInfo);
  address : addr;
  random : R;
  nonce : Z;
  gas_limit : Z;
  gas_price : Z;
  pnl : num;
  total_gas_used : Z;
  transaction_count : Z;
  trade_history : list TradeRecord;
  initial_balances : list (string * num)
}.
Arguments agent_id {R} _.
Arguments contracts {R} _.
Arguments address {R} _.
Arguments random {R} _.
Arguments nonce {R} _.
Arguments gas_limit {R} _.
Arguments gas_price {R} _.
Arguments pnl {R} _.
Arguments total_gas_used {R} _.
Arguments transaction_count {R} _.
Arguments trade_history {R} _.
Arguments initial_balances {R} _.

Section AgentBase.
Context {L : Type} {W3 : Web3 L} {R : Type} {RG : Random R}.

Local Abbreviation St := (t R * L)%type.

Definition with_random (r : R) (a : t R) : t R :=
  {| agent_id := agent_id a; contracts := contracts a; address := address a;
     random := r; nonce := nonce a; gas_limit := gas_limit a;
     gas_price := gas_price a; pnl := pnl a;
     total_gas_used := total_gas_used a;
     transaction_count := transaction_count a;
     trade_history := trade_history a;
     initial_balances := initial_balances a |}.

Definition with_pnl (p : num) (a : t R) : t R :=
  {| agent_id := agent_id a; contracts := contracts a; address := address a;
     random := random a; nonce := nonce a; gas_limit := gas_limit a;
     gas_price := gas_price a; pnl := p;
     total_gas_used := total_gas_used a;
     transaction_count := transaction_count a;
     trade_history := trade_history a;
     initial_balances := initial_balances a |}.

Definition with_trade_history (h : list TradeRecord) (a : t R) : t R :=
  {| agent_id := agent_id a; contracts := contracts a; address := address a;
     random := random a; nonce := nonce a; gas_limit := gas_limit a;
     gas_price := gas_price a; pnl := pnl a;
     total_gas_used := total_gas_used a;
     transaction_count := transaction_count a;
     trade_history := h;
     initial_balances := initial_balances a |}.

(** The three assignments that close a confirmed transaction:
    [self.nonce += 1], [self.transaction_count += 1],
    [self.total_gas_used += receipt.gasUsed]. *)
Definition update_tracking (gas_used : Z) (a : t R) : t R :=
  {| agent_id := agent_id a; contracts := contracts a; address := address a;
     random := random a; nonce := nonce a + 1; gas_limit := gas_limit a;
     gas_price := gas_price a; pnl := pnl a;
     total_gas_used := total_gas_used a + gas_used;
     transaction_count := transaction_count a + 1;
     trade_history := trade_history a;
     initial_balances := initial_balances a |}.

(** [AgentBase.__init__].  Without a seed, [random.Random()] seeds itself
    from the operating system; [os_entropy] is what it draws there. *)
Definition init (agent_id private_key : string)
    (contracts : list (string * ContractInfo))
    (initial_balance : option (list (string * num)))
    (random_seed : option Z) (os_entropy : Z) (l : L) : outcome (t R) :=
  let address := account_from_key private_key in
  let random := match random_seed with
                | Some seed => Random_seed seed
                | None => Random_seed os_entropy
                end in
  nonce <-- eth_get_transaction_count address l ;;;
  Ok {| agent_id := agent_id; contracts := contracts; address := address;
        random := random; nonce := Z.of_N nonce; gas_limit := 500000;
        gas_price := 20000000000; pnl := PFloat f0;
        total_gas_used := 0; transaction_count := 0; trade_history := [];
        initial_balances := match initial_balance with
                            | Some b => b
                            | None => []
                            end |}.

(** [self.contracts[key]] *)
Definition contracts_getitem (key : string) : M St ContractInfo :=
  a <- self ;;
  match dict_get key (contracts a) with
  | Some info => ret info
  | None => raise (Exn KeyError ("'" ++ key ++ "'"))
  end.

Definition get_eth_balance : M St balance :=
  a <- self ;;
  balance_wei <- w3_read (eth_get_balance (address a)) ;;
  lift_outcome (from_wei_ether balance_wei).

Definition get_token_balance (token_address : addr) : M St Z :=
  try_except
    (_ <- contracts_getitem token_address ;;
     a <- self ;;
     b <- w3_read (balanceOf token_address (address a)) ;;
     ret (Z.of_N b))
    (fun _ => ret 0).

Definition get_token_decimals (token_address : addr) : M St Z :=
  try_except_all
    (_ <- contracts_getitem token_address ;;
     d <- w3_read (decimals token_address) ;;
     ret (Z.of_N d))
    (ret 18).

Fixpoint get_all_balances_loop (items : list (string * ContractInfo))
    (balances : list (string * balance)) : M St (list (string * balance)) :=
  match items with
  | [] => ret balances
  | (name, contract_info) :: rest =>
      if str_contains "ERC20" name || String.eqb name "TEST" || String.eqb name "USDC"
      then
        balances' <-
          try_except
            (b <- get_token_balance (ci_address contract_info) ;;
             d <- get_token_decimals (ci_address contract_info) ;;
             v <- lift_outcome (truediv (PInt b) (PInt (10 ^ d))) ;;
             ret (dict_set name (BNum v) balances))
            (fun _ => ret (dict_set name (BNum (PFloat f0)) balances)) ;;
        get_all_balances_loop rest balances'
      else get_all_balances_loop rest balances
  end.

Definition get_all_balances : M St (list (string * balance)) :=
  eth <- get_eth_balance ;;
  a <- self ;;
  get_all_balances_loop (contracts a) [("ETH", eth)].

(** [pnl += (current_balance - initial_balance)]: a [Decimal] balance
    mixes with neither a float nor the float accumulator. *)
Definition pnl_add (pnl : num) (current_balance : balance) (initial_balance : num)
    : outcome num :=
  match current_balance with
  | BNum c => d <-- sub c initial_balance ;;; add pnl d
  | BDecimal _ =>
      match initial_balance with
      | PFloat _ =>
          Raise (Exn TypeError
            "unsupported operand type(s) for -: 'decimal.Decimal' and 'float'")
      | PInt _ =>
          Raise (Exn TypeError
            "unsupported operand type(s) for +=: 'float' and 'decimal.Decimal'")
      end
  end.

Fixpoint calculate_pnl_loop (items : list (string * num))
    (current_balances : list (string * balance)) (pnl : num) : outcome num :=
  match items with
  | [] => Ok pnl
  | (token, initial_balance) :: rest =>
      let current_balance :=
        match dict_get token current_balances with
        | Some b => b
        | None => BNum (PFloat f0)
        end in
      pnl' <-- pnl_add pnl current_balance initial_balance ;;;
      calculate_pnl_loop rest current_balances pnl'
  end.

Definition calculate_pnl : M St num :=
  current_balances <- get_all_balances ;;
  a <- self ;;
  pnl <- lift_outcome
           (calculate_pnl_loop (initial_balances a) current_balances (PFloat f0)) ;;
  update_self (with_pnl pnl) ;;
  ret pnl.

Definition get_performance_stats : M St PerformanceStats :=
  a <- self ;;
  pnl <- calculate_pnl ;;
  a1 <- self ;;
  avg <- lift_outcome
           (int_truediv (total_gas_used a1) (Z.max 1 (transaction_count a1))) ;;
  current_balances <- get_all_balances ;;
  a2 <- self ;;
  ret {| ps_agent_id := agent_id a; ps_address := address a; ps_pnl := pnl;
         ps_total_gas_used := total_gas_used a1;
         ps_transaction_count := transaction_count a1;
         ps_avg_gas_per_tx := avg;
         ps_current_balances := current_balances;
         ps_trade_count := List.length (trade_history a2) |}.

Definition log_trade (details : TradeDetails) : M St unit :=
  timestamp <- w3_read eth_latest_timestamp ;;
  block_number <- w3_read eth_block_number ;;
  a <- self ;;
  update_self (with_trade_history
    (trade_history a ++
       [{| tr_timestamp := timestamp; tr_block_number := block_number;
           tr_agent_id := agent_id a; tr_details := details |}])).

Definition transaction_update (a : t R) (chain_id : Z) (tx : Transaction)
    : Transaction :=
  {| tx_to := tx_to tx; tx_call := tx_call tx;
     tx_from := Some (address a); tx_nonce := Some (nonce a);
     tx_gas := Some (gas_limit a); tx_gasPrice := Some (gas_price a);
     tx_chainId := Some chain_id |}.

Definition send_transaction (transaction : Transaction) : M St string :=
  try_except
    (a <- self ;;
     chain_id <- w3_read eth_chain_id ;;
     signed_tx <- lift_outcome
       (sign_transaction (address a) (transaction_update a chain_id transaction)) ;;
     tx_hash <- w3_send (send_raw_transaction signed_tx) ;;
     receipt <- w3_send (wait_for_transaction_receipt tx_hash) ;;
     (if status receipt =? 0 then raise (Exn PlainException "Transaction failed")
      else ret tt) ;;
     update_self (update_tracking (gasUsed receipt)) ;;
     ret tx_hash)
    (fun e => raise e).

Definition approve_token_spending (token_address spender : addr) (amount : Z)
    : M St string :=
  _ <- contracts_getitem token_address ;;
  transaction <- w3_read (build_transaction token_address (approve spender amount)) ;;
  send_transaction transaction.

Definition transfer_token (token_address to : addr) (amount : Z) : M St string :=
  _ <- contracts_getitem token_address ;;
  transaction <- w3_read (build_transaction token_address (transfer to amount)) ;;
  send_transaction transaction.

End AgentBase.
End AgentBase.

(** ** market_maker.py *)
Module MarketMaker.

Record t (R : Type) := {
  base : AgentBase.t R;
  amm_address : addr;
  token_a_address : addr;
  token_b_address : addr;
  target_ratio : num;
  rebalance_threshold : num;
  lp_token_balance : Z;
  initial_reserves : option (Z * Z);
  fees_collected : float;
  impermanent_loss : float;
  min_liquidity_ratio : float;
  max_liquidity_ratio : float;
  fee_collection_threshold : float
}.
Arguments base {R} _.
Arguments amm_address {R} _.
Arguments token_a_address {R} _.
Arguments token_b_address {R} _.
Arguments target_ratio {R} _.
Arguments rebalance_threshold {R} _.
Arguments lp_token_balance {R} _.
Arguments initial_reserves {R} _.
Arguments fees_collected {R} _.
Arguments impermanent_loss {R} _.
Arguments min_liquidity_ratio {R} _.
Arguments max_liquidity_ratio {R} _.
Arguments fee_collection_threshold {R} _.

Definition with_base {R} (b : AgentBase.t R) (m : t R) : t R :=
  {| base := b; amm_address := amm_address m;
     token_a_address := token_a_address m; token_b_address := token_b_address m;
     target_ratio := target_ratio m; rebalance_threshold := rebalance_threshold m;
     lp_token_balance := lp_token_balance m;
     initial_reserves := initial_reserves m;
     fees_collected := fees_collected m; impermanent_loss := impermanent_loss m;
     min_liquidity_ratio := min_liquidity_ratio m;
     max_liquidity_ratio := max_liquidity_ratio m;
     fee_collection_threshold := fee_collection_threshold m |}.

Definition with_lp_token_balance {R} (b : Z) (m : t R) : t R :=
  {| base := base m; amm_address := amm_address m;
     token_a_address := token_a_address m; token_b_address := token_b_address m;
     target_ratio := target_ratio m; rebalance_threshold := rebalance_threshold m;
     lp_token_balance := b;
     initial_reserves := initial_reserves m;
     fees_collected := fees_collected m; impermanent_loss := impermanent_loss m;
     min_liquidity_ratio := min_liquidity_ratio m;
     max_liquidity_ratio := max_liquidity_ratio m;
     fee_collection_threshold := fee_collection_threshold m |}.

Definition with_initial_reserves {R} (r : option (Z * Z)) (m : t R) : t R :=
  {| base := base m; amm_address := amm_address m;
     token_a_address := token_a_address m; token_b_address := token_b_address m;
     target_ratio := target_ratio m; rebalance_threshold := rebalance_threshold m;
     lp_token_balance := lp_token_balance m;
     initial_reserves := r;
     fees_collected := fees_collected m; impermanent_loss := impermanent_loss m;
     min_liquidity_ratio := min_liquidity_ratio m;
     max_liquidity_ratio := max_liquidity_ratio m;
     fee_collection_threshold := fee_collection_threshold m |}.

Definition with_impermanent_loss {R} (il : float) (m : t R) : t R :=
  {| base := base m; amm_address := amm_address m;
     token_a_address := token_a_address m; token_b_address := token_b_address m;
     target_ratio := target_ratio m; rebalance_threshold := rebalance_threshold m;
     lp_token_balance := lp_token_balance m;
     initial_reserves := initial_reserves m;
     fees_collected := fees_collected m; impermanent_loss := il;
     min_liquidity_ratio := min_liquidity_ratio m;
     max_liquidity_ratio := max_liquidity_ratio m;
     fee_collection_threshold := fee_collection_threshold m |}.

#[global] Instance inherits_AgentBase {R} : Inherits (t R) (AgentBase.t R) :=
  {| upcast := base; with_super := with_base |}.

(** The arithmetic of [calculate_optimal_liquidity_amounts], once the
    reserves are read. *)
Definition optimal_liquidity_amounts (target_ratio max_liquidity_ratio : num)
    (available_a available_b reserve_a reserve_b : Z) : outcome (Z * Z) :=
  if (reserve_a =? 0) || (reserve_b =? 0) then
    (* Initial liquidity provision - use target ratio *)
    t1 <-- mul (PInt available_b) target_ratio ;;;
    t2 <-- sub (PInt 1) target_ratio ;;;
    t3 <-- truediv t1 t2 ;;;
    total_value_a <-- add (PInt available_a) t3 ;;;
    t4 <-- mul total_value_a target_ratio ;;;
    t5 <-- mul t4 max_liquidity_ratio ;;;
    amount_a <-- int t5 ;;;
    t6 <-- sub (PInt 1) target_ratio ;;;
    t7 <-- mul (PInt amount_a) t6 ;;;
    t8 <-- truediv t7 target_ratio ;;;
    amount_b <-- int t8 ;;;
    (* Ensure we don't exceed available amounts *)
    Ok (min_int amount_a available_a, min_int amount_b available_b)
  else
    pool_ratio <-- (if reserve_b >? 0
                    then truediv (PInt reserve_a) (PInt reserve_b)
                    else Ok (PInt 1)) ;;;
    (* Try using all of token A first *)
    a1 <-- mul (PInt available_a) max_liquidity_ratio ;;;
    amount_a <-- int a1 ;;;
    b1 <-- truediv (PInt amount_a) pool_ratio ;;;
    required_b <-- int b1 ;;;
    if required_b <=? available_b then Ok (amount_a, required_b)
    else
      (* Use all of token B and calculate required A *)
      b2 <-- mul (PInt available_b) max_liquidity_ratio ;;;
      amount_b <-- int b2 ;;;
      a2 <-- mul (PInt amount_b) pool_ratio ;;;
      required_a <-- int a2 ;;;
      if required_a <=? available_a then Ok (required_a, amount_b)
      else
        (* Scale down proportionally *)
        s1 <-- truediv (PInt available_a) (PInt required_a) ;;;
        s2 <-- truediv (PInt available_b) (PInt required_b) ;;;
        let scale_factor := min_num s1 s2 in
        ra <-- mul (PInt required_a) scale_factor ;;;
        ra' <-- int ra ;;;
        rb <-- mul (PInt required_b) scale_factor ;;;
        rb' <-- int rb ;;;
        Ok (ra', rb').

(** The arithmetic of [calculate_impermanent_loss] on the initial and the
    current reserves. *)
Definition impermanent_loss_of (initial_a initial_b current_a current_b : Z)
    : outcome (option float) :=
  if (initial_a =? 0) || (initial_b =? 0) || (current_a =? 0) || (current_b =? 0)
  then Ok None
  else
    initial_ratio <-- int_truediv initial_a initial_b ;;;
    current_ratio <-- int_truediv current_a current_b ;;;
    if feqb initial_ratio f0 then Ok None
    else
      ratio_change <-- float_truediv current_ratio initial_ratio ;;;
      (* IL = 2 * sqrt(ratio_change) / (1 + ratio_change) - 1 *)
      root <-- math_sqrt ratio_change ;;;
      q <-- float_truediv (fmul (round_Z 2) root) (fadd (round_Z 1) ratio_change) ;;;
      Ok (Some (fsub q (round_Z 1))).

Section MarketMaker.
Context {L : Type} {W3 : Web3 L} {R : Type} {RG : Random R}.
Context {MarketData : Type}.

Local Abbreviation St := (t R * L)%type.

(** [MarketMaker.__init__]: the constructor looks up the three contracts
    it binds. *)
Definition init (agent_id private_key : string)
    (contracts : list (string * ContractInfo))
    (amm_address token_a_address token_b_address : addr)
    (initial_balance : option (list (string * num)))
    (target_ratio rebalance_threshold : num)
    (random_seed : option Z) (os_entropy : Z) (l : L) : outcome (t R) :=
  b <-- AgentBase.init agent_id private_key contracts initial_balance
          random_seed os_entropy l ;;;
  let lookup key : outcome ContractInfo :=
    match dict_get key contracts with
    | Some info => Ok info
    | None => Raise (Exn KeyError ("'" ++ key ++ "'"))
    end in
  _ <-- lookup "AMM" ;;;
  _ <-- lookup token_a_address ;;;
  _ <-- lookup token_b_address ;;;
  Ok {| base := b; amm_address := amm_address;
        token_a_address := token_a_address; token_b_address := token_b_address;
        target_ratio := target_ratio; rebalance_threshold := rebalance_threshold;
        lp_token_balance := 0; initial_reserves := None;
        fees_collected := f0; impermanent_loss := f0;
        min_liquidity_ratio := lit 1 10;
        max_liquidity_ratio := lit 9 10;
        fee_collection_threshold := lit 1 100 |}.

Definition get_lp_balance : M St Z :=
  try_except
    (m <- self ;;
     balance <- w3_read (balanceOf (amm_address m) (AgentBase.address (base m))) ;;
     update_self (with_lp_token_balance (Z.of_N balance)) ;;
     ret (Z.of_N balance))
    (fun _ => ret 0).

Definition get_pool_reserves : M St (Z * Z) :=
  try_except
    (m <- self ;;
     reserves <- w3_read (getReserves (amm_address m)) ;;
     ret (Z.of_N (fst reserves), Z.of_N (snd reserves)))
    (fun _ => ret (0, 0)).

Definition calculate_optimal_liquidity_amounts (available_a available_b : Z)
    : M St (Z * Z) :=
  '(reserve_a, reserve_b) <- get_pool_reserves ;;
  m <- self ;;
  lift_outcome
    (optimal_liquidity_amounts (target_ratio m) (PFloat (max_liquidity_ratio m))
       available_a available_b reserve_a reserve_b).

Definition add_liquidity (amount_a amount_b : Z) : M St (option string) :=
  try_except
    (m <- self ;;
     (* Approve token spending *)
     inherited (AgentBase.approve_token_spending
                  (token_a_address m) (amm_address m) amount_a) ;;
     inherited (AgentBase.approve_token_spending
                  (token_b_address m) (amm_address m) amount_b) ;;
     (* Calculate minimum amounts (5% slippage tolerance) *)
     amount_a_min <- lift_outcome
       (x <-- mul (PInt amount_a) (PFloat (lit 95 100)) ;;; int x) ;;
     amount_b_min <- lift_outcome
       (x <-- mul (PInt amount_b) (PFloat (lit 95 100)) ;;; int x) ;;
     transaction <- w3_read
       (build_transaction (amm_address m)
          (addLiquidity amount_a amount_b amount_a_min amount_b_min
             (AgentBase.address (base m)))) ;;
     tx_hash <- inherited (AgentBase.send_transaction transaction) ;;
     inherited (AgentBase.log_trade (ADD_LIQUIDITY amount_a amount_b tx_hash)) ;;
     m' <- self ;;
     match initial_reserves m' with
     | None =>
         reserves <- get_pool_reserves ;;
         update_self (with_initial_reserves (Some reserves))
     | Some _ => ret tt
     end ;;
     ret (Some tx_hash))
    (fun _ => ret None).

Definition remove_liquidity (lp_amount min_amount_a min_amount_b : Z)
    : M St (option string) :=
  try_except
    (m <- self ;;
     transaction <- w3_read
       (build_transaction (amm_address m)
          (removeLiquidity lp_amount min_amount_a min_amount_b
             (AgentBase.address (base m)))) ;;
     tx_hash <- inherited (AgentBase.send_transaction transaction) ;;
     inherited (AgentBase.log_trade (REMOVE_LIQUIDITY lp_amount tx_hash)) ;;
     ret (Some tx_hash))
    (fun _ => ret None).

Definition calculate_impermanent_loss : M St float :=
  m <- self ;;
  match initial_reserves m with
  | None => ret f0
  | Some (initial_a, initial_b) =>
      '(current_a, current_b) <- get_pool_reserves ;;
      r <- lift_outcome (impermanent_loss_of initial_a initial_b current_a current_b) ;;
      match r with
      | None => ret f0
      | Some il => update_self (with_impermanent_loss il) ;; ret il
      end
  end.

Definition should_rebalance (market_data : MarketData) : M St bool :=
  '(current_a, current_b) <- get_pool_reserves ;;
  if (current_a =? 0) || (current_b =? 0) then ret false
  else
    m <- self ;;
    let total_value := current_a + current_b in
    current_ratio <- lift_outcome (int_truediv current_a total_value) ;;
    d <- lift_outcome (sub (PFloat current_ratio) (target_ratio m)) ;;
    let ratio_deviation := abs d in
    ret (gt ratio_deviation (rebalance_threshold m)).

Definition should_act (market_data : MarketData) : M St bool :=
  m <- self ;;
  balance_a <- inherited (AgentBase.get_token_balance (token_a_address m)) ;;
  balance_b <- inherited (AgentBase.get_token_balance (token_b_address m)) ;;
  lp_balance <- get_lp_balance ;;
  if (lp_balance =? 0) && ((balance_a >? 0) || (balance_b >? 0)) then ret true
  else
    rebalance <- should_rebalance market_data ;;
    if rebalance then ret true
    else
      m' <- self ;;
      let '(x, r') := rng_random (AgentBase.random (base m')) in
      update_self (fun m => with_base (AgentBase.with_random r' (base m)) m) ;;
      ret (lt (PFloat x) (PFloat (lit 1 10))).

Definition step_body (market_data : MarketData)
    : M (ActionReport * St) unit :=
  m <- on_self self ;;
  balance_a <- on_self (inherited (AgentBase.get_token_balance (token_a_address m))) ;;
  balance_b <- on_self (inherited (AgentBase.get_token_balance (token_b_address m))) ;;
  lp_balance <- on_self get_lp_balance ;;
  (if (lp_balance =? 0) && ((balance_a >? 0) || (balance_b >? 0)) then
     '(amount_a, amount_b) <-
        on_self (calculate_optimal_liquidity_amounts balance_a balance_b) ;;
     if (amount_a >? 0) && (amount_b >? 0) then
       tx_hash <- on_self (add_liquidity amount_a amount_b) ;;
       match tx_hash with
       | Some h =>
           if truthy tx_hash
           then update_actions (append_action (add_initial_liquidity amount_a amount_b h))
           else ret tt
       | None => ret tt
       end
     else ret tt
   else
     rebalance <- on_self (should_rebalance market_data) ;;
     if rebalance then
       rebalance_amount <- lift_outcome
         (x <-- mul (PInt lp_balance) (PFloat (lit 1 10)) ;;; int x) ;;
       if rebalance_amount >? 0 then
         tx_hash <- on_self (remove_liquidity rebalance_amount 0 0) ;;
         match tx_hash with
         | Some h =>
             if truthy tx_hash
             then update_actions (append_action (rebalance_remove rebalance_amount h))
             else ret tt
         | None => ret tt
         end
       else ret tt
     else ret tt) ;;
  (* Calculate and update performance metrics *)
  on_self calculate_impermanent_loss ;;
  m' <- on_self self ;;
  update_actions
    (set_performance (lp_balance, impermanent_loss m', fees_collected m')).

Definition step (market_data : MarketData) : M St ActionReport :=
  m <- self ;;
  guarded_step (new_actions (AgentBase.agent_id (base m)) "market_maker")
    (step_body market_data).

End MarketMaker.
End MarketMaker.

(** ** trader.py *)
Module Trader.

Record t (R : Type) := {
  base : AgentBase.t R;
  amm_address : addr;
  token_a_address : addr;
  token_b_address : addr;
  slippage_tolerance : num;
  min_trade_size : Z;
  max_trade_size_ratio : float;
  successful_trades : Z;
  failed_trades : Z;
  total_volume : num;
  total_slippage : float
}.
Arguments base {R} _.
Arguments amm_address {R} _.
Arguments token_a_address {R} _.
Arguments token_b_address {R} _.
Arguments slippage_tolerance {R} _.
Arguments min_trade_size {R} _.
Arguments max_trade_size_ratio {R} _.
Arguments successful_trades {R} _.
Arguments failed_trades {R} _.
Arguments total_volume {R} _.
Arguments total_slippage {R} _.

Definition with_base {R} (b : AgentBase.t R) (x : t R) : t R :=
  {| base := b; amm_address := amm_address x;
     token_a_address := token_a_address x; token_b_address := token_b_address x;
     slippage_tolerance := slippage_tolerance x;
     min_trade_size := min_trade_size x;
     max_trade_size_ratio := max_trade_size_ratio x;
     successful_trades := successful_trades x; failed_trades := failed_trades x;
     total_volume := total_volume x; total_slippage := total_slippage x |}.

Definition with_total_volume {R} (v : num) (x : t R) : t R :=
  {| base := base x; amm_address := amm_address x;
     token_a_address := token_a_address x; token_b_address := token_b_address x;
     slippage_tolerance := slippage_tolerance x;
     min_trade_size := min_trade_size x;
     max_trade_size_ratio := max_trade_size_ratio x;
     successful_trades := successful_trades x; failed_trades := failed_trades x;
     total_volume := v; total_slippage := total_slippage x |}.

Definition incr_successful_trades {R} (x : t R) : t R :=
  {| base := base x; amm_address := amm_address x;
     token_a_address := token_a_address x; token_b_address := token_b_address x;
     slippage_tolerance := slippage_tolerance x;
     min_trade_size := min_trade_size x;
     max_trade_size_ratio := max_trade_size_ratio x;
     successful_trades := successful_trades x + 1;
     failed_trades := failed_trades x;
     total_volume := total_volume x; total_slippage := total_slippage x |}.

Definition incr_failed_trades {R} (x : t R) : t R :=
  {| base := base x; amm_address := amm_address x;
     token_a_address := token_a_address x; token_b_address := token_b_address x;
     slippage_tolerance := slippage_tolerance x;
     min_trade_size := min_trade_size x;
     max_trade_size_ratio := max_trade_size_ratio x;
     successful_trades := successful_trades x;
     failed_trades := failed_trades x + 1;
     total_volume := total_volume x; total_slippage := total_slippage x |}.

#[global] Instance inherits_AgentBase {R} : Inherits (t R) (AgentBase.t R) :=
  {| upcast := base; with_super := with_base |}.

(** [calculate_slippage] *)
Definition calculate_slippage (expected_output actual_output : Z) : outcome float :=
  if expected_output =? 0 then Ok f0
  else int_truediv (expected_output - actual_output) expected_output.

Section Trader.
Context {L : Type} {W3 : Web3 L} {R : Type} {RG : Random R}.
Context {MarketData : Type}.

Local Abbreviation St := (t R * L)%type.

Definition init (agent_id private_key : string)
    (contracts : list (string * ContractInfo))
    (amm_address token_a_address token_b_address : addr)
    (initial_balance : option (list (string * num)))
    (slippage_tolerance : num)
    (random_seed : option Z) (os_entropy : Z) (l : L) : outcome (t R) :=
  b <-- AgentBase.init agent_id private_key contracts initial_balance
          random_seed os_entropy l ;;;
  _ <-- match dict_get "AMM" contracts with
        | Some info => Ok info
        | None => Raise (Exn KeyError "'AMM'")
        end ;;;
  Ok {| base := b; amm_address := amm_address;
        token_a_address := token_a_address; token_b_address := token_b_address;
        slippage_tolerance := slippage_tolerance;
        min_trade_size := 1000;
        max_trade_size_ratio := lit 1 10;
        successful_trades := 0; failed_trades := 0;
        total_volume := PFloat f0; total_slippage := f0 |}.

Definition get_token_balance (token_address : addr) : M St Z :=
  inherited (AgentBase.get_token_balance token_address).

(** Get current pool price (token A per token B) *)
Definition get_pool_price : M St float :=
  try_except
    (x <- self ;;
     reserves <- w3_read (getReserves (amm_address x)) ;;
     let reserve_a := Z.of_N (fst reserves) in
     let reserve_b := Z.of_N (snd reserves) in
     if reserve_b =? 0 then ret f0
     else lift_outcome (int_truediv reserve_a reserve_b))
    (fun _ => ret f0).

(** Calculate expected output for a swap *)
Definition calculate_swap_output (amount_in : Z) (token_in : addr) : M St Z :=
  try_except
    (x <- self ;;
     reserves <- w3_read (getReserves (amm_address x)) ;;
     let reserve_a := Z.of_N (fst reserves) in
     let reserve_b := Z.of_N (snd reserves) in
     if String.eqb token_in (token_a_address x) then
       out <- w3_read (getAmountOut (amm_address x) amount_in reserve_a reserve_b) ;;
       ret (Z.of_N out)
     else
       out <- w3_read (getAmountOut (amm_address x) amount_in reserve_b reserve_a) ;;
       ret (Z.of_N out))
    (fun _ => ret 0).

Definition execute_swap (amount_in : Z) (token_in : addr)
    (min_amount_out : option Z) : M St (option string) :=
  try_except
    (x <- self ;;
     (* Calculate expected output if min_amount_out not provided *)
     min_amount_out <-
       match min_amount_out with
       | Some v => ret v
       | None =>
           expected_output <- calculate_swap_output amount_in token_in ;;
           lift_outcome
             (k <-- sub (PInt 1) (slippage_tolerance x) ;;;
              v <-- mul (PInt expected_output) k ;;;
              int v)
       end ;;
     (* Approve token spending *)
     inherited (AgentBase.approve_token_spending token_in (amm_address x) amount_in) ;;
     (* Execute swap *)
     transaction <- w3_read
       (build_transaction (amm_address x)
          (swapExactTokensForTokens amount_in min_amount_out token_in
             (AgentBase.address (base x)))) ;;
     tx_hash <- inherited (AgentBase.send_transaction transaction) ;;
     (* Log the trade *)
     let token_out := if String.eqb token_in (token_a_address x)
                      then token_b_address x else token_a_address x in
     inherited (AgentBase.log_trade
                  (SWAP amount_in token_in token_out min_amount_out tx_hash)) ;;
     update_self incr_successful_trades ;;
     x' <- self ;;
     v <- lift_outcome (add (total_volume x') (PInt amount_in)) ;;
     update_self (with_total_volume v) ;;
     ret (Some tx_hash))
    (fun _ => update_self incr_failed_trades ;; ret None).

(** Base implementation - to be overridden by specific strategies *)
Definition should_act (market_data : MarketData) : M St bool := ret false.

Definition step (market_data : MarketData) : M St ActionReport :=
  x <- self ;;
  ret (new_actions (AgentBase.agent_id (base x)) "trader").

(** [self.random.random()] *)
Definition random_random : M St float :=
  x <- self ;;
  let '(v, r') := rng_random (AgentBase.random (base x)) in
  update_self (fun x => with_base (AgentBase.with_random r' (base x)) x) ;;
  ret v.

(** [self.random._randbelow(n)] *)
Definition random_randbelow (n : Z) : M St Z :=
  x <- self ;;
  let '(v, r') := rng_randbelow n (AgentBase.random (base x)) in
  update_self (fun x => with_base (AgentBase.with_random r' (base x)) x) ;;
  ret v.

(** [self.random.choice(seq)]: [seq[self._randbelow(len(seq))]] *)
Definition random_choice {A} (seq : list A) : M St A :=
  match seq with
  | [] => raise (Exn IndexError "Cannot choose from an empty sequence")
  | _ =>
      i <- random_randbelow (Z.of_nat (List.length seq)) ;;
      lift_outcome (list_getitem seq i)
  end.

(** [self.random.randint(a, b)]: [randrange(a, b + 1)]; the text of the
    error names the bounds in CPython, which is left out here. *)
Definition random_randint (a b : Z) : M St Z :=
  let width := b + 1 - a in
  if width >? 0 then
    i <- random_randbelow width ;;
    ret (a + i)
  else raise (Exn ValueError "empty range for randrange()").

End Trader.
End Trader.

Module RandomTrader.

Record t (R : Type) := {
  trader : Trader.t R;
  trade_frequency : num
}.
Arguments trader {R} _.
Arguments trade_frequency {R} _.

Definition with_trader {R} (x : Trader.t R) (a : t R) : t R :=
  {| trader := x; trade_frequency := trade_frequency a |}.

#[global] Instance inherits_Trader {R} : Inherits (t R) (Trader.t R) :=
  {| upcast := trader; with_super := with_trader |}.

Section RandomTrader.
Context {L : Type} {W3 : Web3 L} {R : Type} {RG : Random R}.
Context {MarketData : Type}.

Local Abbreviation St := (t R * L)%type.

Definition init (agent_id private_key : string)
    (contracts : list (string * ContractInfo))
    (amm_address token_a_address token_b_address : addr)
    (initial_balance : option (list (string * num)))
    (trade_frequency : num)
    (random_seed : option Z) (os_entropy : Z) (l : L) : outcome (t R) :=
  x <-- Trader.init agent_id private_key contracts amm_address token_a_address
          token_b_address initial_balance (PFloat (lit 5 100)) random_seed
          os_entropy l ;;;
  Ok {| trader := x; trade_frequency := trade_frequency |}.

(** Act randomly based on trade frequency *)
Definition should_act (market_data : MarketData) : M St bool :=
  a <- self ;;
  x <- inherited Trader.random_random ;;
  ret (lt (PFloat x) (trade_frequency a)).

Definition step_body (market_data : MarketData) : M (ActionReport * St) unit :=
  a <- on_self self ;;
  let x := trader a in
  (* Get current balances *)
  balance_a <- on_self (inherited (Trader.get_token_balance (Trader.token_a_address x))) ;;
  balance_b <- on_self (inherited (Trader.get_token_balance (Trader.token_b_address x))) ;;
  (* Choose a random token to trade (if we have balance) *)
  let tradeable_tokens :=
    ((if balance_a >? Trader.min_trade_size x
     then [(Trader.token_a_address x, balance_a)] else []) ++
    (if balance_b >? Trader.min_trade_size x
     then [(Trader.token_b_address x, balance_b)] else []))%list in
  match tradeable_tokens with
  | [] => ret tt
  | _ =>
      (* Select random token and amount *)
      '(token_in, balance) <- on_self (inherited (Trader.random_choice tradeable_tokens)) ;;
      max_trade_amount <- lift_outcome
        (v <-- mul (PInt balance) (PFloat (Trader.max_trade_size_ratio x)) ;;; int v) ;;
      trade_amount <- on_self
        (inherited (Trader.random_randint (Trader.min_trade_size x) max_trade_amount)) ;;
      (* Execute swap *)
      tx_hash <- on_self (inherited (Trader.execute_swap trade_amount token_in None)) ;;
      match tx_hash with
      | Some h =>
          if truthy tx_hash
          then update_actions (append_action (random_swap token_in trade_amount h))
          else ret tt
      | None => ret tt
      end
  end.

Definition step (market_data : MarketData) : M St ActionReport :=
  a <- self ;;
  guarded_step
    (new_actions (AgentBase.agent_id (Trader.base (trader a))) "random_trader")
    (step_body market_data).

End RandomTrader.
End RandomTrader.

Module MomentumTrader.

Record t (R : Type) := {
  trader : Trader.t R;
  lookback_periods : Z;
  momentum_threshold : num;
  trade_frequency : num;
  price_history : list float
}.
Arguments trader {R} _.
Arguments lookback_periods {R} _.
Arguments momentum_threshold {R} _.
Arguments trade_frequency {R} _.
Arguments price_history {R} _.

Definition with_trader {R} (x : Trader.t R) (a : t R) : t R :=
  {| trader := x; lookback_periods := lookback_periods a;
     momentum_threshold := momentum_threshold a;
     trade_frequency := trade_frequency a; price_history := price_history a |}.

Definition with_price_history {R} (h : list float) (a : t R) : t R :=
  {| trader := trader a; lookback_periods := lookback_periods a;
     momentum_threshold := momentum_threshold a;
     trade_frequency := trade_frequency a; price_history := h |}.

#[global] Instance inherits_Trader {R} : Inherits (t R) (Trader.t R) :=
  {| upcast := trader; with_super := with_trader |}.

(** Calculate price momentum over lookback period: [calculate_momentum]
    on the fields it reads. *)
Definition momentum_of (price_history : list float) (lookback_periods : Z)
    : outcome float :=
  if Z.of_nat (List.length price_history) <? lookback_periods then Ok f0
  else
    let recent_prices := list_slice_from price_history (- lookback_periods) in
    oldest <-- list_getitem recent_prices 0 ;;;
    if feqb oldest f0 then Ok f0
    else
      (* Simple momentum: (current_price - old_price) / old_price *)
      newest <-- list_getitem recent_prices (-1) ;;;
      float_truediv (fsub newest oldest) oldest.

Section MomentumTrader.
Context {L : Type} {W3 : Web3 L} {R : Type} {RG : Random R}.
Context {MarketData : Type}.

Local Abbreviation St := (t R * L)%type.

Definition init (agent_id private_key : string)
    (contracts : list (string * ContractInfo))
    (amm_address token_a_address token_b_address : addr)
    (initial_balance : option (list (string * num)))
    (lookback_periods : Z) (momentum_threshold trade_frequency : num)
    (random_seed : option Z) (os_entropy : Z) (l : L) : outcome (t R) :=
  x <-- Trader.init agent_id private_key contracts amm_address token_a_address
          token_b_address initial_balance (PFloat (lit 5 100)) random_seed
          os_entropy l ;;;
  Ok {| trader := x; lookback_periods := lookback_periods;
        momentum_threshold := momentum_threshold;
        trade_frequency := trade_frequency; price_history := [] |}.

Definition calculate_momentum : M St float :=
  a <- self ;;
  lift_outcome (momentum_of (price_history a) (lookback_periods a)).

(** Act based on momentum and random frequency *)
Definition should_act (market_data : MarketData) : M St bool :=
  (* Update price history *)
  current_price <- inherited Trader.get_pool_price ;;
  update_self (fun a => with_price_history (price_history a ++ [current_price])%list a) ;;
  (* Keep only required history *)
  a <- self ;;
  (if Z.of_nat (List.length (price_history a)) >? lookback_periods a * 2
   then update_self
          (with_price_history
             (list_slice_from (price_history a) (- lookback_periods a)))
   else ret tt) ;;
  (* Check if we have enough history and momentum exceeds threshold *)
  momentum <- calculate_momentum ;;
  a' <- self ;;
  let has_momentum := gt (abs (PFloat momentum)) (momentum_threshold a') in
  (* Combine momentum signal with random trading *)
  if has_momentum then ret true
  else
    x <- inherited Trader.random_random ;;
    ret (lt (PFloat x) (trade_frequency a')).

Definition step_body (market_data : MarketData) : M (ActionReport * St) unit :=
  momentum <- on_self calculate_momentum ;;
  a <- on_self self ;;
  let x := trader a in
  (* Get current balances *)
  balance_a <- on_self (inherited (Trader.get_token_balance (Trader.token_a_address x))) ;;
  balance_b <- on_self (inherited (Trader.get_token_balance (Trader.token_b_address x))) ;;
  (if gt (PFloat momentum) (momentum_threshold a)
      && (balance_b >? Trader.min_trade_size x)
   then
     (* Positive momentum: buy token A *)
     trade_amount <- lift_outcome
       (v <-- mul (PInt balance_b) (PFloat (Trader.max_trade_size_ratio x)) ;;; int v) ;;
     tx_hash <- on_self
       (inherited (Trader.execute_swap trade_amount (Trader.token_b_address x) None)) ;;
     match tx_hash with
     | Some h =>
         if truthy tx_hash
         then update_actions (append_action (momentum_buy_a momentum trade_amount h))
         else ret tt
     | None => ret tt
     end
   else if lt (PFloat momentum) (neg (momentum_threshold a))
           && (balance_a >? Trader.min_trade_size x)
   then
     (* Negative momentum: sell token A *)
     trade_amount <- lift_outcome
       (v <-- mul (PInt balance_a) (PFloat (Trader.max_trade_size_ratio x)) ;;; int v) ;;
     tx_hash <- on_self
       (inherited (Trader.execute_swap trade_amount (Trader.token_a_address x) None)) ;;
     match tx_hash with
     | Some h =>
         if truthy tx_hash
         then update_actions (append_action (momentum_sell_a momentum trade_amount h))
         else ret tt
     | None => ret tt
     end
   else ret tt) ;;
  (* Add momentum info to actions *)
  a' <- on_self self ;;
  update_actions (set_momentum momentum (List.length (price_history a'))).

Definition step (market_data : MarketData) : M St ActionReport :=
  a <- self ;;
  guarded_step
    (new_actions (AgentBase.agent_id (Trader.base (trader a))) "momentum_trader")
    (step_body market_data).

End MomentumTrader.
End MomentumTrader.

Module ArbitrageTrader.

Record t (R : Type) := {
  trader : Trader.t R;
  min_profit_threshold : num
}.
Arguments trader {R} _.
Arguments min_profit_threshold {R} _.

Definition with_trader {R} (x : Trader.t R) (a : t R) : t R :=
  {| trader := x; min_profit_threshold := min_profit_threshold a |}.

#[global] Instance inherits_Trader {R} : Inherits (t R) (Trader.t R) :=
  {| upcast := trader; with_super := with_trader |}.

(** The dictionary [find_arbitrage_opportunity] returns. *)
Record Opportunity := {
  direction : string;
  amount : Z;
  expected_profit : Z;
  profit_percentage : num
}.

Section ArbitrageTrader.
Context {L : Type} {W3 : Web3 L} {R : Type} {RG : Random R}.
Context {MarketData : Type}.

Local Abbreviation St := (t R * L)%type.

Definition init (agent_id private_key : string)
    (contracts : list (string * ContractInfo))
    (amm_address token_a_address token_b_address : addr)
    (initial_balance : option (list (string * num)))
    (min_profit_threshold : num)
    (random_seed : option Z) (os_entropy : Z) (l : L) : outcome (t R) :=
  x <-- Trader.init agent_id private_key contracts amm_address token_a_address
          token_b_address initial_balance (PFloat (lit 5 100)) random_seed
          os_entropy l ;;;
  Ok {| trader := x; min_profit_threshold := min_profit_threshold |}.

Definition find_arbitrage_opportunity : M St (option Opportunity) :=
  try_except
    (current_price <- inherited Trader.get_pool_price ;;
     a <- self ;;
     let x := trader a in
     balance_a <- inherited (Trader.get_token_balance (Trader.token_a_address x)) ;;
     balance_b <- inherited (Trader.get_token_balance (Trader.token_b_address x)) ;;
     if balance_a >? Trader.min_trade_size x then
       (* Simulate A->B->A round trip *)
       test_amount <- lift_outcome
         (v <-- mul (PInt balance_a) (PFloat (lit 1 10)) ;;; int v) ;;
       (* A -> B *)
       b_received <- inherited
         (Trader.calculate_swap_output test_amount (Trader.token_a_address x)) ;;
       if b_received >? 0 then
         (* B -> A *)
         a_received <- inherited
           (Trader.calculate_swap_output b_received (Trader.token_b_address x)) ;;
         let profit := a_received - test_amount in
         profit_percentage <- lift_outcome
           (if test_amount >? 0 then truediv (PInt profit) (PInt test_amount)
            else Ok (PInt 0)) ;;
         if gt profit_percentage (min_profit_threshold a) then
           ret (Some {| direction := "a_to_b_to_a"; amount := test_amount;
                        expected_profit := profit;
                        profit_percentage := profit_percentage |})
         else ret None
       else ret None
     else ret None)
    (fun _ => ret None).

(** Act if arbitrage opportunity exists *)
Definition should_act (market_data : MarketData) : M St bool :=
  opportunity <- find_arbitrage_opportunity ;;
  ret (match opportunity with Some _ => true | None => false end).

Definition step_body (market_data : MarketData) : M (ActionReport * St) unit :=
  opportunity <- on_self find_arbitrage_opportunity ;;
  match opportunity with
  | Some o =>
      (* Execute first leg of arbitrage *)
      if String.eqb (direction o) "a_to_b_to_a" then
        a <- on_self self ;;
        tx_hash <- on_self
          (inherited (Trader.execute_swap (amount o)
                        (Trader.token_a_address (trader a)) None)) ;;
        match tx_hash with
        | Some h =>
            if truthy tx_hash
            then update_actions
                   (append_action
                      (arbitrage_leg_1 (expected_profit o) (profit_percentage o) h))
            else ret tt
        | None => ret tt
        end
      else ret tt
  | None => ret tt
  end.

Definition step (market_data : MarketData) : M St ActionReport :=
  a <- self ;;
  guarded_step
    (new_actions (AgentBase.agent_id (Trader.base (trader a))) "arbitrage_trader")
    (step_body market_data).

End ArbitrageTrader.
End ArbitrageTrader.

(** ** run_simulation.py *)

(** One entry of the configuration's ['agents'] list; the optional keys
    are read with [agent_config.get(key, default)]. *)
Record AgentConfig := {
  ac_type : string;
  ac_initial_balance : option (list (string * num));
  ac_trade_frequency : option num;
  ac_lookback_periods : option Z;
  ac_momentum_threshold : option num;
  ac_min_profit_threshold : option num
}.

Record Config := {
  cfg_max_steps : option Z;
  cfg_step_delay : option num;
  cfg_random_seed : option Z;
  cfg_agents : list AgentConfig
}.

(** The dictionary [run_step] returns and archives. *)
Record StepResult (MarketData StepMetrics : Type) := {
  sr_step : Z;
  sr_timestamp : Z;
  sr_block_number : Z;
  sr_execution_time : float;
  sr_market_data : MarketData;
  sr_agent_actions : list ActionReport;
  sr_step_metrics : StepMetrics;
  sr_agent_performance : list (string * PerformanceStats)
}.
Arguments sr_step {_ _} _.
Arguments sr_timestamp {_ _} _.
Arguments sr_block_number {_ _} _.
Arguments sr_execution_time {_ _} _.
Arguments sr_market_data {_ _} _.
Arguments sr_agent_actions {_ _} _.
Arguments sr_step_metrics {_ _} _.
Arguments sr_agent_performance {_ _} _.

Record ExecutionSummary := {
  total_steps : Z;
  total_time : float;
  avg_step_time : float;
  total_transactions : Z;
  es_total_gas_used : Z
}.

(** The final report [run_simulation] returns. *)
Record SimulationResults (MarketData StepMetrics OverallMetrics : Type) := {
  simulation_config : Config;
  execution_summary : ExecutionSummary;
  overall_metrics : OverallMetrics;
  final_agent_performance : list (string * PerformanceStats);
  res_step_results : list (StepResult MarketData StepMetrics)
}.
Arguments simulation_config {_ _ _} _.
Arguments execution_summary {_ _ _} _.
Arguments overall_metrics {_ _ _} _.
Arguments final_agent_performance {_ _ _} _.
Arguments res_step_results {_ _ _} _.

(** [metrics.py] is not among the sources: [MetricsCalculator] is taken as
    a parameter, three methods that read the ledger and may raise. *)
Class MetricsCalculator (L MarketData StepMetrics OverallMetrics : Type) := {
  get_current_market_state : L -> outcome MarketData;
  calculate_step_metrics :
    Z -> list ActionReport -> MarketData -> L -> outcome StepMetrics;
  calculate_overall_metrics :
    list (StepResult MarketData StepMetrics) -> L -> outcome OverallMetrics
}.

(** The files [_save_results] writes: [json.dump] of the report, and the
    two CSV tables of [_save_csv_metrics]. *)
Class FileSystem (MarketData StepMetrics OverallMetrics : Type) := {
  json_dump : SimulationResults MarketData StepMetrics OverallMetrics -> outcome unit;
  to_csv : list (StepResult MarketData StepMetrics) -> outcome unit
}.

(** [time.sleep(secs)] of [run_simulation]: it returns, or raises what the
    environment decides (a [KeyboardInterrupt] while the process sleeps, an
    [OverflowError] for a delay too large).  The ledger stands for the
    environment of the run. *)
Class Sleep (L : Type) := {
  time_sleep : num -> L -> outcome unit
}.

(** The agents of a run: the closed set of classes [_setup_agents] builds. *)
Inductive Agent (R : Type) :=
| AMarketMaker (a : MarketMaker.t R)
| ARandomTrader (a : RandomTrader.t R)
| AMomentumTrader (a : MomentumTrader.t R)
| AArbitrageTrader (a : ArbitrageTrader.t R).
Arguments AMarketMaker {R} a.
Arguments ARandomTrader {R} a.
Arguments AMomentumTrader {R} a.
Arguments AArbitrageTrader {R} a.

Definition agent_base {R} (a : Agent R) : AgentBase.t R :=
  match a with
  | AMarketMaker m => MarketMaker.base m
  | ARandomTrader x => Trader.base (RandomTrader.trader x)
  | AMomentumTrader x => Trader.base (MomentumTrader.trader x)
  | AArbitrageTrader x => Trader.base (ArbitrageTrader.trader x)
  end.

Definition with_agent_base {R} (b : AgentBase.t R) (a : Agent R) : Agent R :=
  match a with
  | AMarketMaker m => AMarketMaker (MarketMaker.with_base b m)
  | ARandomTrader x =>
      ARandomTrader (RandomTrader.with_trader
                       (Trader.with_base b (RandomTrader.trader x)) x)
  | AMomentumTrader x =>
      AMomentumTrader (MomentumTrader.with_trader
                         (Trader.with_base b (MomentumTrader.trader x)) x)
  | AArbitrageTrader x =>
      AArbitrageTrader (ArbitrageTrader.with_trader
                          (Trader.with_base b (ArbitrageTrader.trader x)) x)
  end.

#[global] Instance Agent_inherits_AgentBase {R} : Inherits (Agent R) (AgentBase.t R) :=
  {| upcast := agent_base; with_super := with_agent_base |}.

Definition agent_id {R} (a : Agent R) : string := AgentBase.agent_id (agent_base a).

(** Dynamic dispatch of a method on the class of the agent. *)
Definition dispatch {L R A}
    (mm : M (MarketMaker.t R * L) A) (rt : M (RandomTrader.t R * L) A)
    (mt : M (MomentumTrader.t R * L) A) (at_ : M (ArbitrageTrader.t R * L) A)
    : M (Agent R * L) A :=
  fun s =>
    match fst s with
    | AMarketMaker a => let '(r, (a', l')) := mm (a, snd s) in (r, (AMarketMaker a', l'))
    | ARandomTrader a => let '(r, (a', l')) := rt (a, snd s) in (r, (ARandomTrader a', l'))
    | AMomentumTrader a => let '(r, (a', l')) := mt (a, snd s) in (r, (AMomentumTrader a', l'))
    | AArbitrageTrader a => let '(r, (a', l')) := at_ (a, snd s) in (r, (AArbitrageTrader a', l'))
    end.

(** [for x in xs: ...] over a list of objects the body may mutate: the
    results of the body in order; a raise ends the loop. *)
Fixpoint for_each {L X A} (body : M (X * L) A) (xs : list X) (l : L)
    : outcome (list A) * (list X * L) :=
  match xs with
  | [] => (Ok [], ([], l))
  | x :: rest =>
      match body (x, l) with
      | (Ok a, (x', l')) =>
          match for_each body rest l' with
          | (Ok r, (rest', l'')) => (Ok (a :: r), (x' :: rest', l''))
          | (Raise e, (rest', l'')) => (Raise e, (x' :: rest', l''))
          end
      | (Raise e, (x', l')) => (Raise e, (x' :: rest, l'))
      end
  end.

Definition default_keys : list string :=
  [ "0x4f3edf983ac636a65a842ce7c78d9aa706d3b113bce9c46f30d7d21715b23b1d";
    "0x6cbed15c793ce57650b9877cf6fa156fbef513c4e6134f022a85b1ffdd59b2a1";
    "0x6370fd033278c143179d81c5526140625662b8daa446c22ee2d73db3707e620c";
    "0x646f1ce2fdad0e6deeeb5c7e8e5543bdde65e86029e2fd9fc169899c440a7913";
    "0xadd53f9a7e588d003326d1cbf9e4a43c061aadd9bc938c843a79e7b4fd2ad743";
    "0x395df67f0c2d2d9fe1ad08d1bc8b6627011959b79c53d7dd6a3536a33ab8a4fd";
    "0xe485d098507f54e7733a205420dfddbe58db035fa577fc294ebd14db90767a52";
    "0xa453611d9419d0e56f499079478fd72c37b251a94bfde4d19872c44cf65386e3";
    "0x829e924fdf021ba3dbbc4225edfece9aca04b929d6e75613329ca6f1d31c0bb4";
    "0xb0057716d5917badaf911b193b12b910811c1497b5bada8d7711f758981c3773" ].

(** [str(i)] for a list index. *)
Definition str_of_nat (i : nat) : string :=
  DecimalString.NilEmpty.string_of_uint (Nat.to_uint i).

Definition get_default {A} (o : option A) (default : A) : A :=
  match o with
  | Some v => v
  | None => default
  end.

Module SimulationRunner.

(** The runner.  [wall_clock] is the sequence of values that successive
    calls of [time.time()] return, [clock_reads] how many were made. *)
Record t (R MarketData StepMetrics : Type) := {
  config : Config;
  contracts : list (string * ContractInfo);
  agents : list (Agent R);
  current_step : Z;
  max_steps : Z;
  step_delay : num;
  step_results : list (StepResult MarketData StepMetrics);
  wall_clock : nat -> float;
  clock_reads : nat
}.
Arguments config {_ _ _} _.
Arguments contracts {_ _ _} _.
Arguments agents {_ _ _} _.
Arguments current_step {_ _ _} _.
Arguments max_steps {_ _ _} _.
Arguments step_delay {_ _ _} _.
Arguments step_results {_ _ _} _.
Arguments wall_clock {_ _ _} _.
Arguments clock_reads {_ _ _} _.

Section SimulationRunner.
Context {L : Type} {W3 : Web3 L} {R : Type} {RG : Random R}.
Context {MarketData StepMetrics OverallMetrics : Type}.
Context {MC : MetricsCalculator L MarketData StepMetrics OverallMetrics}.
Context {FS : FileSystem MarketData StepMetrics OverallMetrics}.
Context {SL : Sleep L}.

Local Abbreviation Runner := (t R MarketData StepMetrics).
Local Abbreviation St := (Runner * L)%type.
Local Abbreviation Results := (SimulationResults MarketData StepMetrics OverallMetrics).

Definition with_agents (ags : list (Agent R)) (s : Runner) : Runner :=
  {| config := config s; contracts := contracts s; agents := ags;
     current_step := current_step s; max_steps := max_steps s;
     step_delay := step_delay s; step_results := step_results s;
     wall_clock := wall_clock s; clock_reads := clock_reads s |}.

Definition with_current_step (step : Z) (s : Runner) : Runner :=
  {| config := config s; contracts := contracts s; agents := agents s;
     current_step := step; max_steps := max_steps s;
     step_delay := step_delay s; step_results := step_results s;
     wall_clock := wall_clock s; clock_reads := clock_reads s |}.

Definition with_step_results (rs : list (StepResult MarketData StepMetrics))
    (s : Runner) : Runner :=
  {| config := config s; contracts := contracts s; agents := agents s;
     current_step := current_step s; max_steps := max_steps s;
     step_delay := step_delay s; step_results := rs;
     wall_clock := wall_clock s; clock_reads := clock_reads s |}.

Definition tick_clock (s : Runner) : Runner :=
  {| config := config s; contracts := contracts s; agents := agents s;
     current_step := current_step s; max_steps := max_steps s;
     step_delay := step_delay s; step_results := step_results s;
     wall_clock := wall_clock s; clock_reads := S (clock_reads s) |}.

(** [time.time()] *)
Definition time_time : M St float :=
  s <- self ;;
  update_self tick_clock ;;
  ret (wall_clock s (clock_reads s)).

(** A method of the agent list run from the runner. *)
Definition on_agents {A} (m : M (list (Agent R) * L) A) : M St A :=
  zoom (fun s => (agents (fst s), snd s))
       (fun t s => (with_agents (fst t) (fst s), snd t)) m.

Definition contract_address (contracts : list (string * ContractInfo))
    (name : string) : outcome addr :=
  match dict_get name contracts with
  | Some info => Ok (ci_address info)
  | None => Raise (Exn KeyError ("'" ++ name ++ "'"))
  end.

(** The body of the loop of [_setup_agents] for the entry [i]: the agent
    it creates, or [None] for an unknown type. *)
Definition create_agent (cfg : Config) (contracts : list (string * ContractInfo))
    (amm_address token_a_address token_b_address : addr) (os_entropy : Z)
    (i : nat) (agent_config : AgentConfig) (l : L) : outcome (option (Agent R)) :=
  let agent_type := ac_type agent_config in
  let agent_id := agent_type ++ "_" ++ str_of_nat i in
  let private_key :=
    nth (i mod List.length default_keys)%nat default_keys EmptyString in
  (* Determine initial balances *)
  let initial_balance := Some (get_default (ac_initial_balance agent_config) []) in
  let random_seed := Some (get_default (cfg_random_seed cfg) 42 + Z.of_nat i) in
  if String.eqb agent_type "market_maker" then
    a <-- MarketMaker.init agent_id private_key contracts amm_address
            token_a_address token_b_address initial_balance
            (PFloat (lit 5 10)) (PFloat (lit 5 100)) random_seed os_entropy l ;;;
    Ok (Some (AMarketMaker a))
  else if String.eqb agent_type "random_trader" then
    a <-- RandomTrader.init agent_id private_key contracts amm_address
            token_a_address token_b_address initial_balance
            (get_default (ac_trade_frequency agent_config) (PFloat (lit 1 10)))
            random_seed os_entropy l ;;;
    Ok (Some (ARandomTrader a))
  else if String.eqb agent_type "momentum_trader" then
    a <-- MomentumTrader.init agent_id private_key contracts amm_address
            token_a_address token_b_address initial_balance
            (get_default (ac_lookback_periods agent_config) 5)
            (get_default (ac_momentum_threshold agent_config) (PFloat (lit 2 100)))
            (PFloat (lit 2 10))
            random_seed os_entropy l ;;;
    Ok (Some (AMomentumTrader a))
  else if String.eqb agent_type "arbitrage_trader" then
    a <-- ArbitrageTrader.init agent_id private_key contracts amm_address
            token_a_address token_b_address initial_balance
            (get_default (ac_min_profit_threshold agent_config) (PFloat (lit 1 100)))
            random_seed os_entropy l ;;;
    Ok (Some (AArbitrageTrader a))
  else Ok None.

Fixpoint setup_agents_loop (cfg : Config) (contracts : list (string * ContractInfo))
    (amm_address token_a_address token_b_address : addr) (os_entropy : Z)
    (i : nat) (agent_configs : list AgentConfig) (l : L)
    : outcome (list (Agent R)) :=
  match agent_configs with
  | [] => Ok []
  | agent_config :: rest =>
      a <-- create_agent cfg contracts amm_address token_a_address
              token_b_address os_entropy i agent_config l ;;;
      ags <-- setup_agents_loop cfg contracts amm_address token_a_address
                token_b_address os_entropy (S i) rest l ;;;
      Ok (match a with Some agent => agent :: ags | None => ags end)
  end.

(** [_setup_agents]: the list [self.agents] it fills. *)
Definition _setup_agents (cfg : Config) (contracts : list (string * ContractInfo))
    (os_entropy : Z) (l : L) : outcome (list (Agent R)) :=
  amm_address <-- contract_address contracts "AMM" ;;;
  token_a_address <-- contract_address contracts "ERC20Token" ;;;
  token_b_address <-- contract_address contracts "USDC" ;;;
  setup_agents_loop cfg contracts amm_address token_a_address token_b_address
    os_entropy 0%nat (cfg_agents cfg) l.

(** [SimulationRunner.__init__], the contracts file already loaded. *)
Definition init (cfg : Config) (contracts : list (string * ContractInfo))
    (wall_clock : nat -> float) (os_entropy : Z) (l : L) : outcome Runner :=
  ags <-- _setup_agents cfg contracts os_entropy l ;;;
  Ok {| config := cfg; contracts := contracts; agents := ags;
        current_step := 0;
        max_steps := get_default (cfg_max_steps cfg) 100;
        step_delay := get_default (cfg_step_delay cfg) (PFloat (round_Z 1));
        step_results := []; wall_clock := wall_clock; clock_reads := 0%nat |}.

Definition agent_should_act (market_data : MarketData) : M (Agent R * L) bool :=
  dispatch (MarketMaker.should_act market_data)
           (RandomTrader.should_act market_data)
           (MomentumTrader.should_act market_data)
           (ArbitrageTrader.should_act market_data).

Definition agent_step (market_data : MarketData) : M (Agent R * L) ActionReport :=
  dispatch (MarketMaker.step market_data)
           (RandomTrader.step market_data)
           (MomentumTrader.step market_data)
           (ArbitrageTrader.step market_data).

Definition agent_get_performance_stats : M (Agent R * L) PerformanceStats :=
  inherited AgentBase.get_performance_stats.

(** One turn of the loop over the agents in [run_step]: the reports the
    agent adds to [agent_actions] (one or none). *)
Definition agent_turn (market_data : MarketData)
    : M (Agent R * L) (list ActionReport) :=
  try_except
    (act <- agent_should_act market_data ;;
     if act then
       actions <- agent_step market_data ;;
       ret [actions]
     else ret [])
    (fun _ => ret []).

(** The loop over the agents in [run_step]: [agent_actions]. *)
Definition execute_agents (market_data : MarketData)
    : M (list (Agent R) * L) (list ActionReport) :=
  fun s =>
    match for_each (agent_turn market_data) (fst s) (snd s) with
    | (Ok rs, s') => (Ok (List.concat rs), s')
    | (Raise e, s') => (Raise e, s')
    end.

Definition _advance_blockchain : M St unit :=
  try_except
    (current_timestamp <- w3_read eth_latest_timestamp ;; ret tt)
    (fun _ => ret tt).

(** [agent_performance[agent.agent_id] = agent.get_performance_stats()]
    for each agent. *)
Definition collect_performance
    : M (list (Agent R) * L) (list (string * PerformanceStats)) :=
  fun s =>
    match for_each (stats <- agent_get_performance_stats ;;
                    a <- self ;;
                    ret (agent_id a, stats)) (fst s) (snd s) with
    | (Ok entries, s') =>
        (Ok (fold_left (fun d kv => dict_set (fst kv) (snd kv) d) entries []), s')
    | (Raise e, s') => (Raise e, s')
    end.

(** Execute one simulation step *)
Definition run_step : M St (StepResult MarketData StepMetrics) :=
  step_start_time <- time_time ;;
  (* Collect market data *)
  market_data <- w3_read get_current_market_state ;;
  (* Execute agent actions *)
  agent_actions <- on_agents (execute_agents market_data) ;;
  (* Advance blockchain *)
  _advance_blockchain ;;
  (* Calculate step metrics *)
  s <- self ;;
  step_metrics <- w3_read
    (calculate_step_metrics (current_step s) agent_actions market_data) ;;
  (* Collect agent performance data *)
  agent_performance <- on_agents collect_performance ;;
  now <- time_time ;;
  timestamp <- lift_outcome (int_of_float now) ;;
  block_number <- w3_read eth_block_number ;;
  now' <- time_time ;;
  let step_result :=
    {| sr_step := current_step s; sr_timestamp := timestamp;
       sr_block_number := block_number;
       sr_execution_time := fsub now' step_start_time;
       sr_market_data := market_data; sr_agent_actions := agent_actions;
       sr_step_metrics := step_metrics;
       sr_agent_performance := agent_performance |} in
  s' <- self ;;
  update_self (with_step_results (step_results s' ++ [step_result])%list) ;;
  ret step_result.

(** One of the two transfers [_distribute_initial_tokens] makes to an
    agent, under its own [try]. *)
Definition distribute_transfer (deployer token to : addr) (amount : Z) : M St unit :=
  try_except
    (nonce <- w3_read (eth_get_transaction_count deployer) ;;
     tx <- w3_read (build_transaction token (transfer to amount)) ;;
     let tx' := {| tx_to := tx_to tx; tx_call := tx_call tx;
                   tx_from := Some deployer; tx_nonce := Some (Z.of_N nonce);
                   tx_gas := Some 100000; tx_gasPrice := Some 20000000000;
                   tx_chainId := tx_chainId tx |} in
     signed_tx <- lift_outcome (sign_transaction deployer tx') ;;
     tx_hash <- w3_send (send_raw_transaction signed_tx) ;;
     _ <- w3_send (wait_for_transaction_receipt tx_hash) ;;
     ret tt)
    (fun _ => ret tt).

Fixpoint distribute_loop (deployer test_token usdc_token : addr)
    (ags : list (Agent R)) : M St unit :=
  match ags with
  | [] => ret tt
  | agent :: rest =>
      let test_amount := 10000 * 10 ^ 18 in
      let usdc_amount := 10000 * 10 ^ 6 in
      distribute_transfer deployer test_token
        (AgentBase.address (agent_base agent)) test_amount ;;
      distribute_transfer deployer usdc_token
        (AgentBase.address (agent_base agent)) usdc_amount ;;
      distribute_loop deployer test_token usdc_token rest
  end.

(** Distribute initial tokens to agents *)
Definition _distribute_initial_tokens : M St unit :=
  s <- self ;;
  test_token <- lift_outcome (contract_address (contracts s) "ERC20Token") ;;
  usdc_token <- lift_outcome (contract_address (contracts s) "USDC") ;;
  let deployer_key :=
    "0x4f3edf983ac636a65a842ce7c78d9aa706d3b113bce9c46f30d7d21715b23b1d" in
  let deployer := account_from_key deployer_key in
  distribute_loop deployer test_token usdc_token (agents s).

(** [if self.step_delay > 0: time.sleep(self.step_delay)] *)
Definition sleep_between_steps : M St unit :=
  s <- self ;;
  if gt (step_delay s) (PInt 0)
  then read (fun st => time_sleep (step_delay s) (snd st))
  else ret tt.

(** [for step in range(...)]: the iterations from [step] on, [n] of them. *)
Fixpoint steps_loop (n : nat) (step : Z) : M St unit :=
  match n with
  | O => ret tt
  | S n' =>
      update_self (with_current_step step) ;;
      step_result <- run_step ;;
      (* Sleep between steps if configured *)
      sleep_between_steps ;;
      steps_loop n' (step + 1)
  end.

Definition _save_csv_metrics (timestamp : Z) : M St unit :=
  try_except
    (s <- self ;; lift_outcome (to_csv (step_results s)))
    (fun _ => ret tt).

Definition _save_results (results : Results) : M St unit :=
  now <- time_time ;;
  timestamp <- lift_outcome (int_of_float now) ;;
  lift_outcome (json_dump results) ;;
  _save_csv_metrics timestamp.

Definition sum_Z {A} (f : A -> Z) (xs : list A) : Z :=
  fold_left (fun acc x => acc + f x) xs 0.

(** Generate final simulation report *)
Definition _generate_final_report (start_time : float) : M St Results :=
  now <- time_time ;;
  let total_time := fsub now start_time in
  (* Calculate overall metrics *)
  s <- self ;;
  overall <- w3_read (calculate_overall_metrics (step_results s)) ;;
  (* Collect final agent performance *)
  final_agent_performance <- on_agents collect_performance ;;
  s' <- self ;;
  total_steps_f <- lift_outcome (float_of_int (Z.max 1 (current_step s' + 1))) ;;
  avg <- lift_outcome (float_truediv total_time total_steps_f) ;;
  let simulation_results :=
    {| simulation_config := config s';
       execution_summary :=
         {| total_steps := current_step s' + 1;
            total_time := total_time;
            avg_step_time := avg;
            total_transactions :=
              sum_Z (fun a => AgentBase.transaction_count (agent_base a)) (agents s');
            es_total_gas_used :=
              sum_Z (fun a => AgentBase.total_gas_used (agent_base a)) (agents s') |};
       overall_metrics := overall;
       final_agent_performance := final_agent_performance;
       res_step_results := list_slice_from (step_results s') (-10) |} in
  (* Save detailed results *)
  _save_results simulation_results ;;
  ret simulation_results.

(** Run the complete simulation *)
Definition run_simulation : M St Results :=
  start_time <- time_time ;;
  (* Distribute initial tokens *)
  _distribute_initial_tokens ;;
  (* Run simulation steps *)
  s <- self ;;
  (fun st =>
     match steps_loop (Z.to_nat (max_steps s)) 0 st with
     | (Ok _, st') => (Ok tt, st')
     | (Raise e, st') =>
         match exn_class_of e with
         | KeyboardInterrupt => (Ok tt, st')  (* Simulation interrupted by user *)
         | _ => (Raise e, st')                (* Simulation failed: raise *)
         end
     end) ;;
  (* Calculate final metrics and generate report *)
  _generate_final_report start_time.

End SimulationRunner.
End SimulationRunner.

(** ** Pool math of the AMM contract *)
Module PoolMath.

Inductive error := InvalidReserves.

(** Modelled from the spec: [AMM.sol], the contract behind
    [getAmountOut], is not among the sources.  Section 4.1: the
    constant-product formula with the fee deducted from the input; fails with
    [InvalidReserves] when either reserve is zero.  Amounts are unsigned
    integers, the fee is in basis points ([feeBps] of the pool state). *)
Definition quoteOut (feeBps amountIn reserveIn reserveOut : N) : error + N :=
  if (reserveIn =? 0)%N || (reserveOut =? 0)%N then inl InvalidReserves
  else
    let amountInWithFee := (amountIn * (10000 - feeBps))%N in
    inr (amountInWithFee * reserveOut / (reserveIn * 10000 + amountInWithFee))%N.

(** Modelled from the spec: section 4.1, [currentPrice]: [reserveA /
    reserveB], and [0] (not an error) when [reserveB] is zero. *)
Definition currentPrice (reserveA reserveB : N) : outcome float :=
  if (reserveB =? 0)%N then Ok f0
  else int_truediv (Z.of_N reserveA) (Z.of_N reserveB).

End PoolMath.

(** ** A concrete environment: an in-memory ledger, generator, metrics and
    file system, on which the engine runs by computation

    The properties below hold for every ledger client, random source,
    metrics calculator and file system (the classes above); this environment
    instantiates them where a property is evaluated on a scenario. *)
Module Sim.

(** Modelled from the spec: a ledger holding one constant-product pool
    (sections 3 and 6: reserves, LP supply, fee, token balances, receipts
    with a status and the gas used), which the sources only reach through
    web3.  Transactions are mined at once; a reverted call yields a receipt
    of status 0. *)
Record Ledger := {
  amm : addr;
  token_a : addr;
  token_b : addr;
  reserve_a : N;
  reserve_b : N;
  lp_supply : N;
  fee_bps : N;
  token_balances : list (string * N);
  eth_balances : list (string * N);
  tx_counts : list (string * N);
  block_number : Z;
  receipts : list (string * Receipt);
  reachable : bool
}.

Definition key (token owner : addr) : string := token ++ "/" ++ owner.

Definition lookupN (k : string) (d : list (string * N)) : N :=
  match dict_get k d with Some v => v | None => 0%N end.

Definition balance_of (l : Ledger) (token owner : addr) : N :=
  lookupN (key token owner) (token_balances l).

Definition unreachable {A} : outcome A :=
  Raise (Exn Web3Error "connection refused").

Definition reading {A} (l : Ledger) (v : outcome A) : outcome A :=
  if reachable l then v else unreachable.

(** What a mined call changes: reserves, supply and balances. *)
Record Pool := {
  p_reserve_a : N;
  p_reserve_b : N;
  p_lp_supply : N;
  p_balances : list (string * N)
}.

Definition credit (k : string) (v : N) (b : list (string * N)) :=
  dict_set k (lookupN k b + v)%N b.
Definition debit (k : string) (v : N) (b : list (string * N)) :=
  dict_set k (lookupN k b - v)%N b.

(** The effect of a call sent by [sender] to [contract], or [None] when it
    reverts. *)
Definition apply_call (l : Ledger) (contract sender : addr) (c : call)
    : option Pool :=
  let ra := reserve_a l in
  let rb := reserve_b l in
  let s := lp_supply l in
  let b := token_balances l in
  let unchanged := {| p_reserve_a := ra; p_reserve_b := rb; p_lp_supply := s;
                      p_balances := b |} in
  match c with
  | approve _ amount => if amount <? 0 then None else Some unchanged
  | transfer to amount =>
      let v := Z.to_N amount in
      if (amount <? 0) || (lookupN (key contract sender) b <? v)%N then None
      else
        Some {| p_reserve_a := ra; p_reserve_b := rb; p_lp_supply := s;
                p_balances := credit (key contract to) v
                                (debit (key contract sender) v b) |}
  | addLiquidity amount_a amount_b _ _ to =>
      let a := Z.to_N amount_a in
      let a' := Z.to_N amount_b in
      if (amount_a <=? 0) || (amount_b <=? 0)
         || (lookupN (key (token_a l) sender) b <? a)%N
         || (lookupN (key (token_b l) sender) b <? a')%N
      then None
      else
        let minted := if (s =? 0)%N then N.sqrt (a * a')
                      else N.min (a * s / ra) (a' * s / rb) in
        Some {| p_reserve_a := (ra + a)%N; p_reserve_b := (rb + a')%N;
                p_lp_supply := (s + minted)%N;
                p_balances :=
                  credit (key (amm l) to) minted
                    (debit (key (token_b l) sender) a'
                       (debit (key (token_a l) sender) a b)) |}
  | removeLiquidity lp_amount min_a min_b to =>
      let lp := Z.to_N lp_amount in
      if (lp_amount <=? 0) || (lookupN (key (amm l) sender) b <? lp)%N
      then None
      else
        let out_a := (lp * ra / s)%N in
        let out_b := (lp * rb / s)%N in
        if (Z.of_N out_a <? min_a) || (Z.of_N out_b <? min_b) then None
        else
          Some {| p_reserve_a := (ra - out_a)%N; p_reserve_b := (rb - out_b)%N;
                  p_lp_supply := (s - lp)%N;
                  p_balances :=
                    credit (key (token_b l) to) out_b
                      (credit (key (token_a l) to) out_a
                         (debit (key (amm l) sender) lp b)) |}
  | swapExactTokensForTokens amount_in min_out token_in to =>
      let a := Z.to_N amount_in in
      let a_in := String.eqb token_in (token_a l) in
      let token_out := if a_in then token_b l else token_a l in
      let r_in := if a_in then ra else rb in
      let r_out := if a_in then rb else ra in
      if (amount_in <=? 0)
         || negb (a_in || String.eqb token_in (token_b l))
         || (lookupN (key token_in sender) b <? a)%N
      then None
      else
        match PoolMath.quoteOut (fee_bps l) a r_in r_out with
        | inl _ => None
        | inr out =>
            if Z.of_N out <? min_out then None
            else
              Some {| p_reserve_a := if a_in then (ra + a)%N else (ra - out)%N;
                      p_reserve_b := if a_in then (rb - out)%N else (rb + a)%N;
                      p_lp_supply := s;
                      p_balances :=
                        credit (key token_out to) out
                          (debit (key token_in sender) a b) |}
        end
  end.

Definition tx_hash_of (l : Ledger) : string :=
  "0x" ++ str_of_nat (List.length (receipts l)).

(** Mining a transaction: the sender's nonce must be the next one; the
    call is applied or reverts; the receipt is filed under the hash. *)
Definition mine (tx : Transaction) (l : Ledger) : outcome string * Ledger :=
  if negb (reachable l) then (unreachable, l)
  else
    match tx_from tx, tx_nonce tx with
    | Some sender, Some n =>
        if negb (n =? Z.of_N (lookupN sender (tx_counts l)))
        then (Raise (Exn Web3Error "nonce mismatch"), l)
        else
          let h := tx_hash_of l in
          let effect := apply_call l (tx_to tx) sender (tx_call tx) in
          let p := match effect with
                   | Some p => p
                   | None => {| p_reserve_a := reserve_a l;
                                p_reserve_b := reserve_b l;
                                p_lp_supply := lp_supply l;
                                p_balances := token_balances l |}
                   end in
          let receipt := {| status := match effect with Some _ => 1 | None => 0 end;
                            gasUsed := 21000 |} in
          (Ok h,
           {| amm := amm l; token_a := token_a l; token_b := token_b l;
              reserve_a := p_reserve_a p; reserve_b := p_reserve_b p;
              lp_supply := p_lp_supply p; fee_bps := fee_bps l;
              token_balances := p_balances p;
              eth_balances := eth_balances l;
              tx_counts := credit sender 1 (tx_counts l);
              block_number := block_number l + 1;
              receipts := (receipts l ++ [(h, receipt)])%list;
              reachable := reachable l |})
    | _, _ => (Raise (Exn Web3Error "transaction is not signed"), l)
    end.

Definition receipt_of (h : string) (l : Ledger) : outcome Receipt * Ledger :=
  (reading l match dict_get h (receipts l) with
             | Some r => Ok r
             | None => Raise (Exn Web3Error "transaction not found in time")
             end, l).

(** [Web3.from_wei(number, 'ether')]: the integer [0] for no wei, a
    [Decimal] otherwise. *)
Definition from_wei (number : N) : outcome balance :=
  if (number =? 0)%N then Ok (BNum (PInt 0)) else Ok (BDecimal (Z.of_N number)).

#[global] Instance web3 : Web3 Ledger := {|
  account_from_key k := "account_" ++ k;
  eth_get_transaction_count a l := reading l (Ok (lookupN a (tx_counts l)));
  eth_get_balance a l := reading l (Ok (lookupN a (eth_balances l)));
  eth_chain_id l := reading l (Ok 1337);
  eth_block_number l := reading l (Ok (block_number l));
  eth_latest_timestamp l := reading l (Ok (1700000000 + block_number l));
  from_wei_ether := from_wei;
  balanceOf c a l := reading l (Ok (balance_of l c a));
  decimals c l := reading l (Ok (if String.eqb c (token_b l) then 6%N else 18%N));
  getReserves c l := reading l (Ok (reserve_a l, reserve_b l));
  getAmountOut c amount_in r_in r_out l :=
    reading l
      (if (amount_in <? 0) || (r_in <? 0) || (r_out <? 0)
       then Raise (Exn Web3Error "value out of range for uint256")
       else match PoolMath.quoteOut (fee_bps l) (Z.to_N amount_in)
                    (Z.to_N r_in) (Z.to_N r_out) with
            | inl PoolMath.InvalidReserves =>
                Raise (Exn Web3Error "execution reverted: InvalidReserves")
            | inr out => Ok out
            end);
  build_transaction c f l :=
    reading l (Ok {| tx_to := c; tx_call := f; tx_from := None; tx_nonce := None;
                     tx_gas := None; tx_gasPrice := None; tx_chainId := None |});
  sign_transaction a tx := Ok tx;
  send_raw_transaction := mine;
  wait_for_transaction_receipt := receipt_of
|}.

(** A generator of 64-bit states standing for [random.Random]: the same
    seed gives the same draws. *)
Definition lcg (s : Z) : Z :=
  (s * 6364136223846793005 + 1442695040888963407) mod 2 ^ 64.

#[global] Instance generator : Random Z := {|
  Random_seed seed := Z.abs seed mod 2 ^ 64;
  rng_random s := (fdiv (Z2SF (lcg s / 2 ^ 11)) (Z2SF (2 ^ 53)), lcg s);
  rng_randbelow n s := ((lcg s / 2 ^ 11) mod n, lcg s)
|}.

(** Modelled from the spec: section 3, [MarketSnapshot]: the tick's pool
    state and the price derived from it. *)
Record MarketData := {
  md_reserve_a : N;
  md_reserve_b : N;
  md_price : float
}.

(** Modelled from the spec: section 4.5, [stepMetrics]: per tick, the
    number of actions, the price and the reserve ratio of the snapshot. *)
Record StepMetrics := {
  sm_step : Z;
  sm_actions : nat;
  sm_current_price : float;
  sm_reserves : N * N
}.

(** Modelled from the spec: section 4.5, [overallMetrics]: the count of
    ticks processed equals the number of records supplied. *)
Record OverallMetrics := { simulation_steps : nat }.

#[global] Instance metrics : MetricsCalculator Ledger MarketData StepMetrics OverallMetrics := {|
  get_current_market_state l :=
    reading l
      (p <-- PoolMath.currentPrice (reserve_a l) (reserve_b l) ;;;
       Ok {| md_reserve_a := reserve_a l; md_reserve_b := reserve_b l;
             md_price := p |});
  calculate_step_metrics step agent_actions market_data l :=
    Ok {| sm_step := step;
          sm_actions :=
            List.length (List.concat (map actions_taken agent_actions));
          sm_current_price := md_price market_data;
          sm_reserves := (md_reserve_a market_data, md_reserve_b market_data) |};
  calculate_overall_metrics step_results l :=
    Ok {| simulation_steps := List.length step_results |}
|}.

Definition is_Decimal (b : string * balance) : bool :=
  match snd b with BDecimal _ => true | BNum _ => false end.

Definition has_Decimal (perf : list (string * PerformanceStats)) : bool :=
  existsb (fun p => existsb is_Decimal (ps_current_balances (snd p))) perf.

(** [json.dump] knows integers, floats, strings, lists and dictionaries;
    a [Decimal] is not serializable. *)
#[global] Instance files : FileSystem MarketData StepMetrics OverallMetrics := {|
  json_dump results :=
    if has_Decimal (final_agent_performance results)
       || existsb (fun r => has_Decimal (sr_agent_performance r))
                  (res_step_results results)
    then Raise (Exn TypeError "Object of type Decimal is not JSON serializable")
    else Ok tt;
  to_csv step_results := Ok tt
|}.

(** No interrupt comes from the keyboard and the delays are small:
    [time.sleep] returns. *)
#[global] Instance sleep : Sleep Ledger := {|
  time_sleep secs l := Ok tt |}.

End Sim.

(** ** Vocabulary of the properties *)

(** The float a rounding step returns for the mantissa [m] and exponent
    [e] it ends with. *)
Definition round_result (sx : bool) (m e : Z) : float :=
  match m with
  | Z0 => S754_zero sx
  | Zpos p => if e <=? emax - prec then S754_finite sx p e else S754_infinity sx
  | Zneg _ => S754_nan
  end.

(** A finite or infinite float of sign [sx]: what a positive mantissa
    rounds to when it does not underflow. *)
Definition pos_result (sx : bool) (x : float) : Prop :=
  exists m e, x = (if e <=? emax - prec then S754_finite sx m e else S754_infinity sx)
              /\ -1074 <= e.

(** A float of sign [sx] that is not NaN, its exponent in range when it is
    finite. *)
Definition signed (sx : bool) (x : float) : Prop :=
  x = S754_zero sx \/ x = S754_infinity sx \/
  exists m e, x = S754_finite sx m e /\ -1074 <= e.

(** The spec's formula [IL = 2·√r/(1+r) − 1], computed in binary64. *)
Definition IL_formula (r : float) : float :=
  fsub (fdiv (fmul (round_Z 2) (fsqrt r)) (fadd (round_Z 1) r)) (round_Z 1).

(** The price history of the momentum scenario: [1.0, 1.0, 1.0, 1.0, 1.3]. *)
Definition scenario_history : list float := [f1; f1; f1; f1; lit 13 10].

(** [m] leaves the observation [f] of the state as it found it, whether it
    returns or raises. *)
Definition stable {S A K} (f : S -> K) (m : M S A) : Prop :=
  forall s, f (snd (m s)) = f s.

(** The agent id a report under construction carries. *)
Definition report_id {S} (s : ActionReport * S) : string := ar_agent_id (fst s).

(** The agent id of an object, by class. *)
Definition base_id {L R} (s : AgentBase.t R * L) : string :=
  AgentBase.agent_id (fst s).
Definition mm_id {L R} (s : MarketMaker.t R * L) : string :=
  AgentBase.agent_id (MarketMaker.base (fst s)).
Definition trader_id {L R} (s : Trader.t R * L) : string :=
  AgentBase.agent_id (Trader.base (fst s)).
Definition rt_id {L R} (s : RandomTrader.t R * L) : string :=
  AgentBase.agent_id (Trader.base (RandomTrader.trader (fst s))).
Definition mt_id {L R} (s : MomentumTrader.t R * L) : string :=
  AgentBase.agent_id (Trader.base (MomentumTrader.trader (fst s))).
Definition at_id {L R} (s : ArbitrageTrader.t R * L) : string :=
  AgentBase.agent_id (Trader.base (ArbitrageTrader.trader (fst s))).
Definition agent_obs {L R} (s : Agent R * L) : string := agent_id (fst s).

(** The ['agent_type'] a class writes into its reports. *)
Definition agent_type {R} (a : Agent R) : string :=
  match a with
  | AMarketMaker _ => "market_maker"
  | ARandomTrader _ => "random_trader"
  | AMomentumTrader _ => "momentum_trader"
  | AArbitrageTrader _ => "arbitrage_trader"
  end.

(** The body of the [try] block of the agent's [step], by class. *)
Definition agent_step_body {L} {W3 : Web3 L} {R} {RG : Random R} {MarketData}
    (market_data : MarketData) : M (ActionReport * (Agent R * L)) unit :=
  fun s =>
    let '(actions, (agent, l)) := s in
    match agent with
    | AMarketMaker a =>
        let '(r, (actions', (a', l'))) :=
          MarketMaker.step_body market_data (actions, (a, l)) in
        (r, (actions', (AMarketMaker a', l')))
    | ARandomTrader a =>
        let '(r, (actions', (a', l'))) :=
          RandomTrader.step_body market_data (actions, (a, l)) in
        (r, (actions', (ARandomTrader a', l')))
    | AMomentumTrader a =>
        let '(r, (actions', (a', l'))) :=
          MomentumTrader.step_body market_data (actions, (a, l)) in
        (r, (actions', (AMomentumTrader a', l')))
    | AArbitrageTrader a =>
        let '(r, (actions', (a', l'))) :=
          ArbitrageTrader.step_body market_data (actions, (a, l)) in
        (r, (actions', (AArbitrageTrader a', l')))
    end.

Section EngineQuote.
Context {L : Type} {W3 : Web3 L} {R : Type}.

(** What the engine returns as a quote: the contract's answer, and [0] when
    reading the reserves or the contract call raises. *)
Definition engine_quote (x : Trader.t R) (l : L) (amount_in : Z)
    (token_in : addr) : outcome Z :=
  match getReserves (Trader.amm_address x) l with
  | Ok (ra, rb) =>
      match
        (if String.eqb token_in (Trader.token_a_address x)
         then getAmountOut (Trader.amm_address x) amount_in (Z.of_N ra) (Z.of_N rb) l
         else getAmountOut (Trader.amm_address x) amount_in (Z.of_N rb) (Z.of_N ra) l)
      with
      | Ok out => Ok (Z.of_N out)
      | Raise e => if is_Exception e then Ok 0 else Raise e
      end
  | Raise e => if is_Exception e then Ok 0 else Raise e
  end.

End EngineQuote.

Section Observables.
Context {R MarketData StepMetrics : Type}.

(** Two tick records that agree on all but the readings of the wall clock
    (['timestamp'] and ['execution_time']). *)
Definition same_result (r1 r2 : StepResult MarketData StepMetrics) : Prop :=
  sr_step r1 = sr_step r2 /\
  sr_block_number r1 = sr_block_number r2 /\
  sr_market_data r1 = sr_market_data r2 /\
  sr_agent_actions r1 = sr_agent_actions r2 /\
  sr_step_metrics r1 = sr_step_metrics r2 /\
  sr_agent_performance r1 = sr_agent_performance r2.

(** [time.time()] returns a finite float at every call. *)
Definition finite_clock (s : SimulationRunner.t R MarketData StepMetrics) : Prop :=
  forall k, is_finite (SimulationRunner.wall_clock s k) = true.

(** Two runners that agree on all but their wall clocks. *)
Definition same_run (s1 s2 : SimulationRunner.t R MarketData StepMetrics) : Prop :=
  SimulationRunner.config s1 = SimulationRunner.config s2 /\
  SimulationRunner.contracts s1 = SimulationRunner.contracts s2 /\
  SimulationRunner.agents s1 = SimulationRunner.agents s2 /\
  SimulationRunner.current_step s1 = SimulationRunner.current_step s2 /\
  SimulationRunner.max_steps s1 = SimulationRunner.max_steps s2 /\
  SimulationRunner.step_delay s1 = SimulationRunner.step_delay s2 /\
  Forall2 same_result (SimulationRunner.step_results s1)
    (SimulationRunner.step_results s2).

(** Two states of a run that agree on all but the wall clock, each clock
    returning finite floats. *)
Definition same_state {L} (st1 st2 : SimulationRunner.t R MarketData StepMetrics * L)
    : Prop :=
  same_run (fst st1) (fst st2) /\ finite_clock (fst st1) /\
  finite_clock (fst st2) /\ snd st1 = snd st2.

End Observables.

(** [l1] is [l2] with some elements left out, the order kept. *)
Inductive subsequence {A : Type} : list A -> list A -> Prop :=
| subsequence_nil : subsequence [] []
| subsequence_skip x l1 l2 : subsequence l1 l2 -> subsequence l1 (x :: l2)
| subsequence_take x l1 l2 : subsequence l1 l2 -> subsequence (x :: l1) (x :: l2).

(** The agent types [_setup_agents] knows. *)
Definition known_type (agent_type : string) : bool :=
  String.eqb agent_type "market_maker" || String.eqb agent_type "random_trader" ||
  String.eqb agent_type "momentum_trader" || String.eqb agent_type "arbitrage_trader".

(** The ids of the agents of a configuration in registration order: entry
    [i], when of a known type, is registered as [<type>_<i>]. *)
Fixpoint registered_ids (i : nat) (agent_configs : list AgentConfig) : list string :=
  match agent_configs with
  | [] => []
  | c :: rest =>
      if known_type (ac_type c)
      then (ac_type c ++ "_" ++ str_of_nat i) :: registered_ids (S i) rest
      else registered_ids (S i) rest
  end.

(** The runner holds the agents of ids [ids] in that order, and every tick
    it recorded lists its reports in that order (agents that did not act
    left out). *)
Definition in_registration_order {R MarketData StepMetrics} (ids : list string)
    (s : SimulationRunner.t R MarketData StepMetrics) : Prop :=
  map agent_id (SimulationRunner.agents s) = ids /\
  Forall (fun res => subsequence (map ar_agent_id (sr_agent_actions res)) ids)
         (SimulationRunner.step_results s).

(** ** Scenarios on the concrete environment *)
Module Scenario.
Import Sim.

Definition contracts : list (string * ContractInfo) :=
  [ ("ERC20Token", {| ci_address := "0xToken"; ci_abi := "[]" |});
    ("0xToken", {| ci_address := "0xToken"; ci_abi := "[]" |});
    ("USDC", {| ci_address := "0xUSDC"; ci_abi := "[]" |});
    ("0xUSDC", {| ci_address := "0xUSDC"; ci_abi := "[]" |});
    ("AMM", {| ci_address := "0xAMM"; ci_abi := "[]" |});
    ("0xAMM", {| ci_address := "0xAMM"; ci_abi := "[]" |}) ].

Definition account (i : nat) : addr :=
  account_from_key (nth i default_keys EmptyString).

Definition agent_config (type : string) (trade_frequency : option num) : AgentConfig :=
  {| ac_type := type; ac_initial_balance := None;
     ac_trade_frequency := trade_frequency; ac_lookback_periods := None;
     ac_momentum_threshold := None; ac_min_profit_threshold := None |}.

(** A market maker, a random trader that trades at every tick, and a
    momentum trader, for two ticks. *)
Definition config : Config :=
  {| cfg_max_steps := Some 2; cfg_step_delay := Some (PInt 0);
     cfg_random_seed := Some 42;
     cfg_agents := [ agent_config "market_maker" None;
                     agent_config "random_trader" (Some (PInt 1));
                     agent_config "momentum_trader" None ] |}.

(** An empty pool.  The market maker holds a million of each token; the
    random trader holds 5000 of each, which is above the minimum trade size
    while a tenth of it is below. *)
Definition ledger : Ledger :=
  {| amm := "0xAMM"; token_a := "0xToken"; token_b := "0xUSDC";
     reserve_a := 0; reserve_b := 0; lp_supply := 0; fee_bps := 30;
     token_balances :=
       [ (key "0xToken" (account 0), 1000000%N);
         (key "0xUSDC" (account 0), 1000000%N);
         (key "0xToken" (account 1), 5000%N);
         (key "0xUSDC" (account 1), 5000%N) ];
     eth_balances := []; tx_counts := []; block_number := 1; receipts := [];
     reachable := true |}.

Definition with_reachable (b : bool) (l : Ledger) : Ledger :=
  {| amm := amm l; token_a := token_a l; token_b := token_b l;
     reserve_a := reserve_a l; reserve_b := reserve_b l; lp_supply := lp_supply l;
     fee_bps := fee_bps l; token_balances := token_balances l;
     eth_balances := eth_balances l; tx_counts := tx_counts l;
     block_number := block_number l; receipts := receipts l; reachable := b |}.

Definition with_reserves (a b : N) (l : Ledger) : Ledger :=
  {| amm := amm l; token_a := token_a l; token_b := token_b l;
     reserve_a := a; reserve_b := b; lp_supply := lp_supply l;
     fee_bps := fee_bps l; token_balances := token_balances l;
     eth_balances := eth_balances l; tx_counts := tx_counts l;
     block_number := block_number l; receipts := receipts l;
     reachable := reachable l |}.

(** Two wall clocks: what sixteen calls of [time.time()] return, a second
    and seven seconds apart, the last reading repeated from then on. *)
Definition readings (start step : Z) : list float :=
  map (fun k => round_Z (start + step * Z.of_nat k)) (seq 0 16).
Definition clock (k : nat) : float :=
  nth k (readings 1700000000 1) (round_Z 1700000016).
Definition other_clock (k : nat) : float :=
  nth k (readings 1800000000 7) (round_Z 1800000112).

Definition Runner : Type := SimulationRunner.t Z MarketData StepMetrics.

Definition make_runner (clock : nat -> float) (os_entropy : Z) : outcome Runner :=
  SimulationRunner.init config contracts clock os_entropy ledger.

Definition no_runner : Runner :=
  {| SimulationRunner.config := config; SimulationRunner.contracts := contracts;
     SimulationRunner.agents := []; SimulationRunner.current_step := 0;
     SimulationRunner.max_steps := 0; SimulationRunner.step_delay := PInt 0;
     SimulationRunner.step_results := []; SimulationRunner.wall_clock := clock;
     SimulationRunner.clock_reads := 0%nat |}.

(** The runner [SimulationRunner(config)] builds on [ledger]. *)
Definition runner : Runner :=
  match make_runner clock 0 with
  | Ok r => r
  | Raise _ => no_runner
  end.

Definition no_trader : Trader.t Z :=
  {| Trader.base :=
       {| AgentBase.agent_id := ""; AgentBase.contracts := [];
          AgentBase.address := ""; AgentBase.random := 0;
          AgentBase.nonce := 0; AgentBase.gas_limit := 0;
          AgentBase.gas_price := 0; AgentBase.pnl := PInt 0;
          AgentBase.total_gas_used := 0; AgentBase.transaction_count := 0;
          AgentBase.trade_history := []; AgentBase.initial_balances := [] |};
     Trader.amm_address := ""; Trader.token_a_address := "";
     Trader.token_b_address := ""; Trader.slippage_tolerance := PInt 0;
     Trader.min_trade_size := 0; Trader.max_trade_size_ratio := f0;
     Trader.successful_trades := 0; Trader.failed_trades := 0;
     Trader.total_volume := PInt 0; Trader.total_slippage := f0 |}.

(** The same configuration on the same ledger, at another time on another
    machine. *)
Definition other_runner : Runner :=
  match make_runner other_clock 99 with
  | Ok r => r
  | Raise _ => no_runner
  end.

Definition nth_agent (i : nat) (r : Runner) : Agent Z :=
  nth i (SimulationRunner.agents r)
    (AArbitrageTrader
       {| ArbitrageTrader.trader := no_trader;
          ArbitrageTrader.min_profit_threshold := PInt 0 |}).

(** The trader object of a strategy agent. *)
Definition trader_of (a : Agent Z) : Trader.t Z :=
  match a with
  | AMarketMaker _ => no_trader
  | ARandomTrader x => RandomTrader.trader x
  | AMomentumTrader x => MomentumTrader.trader x
  | AArbitrageTrader x => ArbitrageTrader.trader x
  end.

(** The random trader of the run. *)
Definition trader : Trader.t Z := trader_of (nth_agent 1 runner).

(** The price history a momentum trader holds. *)
Definition price_history_of (a : Agent Z) : list float :=
  match a with
  | AMomentumTrader x => MomentumTrader.price_history x
  | _ => []
  end.

(** The momentum trader of the run, holding the price history [h]. *)
Definition momentum_trader (h : list float) : MomentumTrader.t Z :=
  match nth_agent 2 runner with
  | AMomentumTrader x => MomentumTrader.with_price_history h x
  | _ =>
      {| MomentumTrader.trader := no_trader;
         MomentumTrader.lookback_periods := 0;
         MomentumTrader.momentum_threshold := PInt 0;
         MomentumTrader.trade_frequency := PInt 0;
         MomentumTrader.price_history := h |}
  end.

Definition with_eth_balances (bs : list (string * N)) (l : Ledger) : Ledger :=
  {| amm := amm l; token_a := token_a l; token_b := token_b l;
     reserve_a := reserve_a l; reserve_b := reserve_b l; lp_supply := lp_supply l;
     fee_bps := fee_bps l; token_balances := token_balances l;
     eth_balances := bs; tx_counts := tx_counts l;
     block_number := block_number l; receipts := receipts l;
     reachable := reachable l |}.

(** The same ledger when the market maker's account holds one ether. *)
Definition funded_ledger : Ledger :=
  with_eth_balances [(account 0, 1000000000000000000%N)] ledger.

(** The runner [SimulationRunner(cfg)] builds on [ledger]. *)
Definition runner_of (cfg : Config) : Runner :=
  match SimulationRunner.init cfg contracts clock 0 ledger with
  | Ok r => r
  | Raise _ => no_runner
  end.

(** The same agents, the market maker configured with the ether it starts
    with. *)
Definition audited_config : Config :=
  {| cfg_max_steps := Some 2; cfg_step_delay := Some (PInt 0);
     cfg_random_seed := Some 42;
     cfg_agents := [ {| ac_type := "market_maker";
                        ac_initial_balance := Some [("ETH", PInt 1)];
                        ac_trade_frequency := None; ac_lookback_periods := None;
                        ac_momentum_threshold := None;
                        ac_min_profit_threshold := None |};
                     agent_config "random_trader" (Some (PInt 1));
                     agent_config "momentum_trader" None ] |}.

(** The same agents for no tick at all, and for two ticks a second apart. *)
Definition paced_config (max_steps : Z) (step_delay : num) : Config :=
  {| cfg_max_steps := Some max_steps; cfg_step_delay := Some step_delay;
     cfg_random_seed := Some 42; cfg_agents := cfg_agents config |}.

(** A user who presses Ctrl-C as soon as the process sleeps. *)
Definition interrupted_sleep : Sleep Ledger :=
  {| time_sleep secs l := Raise (Exn KeyboardInterrupt EmptyString) |}.

End Scenario.

(** A transfer of [amount] units of the first token, as [build_transaction]
    returns it. *)
Definition transfer_of (amount : Z) : Transaction :=
  {| tx_to := "0xToken"; tx_call := transfer "0xSink" amount; tx_from := None;
     tx_nonce := None; tx_gas := None; tx_gasPrice := None; tx_chainId := None |}.

(** The snapshot the first tick of the scenario reads. *)
Definition scenario_snapshot : Sim.MarketData :=
  match get_current_market_state Scenario.ledger with
  | Ok md => md
  | Raise _ => {| Sim.md_reserve_a := 0; Sim.md_reserve_b := 0; Sim.md_price := f0 |}
  end.


(** The contract names [get_all_balances] reads a token balance for. *)
Definition is_token_name (name : string) : bool :=
  str_contains "ERC20" name || String.eqb name "TEST" || String.eqb name "USDC".

(** The random trader of the scenario, configured with an initial balance
    of 50000 ['TEST'] (the name the default configuration uses for the token
    deployed as ['ERC20Token']). *)
Definition configured_agent : AgentBase.t Z :=
  let b := Trader.base Scenario.trader in
  {| AgentBase.agent_id := AgentBase.agent_id b;
     AgentBase.contracts := AgentBase.contracts b;
     AgentBase.address := AgentBase.address b;
     AgentBase.random := AgentBase.random b;
     AgentBase.nonce := AgentBase.nonce b;
     AgentBase.gas_limit := AgentBase.gas_limit b;
     AgentBase.gas_price := AgentBase.gas_price b;
     AgentBase.pnl := AgentBase.pnl b;
     AgentBase.total_gas_used := AgentBase.total_gas_used b;
     AgentBase.transaction_count := AgentBase.transaction_count b;
     AgentBase.trade_history := AgentBase.trade_history b;
     AgentBase.initial_balances := [("TEST", PInt 50000)] |}.

(** The same trader after transactions that used more gas than a float can
    hold. *)
Definition overcharged_agent : AgentBase.t Z :=
  let b := Trader.base Scenario.trader in
  {| AgentBase.agent_id := AgentBase.agent_id b;
     AgentBase.contracts := AgentBase.contracts b;
     AgentBase.address := AgentBase.address b;
     AgentBase.random := AgentBase.random b;
     AgentBase.nonce := AgentBase.nonce b;
     AgentBase.gas_limit := AgentBase.gas_limit b;
     AgentBase.gas_price := AgentBase.gas_price b;
     AgentBase.pnl := AgentBase.pnl b;
     AgentBase.total_gas_used := 2 ^ 1024;
     AgentBase.transaction_count := 1;
     AgentBase.trade_history := AgentBase.trade_history b;
     AgentBase.initial_balances := AgentBase.initial_balances b |}.

(** [sent n b b']: the agent [b'] is [b] after [n] confirmed transactions,
    with its identity, its contracts, its generator and its trade history
    as they were. *)
Definition sent {R} (n : Z) (b b' : AgentBase.t R) : Prop :=
  AgentBase.nonce b' = AgentBase.nonce b + n /\
  AgentBase.transaction_count b' = AgentBase.transaction_count b + n /\
  AgentBase.trade_history b' = AgentBase.trade_history b /\
  AgentBase.agent_id b' = AgentBase.agent_id b /\
  AgentBase.address b' = AgentBase.address b /\
  AgentBase.contracts b' = AgentBase.contracts b /\
  AgentBase.random b' = AgentBase.random b.



(** [m] takes every state to one that [rel] relates to it, whether it
    returns or raises. *)
Definition keeps {S A} (rel : S -> S -> Prop) (m : M S A) : Prop :=
  forall s, rel s (snd (m s)).

(** The relation [rel] on what [f] shows of a state. *)
Definition via {X Y} (f : X -> Y) (rel : Y -> Y -> Prop) : X -> X -> Prop :=
  fun x x' => rel (f x) (f x').

(** What an agent can become while the engine runs: identity, address,
    contracts, gas settings and configured balances stay; the nonce does not
    go down, and goes up by what the transaction count goes up by; the trade
    history is extended at its end. *)
Definition advanced {R} (b b' : AgentBase.t R) : Prop :=
  AgentBase.agent_id b' = AgentBase.agent_id b /\
  AgentBase.address b' = AgentBase.address b /\
  AgentBase.contracts b' = AgentBase.contracts b /\
  AgentBase.gas_limit b' = AgentBase.gas_limit b /\
  AgentBase.gas_price b' = AgentBase.gas_price b /\
  AgentBase.initial_balances b' = AgentBase.initial_balances b /\
  AgentBase.nonce b <= AgentBase.nonce b' /\
  AgentBase.transaction_count b' - AgentBase.transaction_count b =
    AgentBase.nonce b' - AgentBase.nonce b /\
  exists records,
    AgentBase.trade_history b' = (AgentBase.trade_history b ++ records)%list.

(** The same for an agent of any class, which keeps its class. *)
Definition agent_advanced {R} (a a' : Agent R) : Prop :=
  agent_type a' = agent_type a /\ advanced (agent_base a) (agent_base a').

(** What a runner can become: configuration, contracts, tick limit and
    delay stay; the agents stay the same objects in the same order, each one
    advanced; tick records are only appended. *)
Definition runner_advanced {R MarketData StepMetrics}
    (s s' : SimulationRunner.t R MarketData StepMetrics) : Prop :=
  SimulationRunner.config s' = SimulationRunner.config s /\
  SimulationRunner.contracts s' = SimulationRunner.contracts s /\
  SimulationRunner.max_steps s' = SimulationRunner.max_steps s /\
  SimulationRunner.step_delay s' = SimulationRunner.step_delay s /\
  Forall2 agent_advanced (SimulationRunner.agents s) (SimulationRunner.agents s') /\
  exists records,
    SimulationRunner.step_results s' =
      (SimulationRunner.step_results s ++ records)%list.

(** [range(start, start + n)] *)
Definition py_range (start : Z) (n : nat) : list Z :=
  map (fun k => start + Z.of_nat k) (seq 0 n).

(** ** The deployment file *)

(** One entry of the ['contracts'] object of the deployment file: its
    ['address'] and its ['abi'], where it has them. *)
Record DeployedContract := {
  dc_address : option addr;
  dc_abi : option string
}.

(** What [_load_contracts] meets when it opens and parses the file: no
    file, another failure of [open] or [json.load], or the parsed document
    with the items of its ['contracts'] object, when it has one. *)
Inductive DeploymentFile :=
| FileNotFound
| Unreadable (e : exn)
| Parsed (contracts : option (list (string * DeployedContract))).

(** [{'address': contract_info['address'], 'abi': contract_info['abi']}] *)
Definition entry_info (contract_info : DeployedContract) : outcome ContractInfo :=
  match dc_address contract_info with
  | None => Raise (Exn KeyError "'address'")
  | Some address =>
      match dc_abi contract_info with
      | None => Raise (Exn KeyError "'abi'")
      | Some abi => Ok {| ci_address := address; ci_abi := abi |}
      end
  end.

Fixpoint load_contracts_loop (items : list (string * DeployedContract))
    (contracts : list (string * ContractInfo))
    : outcome (list (string * ContractInfo)) :=
  match items with
  | [] => Ok contracts
  | (name, contract_info) :: rest =>
      by_name <-- entry_info contract_info ;;;
      let contracts := dict_set name by_name contracts in
      (* Also index by address for easy lookup *)
      by_address <-- entry_info contract_info ;;;
      load_contracts_loop rest
        (dict_set (ci_address by_address) by_address contracts)
  end.

(** Load deployed contract information *)
Definition _load_contracts (contracts_file : string) (file : DeploymentFile)
    : outcome (list (string * ContractInfo)) :=
  let failed (e : exn) : outcome (list (string * ContractInfo)) :=
    if is_Exception e
    then Raise (Exn PlainException ("Failed to load contracts: " ++ str e))
    else Raise e in
  match file with
  | FileNotFound =>
      Raise (Exn PlainException
               ("Deployed contracts file not found: " ++ contracts_file))
  | Unreadable e => failed e
  | Parsed None => failed (Exn KeyError "'contracts'")
  | Parsed (Some items) =>
      match load_contracts_loop items [] with
      | Ok contracts => Ok contracts
      | Raise e => failed e
      end
  end.

(** Every contract of the dictionary can be looked up by its address. *)
Definition indexed_by_address (contracts : list (string * ContractInfo)) : Prop :=
  forall key info,
    dict_get key contracts = Some info ->
    dict_get (ci_address info) contracts <> None.

(** The deployment file of the scenario. *)
Definition scenario_deployment : DeploymentFile :=
  Parsed (Some
    [ ("ERC20Token", {| dc_address := Some "0xToken"; dc_abi := Some "[]" |});
      ("USDC", {| dc_address := Some "0xUSDC"; dc_abi := Some "[]" |});
      ("AMM", {| dc_address := Some "0xAMM"; dc_abi := Some "[]" |}) ]).

(** The pool's quotes are no better than its spot price, and no more than
    the reserve paid out. *)
Definition quotes_within_spot {L} (W3 : Web3 L) : Prop :=
  forall amm amount_in reserve_in reserve_out l out,
    getAmountOut amm amount_in reserve_in reserve_out l = Ok out ->
    Z.of_N out * reserve_in <= amount_in * reserve_out /\
    Z.of_N out <= reserve_out.

(** A pool holding one million of the first token and two million of the
    second, on the ledger of the scenario. *)
Definition pool_ledger : Sim.Ledger :=
  Scenario.with_reserves 1000000 2000000 Scenario.ledger.

(** An arbitrage trader as [_setup_agents] builds it at position 0, on the
    account that holds a million of each token. *)
Definition scenario_arbitrage_trader : ArbitrageTrader.t Z :=
  match SimulationRunner.create_agent Scenario.config Scenario.contracts
          "0xAMM" "0xToken" "0xUSDC" 0 0
          (Scenario.agent_config "arbitrage_trader" None) Scenario.ledger with
  | Ok (Some (AArbitrageTrader x)) => x
  | _ => {| ArbitrageTrader.trader := Scenario.no_trader;
            ArbitrageTrader.min_profit_threshold := PInt 0 |}
  end.

(** The market maker of the scenario's run. *)
Definition scenario_market_maker : MarketMaker.t Z :=
  match SimulationRunner.create_agent Scenario.config Scenario.contracts
          "0xAMM" "0xToken" "0xUSDC" 0 0
          (Scenario.agent_config "market_maker" None) Scenario.ledger with
  | Ok (Some (AMarketMaker m)) => m
  | _ =>
      {| MarketMaker.base := Trader.base Scenario.no_trader;
         MarketMaker.amm_address := ""; MarketMaker.token_a_address := "";
         MarketMaker.token_b_address := ""; MarketMaker.target_ratio := PInt 0;
         MarketMaker.rebalance_threshold := PInt 0;
         MarketMaker.lp_token_balance := 0; MarketMaker.initial_reserves := None;
         MarketMaker.fees_collected := f0; MarketMaker.impermanent_loss := f0;
         MarketMaker.min_liquidity_ratio := f0; MarketMaker.max_liquidity_ratio := f0;
         MarketMaker.fee_collection_threshold := f0 |}
  end.

(** A random trader as [_setup_agents] builds it at position 2, on an
    account that holds no tokens. *)
Definition scenario_idle_trader : RandomTrader.t Z :=
  match SimulationRunner.create_agent Scenario.config Scenario.contracts
          "0xAMM" "0xToken" "0xUSDC" 0 2
          (Scenario.agent_config "random_trader" None) Scenario.ledger with
  | Ok (Some (ARandomTrader x)) => x
  | _ => {| RandomTrader.trader := Scenario.no_trader;
            RandomTrader.trade_frequency := PInt 0 |}
  end.

(** * Properties *)

(** ** Facts on binary64 rounding *)

Ltac case_if :=
  match goal with |- context [if ?c then _ else _] => destruct c end.

Lemma digits2_pos_size p : digits2_pos p = Pos.size p.
Proof. induction p; simpl; congruence. Qed.

Lemma Zdigits2_log2 p : Zdigits2 (Zpos p) = Z.log2 (Zpos p) + 1.
Proof.
  unfold Zdigits2. rewrite digits2_pos_size.
  destruct p; simpl; lia.
Qed.

Lemma Zdigits2_bounds m : 0 < m -> 2 ^ (Zdigits2 m - 1) <= m < 2 ^ Zdigits2 m.
Proof.
  intros H. destruct m as [|p|p]; try lia.
  rewrite Zdigits2_log2.
  pose proof (Z.log2_spec (Zpos p) H) as [L U].
  replace (Z.log2 (Z.pos p) + 1 - 1) with (Z.log2 (Z.pos p)) by lia.
  replace (Z.log2 (Z.pos p) + 1) with (Z.succ (Z.log2 (Z.pos p))) by lia.
  split; assumption.
Qed.

Lemma Zdigits2_nonneg m : 0 <= Zdigits2 m.
Proof. destruct m; simpl; lia. Qed.

Lemma Zdigits2_pos m : 0 < m -> 0 < Zdigits2 m.
Proof. destruct m; simpl; lia. Qed.

Lemma shr_1_m r : 0 <= shr_m r -> shr_m (shr_1 r) = shr_m r / 2.
Proof.
  destruct r as [m rr s]. simpl. intros H.
  destruct m as [|[p|p|]|p]; simpl; try lia; try reflexivity.
  - rewrite Pos2Z.inj_xI. apply Z.div_unique with 1; lia.
  - rewrite Pos2Z.inj_xO. apply Z.div_unique with 0; lia.
Qed.

Lemma shr_1_nonneg r : 0 <= shr_m r -> 0 <= shr_m (shr_1 r).
Proof. intros H. rewrite shr_1_m by assumption. apply Z.div_pos; lia. Qed.

Lemma iter_shr_1 p : forall r, 0 <= shr_m r ->
  shr_m (iter_pos shr_1 p r) = shr_m r / 2 ^ Zpos p.
Proof.
  induction p as [p IH|p IH|]; intros r H; simpl iter_pos.
  - assert (H1 : 0 <= shr_m (shr_1 r)) by now apply shr_1_nonneg.
    assert (H2 : 0 <= shr_m (iter_pos shr_1 p (shr_1 r))).
    { rewrite IH by assumption. apply Z.div_pos; [assumption|]. apply Z.pow_pos_nonneg; lia. }
    rewrite IH by assumption. rewrite IH by assumption.
    rewrite shr_1_m by assumption.
    rewrite !Z.div_div by (try apply Z.pow_pos_nonneg; lia).
    f_equal. change 2 with (2 ^ 1) at 1.
    rewrite <- !Z.pow_add_r by lia. f_equal. lia.
  - assert (H2 : 0 <= shr_m (iter_pos shr_1 p r)).
    { rewrite IH by assumption. apply Z.div_pos; [assumption|]. apply Z.pow_pos_nonneg; lia. }
    rewrite IH by assumption. rewrite IH by assumption.
    rewrite !Z.div_div by (try apply Z.pow_pos_nonneg; lia).
    f_equal. rewrite <- Z.pow_add_r by lia. f_equal. lia.
  - rewrite shr_1_m by assumption. reflexivity.
Qed.

Lemma shr_record_of_loc_m m l : shr_m (shr_record_of_loc m l) = m.
Proof. destruct l as [|[]]; reflexivity. Qed.

(** What [shr_fexp] computes: mantissa divided by a power of two, exponent raised. *)
Lemma shr_fexp_spec m e l : 0 <= m ->
  let n := Z.max 0 (fexp prec emax (Zdigits2 m + e) - e) in
  shr_m (fst (shr_fexp prec emax m e l)) = m / 2 ^ n /\
  snd (shr_fexp prec emax m e l) = e + n.
Proof.
  intros H n. unfold shr_fexp, shr. subst n.
  destruct (fexp prec emax (Zdigits2 m + e) - e) as [|p|p] eqn:E; simpl fst; simpl snd.
  - rewrite shr_record_of_loc_m. rewrite Z.max_l by lia. simpl. rewrite Z.div_1_r. lia.
  - rewrite iter_shr_1 by (rewrite shr_record_of_loc_m; assumption).
    rewrite shr_record_of_loc_m. rewrite Z.max_r by lia. lia.
  - rewrite shr_record_of_loc_m. rewrite Z.max_l by lia. simpl. rewrite Z.div_1_r. lia.
Qed.

Lemma fexp_eq x : fexp prec emax x = Z.max (x - 53) (-1074).
Proof. reflexivity. Qed.

Lemma Zdigits2_le m k : 0 <= m -> 0 <= k -> m < 2 ^ k -> Zdigits2 m <= k.
Proof.
  intros Hm Hk H.
  destruct (Z.eq_dec m 0) as [->|Hz]; [simpl; lia|].
  pose proof (Zdigits2_bounds m ltac:(lia)) as [L _].
  pose proof (Zdigits2_pos m ltac:(lia)).
  destruct (Z_le_gt_dec (Zdigits2 m) k) as [|G]; [assumption|exfalso].
  assert (2 ^ k <= 2 ^ (Zdigits2 m - 1)) by (apply Z.pow_le_mono_r; lia).
  lia.
Qed.

Lemma round_nearest_even_bounds m l :
  m <= round_nearest_even m l <= m + 1.
Proof. destruct l as [|[]]; simpl; try lia. destruct (Z.even m); lia. Qed.

Lemma div_pow2_pos m d n :
  0 <= n -> n <= d - 1 -> 2 ^ (d - 1) <= m -> 0 < m / 2 ^ n.
Proof.
  intros Hn Hd Hm.
  assert (0 < 2 ^ n) by (apply Z.pow_pos_nonneg; lia).
  assert (2 ^ n <= 2 ^ (d - 1)) by (apply Z.pow_le_mono_r; lia).
  apply Z.div_str_pos. lia.
Qed.

Lemma binary_round_aux_spec sx mx ex lx :
  0 <= mx ->
  exists m3 e3,
    binary_round_aux prec emax sx mx ex lx = round_result sx m3 e3 /\
    0 <= m3 /\ -1074 <= e3 /\
    e3 <= Z.max ex (Z.max (Zdigits2 mx + ex - 52) (-1074)) /\
    (0 < mx -> -1074 < Zdigits2 mx + ex -> 0 < m3).
Proof.
  intros Hmx. unfold binary_round_aux.
  pose proof (shr_fexp_spec mx ex lx Hmx) as [Hm1 He1].
  destruct (shr_fexp prec emax mx ex lx) as [mrs1 e1]. simpl fst in *. simpl snd in *.
  set (n1 := Z.max 0 (fexp prec emax (Zdigits2 mx + ex) - ex)) in *.
  assert (En1 : n1 = Z.max 0 (Z.max (Zdigits2 mx + ex - 53) (-1074) - ex)) by reflexivity.
  clearbody n1.
  set (m2 := round_nearest_even (shr_m mrs1) (loc_of_shr_record mrs1)).
  assert (Hn1 : 0 <= n1) by lia.
  assert (Hp1 : 0 < 2 ^ n1) by (apply Z.pow_pos_nonneg; lia).
  assert (Hm1' : 0 <= shr_m mrs1) by (rewrite Hm1; apply Z.div_pos; lia).
  pose proof (round_nearest_even_bounds (shr_m mrs1) (loc_of_shr_record mrs1)) as Hr.
  fold m2 in Hr.
  assert (Hm2 : 0 <= m2) by lia.
  pose proof (shr_fexp_spec m2 e1 loc_Exact Hm2) as [Hm3 He3].
  destruct (shr_fexp prec emax m2 e1 loc_Exact) as [mrs3 e3]. simpl fst in *. simpl snd in *.
  set (n3 := Z.max 0 (fexp prec emax (Zdigits2 m2 + e1) - e1)) in *.
  assert (En3 : n3 = Z.max 0 (Z.max (Zdigits2 m2 + e1 - 53) (-1074) - e1)) by reflexivity.
  clearbody n3.
  assert (Hn3 : 0 <= n3) by lia.
  assert (Hp3 : 0 < 2 ^ n3) by (apply Z.pow_pos_nonneg; lia).
  exists (shr_m mrs3), e3.
  split; [reflexivity|].
  split; [rewrite Hm3; apply Z.div_pos; lia|].
  pose proof (Zdigits2_nonneg mx) as Hdx.
  pose proof (Zdigits2_nonneg m2) as Hd2.
  split; [lia|].
  split.
  - (* upper bound on the exponent *)
    assert (Hd2' : Zdigits2 m2 + e1 <= Z.max (Zdigits2 mx + ex) e1 + 1).
    { destruct (Z_lt_le_dec n1 (Zdigits2 mx)) as [Hlt|Hge].
      - assert (Hmxd : mx < 2 ^ Zdigits2 mx).
        { destruct (Z.eq_dec mx 0) as [->|]; [simpl; lia|].
          apply Zdigits2_bounds; lia. }
        assert (shr_m mrs1 < 2 ^ (Zdigits2 mx - n1)).
        { rewrite Hm1. apply Z.div_lt_upper_bound; [lia|].
          rewrite <- Z.pow_add_r by lia.
          replace (n1 + (Zdigits2 mx - n1)) with (Zdigits2 mx) by lia. assumption. }
        assert (Zdigits2 m2 <= Zdigits2 mx - n1 + 1).
        { apply Zdigits2_le; [lia|lia|].
          rewrite Z.pow_add_r by lia. change (2 ^ 1) with 2.
          assert (0 < 2 ^ (Zdigits2 mx - n1)) by (apply Z.pow_pos_nonneg; lia). lia. }
        lia.
      - assert (shr_m mrs1 = 0).
        { rewrite Hm1. apply Z.div_small. split; [lia|].
          destruct (Z.eq_dec mx 0) as [->|]; [lia|].
          pose proof (Zdigits2_bounds mx ltac:(lia)) as [_ U].
          assert (2 ^ Zdigits2 mx <= 2 ^ n1) by (apply Z.pow_le_mono_r; lia). lia. }
        assert (Zdigits2 m2 <= 1).
        { apply Zdigits2_le; [lia|lia|]. change (2 ^ 1) with 2. lia. }
        lia. }
    lia.
  - (* the mantissa does not vanish *)
    intros Hpos Hund.
    pose proof (Zdigits2_bounds mx Hpos) as [Lx _].
    pose proof (Zdigits2_pos mx Hpos).
    assert (H1 : 0 < shr_m mrs1).
    { rewrite Hm1. apply div_pow2_pos with (Zdigits2 mx); [lia| |assumption].
      lia. }
    assert (H2 : 0 < m2) by lia.
    pose proof (Zdigits2_bounds m2 H2) as [L2 _].
    pose proof (Zdigits2_pos m2 H2).
    rewrite Hm3. apply div_pow2_pos with (Zdigits2 m2); [lia| |assumption].
    lia.
Qed.

Lemma iter_xO m d : Zpos (Pos.iter xO m d) = Zpos m * 2 ^ Zpos d.
Proof.
  revert m. induction d using Pos.peano_ind; intros m.
  - simpl. lia.
  - rewrite Pos.iter_succ. rewrite Pos2Z.inj_xO, IHd.
    rewrite Pos2Z.inj_succ, Z.pow_succ_r by lia. lia.
Qed.

Lemma shl_align_spec mx ex ex' :
  let ez := Z.min ex ex' in
  snd (shl_align mx ex ex') = ez /\
  Zpos (fst (shl_align mx ex ex')) = Zpos mx * 2 ^ (ex - ez).
Proof.
  cbv zeta. unfold shl_align.
  destruct (ex' - ex) as [|p|p] eqn:E; simpl fst; simpl snd.
  - assert (Z.min ex ex' = ex) as -> by lia. rewrite Z.sub_diag.
    split; [reflexivity|change (2 ^ 0) with 1; lia].
  - assert (Z.min ex ex' = ex) as -> by lia. rewrite Z.sub_diag.
    split; [reflexivity|change (2 ^ 0) with 1; lia].
  - assert (Z.min ex ex' = ex') as -> by lia. split; [reflexivity|].
    rewrite iter_xO. f_equal. f_equal. lia.
Qed.

Lemma round_result_pos sx m e :
  0 < m -> -1074 <= e -> pos_result sx (round_result sx m e).
Proof.
  intros Hm He. destruct m as [|p|p]; try lia. exists p, e. split; [reflexivity|assumption].
Qed.

Lemma binary_round_pos sx mx ex :
  -1074 <= ex -> pos_result sx (binary_round prec emax sx mx ex).
Proof.
  intros Hex. unfold binary_round.
  pose proof (shl_align_spec mx ex (fexp prec emax (Zpos (digits2_pos mx) + ex))) as [He Hm].
  destruct (shl_align mx ex _) as [mz ez]. simpl fst in *. simpl snd in *.
  destruct (binary_round_aux_spec sx (Zpos mz) ez loc_Exact ltac:(lia))
    as (m3 & e3 & -> & H0 & Hlo & Hhi & Hpos).
  apply round_result_pos; [|assumption].
  apply Hpos; [lia|].
  pose proof (Zdigits2_pos (Zpos mz) ltac:(lia)).
  rewrite fexp_eq in He. lia.
Qed.

Lemma binary_round_finite sx mx ex k :
  -1074 <= ex -> ex <= 971 -> Zpos mx < 2 ^ k -> 0 <= k -> k + ex <= 1023 ->
  exists m e, binary_round prec emax sx mx ex = S754_finite sx m e /\ -1074 <= e.
Proof.
  intros Hex Hex' Hk Hk0 Hke. unfold binary_round.
  pose proof (shl_align_spec mx ex (fexp prec emax (Zpos (digits2_pos mx) + ex))) as [He Hm].
  destruct (shl_align mx ex _) as [mz ez]. simpl fst in *. simpl snd in *.
  destruct (binary_round_aux_spec sx (Zpos mz) ez loc_Exact ltac:(lia))
    as (m3 & e3 & -> & H0 & Hlo & Hhi & Hpos).
  rewrite <- He in Hm.
  assert (Hd : Zdigits2 (Zpos mz) + ez <= k + ex).
  { assert (Zdigits2 (Zpos mz) <= k + (ex - ez)).
    { apply Zdigits2_le; [lia|lia|].
      rewrite Hm, Z.pow_add_r by lia.
      assert (0 < 2 ^ (ex - ez)) by (apply Z.pow_pos_nonneg; lia).
      apply Z.mul_lt_mono_pos_r; assumption. }
    lia. }
  assert (0 < m3).
  { apply Hpos; [lia|]. pose proof (Zdigits2_pos (Zpos mz) ltac:(lia)).
    rewrite fexp_eq in He. lia. }
  destruct m3 as [|p|p]; try lia. simpl.
  assert (e3 <= 971) by lia.
  destruct (Z.leb_spec e3 971) as [_|?]; [|lia].
  exists p, e3. split; [reflexivity|assumption].
Qed.

(** [float(n)] of an integer below [2^1023] in magnitude returns a zero or
    a finite float of the sign of [n]. *)
Lemma round_Z_finite n :
  Z.abs n < 2 ^ 1023 ->
  round_Z n = S754_zero false \/
  exists m e, round_Z n = S754_finite (n <? 0) m e /\ -1074 <= e.
Proof.
  intros Hn. unfold round_Z, binary_normalize.
  destruct n as [|p|p].
  - left. reflexivity.
  - right. apply binary_round_finite with 1023; lia.
  - right. apply binary_round_finite with 1023; lia.
Qed.

Lemma float_of_int_finite n :
  Z.abs n < 2 ^ 1023 ->
  exists x, float_of_int n = Ok x /\
    (x = S754_zero false \/ exists m e, x = S754_finite (n <? 0) m e /\ -1074 <= e).
Proof.
  intros Hn. unfold float_of_int.
  destruct (round_Z_finite n Hn) as [E|(m & e & E & He)]; rewrite E; simpl.
  - eexists; split; [reflexivity|]. left; reflexivity.
  - eexists; split; [reflexivity|]. right. exists m, e. split; [reflexivity|assumption].
Qed.

(** Whatever [float(n)] returns is a zero or a finite float. *)
Lemma float_of_int_Ok n x :
  float_of_int n = Ok x -> is_finite x = true.
Proof.
  unfold float_of_int, round_Z, binary_normalize.
  destruct n as [|p|p].
  - simpl. intros [= <-]. reflexivity.
  - destruct (binary_round_pos false p 0 ltac:(lia)) as (m & e & -> & _).
    destruct (e <=? emax - prec); simpl; [intros [= <-]; reflexivity|discriminate].
  - destruct (binary_round_pos true p 0 ltac:(lia)) as (m & e & -> & _).
    destruct (e <=? emax - prec); simpl; [intros [= <-]; reflexivity|discriminate].
Qed.

Lemma round_result_signed sx m e :
  0 <= m -> -1074 <= e -> signed sx (round_result sx m e).
Proof.
  intros Hm He. destruct m as [|p|p]; try lia.
  - left. reflexivity.
  - simpl. case_if.
    + right. right. exists p, e. split; [reflexivity|assumption].
    + right. left. reflexivity.
Qed.

Lemma pos_result_signed sx x : pos_result sx x -> signed sx x.
Proof.
  intros (m & e & -> & He). destruct (e <=? emax - prec).
  - right. right. exists m, e. split; [reflexivity|assumption].
  - right. left. reflexivity.
Qed.

Lemma pos_result_nonzero sx x : pos_result sx x -> feqb x f0 = false.
Proof.
  intros (m & e & -> & He). destruct (e <=? emax - prec); destruct sx; reflexivity.
Qed.

Lemma div_eucl_div a b : 0 < b ->
  Z.div_eucl a b = (a / b, a mod b).
Proof.
  intros Hb. unfold Z.div, Z.modulo. destruct (Z.div_eucl a b). reflexivity.
Qed.

Lemma SFdiv_core_spec m1 e1 m2 e2 :
  let e' := Z.min (fexp prec emax (Zdigits2 (Zpos m1) + e1 - (Zdigits2 (Zpos m2) + e2)))
                  (e1 - e2) in
  exists l,
    SFdiv_core_binary prec emax (Zpos m1) e1 (Zpos m2) e2 =
      (Zpos m1 * 2 ^ (e1 - e2 - e') / Zpos m2, e', l).
Proof.
  intros e'. unfold SFdiv_core_binary. fold e'.
  assert (He' : e' <= e1 - e2) by (subst e'; lia).
  destruct (e1 - e2 - e') as [|p|p] eqn:E; try lia.
  - rewrite div_eucl_div by lia. eexists. f_equal. f_equal.
    change (2 ^ 0) with 1. f_equal. lia.
  - rewrite div_eucl_div by lia. eexists. f_equal. f_equal.
    rewrite Z.shiftl_mul_pow2 by lia. reflexivity.
Qed.

(** The quotient of two finite floats is a float of the product sign. *)
Lemma fdiv_finite_signed s1 m1 e1 s2 m2 e2 :
  signed (xorb s1 s2) (fdiv (S754_finite s1 m1 e1) (S754_finite s2 m2 e2)).
Proof.
  unfold fdiv, SFdiv.
  destruct (SFdiv_core_spec m1 e1 m2 e2) as (l & ->).
  set (q := _ / _).
  assert (Hq : 0 <= q).
  { subst q. apply Z.div_pos; [|lia].
    apply Z.mul_nonneg_nonneg; [lia|]. apply Z.pow_nonneg. lia. }
  destruct (binary_round_aux_spec (xorb s1 s2) q
              (Z.min (fexp prec emax (Zdigits2 (Zpos m1) + e1 - (Zdigits2 (Zpos m2) + e2)))
                     (e1 - e2)) l Hq)
    as (m3 & e3 & -> & H0 & Hlo & _).
  apply round_result_signed; assumption.
Qed.

(** [x / x] is exactly [1.0] for every finite [x]. *)
Lemma fdiv_self s m e : fdiv (S754_finite s m e) (S754_finite s m e) = f1.
Proof.
  unfold fdiv, SFdiv, SFdiv_core_binary.
  replace (Zdigits2 (Z.pos m) + e - (Zdigits2 (Z.pos m) + e)) with 0 by lia.
  replace (e - e) with 0 by lia.
  change (Z.min (fexp prec emax 0) 0) with (-53).
  change (0 - -53) with 53.
  rewrite Z.shiftl_mul_pow2 by lia.
  rewrite div_eucl_div by lia.
  rewrite (Z.mul_comm (Z.pos m)).
  rewrite Z.div_mul by lia. rewrite Z.mod_mul by lia.
  assert (Hl : new_location (Z.pos m) 0 = loc_Exact).
  { unfold new_location, new_location_even, new_location_odd.
    destruct (Z.even (Z.pos m)); reflexivity. }
  rewrite Hl. rewrite xorb_nilpotent. reflexivity.
Qed.

(** The quotient of two positive integers below [2^k] is representable. *)
Lemma int_truediv_pos a b k :
  0 < a -> 0 < b -> a < 2 ^ k -> 0 <= k -> k <= 1000 ->
  exists r, int_truediv a b = Ok r /\
    (r = S754_zero false \/ exists m e, r = S754_finite false m e /\ -1074 <= e).
Proof.
  intros Ha Hb Hk Hk0 Hk1. unfold int_truediv.
  replace (b =? 0) with false by (symmetry; apply Z.eqb_neq; lia).
  destruct a as [|pa|pa]; try lia. destruct b as [|pb|pb]; try lia.
  unfold fdiv, Z2SF, SFdiv.
  destruct (SFdiv_core_spec pa 0 pb 0) as (l & ->).
  set (e' := Z.min _ _). set (q := _ / _).
  assert (He' : e' <= 0) by (subst e'; lia).
  assert (Hp : 0 < 2 ^ (0 - 0 - e')) by (apply Z.pow_pos_nonneg; lia).
  assert (Hq : 0 <= q).
  { subst q. apply Z.div_pos; [|lia]. apply Z.mul_nonneg_nonneg; lia. }
  assert (Hqk : q < 2 ^ (k - e')).
  { subst q. apply Z.div_lt_upper_bound; [lia|].
    replace (k - e') with (k + (0 - 0 - e')) by lia.
    rewrite Z.pow_add_r by lia.
    apply Z.lt_le_trans with (2 ^ k * 2 ^ (0 - 0 - e')).
    - apply Z.mul_lt_mono_pos_r; assumption.
    - assert (0 < 2 ^ k) by (apply Z.pow_pos_nonneg; lia). nia. }
  assert (Hdq : Zdigits2 q <= k - e') by (apply Zdigits2_le; lia).
  destruct (binary_round_aux_spec (xorb false false) q e' l Hq)
    as (m3 & e3 & -> & H0 & Hlo & Hhi & _).
  simpl xorb.
  destruct m3 as [|p|p]; try lia; simpl.
  - eexists; split; [reflexivity|]. left; reflexivity.
  - destruct (Z.leb_spec e3 971) as [_|?]; [|lia]. simpl.
    eexists; split; [reflexivity|]. right. exists p, e3. split; [reflexivity|assumption].
Qed.

Lemma f1_eq : f1 = S754_finite false 4503599627370496 (-52).
Proof. reflexivity. Qed.

(** [1 + r] is not zero for a float [r >= 0]. *)
Lemma fadd_one_nonzero r : signed false r -> feqb (fadd f1 r) f0 = false.
Proof.
  intros [->|[->|(m & e & -> & He)]]; try reflexivity.
  rewrite f1_eq. unfold fadd, SFadd.
  set (ez := Z.min (-52) e).
  destruct (shl_align 4503599627370496 (-52) ez) as [a ea].
  destruct (shl_align m e ez) as [b eb]. simpl fst. simpl cond_Zopp.
  change (Z.pos a + Z.pos b) with (Z.pos (a + b)).
  unfold binary_normalize.
  apply pos_result_nonzero with false. apply binary_round_pos. subst ez. lia.
Qed.

(** What [0 < x < 1] and validity say of a float [x]. *)
Lemma unit_interval_float x :
  valid_binary prec emax x = true ->
  lt (PInt 0) (PFloat x) = true -> lt (PFloat x) (PInt 1) = true ->
  exists m e, x = S754_finite false m e /\ -1074 <= e < 0 /\ Zpos m < 2 ^ (- e).
Proof.
  intros Hv H0 H1.
  destruct x as [s|s| |s m e]; try (destruct s; discriminate); try discriminate.
  unfold lt, compare, compare_Z_float in H0, H1.
  assert (Hs : s = false).
  { destruct s; [exfalso|reflexivity]. simpl cond_Zopp in H0.
    destruct (Z.leb_spec 0 e).
    - rewrite Z.shiftl_mul_pow2 in H0 by assumption.
      assert (0 < 2 ^ e) by (apply Z.pow_pos_nonneg; lia).
      destruct (Z.compare_spec 0 (Z.neg m * 2 ^ e)); try discriminate; nia.
    - rewrite Z.shiftl_mul_pow2 in H0 by lia. simpl in H0. discriminate. }
  subst s. simpl cond_Zopp in H1.
  assert (He : e < 0 /\ Zpos m < 2 ^ (- e)).
  { destruct (Z.leb_spec 0 e).
    - exfalso. rewrite Z.shiftl_mul_pow2 in H1 by assumption.
      assert (0 < 2 ^ e) by (apply Z.pow_pos_nonneg; lia).
      destruct (Z.compare_spec 1 (Z.pos m * 2 ^ e)); try discriminate; nia.
    - split; [assumption|]. rewrite Z.shiftl_mul_pow2 in H1 by lia.
      destruct (Z.compare_spec (1 * 2 ^ (- e)) (Z.pos m)); try discriminate; lia. }
  exists m, e. split; [reflexivity|]. split; [|apply He].
  split; [|apply He].
  simpl in Hv. unfold bounded, canonical_mantissa in Hv.
  apply andb_true_iff in Hv. destruct Hv as [Hc _].
  apply Z.eqb_eq in Hc. rewrite fexp_eq in Hc. lia.
Qed.

(** [1 - x] is not zero for a binary64 value [0 < x < 1], nor is [x]. *)
Lemma fsub_one_nonzero x :
  valid_binary prec emax x = true ->
  lt (PInt 0) (PFloat x) = true -> lt (PFloat x) (PInt 1) = true ->
  feqb (fsub f1 x) f0 = false /\ feqb x f0 = false.
Proof.
  intros Hv H0 H1.
  destruct (unit_interval_float x Hv H0 H1) as (m & e & -> & He & Hm).
  split; [|reflexivity].
  rewrite f1_eq. unfold fsub, SFsub.
  set (ez := Z.min (-52) e).
  pose proof (shl_align_spec 4503599627370496 (-52) ez) as [_ Ha].
  pose proof (shl_align_spec m e ez) as [_ Hb].
  destruct (shl_align 4503599627370496 (-52) ez) as [a ea].
  destruct (shl_align m e ez) as [b eb]. simpl fst in *. simpl cond_Zopp.
  replace (Z.min (-52) ez) with ez in Ha by (subst ez; lia).
  replace (Z.min e ez) with ez in Hb by (subst ez; lia).
  assert (Hez : -1074 <= ez <= -52 /\ ez <= e) by (subst ez; lia).
  clearbody ez.
  assert (Hd : 0 < Z.pos a - Z.pos b).
  { rewrite Ha, Hb.
    change (Z.pos 4503599627370496) with (2 ^ 52).
    rewrite <- Z.pow_add_r by lia.
    replace (52 + (-52 - ez)) with (- e + (e - ez)) by lia.
    rewrite Z.pow_add_r by lia.
    assert (0 < 2 ^ (e - ez)) by (apply Z.pow_pos_nonneg; lia). nia. }
  destruct (Z.pos a - Z.pos b) as [|p|p]; try lia.
  unfold binary_normalize.
  apply pos_result_nonzero with false. apply binary_round_pos. lia.
Qed.

(** ** The swap-output quote *)

Lemma quoteOut_value fee a rin rout :
  rin <> 0%N -> rout <> 0%N ->
  PoolMath.quoteOut fee a rin rout =
    inr (a * (10000 - fee) * rout / (rin * 10000 + a * (10000 - fee)))%N.
Proof.
  intros H1 H2. unfold PoolMath.quoteOut.
  apply N.eqb_neq in H1, H2. rewrite H1, H2. reflexivity.
Qed.

Lemma quoteOut_invalid fee a rin rout :
  PoolMath.quoteOut fee a rin rout = inl PoolMath.InvalidReserves <->
  rin = 0%N \/ rout = 0%N.
Proof.
  unfold PoolMath.quoteOut. split.
  - destruct (N.eqb_spec rin 0); [auto|]. destruct (N.eqb_spec rout 0); [auto|].
    discriminate.
  - intros [-> | ->]; [reflexivity|]. rewrite orb_true_r. reflexivity.
Qed.

Lemma quote_lt (x d r : N) : (0 < d)%N -> (0 < r)%N -> (x * r / (d + x) < r)%N.
Proof.
  intros Hd Hr. apply N.Div0.div_lt_upper_bound. nia.
Qed.

Lemma quote_mono (x x' d r : N) :
  (0 < d)%N -> (0 < r)%N -> (x <= x')%N ->
  (x * r / (d + x) <= x' * r / (d + x'))%N.
Proof.
  intros Hd Hr Hx.
  pose proof (quote_lt x d r Hd Hr) as Hlt.
  set (t := (x * r / (d + x))%N) in *.
  assert (Ht : (t * (d + x) <= x * r)%N).
  { subst t. rewrite N.mul_comm. apply N.Div0.mul_div_le. }
  apply N.div_le_lower_bound; [lia|]. nia.
Qed.

Section SwapQuote.
Context {L : Type} {W3 : Web3 L} {R : Type}.

Lemma calculate_swap_output_spec (x : Trader.t R) (l : L) amount_in token_in :
  Trader.calculate_swap_output amount_in token_in (x, l) =
  (engine_quote x l amount_in token_in, (x, l)).
Proof.
  unfold Trader.calculate_swap_output, engine_quote, try_except, bind, self, gets,
    w3_read, read, lift_outcome, ret. simpl.
  destruct (getReserves _ l) as [[ra rb]|e]; simpl.
  2: destruct (is_Exception e); reflexivity.
  destruct (String.eqb token_in _); simpl;
    destruct (getAmountOut _ _ _ _ l) as [out|e]; simpl;
    try reflexivity; destruct (is_Exception e); reflexivity.
Qed.

End SwapQuote.

(** C4 (amended): the engine's quote is the pool contract's [getAmountOut]
    on the reserves just read, and [0], not a failure, when that call or the
    read raises.  For a contract computing the constant-product formula with
    the fee deducted from the input, which fails with [InvalidReserves]
    exactly when a reserve is zero: with a zero reserve the engine's quote is
    [0]; with both reserves positive it is the floor of
    [amountIn·(10000−fee)·reserveOut / (reserveIn·10000 + amountIn·(10000−fee))],
    non-decreasing in [amountIn] and strictly below [reserveOut]. *)
Theorem swap_quote :
  (forall L (W3 : Web3 L) R (x : Trader.t R) (l : L) amount_in token_in,
     Trader.calculate_swap_output amount_in token_in (x, l) =
     (engine_quote x l amount_in token_in, (x, l))) /\
  (forall L (W3 : Web3 L) R (x : Trader.t R) (l : L) amount_in fee ra rb revert,
     0 <= amount_in ->
     getReserves (Trader.amm_address x) l = Ok (ra, rb) ->
     is_Exception revert = true ->
     (forall rin rout,
        getAmountOut (Trader.amm_address x) amount_in (Z.of_N rin) (Z.of_N rout) l =
        match PoolMath.quoteOut fee (Z.to_N amount_in) rin rout with
        | inl PoolMath.InvalidReserves => Raise revert
        | inr out => Ok out
        end) ->
     engine_quote x l amount_in (Trader.token_a_address x) =
     Ok (match PoolMath.quoteOut fee (Z.to_N amount_in) ra rb with
         | inl PoolMath.InvalidReserves => 0
         | inr out => Z.of_N out
         end)) /\
  (forall fee a rin rout,
     PoolMath.quoteOut fee a rin rout = inl PoolMath.InvalidReserves <->
     rin = 0%N \/ rout = 0%N) /\
  (forall fee a a' rin rout,
     (0 < rin)%N -> (0 < rout)%N -> (a <= a')%N ->
     exists q q',
       PoolMath.quoteOut fee a rin rout = inr q /\
       PoolMath.quoteOut fee a' rin rout = inr q' /\
       q = (a * (10000 - fee) * rout / (rin * 10000 + a * (10000 - fee)))%N /\
       (q <= q')%N /\ (q' < rout)%N).
Proof.
  split; [|split; [|split]].
  - intros. apply calculate_swap_output_spec.
  - intros L W3 R x l a fee ra rb revert Ha Hr He Hq.
    unfold engine_quote. rewrite Hr, String.eqb_refl, Hq.
    destruct (PoolMath.quoteOut fee (Z.to_N a) ra rb) as [[]|out];
      [rewrite He|]; reflexivity.
  - apply quoteOut_invalid.
  - intros fee a a' rin rout Hin Hout Ha.
    rewrite !quoteOut_value by lia.
    eexists _, _. split; [reflexivity|]. split; [reflexivity|].
    split; [reflexivity|]. split.
    + apply quote_mono; [lia|lia|]. apply N.mul_le_mono_r, Ha.
    + apply quote_lt; lia.
Qed.

(** C4, as stated, fails: on a pool with an empty reserve the contract
    fails with [InvalidReserves], yet the engine's quote is [0] and no
    failure; and the quote is not strictly increasing, [0] and [1] units in
    both quote [0] on reserves of 1000. *)
Lemma swap_quote_swallows_invalid_reserves :
  getAmountOut "0xAMM" 100 0 0 Scenario.ledger =
    Raise (Exn Web3Error "execution reverted: InvalidReserves") /\
  PoolMath.quoteOut 30 100 0 0 = inl PoolMath.InvalidReserves /\
  Trader.calculate_swap_output 100 "0xToken" (Scenario.trader, Scenario.ledger) =
    (Ok 0, (Scenario.trader, Scenario.ledger)) /\
  PoolMath.quoteOut 30 0 1000 1000 = inr 0%N /\
  PoolMath.quoteOut 30 1 1000 1000 = inr 0%N.
Proof. vm_compute. repeat split; reflexivity. Qed.

Lemma swap_quote_witness :
  engine_quote Scenario.trader (Scenario.with_reserves 1000 2000 Scenario.ledger)
    100 "0xToken" = Ok 181 /\
  engine_quote Scenario.trader Scenario.ledger 100 "0xToken" = Ok 0 /\
  exists q q',
    PoolMath.quoteOut 30 100 1000 2000 = inr q /\
    PoolMath.quoteOut 30 200 1000 2000 = inr q' /\
    q = (100 * (10000 - 30) * 2000 / (1000 * 10000 + 100 * (10000 - 30)))%N /\
    (q <= q')%N /\ (q' < 2000)%N.
Proof.
  split; [|split].
  - apply (proj1 (proj2 swap_quote) _ _ _ Scenario.trader
             (Scenario.with_reserves 1000 2000 Scenario.ledger) 100 30%N
             1000%N 2000%N (Exn Web3Error "execution reverted: InvalidReserves"));
      [lia | reflexivity | reflexivity |].
    intros rin rout. cbn [getAmountOut Sim.web3]. unfold Sim.reading.
    cbn [Sim.reachable Scenario.with_reserves Scenario.ledger Sim.fee_bps].
    assert (H : forall n, (Z.of_N n <? 0) = false) by (intros n; apply Z.ltb_ge; lia).
    rewrite !H, !N2Z.id. reflexivity.
  - apply (proj1 (proj2 swap_quote) _ _ _ Scenario.trader Scenario.ledger 100 30%N
             0%N 0%N (Exn Web3Error "execution reverted: InvalidReserves"));
      [lia | reflexivity | reflexivity |].
    intros rin rout. cbn [getAmountOut Sim.web3]. unfold Sim.reading.
    cbn [Sim.reachable Scenario.ledger Sim.fee_bps].
    assert (H : forall n, (Z.of_N n <? 0) = false) by (intros n; apply Z.ltb_ge; lia).
    rewrite !H, !N2Z.id. reflexivity.
  - apply (proj2 (proj2 (proj2 swap_quote)) 30%N 100%N 200%N 1000%N 2000%N); lia.
Defined.

(** ** Impermanent loss *)

Lemma math_sqrt_signed r : signed false r -> math_sqrt r = Ok (fsqrt r).
Proof. intros [->|[->|(m & e & -> & _)]]; reflexivity. Qed.

Lemma nonneg_finite_signed r :
  r = S754_zero false \/ (exists m e, r = S754_finite false m e /\ -1074 <= e) ->
  signed false r.
Proof. intros [->|H]; [left; reflexivity|right; right; assumption]. Qed.

Lemma fdiv_nonneg_signed rc ri :
  signed false rc -> is_inf rc = false ->
  (exists m e, ri = S754_finite false m e) ->
  signed false (fdiv rc ri).
Proof.
  intros [->|[->|(m & e & -> & _)]] Hinf (mi & ei & ->); try discriminate.
  - left. reflexivity.
  - apply (fdiv_finite_signed false m e false mi ei).
Qed.

Lemma impermanent_loss_zero ia ib ca cb :
  ia = 0 \/ ib = 0 \/ ca = 0 \/ cb = 0 ->
  MarketMaker.impermanent_loss_of ia ib ca cb = Ok None.
Proof.
  intros H. unfold MarketMaker.impermanent_loss_of.
  replace ((ia =? 0) || (ib =? 0) || (ca =? 0) || (cb =? 0)) with true; [reflexivity|].
  symmetry. destruct H as [->|[->|[->| ->]]]; rewrite ?orb_true_r; reflexivity.
Qed.

Lemma impermanent_loss_zero_ratio ia ib ca cb ri rc :
  int_truediv ia ib = Ok ri -> int_truediv ca cb = Ok rc -> feqb ri f0 = true ->
  MarketMaker.impermanent_loss_of ia ib ca cb = Ok None.
Proof.
  intros Ei Ec Hz. unfold MarketMaker.impermanent_loss_of.
  case_if; [reflexivity|]. rewrite Ei, Ec. cbn [obind]. rewrite Hz. reflexivity.
Qed.

Lemma impermanent_loss_formula ia ib ca cb :
  0 < ia < 2 ^ 256 -> 0 < ib < 2 ^ 256 -> 0 < ca < 2 ^ 256 -> 0 < cb < 2 ^ 256 ->
  exists initial_ratio current_ratio,
    int_truediv ia ib = Ok initial_ratio /\
    int_truediv ca cb = Ok current_ratio /\
    MarketMaker.impermanent_loss_of ia ib ca cb =
      Ok (if feqb initial_ratio f0 then None
          else Some (IL_formula (fdiv current_ratio initial_ratio))).
Proof.
  intros Hia Hib Hca Hcb.
  destruct (int_truediv_pos ia ib 256) as (ri & Ei & Hri); try lia.
  destruct (int_truediv_pos ca cb 256) as (rc & Ec & Hrc); try lia.
  exists ri, rc. split; [assumption|]. split; [assumption|].
  unfold MarketMaker.impermanent_loss_of.
  replace ((ia =? 0) || (ib =? 0) || (ca =? 0) || (cb =? 0)) with false.
  2: { symmetry. repeat (apply orb_false_iff; split); apply Z.eqb_neq; lia. }
  rewrite Ei, Ec. cbn [obind].
  destruct (feqb ri f0) eqn:Ez; [reflexivity|].
  unfold float_truediv at 1. rewrite Ez. cbn [obind].
  assert (Hs : signed false (fdiv rc ri)).
  { apply fdiv_nonneg_signed.
    - apply nonneg_finite_signed. assumption.
    - destruct Hrc as [->|(? & ? & -> & _)]; reflexivity.
    - destruct Hri as [->|(m & e & -> & _)]; [discriminate|eauto]. }
  rewrite (math_sqrt_signed _ Hs). cbn [obind].
  unfold float_truediv. change (round_Z 1) with f1.
  rewrite (fadd_one_nonzero _ Hs). reflexivity.
Qed.

Lemma impermanent_loss_identical a b :
  0 <= a < 2 ^ 256 -> 0 <= b < 2 ^ 256 ->
  MarketMaker.impermanent_loss_of a b a b = Ok None \/
  MarketMaker.impermanent_loss_of a b a b = Ok (Some f0).
Proof.
  intros Ha Hb.
  destruct (Z.eq_dec a 0) as [->|Hna]; [left; apply impermanent_loss_zero; auto|].
  destruct (Z.eq_dec b 0) as [->|Hnb]; [left; apply impermanent_loss_zero; auto|].
  destruct (impermanent_loss_formula a b a b) as (ri & rc & Ei & Ec & ->); try lia.
  rewrite Ei in Ec. injection Ec as <-.
  destruct (int_truediv_pos a b 256) as (r & Er & Hr); try lia.
  rewrite Ei in Er. injection Er as <-.
  destruct Hr as [->|(m & e & -> & _)].
  - left. reflexivity.
  - right. rewrite fdiv_self. reflexivity.
Qed.

Section MarketMakerReads.
Context {L : Type} {W3 : Web3 L} {R : Type}.

Lemma get_pool_reserves_Ok (m : MarketMaker.t R) (l : L) ra rb :
  getReserves (MarketMaker.amm_address m) l = Ok (ra, rb) ->
  MarketMaker.get_pool_reserves (m, l) = (Ok (Z.of_N ra, Z.of_N rb), (m, l)).
Proof.
  intros H. unfold MarketMaker.get_pool_reserves, try_except, bind, self, gets,
    w3_read, read, lift_outcome, ret. simpl. rewrite H. reflexivity.
Qed.

Lemma calculate_impermanent_loss_spec (m : MarketMaker.t R) (l : L) ia ib ca cb :
  MarketMaker.initial_reserves m = Some (ia, ib) ->
  getReserves (MarketMaker.amm_address m) l = Ok (ca, cb) ->
  MarketMaker.calculate_impermanent_loss (m, l) =
  match MarketMaker.impermanent_loss_of ia ib (Z.of_N ca) (Z.of_N cb) with
  | Ok None => (Ok f0, (m, l))
  | Ok (Some il) => (Ok il, (MarketMaker.with_impermanent_loss il m, l))
  | Raise e => (Raise e, (m, l))
  end.
Proof.
  intros Hi Hr. unfold MarketMaker.calculate_impermanent_loss, bind, self, gets.
  cbn [fst snd]. rewrite Hi. rewrite (get_pool_reserves_Ok _ _ _ _ Hr).
  unfold lift_outcome.
  destruct (MarketMaker.impermanent_loss_of _ _ _ _) as [[il|]|e]; reflexivity.
Qed.

End MarketMakerReads.

(** C7: the impermanent loss is [0.0], and no error, when one of the four
    reserves is zero or the initial ratio is zero; otherwise, on reserves of
    the ledger's range, it is [2·√r/(1+r) − 1] at
    [r = (currentA/currentB) / (initialA/initialB)], in binary64; it is
    exactly [0.0] when the current reserves are the initial ones; and
    [calculate_impermanent_loss] returns this value on the reserves it stored
    and the reserves it reads. *)
Theorem impermanent_loss_properties :
  (forall ia ib ca cb,
     ia = 0 \/ ib = 0 \/ ca = 0 \/ cb = 0 ->
     MarketMaker.impermanent_loss_of ia ib ca cb = Ok None) /\
  (forall ia ib ca cb ri rc,
     int_truediv ia ib = Ok ri -> int_truediv ca cb = Ok rc -> feqb ri f0 = true ->
     MarketMaker.impermanent_loss_of ia ib ca cb = Ok None) /\
  (forall ia ib ca cb,
     0 < ia < 2 ^ 256 -> 0 < ib < 2 ^ 256 -> 0 < ca < 2 ^ 256 -> 0 < cb < 2 ^ 256 ->
     exists initial_ratio current_ratio,
       int_truediv ia ib = Ok initial_ratio /\
       int_truediv ca cb = Ok current_ratio /\
       MarketMaker.impermanent_loss_of ia ib ca cb =
         Ok (if feqb initial_ratio f0 then None
             else Some (IL_formula (fdiv current_ratio initial_ratio)))) /\
  (forall a b,
     0 <= a < 2 ^ 256 -> 0 <= b < 2 ^ 256 ->
     MarketMaker.impermanent_loss_of a b a b = Ok None \/
     MarketMaker.impermanent_loss_of a b a b = Ok (Some f0)) /\
  (forall L (W3 : Web3 L) R (m : MarketMaker.t R) (l : L) ia ib ca cb,
     MarketMaker.initial_reserves m = Some (ia, ib) ->
     getReserves (MarketMaker.amm_address m) l = Ok (ca, cb) ->
     fst (MarketMaker.calculate_impermanent_loss (m, l)) =
     match MarketMaker.impermanent_loss_of ia ib (Z.of_N ca) (Z.of_N cb) with
     | Ok None => Ok f0
     | Ok (Some il) => Ok il
     | Raise e => Raise e
     end).
Proof.
  split; [exact impermanent_loss_zero|].
  split; [exact impermanent_loss_zero_ratio|].
  split; [exact impermanent_loss_formula|].
  split; [exact impermanent_loss_identical|].
  intros L W3 R m l ia ib ca cb Hi Hr.
  rewrite (calculate_impermanent_loss_spec m l ia ib ca cb Hi Hr).
  destruct (MarketMaker.impermanent_loss_of _ _ _ _) as [[il|]|e]; reflexivity.
Qed.

Lemma impermanent_loss_properties_witness :
  MarketMaker.impermanent_loss_of 1000 0 1000 1000 = Ok None /\
  MarketMaker.impermanent_loss_of 1 (2 ^ 1100) 1 1 = Ok None /\
  (exists initial_ratio current_ratio,
     int_truediv 1000 1000 = Ok initial_ratio /\
     int_truediv 4000 1000 = Ok current_ratio /\
     MarketMaker.impermanent_loss_of 1000 1000 4000 1000 =
       Ok (if feqb initial_ratio f0 then None
           else Some (IL_formula (fdiv current_ratio initial_ratio)))) /\
  (MarketMaker.impermanent_loss_of 900000 900000 900000 900000 = Ok None \/
   MarketMaker.impermanent_loss_of 900000 900000 900000 900000 = Ok (Some f0)).
Proof.
  split; [|split; [|split]].
  - apply (proj1 impermanent_loss_properties). right. left. reflexivity.
  - apply (proj1 (proj2 impermanent_loss_properties) 1 (2 ^ 1100) 1 1
             (S754_zero false) f1); reflexivity.
  - apply (proj1 (proj2 (proj2 impermanent_loss_properties)) 1000 1000 4000 1000); lia.
  - apply (proj1 (proj2 (proj2 (proj2 impermanent_loss_properties)))); lia.
Defined.

(** ** Optimal liquidity amounts *)

Lemma min_int_le_r a b : min_int a b <= b.
Proof. unfold min_int. destruct (Z.ltb_spec b a); lia. Qed.

Lemma min_int_le_l a b : min_int a b <= a.
Proof. unfold min_int. destruct (Z.ltb_spec b a); lia. Qed.

Lemma obind_Ok {A B} (o : outcome A) (k : A -> outcome B) b :
  obind o k = Ok b -> exists a, o = Ok a /\ k a = Ok b.
Proof. destruct o; simpl; [eauto|discriminate]. Qed.

Section MarketMakerAmounts.
Context {L : Type} {W3 : Web3 L} {R : Type}.

Lemma calculate_optimal_liquidity_amounts_spec (m : MarketMaker.t R) (l : L)
    available_a available_b ra rb :
  getReserves (MarketMaker.amm_address m) l = Ok (ra, rb) ->
  MarketMaker.calculate_optimal_liquidity_amounts available_a available_b (m, l) =
  (MarketMaker.optimal_liquidity_amounts (MarketMaker.target_ratio m)
     (PFloat (MarketMaker.max_liquidity_ratio m))
     available_a available_b (Z.of_N ra) (Z.of_N rb), (m, l)).
Proof.
  intros Hr. unfold MarketMaker.calculate_optimal_liquidity_amounts, bind.
  rewrite (get_pool_reserves_Ok _ _ _ _ Hr). reflexivity.
Qed.

End MarketMakerAmounts.

(** C8: with an empty pool (either reserve zero) the amounts do not depend
    on the reserves: [amountA] is the integer part of
    [(availableA + availableB·t/(1−t))·t·maxRatio] and [amountB] the integer
    part of [amountA·(1−t)/t], for the target ratio [t], each clamped to what
    is available; [calculate_optimal_liquidity_amounts] returns these on the
    reserves it reads.  For 1000 and 1000 available, target ratio 0.5 and
    maximum ratio 0.9 the amounts are (900, 900): both at most 1000, their
    quotient exactly 1.0. *)
Theorem optimal_liquidity_amounts_empty_pool :
  (forall (target_ratio max_ratio : num) (available_a available_b reserve_a reserve_b : Z),
     reserve_a = 0 \/ reserve_b = 0 ->
     MarketMaker.optimal_liquidity_amounts target_ratio max_ratio
       available_a available_b reserve_a reserve_b =
     MarketMaker.optimal_liquidity_amounts target_ratio max_ratio
       available_a available_b 0 0 /\
     forall amount_a amount_b,
       MarketMaker.optimal_liquidity_amounts target_ratio max_ratio
         available_a available_b reserve_a reserve_b = Ok (amount_a, amount_b) ->
       amount_a <= available_a /\ amount_b <= available_b /\
       exists total_value_a raw_a raw_b,
         (t1 <-- mul (PInt available_b) target_ratio ;;;
          t2 <-- sub (PInt 1) target_ratio ;;;
          t3 <-- truediv t1 t2 ;;;
          add (PInt available_a) t3) = Ok total_value_a /\
         (t4 <-- mul total_value_a target_ratio ;;;
          t5 <-- mul t4 max_ratio ;;;
          int t5) = Ok raw_a /\
         (t6 <-- sub (PInt 1) target_ratio ;;;
          t7 <-- mul (PInt raw_a) t6 ;;;
          t8 <-- truediv t7 target_ratio ;;;
          int t8) = Ok raw_b /\
         amount_a = min_int raw_a available_a /\
         amount_b = min_int raw_b available_b) /\
  (forall L (W3 : Web3 L) R (m : MarketMaker.t R) (l : L) available_a available_b ra rb,
     getReserves (MarketMaker.amm_address m) l = Ok (ra, rb) ->
     ra = 0%N \/ rb = 0%N ->
     MarketMaker.calculate_optimal_liquidity_amounts available_a available_b (m, l) =
     (MarketMaker.optimal_liquidity_amounts (MarketMaker.target_ratio m)
        (PFloat (MarketMaker.max_liquidity_ratio m)) available_a available_b 0 0,
      (m, l))) /\
  MarketMaker.optimal_liquidity_amounts (PFloat (lit 5 10)) (PFloat (lit 9 10))
    1000 1000 0 0 = Ok (900, 900) /\
  900 <= 1000 /\
  int_truediv 900 900 = Ok f1.
Proof.
  split; [|split; [|split; [reflexivity|split; [lia|reflexivity]]]].
  2: { intros L W3 R m l A B ra rb Hr Hz.
       rewrite (calculate_optimal_liquidity_amounts_spec m l A B ra rb Hr).
       f_equal. unfold MarketMaker.optimal_liquidity_amounts.
       destruct Hz as [-> | ->]; [reflexivity|].
       cbn [Z.of_N]. rewrite orb_true_r. reflexivity. }
  intros tr mx A B ra rb Hz.
  assert (Hc : (ra =? 0) || (rb =? 0) = true).
  { destruct Hz as [->| ->]; [reflexivity|apply orb_true_r]. }
  unfold MarketMaker.optimal_liquidity_amounts. rewrite Hc. simpl orb. cbv iota.
  split; [reflexivity|].
  intros a b H.
  apply obind_Ok in H as (t1 & E1 & H).
  apply obind_Ok in H as (t2 & E2 & H).
  apply obind_Ok in H as (t3 & E3 & H).
  apply obind_Ok in H as (tv & E4 & H).
  apply obind_Ok in H as (t4 & E5 & H).
  apply obind_Ok in H as (t5 & E6 & H).
  apply obind_Ok in H as (ra' & E7 & H).
  apply obind_Ok in H as (t6 & E8 & H).
  apply obind_Ok in H as (t7 & E9 & H).
  apply obind_Ok in H as (t8 & E10 & H).
  apply obind_Ok in H as (rb' & E11 & H).
  injection H as <- <-.
  split; [apply min_int_le_r|]. split; [apply min_int_le_r|].
  exists tv, ra', rb'.
  rewrite E2 in E8. injection E8 as <-.
  rewrite E1, E2. cbn [obind]. rewrite E3. cbn [obind]. rewrite E4.
  rewrite E5. cbn [obind]. rewrite E6. cbn [obind]. rewrite E7.
  rewrite E9. cbn [obind]. rewrite E10. cbn [obind]. rewrite E11.
  repeat split; reflexivity.
Qed.

Lemma optimal_liquidity_amounts_empty_pool_witness :
  MarketMaker.optimal_liquidity_amounts (PFloat (lit 5 10)) (PFloat (lit 9 10))
    1000 1000 0 777 =
  MarketMaker.optimal_liquidity_amounts (PFloat (lit 5 10)) (PFloat (lit 9 10))
    1000 1000 0 0 /\
  900 <= 1000 /\ 900 <= 1000 /\
  exists total_value_a raw_a raw_b,
    (t1 <-- mul (PInt 1000) (PFloat (lit 5 10)) ;;;
     t2 <-- sub (PInt 1) (PFloat (lit 5 10)) ;;;
     t3 <-- truediv t1 t2 ;;;
     add (PInt 1000) t3) = Ok total_value_a /\
    (t4 <-- mul total_value_a (PFloat (lit 5 10)) ;;;
     t5 <-- mul t4 (PFloat (lit 9 10)) ;;;
     int t5) = Ok raw_a /\
    (t6 <-- sub (PInt 1) (PFloat (lit 5 10)) ;;;
     t7 <-- mul (PInt raw_a) t6 ;;;
     t8 <-- truediv t7 (PFloat (lit 5 10)) ;;;
     int t8) = Ok raw_b /\
    900 = min_int raw_a 1000 /\
    900 = min_int raw_b 1000.
Proof.
  destruct (proj1 optimal_liquidity_amounts_empty_pool
              (PFloat (lit 5 10)) (PFloat (lit 9 10)) 1000 1000 0 777
              (or_introl eq_refl)) as [H1 H2].
  split; [exact H1|].
  exact (H2 900 900 eq_refl).
Defined.

Lemma float_of_int_1 : float_of_int 1 = Ok (S754_finite false 4503599627370496 (-52)).
Proof. reflexivity. Qed.
Lemma float_of_int_0 : float_of_int 0 = Ok (S754_zero false).
Proof. reflexivity. Qed.

Lemma float_of_int_raise n e :
  float_of_int n = Raise e -> exn_class_of e = OverflowError.
Proof. unfold float_of_int. case_if; [intros [= <-]; reflexivity|discriminate]. Qed.

Lemma to_float_raise x e : to_float x = Raise e -> exn_class_of e = OverflowError.
Proof. destruct x; simpl; [apply float_of_int_raise|discriminate]. Qed.

Lemma arith_raise iop fop x y e :
  arith iop fop x y = Raise e -> exn_class_of e = OverflowError.
Proof.
  unfold arith. destruct x as [a|a], y as [b|b]; try discriminate; simpl;
  repeat match goal with
  | |- context [float_of_int ?n] =>
      let E := fresh in destruct (float_of_int n) eqn:E; simpl;
      [|intros [= <-]; eapply float_of_int_raise; eassumption]
  end; discriminate.
Qed.

Lemma int_raise x e :
  int x = Raise e -> exn_class_of e <> ZeroDivisionError.
Proof.
  destruct x as [z|[s|s| |s m ex]]; simpl; try discriminate;
  intros [= <-]; discriminate.
Qed.

Lemma truediv_nonzero_raise x b e :
  truediv x (PFloat b) = Raise e -> feqb b f0 = false ->
  exn_class_of e = OverflowError.
Proof.
  intros H Hb. unfold truediv in H.
  destruct x as [a|a]; simpl in H.
  - destruct (float_of_int a) eqn:E; simpl in H.
    + unfold float_truediv in H. rewrite Hb in H. discriminate.
    + injection H as <-. eapply float_of_int_raise; eassumption.
  - unfold float_truediv in H. rewrite Hb in H. discriminate.
Qed.

Lemma arith_float_r iop fop x b r :
  arith iop fop x (PFloat b) = Ok r -> exists f, r = PFloat f.
Proof.
  unfold arith. destruct x as [a|a]; simpl.
  - destruct (float_of_int a); simpl; [intros [= <-]; eauto|discriminate].
  - intros [= <-]; eauto.
Qed.

Lemma arith_float_l iop fop a y r :
  arith iop fop (PFloat a) y = Ok r -> exists f, r = PFloat f.
Proof.
  unfold arith. destruct y as [b|b]; simpl.
  - destruct (float_of_int b); simpl; [intros [= <-]; eauto|discriminate].
  - intros [= <-]; eauto.
Qed.

Lemma sub_one_float x : sub (PInt 1) (PFloat x) = Ok (PFloat (fsub f1 x)).
Proof. reflexivity. Qed.

Lemma is_finite_cases x :
  is_finite x = true -> (exists s, x = S754_zero s) \/ exists s m e, x = S754_finite s m e.
Proof. destruct x; try discriminate; eauto. Qed.

Ltac float_cases H :=
  apply is_finite_cases in H; destruct H as [[? ->]|(? & ? & ? & ->)].

Lemma boundary_raises (tr : num) (mx : float) (A B ra rb : Z) :
  In tr [PInt 0; PFloat (S754_zero false); PFloat (S754_zero true); PInt 1; PFloat f1] ->
  is_finite mx = true -> Z.abs A < 2 ^ 1023 -> Z.abs B < 2 ^ 1023 ->
  ra = 0 \/ rb = 0 ->
  exists e, MarketMaker.optimal_liquidity_amounts tr (PFloat mx) A B ra rb = Raise e
            /\ exn_class_of e = ZeroDivisionError.
Proof.
  intros Htr Hmx HA HB Hz.
  assert (Hc : (ra =? 0) || (rb =? 0) = true).
  { destruct Hz as [->| ->]; [reflexivity|apply orb_true_r]. }
  unfold MarketMaker.optimal_liquidity_amounts. rewrite Hc. clear Hc Hz.
  destruct (float_of_int_finite A HA) as (fA & EA & HfA).
  destruct (float_of_int_finite B HB) as (fB & EB & HfB).
  assert (HfA' : is_finite fA = true).
  { destruct HfA as [->|(? & ? & -> & _)]; reflexivity. }
  assert (HfB' : is_finite fB = true).
  { destruct HfB as [->|(? & ? & -> & _)]; reflexivity. }
  clear HfA HfB.
  float_cases Hmx; float_cases HfA'; float_cases HfB';
  simpl in Htr;
  repeat (destruct Htr as [<-|Htr]; [|]); try contradiction;
  unfold mul, add, sub, truediv, arith, to_float, int_truediv;
  rewrite ?Z.mul_0_r, ?Z.mul_1_r, ?EA, ?EB, ?float_of_int_1, ?float_of_int_0;
  cbn [obind];
  repeat match goal with b : bool |- _ => destruct b end;
  try (eexists; split; reflexivity).
Qed.

Lemma obind_Raise {A B} (o : outcome A) (k : A -> outcome B) e :
  obind o k = Raise e -> o = Raise e \/ exists a, o = Ok a /\ k a = Raise e.
Proof. destruct o; simpl; [eauto|intros [= <-]; eauto]. Qed.

Lemma interior_no_zero_division (x : float) (mx : num) (A B ra rb : Z) e :
  valid_binary prec emax x = true ->
  lt (PInt 0) (PFloat x) = true -> lt (PFloat x) (PInt 1) = true ->
  ra = 0 \/ rb = 0 ->
  MarketMaker.optimal_liquidity_amounts (PFloat x) mx A B ra rb = Raise e ->
  exn_class_of e <> ZeroDivisionError.
Proof.
  intros Hv H0 H1 Hz H.
  destruct (fsub_one_nonzero x Hv H0 H1) as [Hsub Hx].
  assert (Hc : (ra =? 0) || (rb =? 0) = true).
  { destruct Hz as [->| ->]; [reflexivity|apply orb_true_r]. }
  unfold MarketMaker.optimal_liquidity_amounts in H. rewrite Hc in H. clear Hc Hz.
  rewrite !sub_one_float in H.
  assert (Hov : forall e', exn_class_of e' = OverflowError ->
                           exn_class_of e' <> ZeroDivisionError)
    by (intros ? ->; discriminate).
  apply obind_Raise in H as [H|(t1 & E1 & H)];
    [apply Hov; eapply arith_raise; eassumption|].
  cbn [obind] in H.
  apply obind_Raise in H as [H|(t3 & E3 & H)];
    [apply Hov; eapply truediv_nonzero_raise; eassumption|].
  apply obind_Raise in H as [H|(tv & E4 & H)];
    [apply Hov; eapply arith_raise; eassumption|].
  apply obind_Raise in H as [H|(t4 & E5 & H)];
    [apply Hov; eapply arith_raise; eassumption|].
  apply obind_Raise in H as [H|(t5 & E6 & H)];
    [apply Hov; eapply arith_raise; eassumption|].
  apply obind_Raise in H as [H|(raw_a & E7 & H)];
    [eapply int_raise; eassumption|].
  apply obind_Raise in H as [H|(t7 & E9 & H)];
    [apply Hov; eapply arith_raise; eassumption|].
  apply obind_Raise in H as [H|(t8 & E10 & H)];
    [apply Hov; eapply truediv_nonzero_raise; eassumption|].
  apply obind_Raise in H as [H|(raw_b & E11 & H)];
    [eapply int_raise; eassumption|].
  discriminate.
Qed.

(** C10: with an empty pool, the computation raises [ZeroDivisionError] at a
    target ratio of 0 and at a target ratio of 1 (for a finite maximum ratio
    and balances a float can hold), instead of returning clamped amounts;
    at a target ratio strictly between 0 and 1 it never does. *)
Theorem liquidity_ratio_boundaries :
  (forall (tr : num) (mx : float) (A B ra rb : Z),
     In tr [PInt 0; PFloat (S754_zero false); PFloat (S754_zero true);
            PInt 1; PFloat f1] ->
     is_finite mx = true -> Z.abs A < 2 ^ 1023 -> Z.abs B < 2 ^ 1023 ->
     ra = 0 \/ rb = 0 ->
     exists e,
       MarketMaker.optimal_liquidity_amounts tr (PFloat mx) A B ra rb = Raise e /\
       exn_class_of e = ZeroDivisionError) /\
  (forall (x : float) (mx : num) (A B ra rb : Z) e,
     valid_binary prec emax x = true ->
     lt (PInt 0) (PFloat x) = true -> lt (PFloat x) (PInt 1) = true ->
     ra = 0 \/ rb = 0 ->
     MarketMaker.optimal_liquidity_amounts (PFloat x) mx A B ra rb = Raise e ->
     exn_class_of e <> ZeroDivisionError) /\
  (forall L (W3 : Web3 L) R (m : MarketMaker.t R) (l : L) A B ra rb,
     getReserves (MarketMaker.amm_address m) l = Ok (ra, rb) ->
     fst (MarketMaker.calculate_optimal_liquidity_amounts A B (m, l)) =
     MarketMaker.optimal_liquidity_amounts (MarketMaker.target_ratio m)
       (PFloat (MarketMaker.max_liquidity_ratio m)) A B (Z.of_N ra) (Z.of_N rb)).
Proof.
  split; [exact boundary_raises|]. split; [exact interior_no_zero_division|].
  intros L W3 R m l A B ra rb Hr.
  rewrite (calculate_optimal_liquidity_amounts_spec m l A B ra rb Hr). reflexivity.
Qed.

Lemma liquidity_ratio_boundaries_witness :
  (exists e,
     MarketMaker.optimal_liquidity_amounts (PInt 1) (PFloat (lit 9 10))
       1000 1000 0 0 = Raise e /\
     exn_class_of e = ZeroDivisionError) /\
  (exists e,
     MarketMaker.optimal_liquidity_amounts (PFloat f0) (PFloat (lit 9 10))
       1000 1000 0 0 = Raise e /\
     exn_class_of e = ZeroDivisionError) /\
  exn_class_of (Exn OverflowError "int too large to convert to float")
    <> ZeroDivisionError.
Proof.
  split; [|split].
  - apply (proj1 liquidity_ratio_boundaries (PInt 1) (lit 9 10) 1000 1000 0 0);
      [simpl; tauto | reflexivity | reflexivity | reflexivity | left; reflexivity].
  - apply (proj1 liquidity_ratio_boundaries (PFloat f0) (lit 9 10) 1000 1000 0 0);
      [simpl; tauto | reflexivity | reflexivity | reflexivity | left; reflexivity].
  - apply (proj1 (proj2 liquidity_ratio_boundaries) (lit 5 10) (PFloat (lit 9 10))
             (2 ^ 2000) 1000 0 0);
      [reflexivity | reflexivity | reflexivity | left; reflexivity | reflexivity].
Defined.

(** ** Momentum *)

Lemma nth_error_last {A} (x : A) (l : list A) d :
  nth_error (x :: l) (List.length l) = Some (last (x :: l) d).
Proof.
  revert x. induction l as [|y l IH]; intros x; [reflexivity|].
  simpl List.length. change (nth_error (x :: y :: l) (S (List.length l)))
    with (nth_error (y :: l) (List.length l)).
  rewrite IH. reflexivity.
Qed.

Lemma list_getitem_first {A} (x : A) (l : list A) :
  list_getitem (x :: l) 0 = Ok x.
Proof. reflexivity. Qed.

Lemma list_getitem_last {A} (x : A) (l : list A) d :
  list_getitem (x :: l) (-1) = Ok (last (x :: l) d).
Proof.
  unfold list_getitem. cbv zeta. change (-1 <? 0) with true. cbv iota.
  replace (-1 + Z.of_nat (List.length (x :: l))) with (Z.of_nat (List.length l))
    by (simpl List.length; lia).
  destruct (Z.ltb_spec (Z.of_nat (List.length l)) 0); [lia|].
  rewrite Nat2Z.id. rewrite (nth_error_last x l d). reflexivity.
Qed.

Lemma list_slice_from_window {A} (prefix window : list A) n :
  window <> [] -> Z.of_nat (List.length window) = n ->
  list_slice_from (prefix ++ window) (- n) = window.
Proof.
  intros Hne Hn. unfold list_slice_from. cbv zeta.
  assert (0 < n) by (destruct window; [contradiction|simpl List.length in Hn; lia]).
  destruct (Z.ltb_spec (- n) 0); [|lia].
  rewrite length_app, Nat2Z.inj_add, Hn.
  replace (Z.max (- n + (Z.of_nat (List.length prefix) + n)) 0)
    with (Z.of_nat (List.length prefix)) by lia.
  rewrite Nat2Z.id. rewrite skipn_app, skipn_all, Nat.sub_diag. reflexivity.
Qed.

Lemma momentum_of_short h n :
  Z.of_nat (List.length h) < n -> MomentumTrader.momentum_of h n = Ok f0.
Proof.
  intros H. unfold MomentumTrader.momentum_of.
  destruct (Z.ltb_spec (Z.of_nat (List.length h)) n); [reflexivity|lia].
Qed.

Lemma momentum_of_window prefix oldest rest n :
  Z.of_nat (List.length (oldest :: rest)) = n ->
  MomentumTrader.momentum_of (prefix ++ oldest :: rest) n =
    Ok (if feqb oldest f0 then f0
        else fdiv (fsub (last (oldest :: rest) oldest) oldest) oldest).
Proof.
  intros Hn. unfold MomentumTrader.momentum_of.
  destruct (Z.ltb_spec (Z.of_nat (List.length (prefix ++ oldest :: rest))) n) as [Hlt|_].
  { rewrite length_app, Nat2Z.inj_add in Hlt. lia. }
  rewrite list_slice_from_window by (congruence || assumption).
  rewrite list_getitem_first. cbn [obind].
  destruct (feqb oldest f0) eqn:E; [reflexivity|].
  rewrite (list_getitem_last oldest rest oldest). cbn [obind].
  unfold float_truediv. rewrite E. reflexivity.
Qed.

Lemma scenario_momentum :
  MomentumTrader.momentum_of scenario_history 5 =
    Ok (S754_finite false 5404319552844596 (-54)) /\
  lit 3 10 = S754_finite false 5404319552844595 (-54) /\
  feqb (S754_finite false 5404319552844596 (-54)) (lit 3 10) = false /\
  fltb (fabs (fsub (S754_finite false 5404319552844596 (-54)) (lit 3 10)))
       (lit 1 (10 ^ 15)) = true.
Proof. repeat split; reflexivity. Qed.

Section MomentumSignal.
Context {L : Type} {W3 : Web3 L} {R : Type} {RG : Random R} {MarketData : Type}.

Lemma should_act_scenario (a : MomentumTrader.t R) (l : L) (md : MarketData) :
  MomentumTrader.price_history a = [f1; f1; f1; f1] ->
  MomentumTrader.lookback_periods a = 5 ->
  MomentumTrader.momentum_threshold a = PFloat (lit 2 100) ->
  getReserves (Trader.amm_address (MomentumTrader.trader a)) l = Ok (13%N, 10%N) ->
  MomentumTrader.should_act md (a, l) =
    (Ok true, (MomentumTrader.with_price_history scenario_history a, l)).
Proof.
  destruct a as [x lb th tf h]. simpl. intros -> -> -> Hr.
  unfold MomentumTrader.should_act, MomentumTrader.calculate_momentum, inherited,
    Trader.get_pool_price, zoom, try_except, bind, self, gets, w3_read, read,
    update_self, modify, lift_outcome, ret. simpl.
  rewrite Hr. simpl. reflexivity.
Qed.

End MomentumSignal.

(** C6 (amended): [calculate_momentum] returns [(newest − oldest) / oldest]
    over the last [lookback_periods] samples of the history, in binary64, and
    [0.0] when the history is shorter than that or the oldest sample of the
    window is zero.  On the history [1.0, 1.0, 1.0, 1.0, 1.3] with a lookback
    of 5 it returns 0.30000000000000004, within 1e-15 of 0.3.  [should_act]
    first appends the pool price it reads to the history: from the history
    [1.0, 1.0, 1.0, 1.0], a pool price of 1.3 and a threshold of 0.02 it
    returns true and leaves the history [1.0, 1.0, 1.0, 1.0, 1.3]. *)
Theorem momentum_computation :
  (forall h n,
     Z.of_nat (List.length h) < n -> MomentumTrader.momentum_of h n = Ok f0) /\
  (forall prefix oldest rest n,
     Z.of_nat (List.length (oldest :: rest)) = n ->
     MomentumTrader.momentum_of (prefix ++ oldest :: rest) n =
       Ok (if feqb oldest f0 then f0
           else fdiv (fsub (last (oldest :: rest) oldest) oldest) oldest)) /\
  (forall L (W3 : Web3 L) R (a : MomentumTrader.t R) (l : L),
     MomentumTrader.calculate_momentum (a, l) =
     (MomentumTrader.momentum_of (MomentumTrader.price_history a)
        (MomentumTrader.lookback_periods a), (a, l))) /\
  MomentumTrader.momentum_of scenario_history 5 =
    Ok (S754_finite false 5404319552844596 (-54)) /\
  fltb (fabs (fsub (S754_finite false 5404319552844596 (-54)) (lit 3 10)))
       (lit 1 (10 ^ 15)) = true /\
  (forall L (W3 : Web3 L) R (RG : Random R) MarketData
          (a : MomentumTrader.t R) (l : L) (md : MarketData),
     MomentumTrader.price_history a = [f1; f1; f1; f1] ->
     MomentumTrader.lookback_periods a = 5 ->
     MomentumTrader.momentum_threshold a = PFloat (lit 2 100) ->
     getReserves (Trader.amm_address (MomentumTrader.trader a)) l = Ok (13%N, 10%N) ->
     MomentumTrader.should_act md (a, l) =
       (Ok true, (MomentumTrader.with_price_history scenario_history a, l))).
Proof.
  split; [exact momentum_of_short|]. split; [exact momentum_of_window|].
  split; [reflexivity|]. split; [reflexivity|]. split; [reflexivity|].
  intros. apply should_act_scenario; assumption.
Qed.

(** C6, as stated, fails: the momentum of [1.0, 1.0, 1.0, 1.0, 1.3] is not
    [== 0.3], the nearest float to 0.3 being one unit in the last place
    below it; and a trader that already holds this history and reads a pool
    price of 1.0 computes a momentum of 0.0 over the shifted window and, on a
    draw of 0.258 against a trade frequency of 0.2, does not act. *)
Lemma momentum_scenario_not_exact :
  (exists m,
     MomentumTrader.momentum_of scenario_history 5 = Ok m /\
     lit 3 10 = S754_finite false 5404319552844595 (-54) /\
     m = S754_finite false 5404319552844596 (-54) /\
     eq (PFloat m) (PFloat (lit 3 10)) = false) /\
  MomentumTrader.lookback_periods (Scenario.momentum_trader scenario_history) = 5 /\
  MomentumTrader.momentum_threshold (Scenario.momentum_trader scenario_history) =
    PFloat (lit 2 100) /\
  MomentumTrader.trade_frequency (Scenario.momentum_trader scenario_history) =
    PFloat (lit 2 10) /\
  getReserves "0xAMM" (Scenario.with_reserves 10 10 Scenario.ledger) =
    Ok (10%N, 10%N) /\
  fst (MomentumTrader.should_act tt
         (Scenario.momentum_trader scenario_history,
          Scenario.with_reserves 10 10 Scenario.ledger)) = Ok false.
Proof.
  split; [eexists; repeat split; reflexivity|].
  vm_compute. repeat split; reflexivity.
Qed.

Lemma momentum_computation_witness :
  MomentumTrader.momentum_of [f1; f1] 5 = Ok f0 /\
  MomentumTrader.momentum_of ([f1] ++ [f0; f1; lit 13 10]) 3 = Ok f0 /\
  MomentumTrader.momentum_of ([lit 13 10] ++ [f1; f1; lit 13 10]) 3 =
    Ok (S754_finite false 5404319552844596 (-54)) /\
  MomentumTrader.should_act tt
    (Scenario.momentum_trader [f1; f1; f1; f1],
     Scenario.with_reserves 13 10 Scenario.ledger) =
  (Ok true,
   (MomentumTrader.with_price_history scenario_history
      (Scenario.momentum_trader [f1; f1; f1; f1]),
    Scenario.with_reserves 13 10 Scenario.ledger)).
Proof.
  split; [|split; [|split]].
  - apply (proj1 momentum_computation [f1; f1] 5). simpl. lia.
  - apply (proj1 (proj2 momentum_computation) [f1] f0 [f1; lit 13 10] 3). reflexivity.
  - apply (proj1 (proj2 momentum_computation) [lit 13 10] f1 [f1; lit 13 10] 3).
    reflexivity.
  - apply (proj2 (proj2 (proj2 (proj2 (proj2 momentum_computation))))); reflexivity.
Defined.

(** ** Transaction accounting *)

Section TransactionAccounting.
Context {L : Type} {W3 : Web3 L} {R : Type}.

(** C9: [send_transaction] advances the nonce and the transaction count by
    one and the gas total by the receipt's [gasUsed] exactly when the
    transaction was signed, submitted and confirmed by a receipt of non-zero
    status; when the submission raises, the wait for the receipt raises (a
    timeout) or the receipt has status 0, it raises and leaves the agent, so
    all three counters, as it was. *)
Theorem send_transaction_accounting (a : AgentBase.t R) (l : L) (tx : Transaction) :
  let '(r, (a', l')) := AgentBase.send_transaction tx (a, l) in
  (forall e, r = Raise e -> a' = a) /\
  (forall tx_hash, r = Ok tx_hash ->
     exists chain_id signed_tx l1 receipt,
       eth_chain_id l = Ok chain_id /\
       sign_transaction (AgentBase.address a)
         (AgentBase.transaction_update a chain_id tx) = Ok signed_tx /\
       send_raw_transaction signed_tx l = (Ok tx_hash, l1) /\
       wait_for_transaction_receipt tx_hash l1 = (Ok receipt, l') /\
       status receipt <> 0 /\
       AgentBase.nonce a' = AgentBase.nonce a + 1 /\
       AgentBase.transaction_count a' = AgentBase.transaction_count a + 1 /\
       AgentBase.total_gas_used a' = AgentBase.total_gas_used a + gasUsed receipt) /\
  (forall chain_id signed_tx,
     eth_chain_id l = Ok chain_id ->
     sign_transaction (AgentBase.address a)
       (AgentBase.transaction_update a chain_id tx) = Ok signed_tx ->
     (forall e l1, send_raw_transaction signed_tx l = (Raise e, l1) -> r = Raise e) /\
     (forall tx_hash l1 e l2,
        send_raw_transaction signed_tx l = (Ok tx_hash, l1) ->
        wait_for_transaction_receipt tx_hash l1 = (Raise e, l2) -> r = Raise e) /\
     (forall tx_hash l1 receipt l2,
        send_raw_transaction signed_tx l = (Ok tx_hash, l1) ->
        wait_for_transaction_receipt tx_hash l1 = (Ok receipt, l2) ->
        status receipt = 0 ->
        r = Raise (Exn PlainException "Transaction failed"))).
Proof.
  unfold AgentBase.send_transaction, try_except, bind, self, gets, w3_read, read,
    lift_outcome, w3_send, update_self, modify, raise, ret. simpl.
  destruct (eth_chain_id l) as [chain_id|e] eqn:E1; simpl.
  2: { destruct (is_Exception e); (split; [reflexivity|]); split;
       try discriminate; intros ? ? [=]. }
  destruct (sign_transaction _ _) as [signed_tx|e] eqn:E2; simpl.
  2: { destruct (is_Exception e); (split; [reflexivity|]); split;
       try discriminate; intros ? ? [= <-]; rewrite E2; discriminate. }
  destruct (send_raw_transaction signed_tx l) as [[tx_hash|e] l1] eqn:E3; simpl.
  2: { destruct (is_Exception e); (split; [reflexivity|]); (split; [discriminate|]);
       intros ? ? [= <-]; rewrite E2; intros [= <-]; rewrite E3;
       (split; [|split]); try discriminate; intros ? ? [= <- <-]; reflexivity. }
  destruct (wait_for_transaction_receipt tx_hash l1) as [[receipt|e] l2] eqn:E4; simpl.
  2: { destruct (is_Exception e); (split; [reflexivity|]); (split; [discriminate|]);
       intros ? ? [= <-]; rewrite E2; intros [= <-]; rewrite E3;
       (split; [|split]); try discriminate;
       intros ? ? ? ? [= <- <-]; rewrite E4; try discriminate;
       intros [= <- <-]; reflexivity. }
  destruct (status receipt =? 0) eqn:E5; simpl.
  - split; [reflexivity|]. split; [discriminate|].
    intros ? ? [= <-]. rewrite E2. intros [= <-]. rewrite E3.
    split; [|split]; try discriminate.
    + intros ? ? ? ? [= <- <-]. rewrite E4. discriminate.
    + reflexivity.
  - split; [discriminate|]. apply Z.eqb_neq in E5. split.
    + intros ? [= <-]. exists chain_id, signed_tx, l1, receipt. repeat split; auto.
    + intros ? ? [= <-]. rewrite E2. intros [= <-]. rewrite E3.
      split; [|split]; try discriminate.
      * intros ? ? ? ? [= <- <-]. rewrite E4. discriminate.
      * intros ? ? ? ? [= <- <-]. rewrite E4. intros [= <- <-]. contradiction.
Qed.

End TransactionAccounting.

(** A confirmed transfer advances the counters; a reverted one (more than
    the sender holds, receipt of status 0) raises and advances none. *)
Lemma send_transaction_accounting_witness :
  (let a := Trader.base Scenario.trader in
   let '(r, (a', _)) :=
     AgentBase.send_transaction (transfer_of 10) (a, Scenario.ledger) in
   r = Ok "0x0" /\
   AgentBase.nonce a' = AgentBase.nonce a + 1 /\
   AgentBase.transaction_count a' = AgentBase.transaction_count a + 1) /\
  (let a := Trader.base Scenario.trader in
   let '(r, (a', _)) :=
     AgentBase.send_transaction (transfer_of 6000) (a, Scenario.ledger) in
   r = Raise (Exn PlainException "Transaction failed") /\ a' = a).
Proof.
  split; cbv zeta.
  - pose proof (send_transaction_accounting (Trader.base Scenario.trader)
                  Scenario.ledger (transfer_of 10)) as H.
    destruct (AgentBase.send_transaction (transfer_of 10)
                (Trader.base Scenario.trader, Scenario.ledger))
      as [r [a' l']] eqn:E.
    destruct H as (_ & H2 & _).
    assert (Hr : r = Ok "0x0") by (vm_compute in E; congruence).
    destruct (H2 _ Hr) as (? & ? & ? & ? & _ & _ & _ & _ & _ & Hn & Hc & _).
    split; [exact Hr|]. split; assumption.
  - pose proof (send_transaction_accounting (Trader.base Scenario.trader)
                  Scenario.ledger (transfer_of 6000)) as H.
    destruct (AgentBase.send_transaction (transfer_of 6000)
                (Trader.base Scenario.trader, Scenario.ledger))
      as [r [a' l']] eqn:E.
    destruct H as (H1 & _ & _).
    assert (Hr : r = Raise (Exn PlainException "Transaction failed"))
      by (vm_compute in E; congruence).
    split; [exact Hr|]. exact (H1 _ Hr).
Defined.

(** ** Frame lemmas: what a method leaves as it found it *)
Section Stable.
Context {S K : Type} (f : S -> K).

Lemma stable_ret {A} (a : A) : stable f (ret a).
Proof. intros s. reflexivity. Qed.

Lemma stable_raise {A} e : stable f (@raise S A e).
Proof. intros s. reflexivity. Qed.

Lemma stable_gets {A} (g : S -> A) : stable f (gets g).
Proof. intros s. reflexivity. Qed.

Lemma stable_read {A} (g : S -> outcome A) : stable f (read g).
Proof. intros s. reflexivity. Qed.

Lemma stable_lift_outcome {A} (o : outcome A) : stable f (lift_outcome o).
Proof. intros s. reflexivity. Qed.

Lemma stable_modify (g : S -> S) : (forall s, f (g s) = f s) -> stable f (modify g).
Proof. intros H s. apply H. Qed.

Lemma stable_bind {A B} (m : M S A) (k : A -> M S B) :
  stable f m -> (forall a, stable f (k a)) -> stable f (bind m k).
Proof.
  intros Hm Hk s. unfold bind. specialize (Hm s).
  destruct (m s) as [[a|e] s']; simpl in *.
  - rewrite Hk. assumption.
  - assumption.
Qed.

Lemma stable_try_except {A} (m : M S A) (h : exn -> M S A) :
  stable f m -> (forall e, stable f (h e)) -> stable f (try_except m h).
Proof.
  intros Hm Hh s. unfold try_except. specialize (Hm s).
  destruct (m s) as [[a|e] s']; simpl in *; [assumption|].
  destruct (is_Exception e); simpl; [rewrite Hh|]; assumption.
Qed.

Lemma stable_try_except_all {A} (m h : M S A) :
  stable f m -> stable f h -> stable f (try_except_all m h).
Proof.
  intros Hm Hh s. unfold try_except_all. specialize (Hm s).
  destruct (m s) as [[a|e] s']; simpl in *; [assumption|].
  rewrite Hh. assumption.
Qed.

Lemma stable_zoom {T K' A} (g : T -> K') (proj : S -> T) (inj : T -> S -> S)
    (m : M T A) :
  stable g m ->
  (forall t s, g t = g (proj s) -> f (inj t s) = f s) ->
  stable f (zoom proj inj m).
Proof.
  intros Hm Hinj s. unfold zoom. specialize (Hm (proj s)).
  destruct (m (proj s)) as [r t']. simpl in *. apply Hinj. assumption.
Qed.

End Stable.

Lemma stable_w3_read {L X K A} (f : X * L -> K) (g : L -> outcome A) :
  stable f (w3_read g).
Proof. intros s. reflexivity. Qed.

Lemma stable_w3_send {L X K A} (f : X * L -> K) (g : L -> outcome A * L) :
  (forall x l l', f (x, l') = f (x, l)) -> stable f (w3_send g).
Proof.
  intros H s. unfold w3_send. destruct (g (snd s)). destruct s. apply H.
Qed.

Lemma stable_update_self {L X K} (f : X * L -> K) (g : X -> X) :
  (forall x l, f (g x, l) = f (x, l)) -> stable f (update_self g).
Proof. intros H s. destruct s. apply H. Qed.

Lemma stable_self {L X K} (f : X * L -> K) : stable f (@self L X).
Proof. intros s. reflexivity. Qed.

Lemma stable_update_actions {S K} (f : ActionReport * S -> K)
    (g : ActionReport -> ActionReport) :
  (forall r s, f (g r, s) = f (r, s)) -> stable f (update_actions g).
Proof. intros H s. destruct s. apply H. Qed.


Lemma stable_on_self_report {S A} (m : M S A) : stable report_id (on_self m).
Proof.
  intros s. unfold on_self, zoom. destruct (m (snd s)). reflexivity.
Qed.

Lemma stable_on_self {S A K} (g : S -> K) (m : M S A) :
  stable g m -> stable (fun s : ActionReport * S => g (snd s)) (on_self m).
Proof.
  intros H. unfold on_self. apply stable_zoom with (g := g); [assumption|].
  intros t s E. exact E.
Qed.

Create HintDb stable.
#[export] Hint Resolve stable_ret stable_raise stable_gets stable_read
  stable_lift_outcome stable_w3_read stable_self stable_on_self_report
  stable_on_self : stable.

Ltac stable_step :=
  match goal with
  | |- stable _ (bind _ _) => apply stable_bind; [|intros ?]
  | |- stable _ (try_except _ _) => apply stable_try_except; [|intros ?]
  | |- stable _ (try_except_all _ _) => apply stable_try_except_all
  | |- stable _ (update_self _) =>
      apply stable_update_self; intros; reflexivity
  | |- stable _ (w3_send _) =>
      apply stable_w3_send; intros; reflexivity
  | |- stable _ (update_actions _) =>
      apply stable_update_actions; intros; reflexivity
  | |- stable _ (match ?x with _ => _ end) => destruct x
  | |- stable _ _ => solve [eauto with stable]
  end.

Ltac stable_tac := repeat stable_step.

Section AB.
Context {L : Type} {W3 : Web3 L} {R : Type} {RG : Random R}.


Lemma stable_contracts_getitem k : stable (@base_id L R) (AgentBase.contracts_getitem k).
Proof. unfold AgentBase.contracts_getitem. stable_tac. Qed.

Lemma stable_get_eth_balance : stable (@base_id L R) AgentBase.get_eth_balance.
Proof. unfold AgentBase.get_eth_balance. stable_tac. Qed.
Hint Resolve stable_contracts_getitem stable_get_eth_balance : stable.

Lemma stable_get_token_balance t : stable (@base_id L R) (AgentBase.get_token_balance t).
Proof. unfold AgentBase.get_token_balance. stable_tac. Qed.

Lemma stable_get_token_decimals t : stable (@base_id L R) (AgentBase.get_token_decimals t).
Proof. unfold AgentBase.get_token_decimals. stable_tac. Qed.
Hint Resolve stable_get_token_balance stable_get_token_decimals : stable.

Lemma stable_get_all_balances_loop items : forall b,
  stable (@base_id L R) (AgentBase.get_all_balances_loop items b).
Proof.
  induction items as [|[name info] rest IH]; intros b; simpl.
  - stable_tac.
  - destruct (_ || _); [|apply IH]. stable_tac.
Qed.
Hint Resolve stable_get_all_balances_loop : stable.

Lemma stable_get_all_balances : stable (@base_id L R) AgentBase.get_all_balances.
Proof. unfold AgentBase.get_all_balances. stable_tac. Qed.
Hint Resolve stable_get_all_balances : stable.

Lemma stable_calculate_pnl : stable (@base_id L R) AgentBase.calculate_pnl.
Proof. unfold AgentBase.calculate_pnl. stable_tac. Qed.
Hint Resolve stable_calculate_pnl : stable.

Lemma stable_get_performance_stats : stable (@base_id L R) AgentBase.get_performance_stats.
Proof. unfold AgentBase.get_performance_stats. stable_tac. Qed.

Lemma stable_log_trade d : stable (@base_id L R) (AgentBase.log_trade d).
Proof. unfold AgentBase.log_trade. stable_tac. Qed.

Lemma stable_send_transaction tx : stable (@base_id L R) (AgentBase.send_transaction tx).
Proof. unfold AgentBase.send_transaction. stable_tac. Qed.
Hint Resolve stable_send_transaction : stable.

Lemma stable_approve_token_spending t sp am :
  stable (@base_id L R) (AgentBase.approve_token_spending t sp am).
Proof. unfold AgentBase.approve_token_spending. stable_tac. Qed.
Hint Resolve stable_get_performance_stats stable_log_trade
  stable_approve_token_spending : stable.

(** *** MarketMaker *)
Context {MarketData : Type}.


Lemma stable_inherited_mm {A} (m : M (AgentBase.t R * L) A) :
  stable (@base_id L R) m -> stable (@mm_id L R) (inherited m).
Proof.
  intros H. unfold inherited. apply stable_zoom with (g := (@base_id L R)); [assumption|].
  intros t s E. exact E.
Qed.
Hint Resolve stable_inherited_mm : stable.

Lemma stable_get_lp_balance : stable (@mm_id L R) MarketMaker.get_lp_balance.
Proof. unfold MarketMaker.get_lp_balance. stable_tac. Qed.

Lemma stable_get_pool_reserves : stable (@mm_id L R) MarketMaker.get_pool_reserves.
Proof. unfold MarketMaker.get_pool_reserves. stable_tac. Qed.
Hint Resolve stable_get_lp_balance stable_get_pool_reserves : stable.

Lemma stable_calculate_optimal_liquidity_amounts a b :
  stable (@mm_id L R) (MarketMaker.calculate_optimal_liquidity_amounts a b).
Proof. unfold MarketMaker.calculate_optimal_liquidity_amounts. stable_tac. Qed.

Lemma stable_add_liquidity a b : stable (@mm_id L R) (MarketMaker.add_liquidity a b).
Proof. unfold MarketMaker.add_liquidity. stable_tac. Qed.

Lemma stable_remove_liquidity a b c : stable (@mm_id L R) (MarketMaker.remove_liquidity a b c).
Proof. unfold MarketMaker.remove_liquidity. stable_tac. Qed.

Lemma stable_calculate_impermanent_loss :
  stable (@mm_id L R) MarketMaker.calculate_impermanent_loss.
Proof. unfold MarketMaker.calculate_impermanent_loss. stable_tac. Qed.

Lemma stable_should_rebalance (md : MarketData) :
  stable (@mm_id L R) (MarketMaker.should_rebalance md).
Proof. unfold MarketMaker.should_rebalance. stable_tac. Qed.
Hint Resolve stable_calculate_optimal_liquidity_amounts stable_add_liquidity
  stable_remove_liquidity stable_calculate_impermanent_loss
  stable_should_rebalance : stable.

Lemma stable_mm_should_act (md : MarketData) :
  stable (@mm_id L R) (MarketMaker.should_act md).
Proof. unfold MarketMaker.should_act. stable_tac. Qed.
Hint Resolve stable_mm_should_act : stable.

Lemma stable_mm_step_body (md : MarketData) :
  stable (fun s => (@mm_id L R) (snd s)) (MarketMaker.step_body md).
Proof. unfold MarketMaker.step_body. stable_tac. Qed.

Lemma report_mm_step_body (md : MarketData) :
  stable report_id (MarketMaker.step_body (R:=R) (L:=L) md).
Proof. unfold MarketMaker.step_body. stable_tac. Qed.


Lemma stable_inherited_trader {A} (m : M (AgentBase.t R * L) A) :
  stable (@base_id L R) m -> stable (@trader_id L R) (inherited m).
Proof.
  intros H. unfold inherited. apply stable_zoom with (g := (@base_id L R)); [assumption|].
  intros t s E. exact E.
Qed.
Hint Resolve stable_inherited_trader : stable.

Lemma stable_trader_get_token_balance t : stable (@trader_id L R) (Trader.get_token_balance t).
Proof. unfold Trader.get_token_balance. stable_tac. Qed.

Lemma stable_get_pool_price : stable (@trader_id L R) Trader.get_pool_price.
Proof. unfold Trader.get_pool_price. stable_tac. Qed.

Lemma stable_calculate_swap_output a t : stable (@trader_id L R) (Trader.calculate_swap_output a t).
Proof. unfold Trader.calculate_swap_output. stable_tac. Qed.
Hint Resolve stable_trader_get_token_balance stable_get_pool_price
  stable_calculate_swap_output : stable.

Lemma stable_execute_swap a t o : stable (@trader_id L R) (Trader.execute_swap a t o).
Proof. unfold Trader.execute_swap. stable_tac. Qed.

Lemma stable_random_random : stable (@trader_id L R) Trader.random_random.
Proof. unfold Trader.random_random. stable_tac. Qed.

Lemma stable_random_randbelow n : stable (@trader_id L R) (Trader.random_randbelow n).
Proof. unfold Trader.random_randbelow. stable_tac. Qed.
Hint Resolve stable_execute_swap stable_random_random stable_random_randbelow : stable.

Lemma stable_random_choice {A} (seq : list A) : stable (@trader_id L R) (Trader.random_choice seq).
Proof. unfold Trader.random_choice. stable_tac. Qed.

Lemma stable_random_randint a b : stable (@trader_id L R) (Trader.random_randint a b).
Proof. unfold Trader.random_randint. stable_tac. Qed.
Hint Resolve stable_random_choice stable_random_randint : stable.


Lemma stable_inherited_rt {A} (m : M (Trader.t R * L) A) :
  stable (@trader_id L R) m -> stable (@rt_id L R) (inherited m).
Proof.
  intros H. unfold inherited. apply stable_zoom with (g := (@trader_id L R)); [assumption|].
  intros t s E. exact E.
Qed.
Hint Resolve stable_inherited_rt : stable.

Lemma stable_rt_should_act (md : MarketData) : stable (@rt_id L R) (RandomTrader.should_act md).
Proof. unfold RandomTrader.should_act. stable_tac. Qed.

Lemma stable_rt_step_body (md : MarketData) :
  stable (fun s => (@rt_id L R) (snd s)) (RandomTrader.step_body md).
Proof. unfold RandomTrader.step_body. stable_tac. Qed.

Lemma report_rt_step_body (md : MarketData) :
  stable report_id (RandomTrader.step_body (R:=R) (L:=L) md).
Proof. unfold RandomTrader.step_body. stable_tac. Qed.


Lemma stable_inherited_mt {A} (m : M (Trader.t R * L) A) :
  stable (@trader_id L R) m -> stable (@mt_id L R) (inherited m).
Proof.
  intros H. unfold inherited. apply stable_zoom with (g := (@trader_id L R)); [assumption|].
  intros t s E. exact E.
Qed.
Hint Resolve stable_inherited_mt : stable.

Lemma stable_calculate_momentum : stable (@mt_id L R) MomentumTrader.calculate_momentum.
Proof. unfold MomentumTrader.calculate_momentum. stable_tac. Qed.
Hint Resolve stable_calculate_momentum : stable.

Lemma stable_mt_should_act (md : MarketData) : stable (@mt_id L R) (MomentumTrader.should_act md).
Proof. unfold MomentumTrader.should_act. stable_tac. Qed.

Lemma stable_mt_step_body (md : MarketData) :
  stable (fun s => (@mt_id L R) (snd s)) (MomentumTrader.step_body md).
Proof. unfold MomentumTrader.step_body. stable_tac. Qed.

Lemma report_mt_step_body (md : MarketData) :
  stable report_id (MomentumTrader.step_body (R:=R) (L:=L) md).
Proof. unfold MomentumTrader.step_body. stable_tac. Qed.


Lemma stable_inherited_at {A} (m : M (Trader.t R * L) A) :
  stable (@trader_id L R) m -> stable (@at_id L R) (inherited m).
Proof.
  intros H. unfold inherited. apply stable_zoom with (g := (@trader_id L R)); [assumption|].
  intros t s E. exact E.
Qed.
Hint Resolve stable_inherited_at : stable.

Lemma stable_find_arbitrage_opportunity :
  stable (@at_id L R) ArbitrageTrader.find_arbitrage_opportunity.
Proof. unfold ArbitrageTrader.find_arbitrage_opportunity. stable_tac. Qed.
Hint Resolve stable_find_arbitrage_opportunity : stable.

Lemma stable_at_should_act (md : MarketData) : stable (@at_id L R) (ArbitrageTrader.should_act md).
Proof. unfold ArbitrageTrader.should_act. stable_tac. Qed.

Lemma stable_at_step_body (md : MarketData) :
  stable (fun s => (@at_id L R) (snd s)) (ArbitrageTrader.step_body md).
Proof. unfold ArbitrageTrader.step_body. stable_tac. Qed.

Lemma report_at_step_body (md : MarketData) :
  stable report_id (ArbitrageTrader.step_body (R:=R) (L:=L) md).
Proof. unfold ArbitrageTrader.step_body. stable_tac. Qed.
End AB.

(** ** The scheduler *)

Section Sch.
Context {L : Type} {W3 : Web3 L} {R : Type} {RG : Random R}.
Context {MarketData : Type}.

Lemma agent_step_guarded (md : MarketData) (a : Agent R) (l : L) :
  SimulationRunner.agent_step md (a, l) =
  guarded_step (new_actions (agent_id a) (agent_type a)) (agent_step_body md) (a, l).
Proof.
  unfold SimulationRunner.agent_step, dispatch, agent_step_body.
  destruct a as [a|a|a|a]; simpl;
  [ unfold MarketMaker.step | unfold RandomTrader.step
  | unfold MomentumTrader.step | unfold ArbitrageTrader.step ];
  unfold bind, self, gets, guarded_step, try_except, update_actions, modify; simpl.
  - destruct (MarketMaker.step_body md _) as [[u|e] [acts' [a' l']]]; simpl;
      [reflexivity|destruct (is_Exception e); reflexivity].
  - destruct (RandomTrader.step_body md _) as [[u|e] [acts' [a' l']]]; simpl;
      [reflexivity|destruct (is_Exception e); reflexivity].
  - destruct (MomentumTrader.step_body md _) as [[u|e] [acts' [a' l']]]; simpl;
      [reflexivity|destruct (is_Exception e); reflexivity].
  - destruct (ArbitrageTrader.step_body md _) as [[u|e] [acts' [a' l']]]; simpl;
      [reflexivity|destruct (is_Exception e); reflexivity].
Qed.


Lemma stable_dispatch {A} mm rt mt at_ :
  stable (@mm_id L R) mm -> stable (@rt_id L R) rt -> stable (@mt_id L R) mt -> stable (@at_id L R) at_ ->
  stable (@agent_obs L R) (@dispatch L R A mm rt mt at_).
Proof.
  intros Hmm Hrt Hmt Hat [a l]. unfold dispatch. simpl fst. simpl snd.
  destruct a as [a|a|a|a].
  - specialize (Hmm (a, l)). destruct (mm (a, l)) as [r [a' l']]. exact Hmm.
  - specialize (Hrt (a, l)). destruct (rt (a, l)) as [r [a' l']]. exact Hrt.
  - specialize (Hmt (a, l)). destruct (mt (a, l)) as [r [a' l']]. exact Hmt.
  - specialize (Hat (a, l)). destruct (at_ (a, l)) as [r [a' l']]. exact Hat.
Qed.

Lemma stable_agent_should_act (md : MarketData) :
  stable (@agent_obs L R) (SimulationRunner.agent_should_act md).
Proof.
  apply stable_dispatch.
  - apply stable_mm_should_act.
  - apply stable_rt_should_act.
  - apply stable_mt_should_act.
  - apply stable_at_should_act.
Qed.

(** The body of a step keeps the agent's id and the id in the report. *)
Lemma agent_step_body_ids (md : MarketData) actions a l r actions' a' l' :
  agent_step_body md (actions, (a, l)) = (r, (actions', (a', l'))) ->
  ar_agent_id actions' = ar_agent_id actions /\ agent_id a' = agent_id a.
Proof.
  unfold agent_step_body. destruct a as [a|a|a|a].
  - pose proof (report_mm_step_body md (actions, (a, l))) as H1.
    pose proof (stable_mm_step_body md (actions, (a, l))) as H2.
    destruct (MarketMaker.step_body md (actions, (a, l))) as [r0 [acts [a0 l0]]].
    intros [= <- <- <- <-]. split; assumption.
  - pose proof (report_rt_step_body md (actions, (a, l))) as H1.
    pose proof (stable_rt_step_body md (actions, (a, l))) as H2.
    destruct (RandomTrader.step_body md (actions, (a, l))) as [r0 [acts [a0 l0]]].
    intros [= <- <- <- <-]. split; assumption.
  - pose proof (report_mt_step_body md (actions, (a, l))) as H1.
    pose proof (stable_mt_step_body md (actions, (a, l))) as H2.
    destruct (MomentumTrader.step_body md (actions, (a, l))) as [r0 [acts [a0 l0]]].
    intros [= <- <- <- <-]. split; assumption.
  - pose proof (report_at_step_body md (actions, (a, l))) as H1.
    pose proof (stable_at_step_body md (actions, (a, l))) as H2.
    destruct (ArbitrageTrader.step_body md (actions, (a, l))) as [r0 [acts [a0 l0]]].
    intros [= <- <- <- <-]. split; assumption.
Qed.

(** What a step returns: the report of its body, with the error of the
    body when it raised an [Exception]. *)
Lemma agent_step_spec (md : MarketData) a l :
  match agent_step_body md (new_actions (agent_id a) (agent_type a), (a, l)) with
  | (Ok _, (actions, s')) =>
      SimulationRunner.agent_step md (a, l) = (Ok actions, s')
  | (Raise e, (actions, s')) =>
      SimulationRunner.agent_step md (a, l) =
        if is_Exception e then (Ok (set_error (str e) actions), s')
        else (Raise e, s')
  end.
Proof.
  rewrite agent_step_guarded. unfold guarded_step, try_except.
  destruct (agent_step_body md _) as [[u|e] [actions s']]; [reflexivity|].
  destruct (is_Exception e); reflexivity.
Qed.

End Sch.

Section AgentLoop.
Context {L : Type} {W3 : Web3 L} {R : Type} {RG : Random R}.
Context {MarketData : Type}.

Lemma for_each_app {X A} (body : M (X * L) A) (pre post : list X) : forall l,
  for_each body (pre ++ post) l =
  match for_each body pre l with
  | (Ok r1, (pre', l1)) =>
      match for_each body post l1 with
      | (Ok r2, (post', l2)) => (Ok (r1 ++ r2)%list, ((pre' ++ post')%list, l2))
      | (Raise e, (post', l2)) => (Raise e, ((pre' ++ post')%list, l2))
      end
  | (Raise e, (pre', l1)) => (Raise e, ((pre' ++ post)%list, l1))
  end.
Proof.
  induction pre as [|x pre IH]; intros l; simpl.
  - destruct (for_each body post l) as [[r|e] [post' l']]; reflexivity.
  - destruct (body (x, l)) as [[a|e] [x' l1]]; [|reflexivity].
    rewrite IH.
    destruct (for_each body pre l1) as [[r1|e] [pre' l2]]; [|reflexivity].
    destruct (for_each body post l2) as [[r2|e] [post' l3]]; reflexivity.
Qed.

Lemma execute_agents_app (md : MarketData) (pre post : list (Agent R)) (l : L) :
  SimulationRunner.execute_agents md ((pre ++ post)%list, l) =
  match SimulationRunner.execute_agents md (pre, l) with
  | (Ok r1, (pre', l1)) =>
      match SimulationRunner.execute_agents md (post, l1) with
      | (Ok r2, (post', l2)) => (Ok (r1 ++ r2)%list, ((pre' ++ post')%list, l2))
      | (Raise e, (post', l2)) => (Raise e, ((pre' ++ post')%list, l2))
      end
  | (Raise e, (pre', l1)) => (Raise e, ((pre' ++ post)%list, l1))
  end.
Proof.
  unfold SimulationRunner.execute_agents. simpl fst. simpl snd.
  rewrite for_each_app.
  destruct (for_each _ pre l) as [[r1|e] [pre' l1]]; [|reflexivity].
  simpl fst. simpl snd.
  destruct (for_each _ post l1) as [[r2|e] [post' l2]]; [|reflexivity].
  rewrite concat_app. reflexivity.
Qed.

Lemma execute_agents_cons (md : MarketData) (a : Agent R) (rest : list (Agent R)) (l : L) :
  SimulationRunner.execute_agents md (a :: rest, l) =
  match SimulationRunner.agent_turn md (a, l) with
  | (Ok rs, (a', l1)) =>
      match SimulationRunner.execute_agents md (rest, l1) with
      | (Ok rs', (rest', l2)) => (Ok (rs ++ rs')%list, (a' :: rest', l2))
      | (Raise e, (rest', l2)) => (Raise e, (a' :: rest', l2))
      end
  | (Raise e, (a', l1)) => (Raise e, (a' :: rest, l1))
  end.
Proof.
  unfold SimulationRunner.execute_agents. simpl.
  destruct (SimulationRunner.agent_turn md (a, l)) as [[rs|e] [a' l1]]; [|reflexivity].
  destruct (for_each _ rest l1) as [[r2|e] [rest' l2]]; reflexivity.
Qed.

(** No failure of an agent that [except Exception] catches leaves the loop
    over the agents. *)
Lemma agent_turn_no_Exception (md : MarketData) s e s' :
  SimulationRunner.agent_turn md s = (Raise e, s') -> is_Exception e = false.
Proof.
  unfold SimulationRunner.agent_turn, try_except.
  destruct (bind _ _ s) as [[rs|e0] s0]; [discriminate|].
  destruct (is_Exception e0) eqn:E; [discriminate|].
  intros [= <- <-]. assumption.
Qed.

Lemma execute_agents_no_Exception (md : MarketData) ags : forall l e s',
  SimulationRunner.execute_agents md (ags, l) = (Raise e, s') ->
  is_Exception e = false.
Proof.
  induction ags as [|a rest IH]; intros l e s'.
  - discriminate.
  - rewrite execute_agents_cons.
    destruct (SimulationRunner.agent_turn md (a, l)) as [[rs|e0] [a' l1]] eqn:Ea.
    + destruct (SimulationRunner.execute_agents md (rest, l1)) as [[rs'|e1] [rest' l2]] eqn:Er;
        [discriminate|].
      intros [= <- <-]. eapply IH. eassumption.
    + intros [= <- <-]. eapply agent_turn_no_Exception. eassumption.
Qed.

End AgentLoop.

Section Tick.
Context {L : Type} {W3 : Web3 L} {R : Type} {RG : Random R}.
Context {MarketData StepMetrics OverallMetrics : Type}.
Context {MC : MetricsCalculator L MarketData StepMetrics OverallMetrics}.
Context {FS : FileSystem MarketData StepMetrics OverallMetrics}.
Context {SL : Sleep L}.

Local Abbreviation Runner := (SimulationRunner.t R MarketData StepMetrics).

(** What a tick that returns has done: one market read, before any agent
    acted; the loop over the agents on that one snapshot; the metrics of
    the reports; the record appended to the history. *)
Lemma run_step_Ok (s : Runner) (l : L) res s' l' :
  SimulationRunner.run_step (s, l) = (Ok res, (s', l')) ->
  exists ags1 l1,
    get_current_market_state l = Ok (sr_market_data res) /\
    SimulationRunner.execute_agents (sr_market_data res) (SimulationRunner.agents s, l) =
      (Ok (sr_agent_actions res), (ags1, l1)) /\
    sr_step res = SimulationRunner.current_step s /\
    calculate_step_metrics (SimulationRunner.current_step s) (sr_agent_actions res)
      (sr_market_data res) l1 = Ok (sr_step_metrics res) /\
    SimulationRunner.step_results s' =
      (SimulationRunner.step_results s ++ [res])%list.
Proof.
  unfold SimulationRunner.run_step, SimulationRunner.time_time,
    SimulationRunner._advance_blockchain, SimulationRunner.on_agents, zoom,
    try_except, bind, self, gets, w3_read, read, update_self, modify, lift_outcome, ret.
  simpl.
  destruct (get_current_market_state l) as [md|e]; [|discriminate]. simpl.
  destruct (SimulationRunner.execute_agents md (SimulationRunner.agents s, l))
    as [[acts|e] [ags1 l1]] eqn:Eex; [|discriminate]. simpl.
  destruct (eth_latest_timestamp l1) as [ts|e]; simpl;
    [|destruct (is_Exception e); [|discriminate]; simpl];
  (destruct (calculate_step_metrics _ acts md l1) as [sm|e1] eqn:Esm; [|discriminate]; simpl;
   destruct (SimulationRunner.collect_performance (ags1, l1)) as [[perf|e2] [ags2 l2]] eqn:Ep;
     [|discriminate]; simpl;
   destruct (int_of_float _) as [t|e3]; [|discriminate]; simpl;
   destruct (eth_block_number l2) as [bn|e4]; [|discriminate]; simpl;
   intros [= <- <- <-]; simpl; exists ags1, l1;
   repeat split; try reflexivity; assumption).
Qed.

(** C1: fault isolation.  In a tick over the agents [pre ++ a :: post], when
    the agents before [a] have run, [a] decides to act and the body of its
    [step] raises an [Exception] [e], the step returns a report carrying
    [a]'s id and the error [str(e)], and the loop goes on with the agents
    after [a]: the tick's [agent_actions] are the reports of the agents
    before [a], this report, then the reports of the agents after [a].  Only
    an exception that is no [Exception] (a keyboard interrupt) leaves the
    loop. *)
Theorem fault_isolation (s : Runner) (l : L) (md : MarketData)
    (pre post : list (Agent R)) (a : Agent R)
    rs_pre pre' l1 a1 l2 e actions a2 l3 :
  SimulationRunner.agents s = (pre ++ a :: post)%list ->
  get_current_market_state l = Ok md ->
  SimulationRunner.execute_agents md (pre, l) = (Ok rs_pre, (pre', l1)) ->
  SimulationRunner.agent_should_act md (a, l1) = (Ok true, (a1, l2)) ->
  agent_step_body md (new_actions (agent_id a1) (agent_type a1), (a1, l2)) =
    (Raise e, (actions, (a2, l3))) ->
  is_Exception e = true ->
  let report := set_error (str e) actions in
  error report = Some (str e) /\
  ar_agent_id report = agent_id a /\
  match SimulationRunner.execute_agents md (post, l3) with
  | (Ok rs_post, (post', l4)) =>
      SimulationRunner.execute_agents md (SimulationRunner.agents s, l) =
        (Ok (rs_pre ++ report :: rs_post)%list, ((pre' ++ a2 :: post')%list, l4)) /\
      forall res s' l',
        SimulationRunner.run_step (s, l) = (Ok res, (s', l')) ->
        sr_agent_actions res = (rs_pre ++ report :: rs_post)%list
  | (Raise e', (post', l4)) =>
      is_Exception e' = false /\
      SimulationRunner.run_step (s, l) =
        (Raise e',
         (SimulationRunner.with_agents (pre' ++ a2 :: post')%list
            (SimulationRunner.tick_clock s), l4))
  end.
Proof.
  intros Hags Hmd Hpre Hact Hbody He report.
  split; [reflexivity|]. split.
  - destruct (agent_step_body_ids md _ _ _ _ _ _ _ Hbody) as [Hid _].
    pose proof (stable_agent_should_act md (a, l1)) as Hs.
    rewrite Hact in Hs. unfold agent_obs in Hs. simpl in Hs.
    subst report. simpl. rewrite Hid. simpl. assumption.
  - assert (Hturn : SimulationRunner.agent_turn md (a, l1) = (Ok [report], (a2, l3))).
    { unfold SimulationRunner.agent_turn, try_except, bind. rewrite Hact.
      pose proof (agent_step_spec md a1 l2) as Hs. rewrite Hbody, He in Hs.
      rewrite Hs. reflexivity. }
    assert (Hall := execute_agents_app md pre (a :: post) l).
    rewrite Hpre, execute_agents_cons, Hturn, <- Hags in Hall.
    destruct (SimulationRunner.execute_agents md (post, l3))
      as [[rs_post|e'] [post' l4]] eqn:Ep.
    + split; [exact Hall|].
      intros res s' l' Hres.
      destruct (run_step_Ok s l res s' l' Hres) as (ags1 & l1' & Hm & Hex & _).
      rewrite Hmd in Hm. injection Hm as Hm. rewrite <- Hm, Hall in Hex.
      injection Hex as Hex _ _. symmetry. exact Hex.
    + split; [eapply execute_agents_no_Exception; eassumption|].
      unfold SimulationRunner.run_step, SimulationRunner.time_time,
        SimulationRunner.on_agents, zoom, bind, self, gets, w3_read, read,
        update_self, modify, lift_outcome, ret.
      simpl. rewrite Hmd. simpl. rewrite Hall. reflexivity.
Qed.

End Tick.

(** The first tick of the scenario: the market maker adds liquidity, the
    random trader's step raises a [ValueError] ([randint] on an empty range,
    a tenth of its balance being below the minimum trade size), and the tick
    records both reports. *)
Lemma fault_isolation_witness :
  exists mm_report report res,
    error report = Some "empty range for randrange()" /\
    ar_agent_id report = "random_trader_1" /\
    error mm_report = None /\
    ar_agent_id mm_report = "market_maker_0" /\
    fst (SimulationRunner.run_step (Scenario.runner, Scenario.ledger)) = Ok res /\
    sr_agent_actions res = [mm_report; report].
Proof.
  pose (md := scenario_snapshot).
  pose (pre_run := SimulationRunner.execute_agents md
                     ([Scenario.nth_agent 0 Scenario.runner], Scenario.ledger)).
  pose (rs_pre := match fst pre_run with Ok r => r | Raise _ => [] end).
  pose (l1 := snd (snd pre_run)).
  pose (decision := SimulationRunner.agent_should_act md
                      (Scenario.nth_agent 1 Scenario.runner, l1)).
  pose (a1 := fst (snd decision)).
  pose (l2 := snd (snd decision)).
  pose (body := agent_step_body md
                  (new_actions (agent_id a1) (agent_type a1), (a1, l2))).
  pose (e := match fst body with Raise e => e | Ok _ => Exn PlainException "" end).
  pose (actions := fst (snd body)).
  pose (a2 := fst (snd (snd body))).
  pose (l3 := snd (snd (snd body))).
  pose proof (fault_isolation Scenario.runner Scenario.ledger md
                [Scenario.nth_agent 0 Scenario.runner]
                [Scenario.nth_agent 2 Scenario.runner]
                (Scenario.nth_agent 1 Scenario.runner)
                rs_pre (fst (snd pre_run)) l1 a1 l2 e actions a2 l3) as H.
  assert (H1 : SimulationRunner.agents Scenario.runner =
               [Scenario.nth_agent 0 Scenario.runner;
                Scenario.nth_agent 1 Scenario.runner;
                Scenario.nth_agent 2 Scenario.runner])
    by (vm_compute; reflexivity).
  specialize (H H1). clear H1.
  assert (H2 : get_current_market_state Scenario.ledger = Ok md)
    by (vm_compute; reflexivity).
  specialize (H H2). clear H2.
  assert (H3 : SimulationRunner.execute_agents md
                 ([Scenario.nth_agent 0 Scenario.runner], Scenario.ledger) =
               (Ok rs_pre, (fst (snd pre_run), l1)))
    by (vm_compute; reflexivity).
  specialize (H H3). clear H3.
  assert (H4 : SimulationRunner.agent_should_act md
                 (Scenario.nth_agent 1 Scenario.runner, l1) = (Ok true, (a1, l2)))
    by (vm_compute; reflexivity).
  specialize (H H4). clear H4.
  assert (H5 : agent_step_body md
                 (new_actions (agent_id a1) (agent_type a1), (a1, l2)) =
               (Raise e, (actions, (a2, l3))))
    by (vm_compute; reflexivity).
  specialize (H H5 eq_refl). clear H5.
  cbv zeta in H. destruct H as (He & Hid & H).
  assert (Hpost : fst (SimulationRunner.execute_agents md
                         ([Scenario.nth_agent 2 Scenario.runner], l3)) = Ok [])
    by (vm_compute; reflexivity).
  destruct (SimulationRunner.execute_agents md
              ([Scenario.nth_agent 2 Scenario.runner], l3))
    as [[rs_post|e'] [post' l4]]; [|discriminate].
  simpl in Hpost. injection Hpost as ->. destruct H as [_ H].
  destruct (SimulationRunner.run_step (Scenario.runner, Scenario.ledger))
    as [[res|x] [s' l']] eqn:E.
  - exists (hd (set_error (str e) actions) rs_pre), (set_error (str e) actions), res.
    split; [vm_compute; reflexivity|]. split; [vm_compute; reflexivity|].
    split; [vm_compute; reflexivity|]. split; [vm_compute; reflexivity|].
    split; [reflexivity|]. rewrite (H res s' l' E).
    vm_compute. reflexivity.
  - exfalso.
    assert (Hr : fst (SimulationRunner.run_step (Scenario.runner, Scenario.ledger)) =
                 Raise x) by (rewrite E; reflexivity).
    vm_compute in Hr. discriminate.
Defined.

(** ** Determinism *)

Lemma int_of_float_finite x : is_finite x = true -> exists z, int_of_float x = Ok z.
Proof. destruct x; try discriminate; intros _; eexists; reflexivity. Qed.

Section Determinism.
Context {L : Type} {W3 : Web3 L} {R : Type} {RG : Random R}.
Context {MarketData StepMetrics OverallMetrics : Type}.
Context {MC : MetricsCalculator L MarketData StepMetrics OverallMetrics}.
Context {FS : FileSystem MarketData StepMetrics OverallMetrics}.
Context {SL : Sleep L}.

Local Abbreviation Runner := (SimulationRunner.t R MarketData StepMetrics).

Lemma same_result_refl (r : StepResult MarketData StepMetrics) : same_result r r.
Proof. repeat split. Qed.

(** A tick of two runners that differ in their clocks only. *)
Lemma run_step_same (st1 st2 : Runner * L) :
  same_state st1 st2 ->
  match SimulationRunner.run_step st1, SimulationRunner.run_step st2 with
  | (Ok r1, st1'), (Ok r2, st2') => same_result r1 r2 /\ same_state st1' st2'
  | (Raise e1, st1'), (Raise e2, st2') => e1 = e2 /\ same_state st1' st2'
  | _, _ => False
  end.
Proof.
  destruct st1 as [[cfg1 cs1 ags1 step1 mx1 sd1 rs1 wc1 cr1] l].
  destruct st2 as [[cfg2 cs2 ags2 step2 mx2 sd2 rs2 wc2 cr2] l'].
  unfold same_state, same_run, finite_clock. simpl.
  intros ((<- & <- & <- & <- & <- & <- & Hrs) & Hf1 & Hf2 & <-).
  unfold SimulationRunner.run_step, SimulationRunner.time_time,
    SimulationRunner._advance_blockchain, SimulationRunner.on_agents, zoom,
    try_except, bind, self, gets, w3_read, read, update_self, modify, lift_outcome, ret.
  simpl.
  destruct (get_current_market_state l) as [md|e]; simpl.
  2: { repeat split; assumption. }
  destruct (SimulationRunner.execute_agents md (ags1, l)) as [[acts|e] [ags' l1]]; simpl.
  2: { repeat split; assumption. }
  destruct (eth_latest_timestamp l1) as [ts|e]; simpl;
    [|destruct (is_Exception e); simpl; [|repeat split; assumption]];
  (destruct (calculate_step_metrics step1 acts md l1) as [sm|e1]; simpl;
     [|repeat split; assumption];
   destruct (SimulationRunner.collect_performance (ags', l1))
     as [[perf|e2] [ags2 l2]]; simpl; [|repeat split; assumption];
   destruct (int_of_float_finite _ (Hf1 (S cr1))) as [t1 ->];
   destruct (int_of_float_finite _ (Hf2 (S cr2))) as [t2 ->]; simpl;
   destruct (eth_block_number l2) as [bn|e4]; simpl; [|repeat split; assumption];
   repeat split; try assumption;
   apply Forall2_app; [assumption|]; constructor; [|constructor];
   repeat split).
Qed.

Lemma same_state_with_current_step (step : Z) (st1 st2 : Runner * L) :
  same_state st1 st2 ->
  same_state (SimulationRunner.with_current_step step (fst st1), snd st1)
             (SimulationRunner.with_current_step step (fst st2), snd st2).
Proof.
  destruct st1 as [s1 l1], st2 as [s2 l2].
  intros ((? & ? & ? & ? & ? & ? & ?) & ? & ? & ?). repeat split; assumption.
Qed.

(** The sleep between two ticks changes neither the runner nor the ledger:
    it returns or raises as [time.sleep] does. *)
Lemma sleep_between_steps_frame (s : Runner) (l : L) :
  SimulationRunner.sleep_between_steps (s, l) =
  ((if gt (SimulationRunner.step_delay s) (PInt 0)
    then time_sleep (SimulationRunner.step_delay s) l else Ok tt), (s, l)).
Proof.
  unfold SimulationRunner.sleep_between_steps, bind, self, gets, read, ret.
  cbn [fst snd]. destruct (gt _ _); reflexivity.
Qed.

Lemma sleep_between_steps_same (st1 st2 : Runner * L) :
  same_state st1 st2 ->
  fst (SimulationRunner.sleep_between_steps st1) =
    fst (SimulationRunner.sleep_between_steps st2) /\
  snd (SimulationRunner.sleep_between_steps st1) = st1 /\
  snd (SimulationRunner.sleep_between_steps st2) = st2.
Proof.
  destruct st1 as [s1 l1], st2 as [s2 l2].
  intros ((_ & _ & _ & _ & _ & Hd & _) & _ & _ & Hl). cbn [fst snd] in Hd, Hl.
  rewrite !sleep_between_steps_frame, Hd, Hl. repeat split.
Qed.

(** The ticks of two runs agree, whether the loop returns or raises. *)
Lemma steps_loop_same (n : nat) : forall (step : Z) (st1 st2 : Runner * L),
  same_state st1 st2 ->
  fst (SimulationRunner.steps_loop n step st1) =
    fst (SimulationRunner.steps_loop n step st2) /\
  same_state (snd (SimulationRunner.steps_loop n step st1))
             (snd (SimulationRunner.steps_loop n step st2)).
Proof.
  induction n as [|n IH]; intros step st1 st2 H.
  - split; [reflexivity|exact H].
  - cbn [SimulationRunner.steps_loop]. unfold bind, update_self, modify.
    pose proof (run_step_same _ _ (same_state_with_current_step step _ _ H)) as Hs.
    destruct st1 as [s1 l1], st2 as [s2 l2]. cbn [fst snd] in *.
    destruct (SimulationRunner.run_step (SimulationRunner.with_current_step step s1, l1))
      as [[r1|e1] st1'];
    destruct (SimulationRunner.run_step (SimulationRunner.with_current_step step s2, l2))
      as [[r2|e2] st2']; try contradiction.
    + destruct Hs as [_ Hs].
      destruct (sleep_between_steps_same _ _ Hs) as (Ho & E1 & E2).
      destruct (SimulationRunner.sleep_between_steps st1') as [o1 x1],
               (SimulationRunner.sleep_between_steps st2') as [o2 x2].
      cbn [fst snd] in Ho, E1, E2. subst o2 x1 x2.
      destruct o1 as [[]|e]; [apply IH; exact Hs|].
      split; [reflexivity|exact Hs].
    + destruct Hs as [-> Hs]. split; [reflexivity|exact Hs].
Qed.

(** The distribution of the initial tokens reads the runner's contracts and
    agents and writes to the ledger only. *)
Lemma distribute_transfer_frame deployer token to amount (l : L) :
  exists o l', forall s : Runner,
    SimulationRunner.distribute_transfer deployer token to amount (s, l) = (o, (s, l')).
Proof.
  unfold SimulationRunner.distribute_transfer, try_except, bind, w3_read, read,
    w3_send, lift_outcome, ret. simpl.
  destruct (eth_get_transaction_count deployer l) as [n|e]; simpl.
  2: { destruct (is_Exception e); do 2 eexists; intros; reflexivity. }
  destruct (build_transaction token (transfer to amount) l) as [tx|e]; simpl.
  2: { destruct (is_Exception e); do 2 eexists; intros; reflexivity. }
  destruct (sign_transaction deployer _) as [signed|e]; simpl.
  2: { destruct (is_Exception e); do 2 eexists; intros; reflexivity. }
  destruct (send_raw_transaction signed l) as [[h|e] l1]; simpl.
  2: { destruct (is_Exception e); do 2 eexists; intros; reflexivity. }
  destruct (wait_for_transaction_receipt h l1) as [[r|e] l2]; simpl.
  2: { destruct (is_Exception e); do 2 eexists; intros; reflexivity. }
  do 2 eexists; intros; reflexivity.
Qed.

Lemma distribute_loop_frame deployer test_token usdc_token (ags : list (Agent R)) :
  forall l : L, exists o l', forall s : Runner,
    SimulationRunner.distribute_loop deployer test_token usdc_token ags (s, l) =
      (o, (s, l')).
Proof.
  induction ags as [|a rest IH]; intros l.
  - do 2 eexists; intros; reflexivity.
  - cbn [SimulationRunner.distribute_loop]. cbv zeta. unfold bind.
    destruct (distribute_transfer_frame deployer test_token
                (AgentBase.address (agent_base a)) (10000 * 10 ^ 18) l)
      as (o1 & l1 & H1).
    destruct (distribute_transfer_frame deployer usdc_token
                (AgentBase.address (agent_base a)) (10000 * 10 ^ 6) l1)
      as (o2 & l2 & H2).
    destruct (IH l2) as (o3 & l3 & H3).
    destruct o1 as [u1|e1].
    2: { exists (Raise e1), l1. intros s. rewrite H1. reflexivity. }
    destruct o2 as [u2|e2].
    2: { exists (Raise e2), l2. intros s. rewrite H1, H2. reflexivity. }
    exists o3, l3. intros s. rewrite H1, H2, H3. reflexivity.
Qed.

Lemma distribute_same (st1 st2 : Runner * L) :
  same_state st1 st2 ->
  fst (SimulationRunner._distribute_initial_tokens st1) =
    fst (SimulationRunner._distribute_initial_tokens st2) /\
  same_state (snd (SimulationRunner._distribute_initial_tokens st1))
             (snd (SimulationRunner._distribute_initial_tokens st2)).
Proof.
  destruct st1 as [s1 l1], st2 as [s2 l2]. intros H.
  destruct H as (Hrun & Hf1 & Hf2 & Hl). cbn [fst snd] in *. subst l2.
  pose proof Hrun as (_ & Hc & Ha & _).
  unfold SimulationRunner._distribute_initial_tokens, bind, self, gets, lift_outcome.
  cbn [fst snd]. rewrite <- Hc, <- Ha.
  destruct (SimulationRunner.contract_address _ "ERC20Token") as [t|e];
    [|split; [reflexivity|split; [exact Hrun|repeat split; assumption]]].
  destruct (SimulationRunner.contract_address _ "USDC") as [u|e];
    [|split; [reflexivity|split; [exact Hrun|repeat split; assumption]]].
  cbv zeta.
  destruct (distribute_loop_frame
              (account_from_key
                 "0x4f3edf983ac636a65a842ce7c78d9aa706d3b113bce9c46f30d7d21715b23b1d")
              t u (SimulationRunner.agents s1) l1) as (o & l' & H).
  rewrite !H. split; [reflexivity|split; [exact Hrun|repeat split; assumption]].
Qed.

Lemma same_state_tick_clock (st1 st2 : Runner * L) :
  same_state st1 st2 ->
  same_state (SimulationRunner.tick_clock (fst st1), snd st1)
             (SimulationRunner.tick_clock (fst st2), snd st2).
Proof.
  destruct st1 as [s1 l1], st2 as [s2 l2].
  intros ((? & ? & ? & ? & ? & ? & ?) & ? & ? & ?). repeat split; assumption.
Qed.

(** The final report leaves the recorded ticks as they are. *)
Lemma stable_generate_final_report (start_time : float) :
  stable (fun st : Runner * L => SimulationRunner.step_results (fst st))
         (SimulationRunner._generate_final_report start_time).
Proof.
  assert (Ht : stable (fun st : Runner * L => SimulationRunner.step_results (fst st))
                 SimulationRunner.time_time).
  { intros [s l]. reflexivity. }
  assert (Hp : stable (fun st : Runner * L => SimulationRunner.step_results (fst st))
                 (SimulationRunner.on_agents SimulationRunner.collect_performance)).
  { intros [s l]. unfold SimulationRunner.on_agents, zoom.
    destruct (SimulationRunner.collect_performance _). reflexivity. }
  unfold SimulationRunner._generate_final_report, SimulationRunner._save_results,
    SimulationRunner._save_csv_metrics.
  stable_tac.
Qed.

(** Two runs that differ in their wall clocks only record the same ticks. *)
Lemma run_simulation_same (st1 st2 : Runner * L) :
  same_state st1 st2 ->
  Forall2 same_result
    (SimulationRunner.step_results (fst (snd (SimulationRunner.run_simulation st1))))
    (SimulationRunner.step_results (fst (snd (SimulationRunner.run_simulation st2)))).
Proof.
  intros H.
  assert (Hres : forall a b : Runner * L, same_state a b ->
            Forall2 same_result (SimulationRunner.step_results (fst a))
              (SimulationRunner.step_results (fst b))).
  { intros a b ((_ & _ & _ & _ & _ & _ & Hr) & _). exact Hr. }
  unfold SimulationRunner.run_simulation.
  unfold bind at 1 2. unfold SimulationRunner.time_time at 1 2.
  unfold bind, self, gets, update_self, modify, ret. cbn [fst snd].
  pose proof (distribute_same _ _ (same_state_tick_clock _ _ H)) as [Ho Hd].
  destruct st1 as [s1 l1], st2 as [s2 l2]. cbn [fst snd] in *.
  destruct (SimulationRunner._distribute_initial_tokens (SimulationRunner.tick_clock s1, l1))
    as [[u1|e1] [s1' l1']];
  destruct (SimulationRunner._distribute_initial_tokens (SimulationRunner.tick_clock s2, l2))
    as [[u2|e2] [s2' l2']]; cbn [fst snd] in *; try discriminate.
  2: { apply (Hres _ _ Hd). }
  assert (Hmx : SimulationRunner.max_steps s1' = SimulationRunner.max_steps s2').
  { destruct Hd as ((_ & _ & _ & _ & Hm & _) & _). exact Hm. }
  rewrite <- Hmx.
  pose proof (steps_loop_same (Z.to_nat (SimulationRunner.max_steps s1')) 0 _ _ Hd)
    as [Hlo Hls].
  destruct (SimulationRunner.steps_loop _ 0 (s1', l1')) as [[v1|x1] st1''];
  destruct (SimulationRunner.steps_loop _ 0 (s2', l2')) as [[v2|x2] st2''];
    cbn [fst snd] in *; try discriminate.
  - rewrite !stable_generate_final_report. apply (Hres _ _ Hls).
  - injection Hlo as <-.
    destruct (exn_class_of x1);
      try (apply (Hres _ _ Hls));
      rewrite !stable_generate_final_report; apply (Hres _ _ Hls).
Qed.

(** Every agent is created with a seed, so none draws from the operating
    system. *)
Lemma create_agent_seeded cfg contracts amm_address token_a_address token_b_address
    e1 e2 i agent_config (l : L) :
  SimulationRunner.create_agent (R := R) cfg contracts amm_address token_a_address
    token_b_address e1 i agent_config l =
  SimulationRunner.create_agent cfg contracts amm_address token_a_address
    token_b_address e2 i agent_config l.
Proof. reflexivity. Qed.

Lemma setup_agents_seeded cfg contracts e1 e2 (l : L) :
  SimulationRunner._setup_agents (R := R) cfg contracts e1 l =
  SimulationRunner._setup_agents cfg contracts e2 l.
Proof.
  unfold SimulationRunner._setup_agents.
  destruct (SimulationRunner.contract_address contracts "AMM"); [|reflexivity].
  destruct (SimulationRunner.contract_address contracts "ERC20Token"); [|reflexivity].
  destruct (SimulationRunner.contract_address contracts "USDC"); [|reflexivity].
  cbn [obind]. generalize 0%nat.
  induction (cfg_agents cfg) as [|c rest IH]; intros i; [reflexivity|].
  cbn [SimulationRunner.setup_agents_loop].
  rewrite (create_agent_seeded _ _ _ _ _ e1 e2), IH. reflexivity.
Qed.

(** Two runners built from one configuration on one ledger agree on all
    but their clocks. *)
Lemma init_same cfg contracts clock1 clock2 e1 e2 (l : L) (r1 r2 : Runner) :
  SimulationRunner.init cfg contracts clock1 e1 l = Ok r1 ->
  SimulationRunner.init cfg contracts clock2 e2 l = Ok r2 ->
  same_run r1 r2 /\ SimulationRunner.wall_clock r1 = clock1 /\
  SimulationRunner.wall_clock r2 = clock2.
Proof.
  unfold SimulationRunner.init. rewrite (setup_agents_seeded cfg contracts e1 e2).
  destruct (SimulationRunner._setup_agents cfg contracts e2 l) as [ags|e];
    [|discriminate].
  cbn [obind]. intros [= <-] [= <-]. repeat split; constructor.
Qed.

(** *** Registration order *)

Lemma AgentBase_init_id id key cs ib seed e (l : L) (a : AgentBase.t R) :
  AgentBase.init id key cs ib seed e l = Ok a -> AgentBase.agent_id a = id.
Proof.
  unfold AgentBase.init. cbv zeta. intros H.
  apply obind_Ok in H as (n & _ & H). injection H as <-. reflexivity.
Qed.

Lemma Trader_init_id id key cs amm ta tb ib sl seed e (l : L) (x : Trader.t R) :
  Trader.init id key cs amm ta tb ib sl seed e l = Ok x ->
  AgentBase.agent_id (Trader.base x) = id.
Proof.
  unfold Trader.init. intros H.
  apply obind_Ok in H as (b & Hb & H). apply AgentBase_init_id in Hb.
  repeat (apply obind_Ok in H as (? & _ & H)). injection H as <-. exact Hb.
Qed.

Lemma create_agent_id cfg cs amm ta tb e i c (l : L) (a : Agent R) :
  SimulationRunner.create_agent cfg cs amm ta tb e i c l = Ok (Some a) ->
  known_type (ac_type c) = true /\ agent_id a = ac_type c ++ "_" ++ str_of_nat i.
Proof.
  unfold SimulationRunner.create_agent, known_type. cbv zeta.
  destruct (String.eqb (ac_type c) "market_maker").
  { intros H. apply obind_Ok in H as (x & Hx & H). injection H as <-.
    split; [reflexivity|]. unfold MarketMaker.init in Hx.
    apply obind_Ok in Hx as (b & Hb & Hx). apply AgentBase_init_id in Hb.
    cbv zeta in Hx. repeat (apply obind_Ok in Hx as (? & _ & Hx)).
    injection Hx as <-. exact Hb. }
  destruct (String.eqb (ac_type c) "random_trader").
  { intros H. apply obind_Ok in H as (x & Hx & H). injection H as <-.
    split; [reflexivity|]. unfold RandomTrader.init in Hx.
    apply obind_Ok in Hx as (b & Hb & Hx). apply Trader_init_id in Hb.
    injection Hx as <-. exact Hb. }
  destruct (String.eqb (ac_type c) "momentum_trader").
  { intros H. apply obind_Ok in H as (x & Hx & H). injection H as <-.
    split; [reflexivity|]. unfold MomentumTrader.init in Hx.
    apply obind_Ok in Hx as (b & Hb & Hx). apply Trader_init_id in Hb.
    injection Hx as <-. exact Hb. }
  destruct (String.eqb (ac_type c) "arbitrage_trader").
  { intros H. apply obind_Ok in H as (x & Hx & H). injection H as <-.
    split; [reflexivity|]. unfold ArbitrageTrader.init in Hx.
    apply obind_Ok in Hx as (b & Hb & Hx). apply Trader_init_id in Hb.
    injection Hx as <-. exact Hb. }
  discriminate.
Qed.

Lemma create_agent_unknown cfg cs amm ta tb e i c (l : L) :
  SimulationRunner.create_agent (R := R) cfg cs amm ta tb e i c l = Ok None ->
  known_type (ac_type c) = false.
Proof.
  unfold SimulationRunner.create_agent, known_type. cbv zeta.
  destruct (String.eqb (ac_type c) "market_maker").
  { intros H. apply obind_Ok in H as (x & _ & H). discriminate. }
  destruct (String.eqb (ac_type c) "random_trader").
  { intros H. apply obind_Ok in H as (x & _ & H). discriminate. }
  destruct (String.eqb (ac_type c) "momentum_trader").
  { intros H. apply obind_Ok in H as (x & _ & H). discriminate. }
  destruct (String.eqb (ac_type c) "arbitrage_trader").
  { intros H. apply obind_Ok in H as (x & _ & H). discriminate. }
  reflexivity.
Qed.

(** The agents are registered in the order of the configuration. *)
Lemma setup_agents_loop_ids cfg cs amm ta tb e (l : L) (configs : list AgentConfig) :
  forall i (ags : list (Agent R)),
    SimulationRunner.setup_agents_loop cfg cs amm ta tb e i configs l = Ok ags ->
    map agent_id ags = registered_ids i configs.
Proof.
  induction configs as [|c rest IH]; intros i ags H.
  - injection H as <-. reflexivity.
  - cbn [SimulationRunner.setup_agents_loop] in H.
    apply obind_Ok in H as (a & Ha & H). apply obind_Ok in H as (ags' & Hr & H).
    injection H as <-. apply IH in Hr. cbn [registered_ids].
    destruct a as [a|].
    + apply create_agent_id in Ha as [-> Hid]. cbn [map]. rewrite Hid, Hr. reflexivity.
    + apply create_agent_unknown in Ha. rewrite Ha. exact Hr.
Qed.

Lemma init_ids cfg cs clock e (l : L) (r : Runner) :
  SimulationRunner.init cfg cs clock e l = Ok r ->
  map agent_id (SimulationRunner.agents r) = registered_ids 0 (cfg_agents cfg).
Proof.
  unfold SimulationRunner.init, SimulationRunner._setup_agents. intros H.
  apply obind_Ok in H as (ags & Ha & H). injection H as <-. cbn.
  repeat (apply obind_Ok in Ha as (? & _ & Ha)).
  eapply setup_agents_loop_ids. eassumption.
Qed.

Lemma stable_agent_step (md : MarketData) :
  stable (@agent_obs L R) (SimulationRunner.agent_step md).
Proof.
  intros [a l]. pose proof (agent_step_spec md a l) as H.
  destruct (agent_step_body md _) as [[u|e] [actions [a' l']]] eqn:E;
    apply agent_step_body_ids in E as [_ Hid].
  - rewrite H. exact Hid.
  - rewrite H. destruct (is_Exception e); exact Hid.
Qed.

Lemma stable_agent_turn (md : MarketData) :
  stable (@agent_obs L R) (SimulationRunner.agent_turn md).
Proof.
  unfold SimulationRunner.agent_turn.
  apply stable_try_except; [|intros e; apply stable_ret].
  apply stable_bind; [apply stable_agent_should_act|].
  intros [|]; [|apply stable_ret].
  apply stable_bind; [apply stable_agent_step|intros; apply stable_ret].
Qed.

(** An agent adds at most one report to a tick, under its own id. *)
Lemma agent_turn_reports (md : MarketData) (a : Agent R) (l : L) rs s' :
  SimulationRunner.agent_turn md (a, l) = (Ok rs, s') ->
  rs = [] \/ exists r, rs = [r] /\ ar_agent_id r = agent_id a.
Proof.
  unfold SimulationRunner.agent_turn, try_except, bind, ret.
  pose proof (stable_agent_should_act md (a, l)) as Hs.
  destruct (SimulationRunner.agent_should_act md (a, l)) as [[act|e] [a1 l1]].
  2: { destruct (is_Exception e); [|discriminate]. intros [= <- _]. left. reflexivity. }
  destruct act; [|intros [= <- _]; left; reflexivity].
  unfold agent_obs in Hs. cbn [fst snd] in Hs.
  pose proof (agent_step_spec md a1 l1) as H.
  destruct (agent_step_body md _) as [[u|e] [actions [a' l']]] eqn:E;
    apply agent_step_body_ids in E as [Hr _]; rewrite H.
  - intros [= <- _]. right. eexists. split; [reflexivity|].
    rewrite Hr. cbn. exact Hs.
  - destruct (is_Exception e) eqn:Ex; cbn; rewrite ?Ex; [|discriminate].
    intros [= <- _]. right. eexists. split; [reflexivity|].
    cbn. rewrite Hr. cbn. exact Hs.
Qed.

Lemma for_each_ids {A} (body : M (Agent R * L) A) :
  stable (@agent_obs L R) body ->
  forall ags l, map agent_id (fst (snd (for_each body ags l))) = map agent_id ags.
Proof.
  intros Hb. induction ags as [|a rest IH]; intros l; [reflexivity|].
  cbn [for_each]. pose proof (Hb (a, l)) as Ha. unfold agent_obs in Ha.
  destruct (body (a, l)) as [[x|e] [a' l1]]; cbn [fst snd] in Ha.
  - specialize (IH l1).
    destruct (for_each body rest l1) as [[r|e] [rest' l2]]; cbn [fst snd map] in *;
      rewrite Ha, IH; reflexivity.
  - cbn [fst snd map]. rewrite Ha. reflexivity.
Qed.

Lemma subsequence_refl_nil {A} (l : list A) : subsequence [] l.
Proof. induction l; constructor; assumption. Qed.

(** The reports of a tick come in the order of the agents. *)
Lemma execute_agents_order (md : MarketData) (ags : list (Agent R)) :
  forall (l : L) rs s',
    SimulationRunner.execute_agents md (ags, l) = (Ok rs, s') ->
    subsequence (map ar_agent_id rs) (map agent_id ags).
Proof.
  induction ags as [|a rest IH]; intros l rs s'.
  - intros [= <- _]. constructor.
  - rewrite execute_agents_cons.
    destruct (SimulationRunner.agent_turn md (a, l)) as [[r1|e] [a' l1]] eqn:Ea;
      [|discriminate].
    destruct (SimulationRunner.execute_agents md (rest, l1)) as [[r2|e] [rest' l2]] eqn:Er;
      [|discriminate].
    intros [= <- _]. apply IH in Er.
    apply agent_turn_reports in Ea as [->|(r & -> & Hid)]; cbn [app map].
    + apply subsequence_skip. exact Er.
    + rewrite Hid. apply subsequence_take. exact Er.
Qed.

Lemma execute_agents_ids (md : MarketData) (ags : list (Agent R)) (l : L) :
  map agent_id (fst (snd (SimulationRunner.execute_agents md (ags, l)))) =
  map agent_id ags.
Proof.
  unfold SimulationRunner.execute_agents. cbn [fst snd].
  pose proof (for_each_ids _ (stable_agent_turn md) ags l) as H.
  destruct (for_each _ ags l) as [[r|e] s']; exact H.
Qed.

Lemma stable_agent_get_performance_stats :
  stable (@agent_obs L R) SimulationRunner.agent_get_performance_stats.
Proof.
  unfold SimulationRunner.agent_get_performance_stats, inherited.
  apply stable_zoom with (g := @base_id L R).
  - apply stable_get_performance_stats.
  - intros [b l'] [a l]. unfold base_id, agent_obs, agent_id. cbn.
    intros H. destruct a; cbn in *; exact H.
Qed.

Lemma collect_performance_ids (ags : list (Agent R)) (l : L) :
  map agent_id (fst (snd (SimulationRunner.collect_performance (ags, l)))) =
  map agent_id ags.
Proof.
  unfold SimulationRunner.collect_performance. cbn [fst snd].
  match goal with |- context [for_each ?b ags l] =>
    assert (Hb : stable (@agent_obs L R) b) end.
  { apply stable_bind; [apply stable_agent_get_performance_stats|].
    intros x. apply stable_bind; [apply stable_self|intros; apply stable_ret]. }
  pose proof (for_each_ids _ Hb ags l) as H.
  destruct (for_each _ ags l) as [[r|e] s']; exact H.
Qed.

(** A tick keeps the agents in their order and records its reports in
    that order. *)
Lemma run_step_order (ids : list string) (st : Runner * L) :
  in_registration_order ids (fst st) ->
  in_registration_order ids (fst (snd (SimulationRunner.run_step st))).
Proof.
  destruct st as [[cfg cs ags step mx sd rs wc cr] l].
  unfold in_registration_order. cbn [fst snd SimulationRunner.agents
    SimulationRunner.step_results]. intros [Hids Hrs].
  unfold SimulationRunner.run_step, SimulationRunner.time_time,
    SimulationRunner._advance_blockchain, SimulationRunner.on_agents, zoom,
    try_except, bind, self, gets, w3_read, read, update_self, modify, lift_outcome, ret.
  simpl.
  destruct (get_current_market_state l) as [md|e]; simpl; [|split; assumption].
  pose proof (execute_agents_ids md ags l) as Hex.
  pose proof (execute_agents_order md ags l) as Hord.
  destruct (SimulationRunner.execute_agents md (ags, l)) as [[acts|e] [ags' l1]];
    simpl in *; rewrite Hids in Hex; [|split; assumption].
  specialize (Hord acts _ eq_refl). rewrite Hids in Hord.
  pose proof (collect_performance_ids ags' l1) as Hperf. rewrite Hex in Hperf.
  destruct (eth_latest_timestamp l1) as [ts|e]; simpl;
    [|destruct (is_Exception e); simpl; [|split; assumption]];
  (destruct (calculate_step_metrics step acts md l1) as [sm|e1]; simpl;
     [|split; assumption];
   destruct (SimulationRunner.collect_performance (ags', l1))
     as [[perf|e2] [ags2 l2]]; simpl in *; [|split; assumption];
   destruct (int_of_float _) as [t1|e3]; simpl; [|split; assumption];
   destruct (eth_block_number l2) as [bn|e4]; simpl; [|split; assumption];
   split; [assumption|];
   apply Forall_app; split; [assumption|]; constructor; [exact Hord|constructor]).
Qed.

Lemma steps_loop_order (ids : list string) (n : nat) : forall step (st : Runner * L),
  in_registration_order ids (fst st) ->
  in_registration_order ids (fst (snd (SimulationRunner.steps_loop n step st))).
Proof.
  induction n as [|n IH]; intros step [s l] H; [exact H|].
  cbn [SimulationRunner.steps_loop]. unfold bind, update_self, modify. cbn [fst snd].
  assert (H' : in_registration_order ids
                 (fst (SimulationRunner.with_current_step step s, l))) by exact H.
  apply run_step_order in H'.
  destruct (SimulationRunner.run_step (SimulationRunner.with_current_step step s, l))
    as [[r|e] [s' l']]; [|exact H'].
  rewrite sleep_between_steps_frame.
  destruct (if gt _ _ then _ else _) as [[]|e]; [apply IH|]; exact H'.
Qed.

Lemma stable_generate_final_report_ids (start_time : float) :
  stable (fun st : Runner * L => map agent_id (SimulationRunner.agents (fst st)))
         (SimulationRunner._generate_final_report start_time).
Proof.
  assert (Ht : stable (fun st : Runner * L =>
                         map agent_id (SimulationRunner.agents (fst st)))
                 SimulationRunner.time_time).
  { intros [s l]. reflexivity. }
  assert (Hp : stable (fun st : Runner * L =>
                         map agent_id (SimulationRunner.agents (fst st)))
                 (SimulationRunner.on_agents SimulationRunner.collect_performance)).
  { intros [s l]. unfold SimulationRunner.on_agents, zoom. cbn [fst snd].
    pose proof (collect_performance_ids (SimulationRunner.agents s) l) as H.
    destruct (SimulationRunner.collect_performance _) as [o [ags' l']]. exact H. }
  unfold SimulationRunner._generate_final_report, SimulationRunner._save_results,
    SimulationRunner._save_csv_metrics.
  stable_tac.
Qed.

(** A whole run keeps the agents in their order and records every tick in
    that order. *)
Lemma run_simulation_order (ids : list string) (st : Runner * L) :
  in_registration_order ids (fst st) ->
  in_registration_order ids (fst (snd (SimulationRunner.run_simulation st))).
Proof.
  destruct st as [s l]. intros H.
  unfold SimulationRunner.run_simulation.
  unfold bind at 1. unfold SimulationRunner.time_time at 1.
  unfold bind, self, gets, update_self, modify, ret. cbn [fst snd].
  assert (Hd : in_registration_order ids
                 (fst (snd (SimulationRunner._distribute_initial_tokens
                              (SimulationRunner.tick_clock s, l))))).
  { unfold SimulationRunner._distribute_initial_tokens, bind, self, gets, lift_outcome.
    cbn [fst snd].
    destruct (SimulationRunner.contract_address _ "ERC20Token") as [t|e]; [|exact H].
    destruct (SimulationRunner.contract_address _ "USDC") as [u|e]; [|exact H].
    cbv zeta.
    destruct (distribute_loop_frame
                (account_from_key
                   "0x4f3edf983ac636a65a842ce7c78d9aa706d3b113bce9c46f30d7d21715b23b1d")
                t u (SimulationRunner.agents (SimulationRunner.tick_clock s)) l)
      as (o & l' & Hf).
    rewrite Hf. exact H. }
  destruct (SimulationRunner._distribute_initial_tokens (SimulationRunner.tick_clock s, l))
    as [[u|e] st1]; cbn [fst snd] in *; [|exact Hd].
  apply (steps_loop_order ids (Z.to_nat (SimulationRunner.max_steps (fst st1))) 0)
    in Hd.
  assert (Hg : forall st2 : Runner * L, in_registration_order ids (fst st2) ->
            in_registration_order ids
              (fst (snd (SimulationRunner._generate_final_report
                           (SimulationRunner.wall_clock s
                              (SimulationRunner.clock_reads s)) st2)))).
  { intros st2 [H1 H2]. split.
    - rewrite <- H1. apply (stable_generate_final_report_ids _ st2).
    - rewrite (stable_generate_final_report _ st2). exact H2. }
  destruct (SimulationRunner.steps_loop _ 0 st1) as [[v|x] st2]; cbn [fst snd] in *.
  - apply Hg. exact Hd.
  - destruct (exn_class_of x); try exact Hd; apply Hg; exact Hd.
Qed.

Lemma Forall2_map_eq {A B} (P : A -> A -> Prop) (f : A -> B) (xs ys : list A) :
  (forall x y, P x y -> f x = f y) -> Forall2 P xs ys -> map f xs = map f ys.
Proof.
  intros Hf H. induction H as [|x y xs ys Hxy _ IH]; [reflexivity|].
  cbn [map]. rewrite (Hf x y Hxy), IH. reflexivity.
Qed.

(** C5: determinism.  Two runs built from the same configuration (so the
    same random seed) on the same ledger, whatever their wall clocks and
    whatever the operating system would seed an unseeded generator with,
    hold the same agents, registered in the order of the configuration, and
    record the same ticks: the same step metrics and the same agent actions
    in the same order, tick by tick (only the wall-clock readings of a record
    differ); the reports of every tick come in registration order. *)
Theorem run_determinism (cfg : Config) (contracts : list (string * ContractInfo))
    (clock1 clock2 : nat -> float) (os_entropy1 os_entropy2 : Z) (l : L)
    (r1 r2 : Runner) :
  (forall k, is_finite (clock1 k) = true) ->
  (forall k, is_finite (clock2 k) = true) ->
  SimulationRunner.init cfg contracts clock1 os_entropy1 l = Ok r1 ->
  SimulationRunner.init cfg contracts clock2 os_entropy2 l = Ok r2 ->
  let ids := registered_ids 0 (cfg_agents cfg) in
  let results1 :=
    SimulationRunner.step_results (fst (snd (SimulationRunner.run_simulation (r1, l)))) in
  let results2 :=
    SimulationRunner.step_results (fst (snd (SimulationRunner.run_simulation (r2, l)))) in
  SimulationRunner.agents r1 = SimulationRunner.agents r2 /\
  map agent_id (SimulationRunner.agents r1) = ids /\
  map sr_step_metrics results1 = map sr_step_metrics results2 /\
  map sr_agent_actions results1 = map sr_agent_actions results2 /\
  Forall2 same_result results1 results2 /\
  Forall (fun res => subsequence (map ar_agent_id (sr_agent_actions res)) ids) results1.
Proof.
  intros Hf1 Hf2 H1 H2 ids results1 results2.
  destruct (init_same _ _ _ _ _ _ _ _ _ H1 H2) as (Hsame & Hc1 & Hc2).
  assert (Hst : same_state (r1, l) (r2, l)).
  { split; [exact Hsame|]. unfold finite_clock. cbn [fst snd].
    rewrite Hc1, Hc2. repeat split; assumption. }
  pose proof (run_simulation_same _ _ Hst) as Hres.
  fold results1 results2 in Hres.
  assert (Hord : in_registration_order ids (fst (r1, l))).
  { split; [exact (init_ids _ _ _ _ _ _ H1)|].
    unfold SimulationRunner.init in H1.
    destruct (SimulationRunner._setup_agents cfg contracts os_entropy1 l);
      [|discriminate].
    injection H1 as <-. constructor. }
  apply run_simulation_order in Hord. destruct Hord as [_ Hord].
  split; [apply Hsame|]. split; [exact (init_ids _ _ _ _ _ _ H1)|].
  split; [|split; [|split; [exact Hres|exact Hord]]].
  - apply (Forall2_map_eq same_result); [|exact Hres].
    intros x y (_ & _ & _ & _ & H & _). exact H.
  - apply (Forall2_map_eq same_result); [|exact Hres].
    intros x y (_ & _ & _ & H & _). exact H.
Qed.

End Determinism.

Lemma scenario_clocks_finite :
  (forall k, is_finite (Scenario.clock k) = true) /\
  (forall k, is_finite (Scenario.other_clock k) = true).
Proof.
  split; intros k; unfold Scenario.clock, Scenario.other_clock;
    do 16 (destruct k as [|k]; [reflexivity|]); destruct k; reflexivity.
Qed.

(** The scenario run twice, at different times and with different entropy
    of the operating system: the same two ticks, the reports of each in
    registration order; only the timestamps differ. *)
Lemma run_determinism_witness :
  let results1 :=
    SimulationRunner.step_results
      (fst (snd (SimulationRunner.run_simulation (Scenario.runner, Scenario.ledger)))) in
  let results2 :=
    SimulationRunner.step_results
      (fst (snd (SimulationRunner.run_simulation
                   (Scenario.other_runner, Scenario.ledger)))) in
  map agent_id (SimulationRunner.agents Scenario.runner) =
    ["market_maker_0"; "random_trader_1"; "momentum_trader_2"] /\
  map sr_step_metrics results1 = map sr_step_metrics results2 /\
  map sr_agent_actions results1 = map sr_agent_actions results2 /\
  map (fun res => map ar_agent_id (sr_agent_actions res)) results1 =
    [["market_maker_0"; "random_trader_1"];
     ["market_maker_0"; "random_trader_1"; "momentum_trader_2"]] /\
  map sr_timestamp results1 <> map sr_timestamp results2.
Proof.
  assert (H1 : SimulationRunner.init Scenario.config Scenario.contracts
                 Scenario.clock 0 Scenario.ledger = Ok Scenario.runner)
    by (vm_compute; reflexivity).
  assert (H2 : SimulationRunner.init Scenario.config Scenario.contracts
                 Scenario.other_clock 99 Scenario.ledger = Ok Scenario.other_runner)
    by (vm_compute; reflexivity).
  pose proof (run_determinism Scenario.config Scenario.contracts Scenario.clock
                Scenario.other_clock 0 99 Scenario.ledger Scenario.runner
                Scenario.other_runner (proj1 scenario_clocks_finite)
                (proj2 scenario_clocks_finite) H1 H2) as H.
  cbv zeta in H |- *. clear H1 H2.
  destruct H as (_ & Hids & Hm & Ha & _).
  split; [exact Hids|]. split; [exact Hm|]. split; [exact Ha|].
  split; [vm_compute; reflexivity|]. vm_compute. discriminate.
Defined.

(** ** The final report *)

Section FinalReport.
Context {L : Type} {W3 : Web3 L} {R : Type} {RG : Random R}.
Context {MarketData StepMetrics OverallMetrics : Type}.
Context {MC : MetricsCalculator L MarketData StepMetrics OverallMetrics}.
Context {FS : FileSystem MarketData StepMetrics OverallMetrics}.
Context {SL : Sleep L}.

Local Abbreviation Runner := (SimulationRunner.t R MarketData StepMetrics).

(** A failed market read ends the tick at once. *)
Lemma run_step_market_read_fails (s : Runner) (l : L) e :
  get_current_market_state l = Raise e ->
  SimulationRunner.run_step (s, l) = (Raise e, (SimulationRunner.tick_clock s, l)).
Proof.
  intros H. unfold SimulationRunner.run_step, SimulationRunner.time_time, bind,
    self, gets, update_self, modify, ret, w3_read, read. simpl. rewrite H. reflexivity.
Qed.

(** What the report holds when it is produced. *)
Lemma generate_final_report_Ok (start_time : float) (st st' : Runner * L) report :
  SimulationRunner._generate_final_report start_time st = (Ok report, st') ->
  calculate_overall_metrics (SimulationRunner.step_results (fst st)) (snd st) =
    Ok (overall_metrics report) /\
  fst (SimulationRunner.collect_performance (SimulationRunner.agents (fst st), snd st)) =
    Ok (final_agent_performance report) /\
  total_steps (execution_summary report) = SimulationRunner.current_step (fst st) + 1 /\
  res_step_results report =
    list_slice_from (SimulationRunner.step_results (fst st)) (-10).
Proof.
  destruct st as [s l].
  unfold SimulationRunner._generate_final_report, SimulationRunner._save_results,
    SimulationRunner._save_csv_metrics, SimulationRunner.time_time,
    SimulationRunner.on_agents, zoom, try_except, bind, self, gets, w3_read, read,
    update_self, modify, lift_outcome, ret. simpl.
  destruct (calculate_overall_metrics _ l) as [om|e]; [|discriminate]. simpl.
  destruct (SimulationRunner.collect_performance _) as [[perf|e] [ags' l']];
    [|discriminate]. simpl.
  destruct (float_of_int _) as [n|e]; [|discriminate]. simpl.
  destruct (float_truediv _ n) as [avg|e]; [|discriminate]. simpl.
  destruct (int_of_float _) as [t|e]; [|discriminate]. simpl.
  destruct (json_dump _) as [u|e]; [|discriminate]. simpl.
  destruct (to_csv _) as [u'|e]; simpl;
    [|destruct (is_Exception e); [|discriminate]];
    intros [= <- _]; repeat split.
Qed.

(** Where the exceptions of a run go: [except KeyboardInterrupt] lets the
    run go on to the report, [except Exception] re-raises. *)
Lemma run_simulation_route (st : Runner * L) :
  SimulationRunner.run_simulation st =
  match SimulationRunner._distribute_initial_tokens
          (SimulationRunner.tick_clock (fst st), snd st) with
  | (Raise e, st1) => (Raise e, st1)
  | (Ok _, st1) =>
      match SimulationRunner.steps_loop
              (Z.to_nat (SimulationRunner.max_steps (fst st1))) 0 st1 with
      | (Ok _, st2) =>
          SimulationRunner._generate_final_report
            (SimulationRunner.wall_clock (fst st) (SimulationRunner.clock_reads (fst st)))
            st2
      | (Raise e, st2) =>
          match exn_class_of e with
          | KeyboardInterrupt =>
              SimulationRunner._generate_final_report
                (SimulationRunner.wall_clock (fst st)
                   (SimulationRunner.clock_reads (fst st))) st2
          | _ => (Raise e, st2)
          end
      end
  end.
Proof.
  destruct st as [s l].
  unfold SimulationRunner.run_simulation, SimulationRunner.time_time,
    bind, self, gets, update_self, modify, ret. cbn [fst snd].
  destruct (SimulationRunner._distribute_initial_tokens _) as [[u|e] st1];
    [|reflexivity].
  cbn [fst snd].
  destruct (SimulationRunner.steps_loop _ 0 st1) as [[v|x] st2]; [reflexivity|].
  destruct (exn_class_of x); reflexivity.
Qed.

(** An exception that ends a tick ends the loop over the ticks. *)
Lemma steps_loop_tick_raises (s : Runner) (l : L) n step e st' :
  SimulationRunner.run_step (SimulationRunner.with_current_step step s, l) =
    (Raise e, st') ->
  SimulationRunner.steps_loop (S n) step (s, l) = (Raise e, st').
Proof.
  intros H. cbn [SimulationRunner.steps_loop].
  unfold bind, update_self, modify. cbn [fst snd]. rewrite H. reflexivity.
Qed.

(** [get_performance_stats] is called under no [try] in [run_step]: what it
    raises for an agent ends the tick. *)
Lemma run_step_performance_fails (s : Runner) (l : L) md acts ags1 l1 sm e st2 :
  get_current_market_state l = Ok md ->
  SimulationRunner.execute_agents md (SimulationRunner.agents s, l) =
    (Ok acts, (ags1, l1)) ->
  (forall x, eth_latest_timestamp l1 = Raise x -> is_Exception x = true) ->
  calculate_step_metrics (SimulationRunner.current_step s) acts md l1 = Ok sm ->
  SimulationRunner.collect_performance (ags1, l1) = (Raise e, st2) ->
  fst (SimulationRunner.run_step (s, l)) = Raise e.
Proof.
  intros Hmd Hex Hts Hsm Hperf.
  unfold SimulationRunner.run_step, SimulationRunner.time_time,
    SimulationRunner._advance_blockchain, SimulationRunner.on_agents, zoom,
    try_except, bind, self, gets, w3_read, read, update_self, modify, lift_outcome, ret.
  cbn [fst snd SimulationRunner.agents SimulationRunner.tick_clock
       SimulationRunner.with_agents SimulationRunner.current_step].
  rewrite Hmd. cbn [fst snd]. rewrite Hex.
  cbn [fst snd SimulationRunner.agents SimulationRunner.with_agents
       SimulationRunner.current_step SimulationRunner.tick_clock].
  destruct (eth_latest_timestamp l1) as [ts|x] eqn:Ets; cbn [fst snd];
    [|rewrite (Hts x eq_refl); cbn [fst snd]];
    cbn [fst snd SimulationRunner.agents SimulationRunner.with_agents
         SimulationRunner.current_step SimulationRunner.tick_clock];
    rewrite Hsm; cbn [fst snd SimulationRunner.agents SimulationRunner.with_agents];
    rewrite Hperf; reflexivity.
Qed.

(** What [_generate_final_report] does once the overall metrics and the
    performance of every agent are in hand and the clock readings are
    finite: all is decided by the two files.  [json.dump] is under no
    [try]; [_save_csv_metrics] catches the [Exception] of its own. *)
Lemma generate_final_report_outcome (start_time : float) (s : Runner) (l : L)
    om perf ags' l' n avg t :
  calculate_overall_metrics (SimulationRunner.step_results s) l = Ok om ->
  SimulationRunner.collect_performance (SimulationRunner.agents s, l) =
    (Ok perf, (ags', l')) ->
  float_of_int (Z.max 1 (SimulationRunner.current_step s + 1)) = Ok n ->
  float_truediv
    (fsub (SimulationRunner.wall_clock s (SimulationRunner.clock_reads s)) start_time)
    n = Ok avg ->
  int_of_float (SimulationRunner.wall_clock s (S (SimulationRunner.clock_reads s))) =
    Ok t ->
  let report :=
    {| simulation_config := SimulationRunner.config s;
       execution_summary :=
         {| total_steps := SimulationRunner.current_step s + 1;
            total_time :=
              fsub (SimulationRunner.wall_clock s (SimulationRunner.clock_reads s))
                   start_time;
            avg_step_time := avg;
            total_transactions :=
              SimulationRunner.sum_Z
                (fun a => AgentBase.transaction_count (agent_base a)) ags';
            es_total_gas_used :=
              SimulationRunner.sum_Z
                (fun a => AgentBase.total_gas_used (agent_base a)) ags' |};
       overall_metrics := om;
       final_agent_performance := perf;
       res_step_results :=
         list_slice_from (SimulationRunner.step_results s) (-10) |} in
  fst (SimulationRunner._generate_final_report start_time (s, l)) =
    match json_dump report with
    | Raise e => Raise e
    | Ok _ =>
        match to_csv (SimulationRunner.step_results s) with
        | Ok _ => Ok report
        | Raise e => if is_Exception e then Ok report else Raise e
        end
    end.
Proof.
  intros Hom Hperf Hn Havg Ht report.
  unfold SimulationRunner._generate_final_report, SimulationRunner._save_results,
    SimulationRunner._save_csv_metrics, SimulationRunner.time_time,
    SimulationRunner.on_agents, zoom, try_except, bind, self, gets, w3_read, read,
    update_self, modify, lift_outcome, ret.
  cbn [fst snd SimulationRunner.agents SimulationRunner.tick_clock
       SimulationRunner.with_agents SimulationRunner.current_step
       SimulationRunner.step_results SimulationRunner.config
       SimulationRunner.wall_clock SimulationRunner.clock_reads].
  rewrite Hom. cbn [fst snd]. rewrite Hperf.
  cbn [fst snd SimulationRunner.agents SimulationRunner.tick_clock
       SimulationRunner.with_agents SimulationRunner.current_step
       SimulationRunner.step_results SimulationRunner.config
       SimulationRunner.wall_clock SimulationRunner.clock_reads].
  rewrite Hn. cbn [fst snd]. rewrite Havg.
  cbn [fst snd SimulationRunner.agents SimulationRunner.tick_clock
       SimulationRunner.with_agents SimulationRunner.current_step
       SimulationRunner.step_results SimulationRunner.config
       SimulationRunner.wall_clock SimulationRunner.clock_reads].
  rewrite Ht. cbn [fst snd]. fold report.
  destruct (json_dump report) as [u|e]; cbn [fst snd]; [|reflexivity].
  cbn [SimulationRunner.step_results SimulationRunner.tick_clock
       SimulationRunner.with_agents].
  destruct (to_csv _) as [u'|e]; cbn [fst snd]; [reflexivity|].
  destruct (is_Exception e); reflexivity.
Qed.

(** C3 (amended): [run_simulation] returns the final report when the token
    distribution raises nothing, the tick loop runs to its end or is
    interrupted from the keyboard, and [_generate_final_report] then raises
    nothing; the report holds the overall metrics of the recorded ticks,
    the final performance of every agent and the last ten tick records.
    Ticks that recorded agent errors do not stand in the way: the loop over
    the agents, which calls [should_act] and [step], raises nothing an
    [except Exception] would catch.  No other failure is contained.  What a
    tick raises ends the loop, and [run_simulation] re-raises it unless it
    is a [KeyboardInterrupt]: so for a failed market read, and for an
    agent's [get_performance_stats], which [run_step] calls under no [try].
    What [_generate_final_report] raises propagates: with the metrics, the
    performance and the averages in hand, the report is returned exactly
    when [json.dump] raises nothing and the CSV files raise at most an
    [Exception]. *)
Theorem final_report_production (st : Runner * L) :
  let start_time :=
    SimulationRunner.wall_clock (fst st) (SimulationRunner.clock_reads (fst st)) in
  match SimulationRunner._distribute_initial_tokens
          (SimulationRunner.tick_clock (fst st), snd st) with
  | (Raise e, st1) => SimulationRunner.run_simulation st = (Raise e, st1)
  | (Ok _, st1) =>
      match SimulationRunner.steps_loop
              (Z.to_nat (SimulationRunner.max_steps (fst st1))) 0 st1 with
      | (Ok _, st2) =>
          SimulationRunner.run_simulation st =
            SimulationRunner._generate_final_report start_time st2
      | (Raise e, st2) =>
          (exn_class_of e = KeyboardInterrupt ->
           SimulationRunner.run_simulation st =
             SimulationRunner._generate_final_report start_time st2) /\
          (exn_class_of e <> KeyboardInterrupt ->
           SimulationRunner.run_simulation st = (Raise e, st2))
      end
  end /\
  (forall report st',
     SimulationRunner.run_simulation st = (Ok report, st') ->
     exists st2,
       SimulationRunner._generate_final_report start_time st2 = (Ok report, st') /\
       calculate_overall_metrics (SimulationRunner.step_results (fst st2)) (snd st2) =
         Ok (overall_metrics report) /\
       fst (SimulationRunner.collect_performance
              (SimulationRunner.agents (fst st2), snd st2)) =
         Ok (final_agent_performance report) /\
       res_step_results report =
         list_slice_from (SimulationRunner.step_results (fst st2)) (-10)) /\
  (forall (md : MarketData) ags (l : L) e s',
     SimulationRunner.execute_agents md (ags, l) = (Raise e, s') ->
     is_Exception e = false) /\
  (forall (s : Runner) (l : L) n step e s',
     SimulationRunner.run_step (SimulationRunner.with_current_step step s, l) =
       (Raise e, s') ->
     SimulationRunner.steps_loop (S n) step (s, l) = (Raise e, s')) /\
  (forall (s : Runner) (l : L) e,
     get_current_market_state l = Raise e ->
     SimulationRunner.run_step (s, l) =
       (Raise e, (SimulationRunner.tick_clock s, l))) /\
  (forall (s : Runner) (l : L) md acts ags1 l1 sm e s',
     get_current_market_state l = Ok md ->
     SimulationRunner.execute_agents md (SimulationRunner.agents s, l) =
       (Ok acts, (ags1, l1)) ->
     (forall x, eth_latest_timestamp l1 = Raise x -> is_Exception x = true) ->
     calculate_step_metrics (SimulationRunner.current_step s) acts md l1 = Ok sm ->
     SimulationRunner.collect_performance (ags1, l1) = (Raise e, s') ->
     fst (SimulationRunner.run_step (s, l)) = Raise e) /\
  (forall start (s : Runner) (l : L) om perf ags' l' n avg t,
     calculate_overall_metrics (SimulationRunner.step_results s) l = Ok om ->
     SimulationRunner.collect_performance (SimulationRunner.agents s, l) =
       (Ok perf, (ags', l')) ->
     float_of_int (Z.max 1 (SimulationRunner.current_step s + 1)) = Ok n ->
     float_truediv
       (fsub (SimulationRunner.wall_clock s (SimulationRunner.clock_reads s)) start)
       n = Ok avg ->
     int_of_float (SimulationRunner.wall_clock s (S (SimulationRunner.clock_reads s))) =
       Ok t ->
     let report :=
       {| simulation_config := SimulationRunner.config s;
          execution_summary :=
            {| total_steps := SimulationRunner.current_step s + 1;
               total_time :=
                 fsub (SimulationRunner.wall_clock s (SimulationRunner.clock_reads s))
                      start;
               avg_step_time := avg;
               total_transactions :=
                 SimulationRunner.sum_Z
                   (fun a => AgentBase.transaction_count (agent_base a)) ags';
               es_total_gas_used :=
                 SimulationRunner.sum_Z
                   (fun a => AgentBase.total_gas_used (agent_base a)) ags' |};
          overall_metrics := om;
          final_agent_performance := perf;
          res_step_results :=
            list_slice_from (SimulationRunner.step_results s) (-10) |} in
     fst (SimulationRunner._generate_final_report start (s, l)) =
       match json_dump report with
       | Raise e => Raise e
       | Ok _ =>
           match to_csv (SimulationRunner.step_results s) with
           | Ok _ => Ok report
           | Raise e => if is_Exception e then Ok report else Raise e
           end
       end).
Proof.
  intros start_time.
  assert (Hroute :
    match SimulationRunner._distribute_initial_tokens
            (SimulationRunner.tick_clock (fst st), snd st) with
    | (Raise e, st1) => SimulationRunner.run_simulation st = (Raise e, st1)
    | (Ok _, st1) =>
        match SimulationRunner.steps_loop
                (Z.to_nat (SimulationRunner.max_steps (fst st1))) 0 st1 with
        | (Ok _, st2) =>
            SimulationRunner.run_simulation st =
              SimulationRunner._generate_final_report start_time st2
        | (Raise e, st2) =>
            (exn_class_of e = KeyboardInterrupt ->
             SimulationRunner.run_simulation st =
               SimulationRunner._generate_final_report start_time st2) /\
            (exn_class_of e <> KeyboardInterrupt ->
             SimulationRunner.run_simulation st = (Raise e, st2))
        end
    end).
  { subst start_time. rewrite run_simulation_route.
    destruct (SimulationRunner._distribute_initial_tokens _) as [[u|e] st1];
      [|reflexivity].
    destruct (SimulationRunner.steps_loop _ 0 st1) as [[v|x] st2]; [reflexivity|].
    split; intros Hx.
    - rewrite Hx. reflexivity.
    - destruct (exn_class_of x); try reflexivity. contradiction. }
  split; [exact Hroute|]. split; [|split; [|split; [|split; [|split]]]].
  - intros report st' Hrun.
    destruct (SimulationRunner._distribute_initial_tokens _) as [[u|e] st1];
      [|rewrite Hroute in Hrun; discriminate].
    destruct (SimulationRunner.steps_loop _ 0 st1) as [[v|x] st2].
    + rewrite Hroute in Hrun. exists st2. split; [exact Hrun|].
      destruct (generate_final_report_Ok _ _ _ _ Hrun) as (H1 & H2 & _ & H4).
      repeat split; assumption.
    + destruct Hroute as [Hk Hn].
      destruct (exn_class_of x) eqn:Ex;
        try (rewrite Hn in Hrun by discriminate; discriminate).
      rewrite (Hk eq_refl) in Hrun. exists st2. split; [exact Hrun|].
      destruct (generate_final_report_Ok _ _ _ _ Hrun) as (H1 & H2 & _ & H4).
      repeat split; assumption.
  - intros md ags l e s'. apply execute_agents_no_Exception.
  - intros s l n step e s'. apply steps_loop_tick_raises.
  - intros s l e. apply run_step_market_read_fails.
  - intros s l md acts ags1 l1 sm e s'. apply run_step_performance_fails.
  - intros start s l om perf ags' l' n avg t.
    apply generate_final_report_outcome.
Qed.

End FinalReport.

(** C3, as stated, fails, at four runs that nobody cancelled and that
    produce no report but raise an [Exception].  When the ledger cannot be
    reached, the market read of the first tick raises.  When the market
    maker is configured with the ether it starts with and holds some, its
    [get_performance_stats] raises in the first tick, which leaves no
    record.  With no tick to run, on a ledger that cannot be reached, the
    report itself cannot be generated.  And when an agent holds ether, both
    ticks are recorded but [json.dump] rejects the [Decimal] balance of
    the report. *)
Lemma run_simulation_produces_no_report :
  (fst (SimulationRunner.run_simulation
          (Scenario.runner, Scenario.with_reachable false Scenario.ledger)) =
     Raise (Exn Web3Error "connection refused") /\
   get_current_market_state (Scenario.with_reachable false Scenario.ledger) =
     Raise (Exn Web3Error "connection refused") /\
   is_Exception (Exn Web3Error "connection refused") = true) /\
  (let run := SimulationRunner.run_simulation
                (Scenario.runner_of Scenario.audited_config, Scenario.funded_ledger) in
   let e := Exn TypeError
              "unsupported operand type(s) for +=: 'float' and 'decimal.Decimal'" in
   fst run = Raise e /\
   SimulationRunner.step_results (fst (snd run)) = [] /\
   fst (AgentBase.get_performance_stats
          (agent_base (Scenario.nth_agent 0
                         (Scenario.runner_of Scenario.audited_config)),
           Scenario.funded_ledger)) = Raise e /\
   is_Exception e = true) /\
  (let s := Scenario.runner_of (Scenario.paced_config 0 (PInt 0)) in
   SimulationRunner.max_steps s = 0 /\
   fst (SimulationRunner.run_simulation
          (s, Scenario.with_reachable false Scenario.ledger)) =
     Raise (Exn Web3Error "connection refused") /\
   exists report,
     fst (SimulationRunner.run_simulation (s, Scenario.ledger)) = Ok report) /\
  (let run := SimulationRunner.run_simulation
                (Scenario.runner, Scenario.funded_ledger) in
   let e := Exn TypeError "Object of type Decimal is not JSON serializable" in
   fst run = Raise e /\
   List.length (SimulationRunner.step_results (fst (snd run))) = 2%nat /\
   is_Exception e = true).
Proof.
  split; [|split; [|split]].
  - vm_compute. repeat split; reflexivity.
  - cbv zeta. split; [|split; [|split]]; vm_compute; reflexivity.
  - cbv zeta. split; [vm_compute; reflexivity|].
    split; [vm_compute; reflexivity|].
    destruct (fst (SimulationRunner.run_simulation
                     (Scenario.runner_of (Scenario.paced_config 0 (PInt 0)),
                      Scenario.ledger))) as [report|e] eqn:E.
    + exists report. reflexivity.
    + exfalso. vm_compute in E. discriminate.
  - cbv zeta. split; [|split]; vm_compute; reflexivity.
Qed.

(** The scenario run to its end, with agents that hold no ether: both ticks
    record the failed step of the random trader, and the report is produced
    all the same. *)
Lemma final_report_production_witness :
  exists report st',
    SimulationRunner.run_simulation (Scenario.runner, Scenario.ledger) =
      (Ok report, st') /\
    total_steps (execution_summary report) = 2 /\
    Sim.simulation_steps (overall_metrics report) = 2%nat /\
    map fst (final_agent_performance report) =
      ["market_maker_0"; "random_trader_1"; "momentum_trader_2"] /\
    map (fun res => map error (sr_agent_actions res)) (res_step_results report) =
      [[None; Some "empty range for randrange()"];
       [None; Some "empty range for randrange()"; None]] /\
    exists st2 : Scenario.Runner * Sim.Ledger,
      calculate_overall_metrics (SimulationRunner.step_results (fst st2)) (snd st2) =
        Ok (overall_metrics report) /\
      res_step_results report =
        list_slice_from (SimulationRunner.step_results (fst st2)) (-10).
Proof.
  pose proof (proj1 (proj2 (final_report_production
                              (Scenario.runner, Scenario.ledger)))) as H.
  destruct (SimulationRunner.run_simulation (Scenario.runner, Scenario.ledger))
    as [[report|e] st'] eqn:E.
  - exists report, st'. split; [reflexivity|].
    destruct (H report st' eq_refl) as (st2 & _ & H1 & _ & H3).
    assert (Hr : fst (SimulationRunner.run_simulation
                        (Scenario.runner, Scenario.ledger)) = Ok report)
      by (rewrite E; reflexivity).
    vm_compute in Hr. injection Hr as <-.
    split; [reflexivity|]. split; [reflexivity|]. split; [reflexivity|].
    split; [reflexivity|]. exists st2. split; assumption.
  - exfalso.
    assert (Hr : fst (SimulationRunner.run_simulation
                        (Scenario.runner, Scenario.ledger)) = Raise e)
      by (rewrite E; reflexivity).
    vm_compute in Hr. discriminate.
Defined.

(** ** The market snapshot of a tick *)

Section Snapshot.
Context {L : Type} {W3 : Web3 L} {R : Type} {RG : Random R}.
Context {MarketData StepMetrics OverallMetrics : Type}.
Context {MC : MetricsCalculator L MarketData StepMetrics OverallMetrics}.
Context {FS : FileSystem MarketData StepMetrics OverallMetrics}.
Context {SL : Sleep L}.

Local Abbreviation Runner := (SimulationRunner.t R MarketData StepMetrics).

(** No agent consults the snapshot it is handed. *)
Lemma agent_ignores_snapshot (md md' : MarketData) (a : Agent R) (l : L) :
  SimulationRunner.agent_should_act md (a, l) =
    SimulationRunner.agent_should_act md' (a, l) /\
  SimulationRunner.agent_step md (a, l) = SimulationRunner.agent_step md' (a, l).
Proof. destruct a; split; reflexivity. Qed.

(** C2 (amended): in every tick the scheduler reads the market once, before
    any agent runs, and hands that one snapshot to [should_act] and [step]
    of every agent.  The agents do not consult it: [should_act] and [step]
    return the same whatever the snapshot, reading balances, reserves and
    price from the ledger as it is when they run, and each agent runs on the
    ledger the agent before it left. *)
Theorem snapshot_shared_not_consulted :
  (forall (s s' : Runner) (l l' : L) res,
     SimulationRunner.run_step (s, l) = (Ok res, (s', l')) ->
     get_current_market_state l = Ok (sr_market_data res) /\
     exists ags1 l1,
       SimulationRunner.execute_agents (sr_market_data res)
         (SimulationRunner.agents s, l) = (Ok (sr_agent_actions res), (ags1, l1))) /\
  (forall (md md' : MarketData) (a : Agent R) (l : L),
     SimulationRunner.agent_should_act md (a, l) =
       SimulationRunner.agent_should_act md' (a, l) /\
     SimulationRunner.agent_step md (a, l) = SimulationRunner.agent_step md' (a, l)) /\
  (forall (md : MarketData) (a : Agent R) (rest : list (Agent R)) (l : L),
     SimulationRunner.execute_agents md (a :: rest, l) =
     match SimulationRunner.agent_turn md (a, l) with
     | (Ok rs, (a', l1)) =>
         match SimulationRunner.execute_agents md (rest, l1) with
         | (Ok rs', (rest', l2)) => (Ok (rs ++ rs')%list, (a' :: rest', l2))
         | (Raise e, (rest', l2)) => (Raise e, (a' :: rest', l2))
         end
     | (Raise e, (a', l1)) => (Raise e, (a' :: rest, l1))
     end).
Proof.
  split; [|split].
  - intros s s' l l' res H.
    destruct (run_step_Ok s l res s' l' H) as (ags1 & l1 & Hm & Hex & _).
    split; [exact Hm|]. exists ags1, l1. exact Hex.
  - exact agent_ignores_snapshot.
  - exact execute_agents_cons.
Qed.

End Snapshot.

(** C2, as stated, fails: in the first tick of the scenario the snapshot
    shows an empty pool at price 0.0; the market maker then adds 900000 of
    each token, and the momentum trader, deciding after it in the same tick,
    records the price 1.0 of the pool as its sibling left it. *)
Lemma sibling_mutation_observed :
  get_current_market_state Scenario.ledger = Ok scenario_snapshot /\
  (Sim.md_reserve_a scenario_snapshot, Sim.md_reserve_b scenario_snapshot,
   Sim.md_price scenario_snapshot) = (0%N, 0%N, f0) /\
  Scenario.price_history_of (Scenario.nth_agent 2 Scenario.runner) = [] /\
  (let st' := snd (SimulationRunner.run_step (Scenario.runner, Scenario.ledger)) in
   Scenario.price_history_of (Scenario.nth_agent 2 (fst st')) = [f1] /\
   (Sim.reserve_a (snd st'), Sim.reserve_b (snd st')) = (900000%N, 900000%N)).
Proof. vm_compute. repeat split; reflexivity. Qed.

Lemma snapshot_shared_not_consulted_witness :
  exists res,
    fst (SimulationRunner.run_step (Scenario.runner, Scenario.ledger)) = Ok res /\
    sr_market_data res = scenario_snapshot /\
    get_current_market_state Scenario.ledger = Ok (sr_market_data res) /\
    fst (SimulationRunner.execute_agents (sr_market_data res)
           (SimulationRunner.agents Scenario.runner, Scenario.ledger)) =
      Ok (sr_agent_actions res).
Proof.
  pose proof (proj1 (snapshot_shared_not_consulted (L := Sim.Ledger) (R := Z)
                       (MarketData := Sim.MarketData)
                       (StepMetrics := Sim.StepMetrics)) Scenario.runner) as H.
  destruct (SimulationRunner.run_step (Scenario.runner, Scenario.ledger))
    as [[res|e] [s' l']] eqn:E.
  - exists res. split; [reflexivity|].
    destruct (H s' Scenario.ledger l' res E) as (Hm & ags1 & l1 & Hex).
    split; [|split; [exact Hm|rewrite Hex; reflexivity]].
    assert (Hs : get_current_market_state Scenario.ledger = Ok scenario_snapshot)
      by (vm_compute; reflexivity).
    rewrite Hs in Hm. injection Hm as <-. reflexivity.
  - exfalso.
    assert (Hr : fst (SimulationRunner.run_step (Scenario.runner, Scenario.ledger)) =
                 Raise e) by (rewrite E; reflexivity).
    vm_compute in Hr. discriminate.
Defined.

(** * Further properties of the engine *)

(** ** Reading balances *)

Lemma dict_get_set_same {V} (k : string) (v : V) (d : list (string * V)) :
  dict_get k (dict_set k v d) = Some v.
Proof.
  induction d as [|[k' v'] d IH]; cbn [dict_set dict_get].
  - rewrite String.eqb_refl. reflexivity.
  - destruct (String.eqb k k') eqn:E; cbn [dict_get]; rewrite ?String.eqb_refl, ?E;
      [reflexivity|exact IH].
Qed.

Lemma dict_get_set_other {V} (k k0 : string) (v : V) (d : list (string * V)) :
  k0 <> k -> dict_get k0 (dict_set k v d) = dict_get k0 d.
Proof.
  intros Hne. induction d as [|[k' v'] d IH]; cbn [dict_set dict_get].
  - destruct (String.eqb_spec k0 k); [contradiction|reflexivity].
  - destruct (String.eqb_spec k k') as [<-|Hk]; cbn [dict_get].
    + destruct (String.eqb_spec k0 k); [contradiction|reflexivity].
    + destruct (String.eqb k0 k'); [reflexivity|exact IH].
Qed.

Lemma dict_get_In {V} (k : string) (d : list (string * V)) v :
  dict_get k d = Some v -> In (k, v) d.
Proof.
  induction d as [|[k' v'] d IH]; cbn [dict_get]; [discriminate|].
  destruct (String.eqb_spec k k') as [<-|_].
  - intros [= <-]. left. reflexivity.
  - intros H. right. apply IH, H.
Qed.

Lemma In_dict_get {V} (k : string) (v : V) (d : list (string * V)) :
  In (k, v) d -> dict_get k d <> None.
Proof.
  induction d as [|[k' v'] d IH]; [contradiction|].
  intros [[= -> ->]|H]; cbn [dict_get].
  - rewrite String.eqb_refl. discriminate.
  - destruct (String.eqb k k'); [discriminate|apply IH, H].
Qed.

Ltac outcome_cases :=
  repeat match goal with
  | H : Ok _ = Ok _ |- _ => injection H as H; try subst
  | H : Raise _ = Raise _ |- _ => injection H as H; try subst
  | H : Ok _ = Raise _ |- _ => discriminate H
  | H : Raise _ = Ok _ |- _ => discriminate H
  | H : Some _ = None |- _ => discriminate H
  | H : None = Some _ |- _ => discriminate H
  | H : ?x <> ?x |- _ => contradiction H; reflexivity
  end.

Section Balances.
Context {L : Type} {W3 : Web3 L} {R : Type}.

(** X1: [get_token_balance] returns the contract's [balanceOf] for a token
    of [self.contracts], and 0 when the token is no key of [self.contracts]
    or the call raises an [Exception]: it raises nothing an [except
    Exception] would catch, never returns a negative balance and leaves the
    agent and the ledger as they are. *)
Theorem get_token_balance_never_fails (a : AgentBase.t R) (l : L) (token : addr) :
  snd (AgentBase.get_token_balance token (a, l)) = (a, l) /\
  (forall e, fst (AgentBase.get_token_balance token (a, l)) = Raise e ->
             is_Exception e = false) /\
  (forall b, fst (AgentBase.get_token_balance token (a, l)) = Ok b -> 0 <= b) /\
  (dict_get token (AgentBase.contracts a) = None ->
   fst (AgentBase.get_token_balance token (a, l)) = Ok 0) /\
  (forall e, balanceOf token (AgentBase.address a) l = Raise e ->
             is_Exception e = true ->
             fst (AgentBase.get_token_balance token (a, l)) = Ok 0) /\
  (forall b, dict_get token (AgentBase.contracts a) <> None ->
             balanceOf token (AgentBase.address a) l = Ok b ->
             fst (AgentBase.get_token_balance token (a, l)) = Ok (Z.of_N b)).
Proof.
  unfold AgentBase.get_token_balance, AgentBase.contracts_getitem, try_except, bind,
    self, gets, w3_read, read, raise, ret. cbn [fst snd].
  destruct (dict_get token (AgentBase.contracts a)) as [info|]; cbn;
    [destruct (balanceOf token (AgentBase.address a) l) as [b|e] eqn:Eb; cbn;
       [|destruct (is_Exception e) eqn:Ee; cbn]|];
    repeat split; intros; outcome_cases; try congruence; try lia; try reflexivity.
Qed.

(** X2: [get_token_decimals] never raises: its bare [except:] turns a
    missing contract entry and every failure of the call, a keyboard
    interrupt included, into 18 decimals. *)
Theorem get_token_decimals_total (a : AgentBase.t R) (l : L) (token : addr) :
  exists d,
    AgentBase.get_token_decimals token (a, l) = (Ok d, (a, l)) /\
    0 <= d /\
    (dict_get token (AgentBase.contracts a) = None -> d = 18) /\
    (forall e, decimals token l = Raise e -> d = 18) /\
    (forall n, dict_get token (AgentBase.contracts a) <> None ->
               decimals token l = Ok n -> d = Z.of_N n).
Proof.
  unfold AgentBase.get_token_decimals, AgentBase.contracts_getitem, try_except_all,
    bind, self, gets, w3_read, read, raise, ret. cbn [fst snd].
  destruct (dict_get token (AgentBase.contracts a)) as [info|]; cbn;
    [destruct (decimals token l) as [n|e] eqn:Ed; cbn|];
    eexists; (split; [reflexivity|]);
    repeat split; intros; outcome_cases; try congruence; try lia; try reflexivity.
Qed.

Lemma get_token_balance_cases (a : AgentBase.t R) (l : L) (token : addr) :
  exists r, AgentBase.get_token_balance token (a, l) = (r, (a, l)) /\
    ((exists b, r = Ok b /\ 0 <= b) \/ exists e, r = Raise e /\ is_Exception e = false).
Proof.
  unfold AgentBase.get_token_balance, AgentBase.contracts_getitem, try_except, bind,
    self, gets, w3_read, read, raise, ret. cbn [fst snd].
  destruct (dict_get token (AgentBase.contracts a)) as [info|]; cbn;
    [destruct (balanceOf token (AgentBase.address a) l) as [b|e] eqn:Eb; cbn;
       [|destruct (is_Exception e) eqn:Ee; cbn]|];
    eexists; (split; [reflexivity|]);
    first [ left; eexists; split; [reflexivity|lia]
          | right; eexists; split; [reflexivity|assumption] ].
Qed.

Lemma get_token_decimals_cases (a : AgentBase.t R) (l : L) (token : addr) :
  exists d, AgentBase.get_token_decimals token (a, l) = (Ok d, (a, l)).
Proof.
  unfold AgentBase.get_token_decimals, AgentBase.contracts_getitem, try_except_all,
    bind, self, gets, w3_read, read, raise, ret. cbn [fst snd].
  destruct (dict_get token (AgentBase.contracts a)) as [info|]; cbn;
    [destruct (decimals token l) as [n|e]; cbn|]; eexists; reflexivity.
Qed.

(** One turn of the loop over [self.contracts.items()]: the entry is
    written whatever happens to the reads, short of an interrupt. *)
Lemma token_entry_cases (a : AgentBase.t R) (l : L) (name : string)
    (token : addr) (balances : list (string * balance)) :
  exists r,
    try_except
      (b <- AgentBase.get_token_balance token ;;
       d <- AgentBase.get_token_decimals token ;;
       v <- lift_outcome (truediv (PInt b) (PInt (10 ^ d))) ;;
       ret (dict_set name (BNum v) balances))
      (fun _ => ret (dict_set name (BNum (PFloat f0)) balances)) (a, l) = (r, (a, l)) /\
    ((exists v, r = Ok (dict_set name v balances)) \/
     exists e, r = Raise e /\ is_Exception e = false).
Proof.
  unfold try_except, bind.
  destruct (get_token_balance_cases a l token) as (r & -> & [(b & -> & _)|(e & -> & He)]).
  2: { rewrite He. eexists. split; [reflexivity|]. right. eauto. }
  destruct (get_token_decimals_cases a l token) as (d & ->).
  unfold lift_outcome, ret.
  destruct (truediv (PInt b) (PInt (10 ^ d))) as [v|e].
  - eexists. split; [reflexivity|]. left. eauto.
  - destruct (is_Exception e) eqn:Ee.
    + eexists. split; [reflexivity|]. left. eauto.
    + eexists. split; [reflexivity|]. right. eauto.
Qed.

Lemma get_all_balances_loop_keys (items : list (string * ContractInfo)) :
  forall (balances : list (string * balance)) (a : AgentBase.t R) (l : L),
  exists r,
    AgentBase.get_all_balances_loop items balances (a, l) = (r, (a, l)) /\
    match r with
    | Ok balances' =>
        forall k, dict_get k balances' <> None <->
                  (dict_get k balances <> None \/
                   (is_token_name k = true /\ exists info, In (k, info) items))
    | Raise e => is_Exception e = false
    end.
Proof.
  induction items as [|[name info] rest IH]; intros balances a l.
  - eexists. split; [reflexivity|]. cbn. intros k. split; [auto|].
    intros [H|(_ & _ & [])]. exact H.
  - cbn [AgentBase.get_all_balances_loop]. fold (is_token_name name).
    destruct (is_token_name name) eqn:En.
    + unfold bind at 1.
      destruct (token_entry_cases a l name (ci_address info) balances)
        as (r & -> & [(v & ->)|(e & -> & He)]).
      2: { eexists. split; [reflexivity|exact He]. }
      destruct (IH (dict_set name v balances) a l) as (r & -> & Hr).
      eexists. split; [reflexivity|].
      destruct r as [balances'|e]; [|exact Hr].
      intros k. rewrite Hr. split.
      * intros [H|(Hk & info' & Hin)].
        -- destruct (String.eqb_spec k name) as [->|Hne].
           ++ right. split; [exact En|]. exists info. left. reflexivity.
           ++ left. rewrite dict_get_set_other in H by exact Hne. exact H.
        -- right. split; [exact Hk|]. exists info'. right. exact Hin.
      * intros [H|(Hk & info' & [[= <- <-]|Hin])].
        -- left. destruct (String.eqb_spec k name) as [->|Hne].
           ++ rewrite dict_get_set_same. discriminate.
           ++ rewrite dict_get_set_other by exact Hne. exact H.
        -- left. rewrite dict_get_set_same. discriminate.
        -- right. split; [exact Hk|]. exists info'. exact Hin.
    + destruct (IH balances a l) as (r & -> & Hr).
      eexists. split; [reflexivity|].
      destruct r as [balances'|e]; [|exact Hr].
      intros k. rewrite Hr. split.
      * intros [H|(Hk & info' & Hin)]; [left; exact H|].
        right. split; [exact Hk|]. exists info'. right. exact Hin.
      * intros [H|(Hk & info' & [[= <- <-]|Hin])]; [left; exact H| |].
        -- congruence.
        -- right. split; [exact Hk|]. exists info'. exact Hin.
Qed.

Lemma get_all_balances_spec (a : AgentBase.t R) (l : L) :
  snd (AgentBase.get_all_balances (a, l)) = (a, l) /\
  match fst (AgentBase.get_all_balances (a, l)) with
  | Ok balances =>
      forall k, dict_get k balances <> None <->
                (k = "ETH" \/
                 (is_token_name k = true /\
                  exists info, In (k, info) (AgentBase.contracts a)))
  | Raise e =>
      fst (AgentBase.get_eth_balance (a, l)) = Raise e \/ is_Exception e = false
  end.
Proof.
  unfold AgentBase.get_all_balances, bind, self, gets.
  assert (He : snd (AgentBase.get_eth_balance (a, l)) = (a, l)).
  { unfold AgentBase.get_eth_balance, bind, self, gets, w3_read, read, lift_outcome.
    cbn. destruct (eth_get_balance _ l); [|reflexivity].
    destruct (from_wei_ether _); reflexivity. }
  destruct (AgentBase.get_eth_balance (a, l)) as [[eth|e] s']; cbn [fst snd] in *;
    subst s'.
  2: { split; [reflexivity|]. left. reflexivity. }
  cbn [fst snd].
  destruct (get_all_balances_loop_keys (AgentBase.contracts a) [("ETH", eth)] a l)
    as (r & -> & Hr).
  split; [reflexivity|]. cbn [fst].
  destruct r as [balances|e]; [|right; exact Hr].
  intros k. rewrite Hr. cbn [dict_get].
  destruct (String.eqb_spec k "ETH") as [->|Hne].
  - split; [left; reflexivity|]. intros _. left. discriminate.
  - split.
    + intros [H|H]; [contradiction H; reflexivity|right; exact H].
    + intros [H|H]; [contradiction|right; exact H].
Qed.

(** X3: [get_all_balances] returns a dictionary whose keys are ['ETH'] and
    the names of [self.contracts] that contain ['ERC20'] or are ['TEST'] or
    ['USDC'], and no other key.  A token whose balance cannot be read gets
    an entry all the same: only the ETH balance read, or an interrupt, makes
    it raise.  It changes neither the agent nor the ledger. *)
Theorem get_all_balances_keys (a : AgentBase.t R) (l : L) :
  snd (AgentBase.get_all_balances (a, l)) = (a, l) /\
  match fst (AgentBase.get_all_balances (a, l)) with
  | Ok balances =>
      forall k, dict_get k balances <> None <->
                (k = "ETH" \/
                 (is_token_name k = true /\
                  exists info, In (k, info) (AgentBase.contracts a)))
  | Raise e =>
      fst (AgentBase.get_eth_balance (a, l)) = Raise e \/ is_Exception e = false
  end.
Proof.
  pose proof (get_all_balances_spec a l) as [Hframe Hkeys].
  split; [exact Hframe|].
  destruct (fst (AgentBase.get_all_balances (a, l))) as [balances|e]; exact Hkeys.
Qed.

Lemma get_all_balances_frame (a : AgentBase.t R) (l : L) :
  snd (AgentBase.get_all_balances (a, l)) = (a, l).
Proof. apply get_all_balances_spec. Qed.

(** ** Profit and loss, performance statistics *)

(** What [calculate_pnl] does once the balances are read. *)
Lemma calculate_pnl_spec (a : AgentBase.t R) (l : L) balances :
  fst (AgentBase.get_all_balances (a, l)) = Ok balances ->
  AgentBase.calculate_pnl (a, l) =
  match AgentBase.calculate_pnl_loop (AgentBase.initial_balances a) balances
          (PFloat f0) with
  | Ok pnl => (Ok pnl, (AgentBase.with_pnl pnl a, l))
  | Raise e => (Raise e, (a, l))
  end.
Proof.
  intros Hb. pose proof (get_all_balances_frame a l) as Hf.
  unfold AgentBase.calculate_pnl, bind, self, gets, lift_outcome, update_self,
    modify, ret.
  destruct (AgentBase.get_all_balances (a, l)) as [r s']. cbn [fst snd] in *.
  subst r s'. cbn [fst snd].
  destruct (AgentBase.calculate_pnl_loop _ balances (PFloat f0)); reflexivity.
Qed.

(** X4: [calculate_pnl] compares the initial balances with the balances
    [get_all_balances] reports under the same key.  An agent without initial
    balances has a PnL of 0.0.  A token of the initial balances that is no
    key of the report (the name is not ['ETH'] and names no token contract of
    [self.contracts]) counts as a current balance of 0.0: with that token
    alone the PnL is minus the initial balance, whatever the agent holds. *)
Theorem calculate_pnl_unmatched_token (a : AgentBase.t R) (l : L) balances :
  fst (AgentBase.get_all_balances (a, l)) = Ok balances ->
  (AgentBase.initial_balances a = [] ->
   AgentBase.calculate_pnl (a, l) =
     (Ok (PFloat f0), (AgentBase.with_pnl (PFloat f0) a, l))) /\
  (forall token initial initial_f,
     AgentBase.initial_balances a = [(token, PInt initial)] ->
     token <> "ETH" ->
     (is_token_name token = false \/
      forall info, ~ In (token, info) (AgentBase.contracts a)) ->
     float_of_int initial = Ok initial_f ->
     fst (AgentBase.calculate_pnl (a, l)) =
       Ok (PFloat (fadd f0 (fsub f0 initial_f)))).
Proof.
  intros Hb. split.
  - intros Hi. rewrite (calculate_pnl_spec a l balances Hb), Hi. reflexivity.
  - intros token initial initial_f Hi Hne Hun Hf.
    rewrite (calculate_pnl_spec a l balances Hb), Hi.
    assert (Hk : dict_get token balances = None).
    { pose proof (get_all_balances_spec a l) as [_ Hkeys].
      rewrite Hb in Hkeys.
      destruct (dict_get token balances) eqn:E; [|reflexivity].
      exfalso. assert (Hs : dict_get token balances <> None) by congruence.
      apply Hkeys in Hs. destruct Hs as [->|(Ht & info & Hin)].
      - apply Hne. reflexivity.
      - destruct Hun as [Hun|Hun]; [congruence|exact (Hun info Hin)]. }
    cbn [AgentBase.calculate_pnl_loop]. rewrite Hk.
    unfold AgentBase.pnl_add, sub, add, arith, to_float. cbn [obind].
    rewrite Hf. cbn [obind]. reflexivity.
Qed.

Lemma calculate_pnl_frame (a : AgentBase.t R) (l : L) :
  exists r, AgentBase.calculate_pnl (a, l) = (r, (match r with
                                                  | Ok pnl => AgentBase.with_pnl pnl a
                                                  | Raise _ => a
                                                  end, l)).
Proof.
  destruct (fst (AgentBase.get_all_balances (a, l))) as [balances|e] eqn:Hb.
  - rewrite (calculate_pnl_spec a l balances Hb).
    destruct (AgentBase.calculate_pnl_loop _ _ _) as [pnl|e];
      [exists (Ok pnl)|exists (Raise e)]; reflexivity.
  - pose proof (get_all_balances_frame a l) as Hf.
    unfold AgentBase.calculate_pnl, bind.
    destruct (AgentBase.get_all_balances (a, l)) as [r s']. cbn [fst snd] in *.
    subst r s'. exists (Raise e). reflexivity.
Qed.

(** X5: the statistics [get_performance_stats] returns carry the agent's
    id, address and counters and the length of its trade history; the call
    stores the PnL it computed and changes nothing else.  The average gas
    per transaction is [total_gas_used / max(1, transaction_count)]: an
    agent that sent no transaction divides by 1, never by zero, and the
    division can only fail with [OverflowError], which then is what
    [get_performance_stats] raises once the PnL is computed.  The call
    returns whenever the PnL, the average and the balances can be
    computed. *)
Theorem get_performance_stats_report (a : AgentBase.t R) (l : L) :
  let average :=
    int_truediv (AgentBase.total_gas_used a)
      (Z.max 1 (AgentBase.transaction_count a)) in
  (forall stats s',
     AgentBase.get_performance_stats (a, l) = (Ok stats, s') ->
     s' = (AgentBase.with_pnl (ps_pnl stats) a, l) /\
     ps_agent_id stats = AgentBase.agent_id a /\
     ps_address stats = AgentBase.address a /\
     ps_total_gas_used stats = AgentBase.total_gas_used a /\
     ps_transaction_count stats = AgentBase.transaction_count a /\
     ps_trade_count stats = List.length (AgentBase.trade_history a) /\
     average = Ok (ps_avg_gas_per_tx stats)) /\
  (AgentBase.transaction_count a <= 1 ->
   average = int_truediv (AgentBase.total_gas_used a) 1) /\
  (forall e, average = Raise e ->
     exn_class_of e = OverflowError /\
     forall pnl, fst (AgentBase.calculate_pnl (a, l)) = Ok pnl ->
       fst (AgentBase.get_performance_stats (a, l)) = Raise e) /\
  (forall pnl avg balances,
     fst (AgentBase.calculate_pnl (a, l)) = Ok pnl ->
     average = Ok avg ->
     fst (AgentBase.get_all_balances (AgentBase.with_pnl pnl a, l)) = Ok balances ->
     fst (AgentBase.get_performance_stats (a, l)) =
       Ok {| ps_agent_id := AgentBase.agent_id a;
             ps_address := AgentBase.address a;
             ps_pnl := pnl;
             ps_total_gas_used := AgentBase.total_gas_used a;
             ps_transaction_count := AgentBase.transaction_count a;
             ps_avg_gas_per_tx := avg;
             ps_current_balances := balances;
             ps_trade_count := List.length (AgentBase.trade_history a) |}).
Proof.
  cbv zeta. split; [|split; [|split]].
  - intros stats s'.
    unfold AgentBase.get_performance_stats, bind, self, gets, lift_outcome, ret.
    destruct (calculate_pnl_frame a l) as (r & ->).
    destruct r as [pnl|e]; [|discriminate]. cbn [fst snd].
    change (AgentBase.total_gas_used (AgentBase.with_pnl pnl a))
      with (AgentBase.total_gas_used a).
    change (AgentBase.transaction_count (AgentBase.with_pnl pnl a))
      with (AgentBase.transaction_count a).
    destruct (int_truediv _ _) as [avg|e] eqn:Eavg; [|discriminate].
    pose proof (get_all_balances_frame (AgentBase.with_pnl pnl a) l) as Hf.
    destruct (AgentBase.get_all_balances (AgentBase.with_pnl pnl a, l)) as [[bs|e] s''];
      cbn [fst snd] in *; [|discriminate].
    subst s''. intros [= <- <-].
    cbn [ps_pnl ps_agent_id ps_address ps_total_gas_used ps_transaction_count
         ps_trade_count ps_avg_gas_per_tx].
    repeat split; reflexivity.
  - intros Hle.
    replace (Z.max 1 (AgentBase.transaction_count a)) with 1 by lia. reflexivity.
  - intros e He. split.
    + unfold int_truediv in He.
      destruct (Z.eqb_spec (Z.max 1 (AgentBase.transaction_count a)) 0) as [E|_];
        [lia|].
      destruct (is_inf _); [|discriminate].
      injection He as <-. reflexivity.
    + intros pnl Hpnl.
      unfold AgentBase.get_performance_stats, bind, self, gets, lift_outcome, ret.
      destruct (calculate_pnl_frame a l) as (r & Hr). rewrite Hr in Hpnl |- *.
      cbn [fst] in Hpnl. subst r. cbn [fst snd].
      change (AgentBase.total_gas_used (AgentBase.with_pnl pnl a))
        with (AgentBase.total_gas_used a).
      change (AgentBase.transaction_count (AgentBase.with_pnl pnl a))
        with (AgentBase.transaction_count a).
      rewrite He. reflexivity.
  - intros pnl avg balances Hpnl Havg Hb.
    unfold AgentBase.get_performance_stats, bind, self, gets, lift_outcome, ret.
    destruct (calculate_pnl_frame a l) as (r & Hr). rewrite Hr in Hpnl |- *.
    cbn [fst] in Hpnl. subst r. cbn [fst snd].
    change (AgentBase.total_gas_used (AgentBase.with_pnl pnl a))
      with (AgentBase.total_gas_used a).
    change (AgentBase.transaction_count (AgentBase.with_pnl pnl a))
      with (AgentBase.transaction_count a).
    rewrite Havg. cbn [fst snd].
    pose proof (get_all_balances_frame (AgentBase.with_pnl pnl a) l) as Hf.
    destruct (AgentBase.get_all_balances (AgentBase.with_pnl pnl a, l)) as [rb s''].
    cbn [fst snd] in *. subst rb s''. reflexivity.
Qed.

End Balances.

(** The random trader of the scenario sent no transaction: its average is
    0 / 1.  After 2^1024 units of gas the average no longer fits a float
    and the statistics cannot be had. *)
Lemma get_performance_stats_report_witness :
  (exists stats,
     fst (AgentBase.get_performance_stats
            (Trader.base Scenario.trader, Scenario.ledger)) = Ok stats /\
     ps_agent_id stats = "random_trader_1" /\
     ps_transaction_count stats = 0 /\
     ps_avg_gas_per_tx stats = f0) /\
  (let e := Exn OverflowError "integer division result too large for a float" in
   exn_class_of e = OverflowError /\
   fst (AgentBase.get_performance_stats (overcharged_agent, Scenario.ledger)) =
     Raise e).
Proof.
  split.
  - pose proof (get_performance_stats_report
                  (Trader.base Scenario.trader) Scenario.ledger) as (H & _).
    destruct (AgentBase.get_performance_stats
                (Trader.base Scenario.trader, Scenario.ledger))
      as [[stats|e] s'] eqn:E.
    + exists stats. split; [reflexivity|].
      destruct (H stats s' eq_refl) as (_ & Hid & _ & _ & Hc & _ & Havg).
      split; [exact Hid|]. split; [exact Hc|].
      assert (H0 : int_truediv
                     (AgentBase.total_gas_used (Trader.base Scenario.trader))
                     (Z.max 1 (AgentBase.transaction_count
                                 (Trader.base Scenario.trader))) = Ok f0)
        by (vm_compute; reflexivity).
      rewrite H0 in Havg. injection Havg as Havg. symmetry. exact Havg.
    + exfalso.
      assert (Hr : fst (AgentBase.get_performance_stats
                          (Trader.base Scenario.trader, Scenario.ledger)) = Raise e)
        by (rewrite E; reflexivity).
      vm_compute in Hr. discriminate.
  - cbv zeta.
    pose proof (get_performance_stats_report overcharged_agent Scenario.ledger)
      as (_ & _ & H & _).
    cbv zeta in H.
    destruct (H (Exn OverflowError "integer division result too large for a float"))
      as [Hc Hr]; [vm_compute; reflexivity|].
    split; [exact Hc|].
    apply (Hr (PFloat f0)). vm_compute. reflexivity.
Defined.

(** The agent holds 5000 units of the token deployed as ['ERC20Token'];
    its initial 50000 ['TEST'] match no reported balance, and the PnL is
    -50000.0. *)
Lemma calculate_pnl_unmatched_token_witness :
  fst (AgentBase.get_token_balance "0xToken" (configured_agent, Scenario.ledger)) =
    Ok 5000 /\
  fst (AgentBase.calculate_pnl (configured_agent, Scenario.ledger)) =
    Ok (PFloat (S754_finite true 6871947673600000 (-37))).
Proof.
  split; [vm_compute; reflexivity|].
  assert (Hb : fst (AgentBase.get_all_balances (configured_agent, Scenario.ledger)) =
               Ok [("ETH", BNum (PInt 0));
                   ("ERC20Token",
                    BNum (PFloat (S754_finite false 6338253001141147 (-100))));
                   ("USDC",
                    BNum (PFloat (S754_finite false 5764607523034235 (-60))))])
    by (vm_compute; reflexivity).
  apply (proj2 (calculate_pnl_unmatched_token configured_agent Scenario.ledger _ Hb)
           "TEST" 50000 (S754_finite false 6871947673600000 (-37)));
    [reflexivity | discriminate | | reflexivity].
  right. intros info Hin. vm_compute in Hin.
  repeat (destruct Hin as [Hin|Hin]; [discriminate Hin|]). exact Hin.
Defined.

(** ** Transactions of an agent *)

Section Transactions.
Context {L : Type} {W3 : Web3 L} {R : Type}.

(** What a call of [send_transaction] does to the agent: a confirmed
    transaction advances nonce and count by one; a raise leaves the agent
    as it was. *)
Lemma send_transaction_obs (b : AgentBase.t R) (l : L) tx :
  exists r b' l',
    AgentBase.send_transaction tx (b, l) = (r, (b', l')) /\
    ((exists h g, r = Ok h /\ b' = AgentBase.update_tracking g b) \/
     (exists e, r = Raise e /\ b' = b)).
Proof.
  unfold AgentBase.send_transaction, try_except, bind, self, gets, w3_read, read,
    lift_outcome, w3_send, update_self, modify, raise, ret. cbn [fst snd].
  destruct (eth_chain_id l) as [chain_id|e]; cbn [fst snd].
  2: { destruct (is_Exception e); do 3 eexists; (split; [reflexivity|]); right; eauto. }
  destruct (sign_transaction _ _) as [signed_tx|e]; cbn [fst snd].
  2: { destruct (is_Exception e); do 3 eexists; (split; [reflexivity|]); right; eauto. }
  destruct (send_raw_transaction signed_tx l) as [[tx_hash|e] l1]; cbn [fst snd].
  2: { destruct (is_Exception e); do 3 eexists; (split; [reflexivity|]); right; eauto. }
  destruct (wait_for_transaction_receipt tx_hash l1) as [[receipt|e] l2]; cbn [fst snd].
  2: { destruct (is_Exception e); do 3 eexists; (split; [reflexivity|]); right; eauto. }
  destruct (status receipt =? 0); cbn [fst snd].
  - do 3 eexists. split; [reflexivity|]. right. eauto.
  - do 3 eexists. split; [reflexivity|]. left. eauto.
Qed.

Lemma approve_token_spending_obs (b : AgentBase.t R) (l : L) token spender amount :
  exists r b' l',
    AgentBase.approve_token_spending token spender amount (b, l) = (r, (b', l')) /\
    ((exists h g, r = Ok h /\ b' = AgentBase.update_tracking g b /\
                  dict_get token (AgentBase.contracts b) <> None) \/
     (exists e, r = Raise e /\ b' = b /\
                (dict_get token (AgentBase.contracts b) = None ->
                 e = Exn KeyError ("'" ++ token ++ "'") /\ l' = l))).
Proof.
  unfold AgentBase.approve_token_spending, AgentBase.contracts_getitem, bind, self,
    gets, w3_read, read, raise, ret. cbn [fst snd].
  destruct (dict_get token (AgentBase.contracts b)) as [info|]; cbn [fst snd].
  2: { do 3 eexists. split; [reflexivity|]. right. eexists. repeat split. }
  destruct (build_transaction token (approve spender amount) l) as [tx|e]; cbn [fst snd].
  2: { do 3 eexists. split; [reflexivity|]. right. eexists.
       repeat split; intros; discriminate. }
  destruct (send_transaction_obs b l tx) as (r & b' & l' & -> & [(h & g & -> & ->)|(e & -> & ->)]).
  - do 3 eexists. split; [reflexivity|]. left. do 2 eexists.
    repeat split; discriminate.
  - do 3 eexists. split; [reflexivity|]. right. eexists.
    repeat split; intros; discriminate.
Qed.

Lemma transfer_token_obs (b : AgentBase.t R) (l : L) token to amount :
  exists r b' l',
    AgentBase.transfer_token token to amount (b, l) = (r, (b', l')) /\
    ((exists h g, r = Ok h /\ b' = AgentBase.update_tracking g b /\
                  dict_get token (AgentBase.contracts b) <> None) \/
     (exists e, r = Raise e /\ b' = b /\
                (dict_get token (AgentBase.contracts b) = None ->
                 e = Exn KeyError ("'" ++ token ++ "'") /\ l' = l))).
Proof.
  unfold AgentBase.transfer_token, AgentBase.contracts_getitem, bind, self,
    gets, w3_read, read, raise, ret. cbn [fst snd].
  destruct (dict_get token (AgentBase.contracts b)) as [info|]; cbn [fst snd].
  2: { do 3 eexists. split; [reflexivity|]. right. eexists. repeat split. }
  destruct (build_transaction token (transfer to amount) l) as [tx|e]; cbn [fst snd].
  2: { do 3 eexists. split; [reflexivity|]. right. eexists.
       repeat split; intros; discriminate. }
  destruct (send_transaction_obs b l tx) as (r & b' & l' & -> & [(h & g & -> & ->)|(e & -> & ->)]).
  - do 3 eexists. split; [reflexivity|]. left. do 2 eexists.
    repeat split; discriminate.
  - do 3 eexists. split; [reflexivity|]. right. eexists.
    repeat split; intros; discriminate.
Qed.

(** X6: [approve_token_spending] and [transfer_token] look the token up in
    [self.contracts] first: for a token that is no key they raise [KeyError]
    with nothing sent, the agent and the ledger untouched.  Otherwise they
    return the hash of a confirmed transaction, nonce and transaction count
    advanced by one, or raise with the agent's counters as they were. *)
Theorem token_transaction_accounting (b : AgentBase.t R) (l : L)
    (token other : addr) (amount : Z) :
  (dict_get token (AgentBase.contracts b) = None ->
   AgentBase.approve_token_spending token other amount (b, l) =
     (Raise (Exn KeyError ("'" ++ token ++ "'")), (b, l)) /\
   AgentBase.transfer_token token other amount (b, l) =
     (Raise (Exn KeyError ("'" ++ token ++ "'")), (b, l))) /\
  match fst (AgentBase.approve_token_spending token other amount (b, l)) with
  | Ok _ =>
      let b' := fst (snd (AgentBase.approve_token_spending token other amount (b, l))) in
      AgentBase.nonce b' = AgentBase.nonce b + 1 /\
      AgentBase.transaction_count b' = AgentBase.transaction_count b + 1
  | Raise _ =>
      fst (snd (AgentBase.approve_token_spending token other amount (b, l))) = b
  end /\
  match fst (AgentBase.transfer_token token other amount (b, l)) with
  | Ok _ =>
      let b' := fst (snd (AgentBase.transfer_token token other amount (b, l))) in
      AgentBase.nonce b' = AgentBase.nonce b + 1 /\
      AgentBase.transaction_count b' = AgentBase.transaction_count b + 1
  | Raise _ =>
      fst (snd (AgentBase.transfer_token token other amount (b, l))) = b
  end.
Proof.
  split; [|split].
  - intros Hk. split.
    + destruct (approve_token_spending_obs b l token other amount)
        as (r & b' & l' & E & [(h & g & _ & _ & Hn)|(e & -> & -> & He)]);
        [contradiction|].
      destruct (He Hk) as [-> ->]. exact E.
    + destruct (transfer_token_obs b l token other amount)
        as (r & b' & l' & E & [(h & g & _ & _ & Hn)|(e & -> & -> & He)]);
        [contradiction|].
      destruct (He Hk) as [-> ->]. exact E.
  - destruct (approve_token_spending_obs b l token other amount)
      as (r & b' & l' & -> & [(h & g & -> & -> & _)|(e & -> & -> & _)]);
      cbn; [split|]; reflexivity.
  - destruct (transfer_token_obs b l token other amount)
      as (r & b' & l' & -> & [(h & g & -> & -> & _)|(e & -> & -> & _)]);
      cbn; [split|]; reflexivity.
Qed.

Lemma log_trade_obs (b : AgentBase.t R) (l : L) details :
  exists r b',
    AgentBase.log_trade details (b, l) = (r, (b', l)) /\
    ((exists record,
        r = Ok tt /\
        b' = AgentBase.with_trade_history (AgentBase.trade_history b ++ [record])%list b /\
        tr_agent_id record = AgentBase.agent_id b /\ tr_details record = details) \/
     (exists e, r = Raise e /\ b' = b)).
Proof.
  unfold AgentBase.log_trade, bind, self, gets, w3_read, read, update_self, modify.
  cbn [fst snd].
  destruct (eth_latest_timestamp l) as [ts|e]; cbn [fst snd].
  2: { do 2 eexists. split; [reflexivity|]. right. eauto. }
  destruct (eth_block_number l) as [bn|e]; cbn [fst snd].
  2: { do 2 eexists. split; [reflexivity|]. right. eauto. }
  do 2 eexists. split; [reflexivity|]. left. eexists. repeat split.
Qed.

End Transactions.

(** ** Liquidity operations of the market maker *)

Section Liquidity.
Context {L : Type} {W3 : Web3 L} {R : Type}.

Lemma inherited_mm {A} (m : M (AgentBase.t R * L) A) (x : MarketMaker.t R) (l : L) :
  inherited m (x, l) =
  (fst (m (MarketMaker.base x, l)),
   (MarketMaker.with_base (fst (snd (m (MarketMaker.base x, l)))) x,
    snd (snd (m (MarketMaker.base x, l))))).
Proof.
  unfold inherited, zoom. cbn [fst snd upcast with_super MarketMaker.inherits_AgentBase].
  destruct (m (MarketMaker.base x, l)) as [r [b' l']]. reflexivity.
Qed.

Lemma mm_with_base_base (x : MarketMaker.t R) : MarketMaker.with_base (MarketMaker.base x) x = x.
Proof. destruct x. reflexivity. Qed.

Lemma mm_get_pool_reserves_obs (x : MarketMaker.t R) (l : L) :
  exists r, MarketMaker.get_pool_reserves (x, l) = (r, (x, l)) /\
    ((exists v, r = Ok v) \/ exists e, r = Raise e /\ is_Exception e = false).
Proof.
  unfold MarketMaker.get_pool_reserves, try_except, bind, self, gets, w3_read, read,
    ret. cbn [fst snd].
  destruct (getReserves _ l) as [v|e]; cbn [fst snd].
  - eexists. split; [reflexivity|]. left. eauto.
  - destruct (is_Exception e) eqn:E; eexists; (split; [reflexivity|]);
      [left|right]; eauto.
Qed.

Lemma sent_refl (b : AgentBase.t R) : sent 0 b b.
Proof. unfold sent. repeat split; lia. Qed.

Lemma sent_update_tracking n g (b b' : AgentBase.t R) :
  sent n b b' -> sent (n + 1) b (AgentBase.update_tracking g b').
Proof.
  unfold sent. cbn. intros (? & ? & ? & ? & ? & ? & ?). repeat split; try assumption; lia.
Qed.

Lemma sent_trans n k (a b c : AgentBase.t R) :
  sent n a b -> sent k b c -> sent (n + k) a c.
Proof.
  unfold sent. intros (? & ? & ? & ? & ? & ? & ?) (? & ? & ? & ? & ? & ? & ?).
  repeat split; try congruence; lia.
Qed.

Lemma send_transaction_sent (b : AgentBase.t R) (l : L) tx :
  exists r b' l',
    AgentBase.send_transaction tx (b, l) = (r, (b', l')) /\
    ((exists h, r = Ok h) /\ sent 1 b b' \/ (exists e, r = Raise e) /\ b' = b).
Proof.
  destruct (send_transaction_obs b l tx)
    as (r & b' & l' & E & [(h & g & -> & ->)|(e & -> & ->)]);
    rewrite E; do 3 eexists; (split; [reflexivity|]); [left|right]; (split; [eauto|]).
  - apply (sent_update_tracking 0), sent_refl.
  - reflexivity.
Qed.

Lemma approve_token_spending_sent (b : AgentBase.t R) (l : L) token spender amount :
  exists r b' l',
    AgentBase.approve_token_spending token spender amount (b, l) = (r, (b', l')) /\
    ((exists h, r = Ok h) /\ sent 1 b b' \/ (exists e, r = Raise e) /\ b' = b).
Proof.
  destruct (approve_token_spending_obs b l token spender amount)
    as (r & b' & l' & E & [(h & g & -> & -> & _)|(e & -> & -> & _)]);
    rewrite E; do 3 eexists; (split; [reflexivity|]); [left|right]; (split; [eauto|]).
  - apply (sent_update_tracking 0), sent_refl.
  - reflexivity.
Qed.

Ltac swallowed n :=
  match goal with
  | |- context [is_Exception ?e] =>
      let Ee := fresh "Ee" in
      destruct (is_Exception e) eqn:Ee; [|exact Ee];
      cbn; exists n; repeat split; try lia; try assumption;
      match goal with S : sent _ _ _ |- _ => apply S end
  end.

(** X7: [add_liquidity] sends three transactions (two approvals and the
    deposit) and never raises an [Exception].  When it returns a hash all
    three were confirmed: nonce and transaction count are up by three, one
    ADD_LIQUIDITY record with that hash is appended to the trade history, and
    the initial reserves are set, an earlier value being kept.  When it
    returns None, between zero and three transactions were confirmed, and
    trade history and initial reserves are as before. *)
Theorem add_liquidity_accounting (m : MarketMaker.t R) (l : L) (amount_a amount_b : Z) :
  match MarketMaker.add_liquidity amount_a amount_b (m, l) with
  | (Ok (Some tx_hash), (m', _)) =>
      AgentBase.nonce (MarketMaker.base m') = AgentBase.nonce (MarketMaker.base m) + 3 /\
      AgentBase.transaction_count (MarketMaker.base m') =
        AgentBase.transaction_count (MarketMaker.base m) + 3 /\
      (exists record,
         AgentBase.trade_history (MarketMaker.base m') =
           (AgentBase.trade_history (MarketMaker.base m) ++ [record])%list /\
         tr_details record = ADD_LIQUIDITY amount_a amount_b tx_hash) /\
      MarketMaker.initial_reserves m' <> None /\
      (MarketMaker.initial_reserves m <> None ->
       MarketMaker.initial_reserves m' = MarketMaker.initial_reserves m)
  | (Ok None, (m', _)) =>
      exists n, 0 <= n <= 3 /\ sent n (MarketMaker.base m) (MarketMaker.base m') /\
      MarketMaker.initial_reserves m' = MarketMaker.initial_reserves m
  | (Raise e, _) => is_Exception e = false
  end.
Proof.
  unfold MarketMaker.add_liquidity, try_except.
  unfold bind at 1. unfold self at 1, gets. cbn [fst snd].
  (* approve token A *)
  unfold bind at 1. rewrite inherited_mm.
  destruct (approve_token_spending_sent (MarketMaker.base m) l
              (MarketMaker.token_a_address m) (MarketMaker.amm_address m) amount_a)
    as (r1 & b1 & l1 & -> & [[[h1 ->] S1]|[[e1 ->] ->]]); cbn [fst snd].
  2: { pose proof (sent_refl (MarketMaker.base m)). swallowed 0. }
  (* approve token B *)
  unfold bind at 1. rewrite inherited_mm. cbn [MarketMaker.base MarketMaker.with_base].
  destruct (approve_token_spending_sent b1 l1
              (MarketMaker.token_b_address m) (MarketMaker.amm_address m) amount_b)
    as (r2 & b2 & l2 & -> & [[[h2 ->] S2]|[[e2 ->] ->]]); cbn [fst snd].
  2: { swallowed 1. }
  pose proof (sent_trans _ _ _ _ _ S1 S2) as S12. clear S1 S2. cbn in S12.
  (* the minimum amounts *)
  unfold bind at 1. unfold lift_outcome at 1.
  destruct (x <-- mul (PInt amount_a) (PFloat (lit 95 100));;; int x)
    as [amount_a_min|e3]; cbn [fst snd].
  2: { swallowed 2. }
  unfold bind at 1. unfold lift_outcome at 1.
  destruct (x <-- mul (PInt amount_b) (PFloat (lit 95 100));;; int x)
    as [amount_b_min|e4]; cbn [fst snd].
  2: { swallowed 2. }
  (* the deposit *)
  unfold bind at 1. unfold w3_read at 1, read at 1. cbn [fst snd].
  destruct (build_transaction _ _ l2) as [transaction|e5]; cbn [fst snd].
  2: { swallowed 2. }
  unfold bind at 1. rewrite inherited_mm. cbn [MarketMaker.base MarketMaker.with_base].
  destruct (send_transaction_sent b2 l2 transaction)
    as (r3 & b3 & l3 & -> & [[[h3 ->] S3]|[[e6 ->] ->]]); cbn [fst snd].
  2: { swallowed 2. }
  pose proof (sent_trans _ _ _ _ _ S12 S3) as S123. clear S12 S3. cbn in S123.
  (* the trade record *)
  unfold bind at 1. rewrite inherited_mm. cbn [MarketMaker.base MarketMaker.with_base].
  destruct (log_trade_obs b3 l3 (ADD_LIQUIDITY amount_a amount_b h3))
    as (r4 & b4 & E4 & [(record & -> & -> & _ & Hd)|(e7 & -> & ->)]);
    rewrite E4; cbn [fst snd].
  2: { swallowed 3. }
  unfold bind at 1. unfold self at 1, gets. cbn [fst snd MarketMaker.initial_reserves
    MarketMaker.with_base].
  destruct S123 as (Hn & Hc & Hh & _).
  destruct (MarketMaker.initial_reserves m) as [reserves|] eqn:Ei.
  - cbn. rewrite Hh, ?Ei. repeat split; try assumption; try discriminate; eauto.
  - unfold bind at 1 2.
    match goal with |- context [MarketMaker.get_pool_reserves (?x, l3)] =>
      destruct (mm_get_pool_reserves_obs x l3) as (r5 & -> & [[v ->]|(e8 & -> & Ee)])
    end.
    + cbn. rewrite Hh, ?Ei. repeat split; try assumption; try discriminate; try tauto; eauto.
    + cbn. rewrite Ee. exact Ee.
Qed.

(** X8: [remove_liquidity] sends one transaction and never raises an
    [Exception].  A returned hash means it was confirmed: nonce and
    transaction count are up by one and one REMOVE_LIQUIDITY record with that
    hash is appended.  None means at most one transaction was confirmed and
    the trade history is as before.  In both cases the cached LP balance and
    the initial reserves are not touched. *)
Theorem remove_liquidity_accounting (m : MarketMaker.t R) (l : L)
    (lp_amount min_amount_a min_amount_b : Z) :
  match MarketMaker.remove_liquidity lp_amount min_amount_a min_amount_b (m, l) with
  | (Ok (Some tx_hash), (m', _)) =>
      AgentBase.nonce (MarketMaker.base m') = AgentBase.nonce (MarketMaker.base m) + 1 /\
      AgentBase.transaction_count (MarketMaker.base m') =
        AgentBase.transaction_count (MarketMaker.base m) + 1 /\
      (exists record,
         AgentBase.trade_history (MarketMaker.base m') =
           (AgentBase.trade_history (MarketMaker.base m) ++ [record])%list /\
         tr_details record = REMOVE_LIQUIDITY lp_amount tx_hash) /\
      MarketMaker.lp_token_balance m' = MarketMaker.lp_token_balance m /\
      MarketMaker.initial_reserves m' = MarketMaker.initial_reserves m
  | (Ok None, (m', _)) =>
      (exists n, 0 <= n <= 1 /\ sent n (MarketMaker.base m) (MarketMaker.base m')) /\
      MarketMaker.lp_token_balance m' = MarketMaker.lp_token_balance m /\
      MarketMaker.initial_reserves m' = MarketMaker.initial_reserves m
  | (Raise e, _) => is_Exception e = false
  end.
Proof.
  unfold MarketMaker.remove_liquidity, try_except.
  unfold bind at 1. unfold self at 1, gets. cbn [fst snd].
  unfold bind at 1. unfold w3_read at 1, read at 1. cbn [fst snd].
  pose proof (sent_refl (MarketMaker.base m)) as S0.
  destruct (build_transaction _ _ l) as [transaction|e1]; cbn [fst snd].
  2: { destruct (is_Exception e1) eqn:Ee; [|exact Ee]. cbn.
       split; [exists 0; split; [lia|exact S0]|split; reflexivity]. }
  unfold bind at 1. rewrite inherited_mm.
  destruct (send_transaction_sent (MarketMaker.base m) l transaction)
    as (r1 & b1 & l1 & -> & [[[h1 ->] S1]|[[e2 ->] ->]]); cbn [fst snd].
  2: { destruct (is_Exception e2) eqn:Ee; [|exact Ee]. cbn.
       split; [exists 0; split; [lia|exact S0]|split; reflexivity]. }
  unfold bind at 1. rewrite inherited_mm. cbn [MarketMaker.base MarketMaker.with_base].
  destruct (log_trade_obs b1 l1 (REMOVE_LIQUIDITY lp_amount h1))
    as (r2 & b2 & E2 & [(record & -> & -> & _ & Hd)|(e3 & -> & ->)]);
    rewrite E2; cbn [fst snd].
  2: { destruct (is_Exception e3) eqn:Ee; [|exact Ee]. cbn.
       split; [exists 1; split; [lia|exact S1]|split; reflexivity]. }
  destruct S1 as (Hn & Hc & Hh & _).
  cbn. rewrite Hh. repeat split; try assumption. eauto.
Qed.

(** A successful read of the LP balance is cached in [lp_token_balance];
    a failed one returns 0 and keeps the cached value. *)
Lemma get_lp_balance_cases (m : MarketMaker.t R) (l : L) :
  match balanceOf (MarketMaker.amm_address m)
          (AgentBase.address (MarketMaker.base m)) l with
  | Ok balance =>
      MarketMaker.get_lp_balance (m, l) =
      (Ok (Z.of_N balance), (MarketMaker.with_lp_token_balance (Z.of_N balance) m, l))
  | Raise e =>
      MarketMaker.get_lp_balance (m, l) =
      (if is_Exception e then Ok 0 else Raise e, (m, l))
  end.
Proof.
  unfold MarketMaker.get_lp_balance, try_except, bind, self, gets, w3_read, read,
    update_self, modify, ret. cbn [fst snd].
  destruct (balanceOf _ _ l) as [balance|e]; cbn [fst snd]; [reflexivity|].
  destruct (is_Exception e); reflexivity.
Qed.

End Liquidity.

(** ** Swaps of a trader *)

Section Swaps.
Context {L : Type} {W3 : Web3 L} {R : Type}.

Lemma inherited_trader {A} (m : M (AgentBase.t R * L) A) (x : Trader.t R) (l : L) :
  inherited m (x, l) =
  (fst (m (Trader.base x, l)),
   (Trader.with_base (fst (snd (m (Trader.base x, l)))) x,
    snd (snd (m (Trader.base x, l))))).
Proof.
  unfold inherited, zoom. cbn [fst snd upcast with_super Trader.inherits_AgentBase].
  destruct (m (Trader.base x, l)) as [r [b' l']]. reflexivity.
Qed.

Lemma trader_with_base_base (x : Trader.t R) : Trader.with_base (Trader.base x) x = x.
Proof. destruct x. reflexivity. Qed.

Ltac failed_swap n :=
  match goal with
  | |- context [is_Exception ?e] =>
      let Ee := fresh "Ee" in
      destruct (is_Exception e) eqn:Ee; [|exact Ee];
      cbn; repeat split; left; split; [reflexivity|];
      exists n; split; [lia|assumption]
  end.

(** X9: [execute_swap] sends two transactions (the approval and the swap)
    and never raises an [Exception].  A returned hash means both were
    confirmed and the trade logged: [successful_trades] is up by one,
    [failed_trades] is as before, [total_volume] is the old volume plus
    [amount_in], nonce and transaction count are up by two and one record is
    appended.  None means [failed_trades] is up by one and [total_volume] is
    as before; [successful_trades] is as before with at most two transactions
    confirmed and no record appended, unless adding [amount_in] to the volume
    is what failed, in which case both counters are up by one. *)
Theorem execute_swap_accounting (x : Trader.t R) (l : L) (amount_in : Z)
    (token_in : addr) (min_amount_out : option Z) :
  match Trader.execute_swap amount_in token_in min_amount_out (x, l) with
  | (Ok (Some tx_hash), (x', _)) =>
      Trader.successful_trades x' = Trader.successful_trades x + 1 /\
      Trader.failed_trades x' = Trader.failed_trades x /\
      add (Trader.total_volume x) (PInt amount_in) = Ok (Trader.total_volume x') /\
      AgentBase.nonce (Trader.base x') = AgentBase.nonce (Trader.base x) + 2 /\
      AgentBase.transaction_count (Trader.base x') =
        AgentBase.transaction_count (Trader.base x) + 2 /\
      exists record,
        AgentBase.trade_history (Trader.base x') =
          (AgentBase.trade_history (Trader.base x) ++ [record])%list
  | (Ok None, (x', _)) =>
      Trader.failed_trades x' = Trader.failed_trades x + 1 /\
      Trader.total_volume x' = Trader.total_volume x /\
      ((Trader.successful_trades x' = Trader.successful_trades x /\
        exists n, 0 <= n <= 2 /\ sent n (Trader.base x) (Trader.base x')) \/
       (Trader.successful_trades x' = Trader.successful_trades x + 1 /\
        exists e, add (Trader.total_volume x) (PInt amount_in) = Raise e))
  | (Raise e, _) => is_Exception e = false
  end.
Proof.
  unfold Trader.execute_swap, try_except.
  unfold bind at 1. unfold self at 1, gets. cbn [fst snd].
  pose proof (sent_refl (Trader.base x)) as S0.
  (* the minimum output *)
  unfold bind at 1.
  match goal with |- context [match min_amount_out with Some v => ?f v | None => ?g end (x, l)] =>
    assert (Hmin : exists r, match min_amount_out with Some v => f v | None => g end (x, l)
                             = (r, (x, l)))
  end.
  { destruct min_amount_out as [v|]; [eexists; reflexivity|].
    unfold bind. rewrite calculate_swap_output_spec.
    destruct (engine_quote x l amount_in token_in) as [out|e]; cbn [fst snd];
      eexists; reflexivity. }
  destruct Hmin as [[min_out|e0] ->]; cbn [fst snd].
  2: { failed_swap 0. }
  (* the approval *)
  unfold bind at 1. rewrite inherited_trader.
  destruct (approve_token_spending_sent (Trader.base x) l token_in
              (Trader.amm_address x) amount_in)
    as (r1 & b1 & l1 & -> & [[[h1 ->] S1]|[[e1 ->] ->]]); cbn [fst snd].
  2: { failed_swap 0. }
  (* the swap *)
  unfold bind at 1. unfold w3_read at 1, read at 1. cbn [fst snd].
  destruct (build_transaction _ _ l1) as [transaction|e2]; cbn [fst snd].
  2: { failed_swap 1. }
  unfold bind at 1. rewrite inherited_trader. cbn [Trader.base Trader.with_base].
  destruct (send_transaction_sent b1 l1 transaction)
    as (r2 & b2 & l2 & -> & [[[h2 ->] S2]|[[e3 ->] ->]]); cbn [fst snd].
  2: { failed_swap 1. }
  pose proof (sent_trans _ _ _ _ _ S1 S2) as S12. clear S1 S2. cbn in S12.
  (* the trade record *)
  unfold bind at 1. rewrite inherited_trader. cbn [Trader.base Trader.with_base].
  match goal with |- context [AgentBase.log_trade ?d (b2, l2)] =>
    destruct (log_trade_obs b2 l2 d)
      as (r3 & b3 & E3 & [(record & -> & -> & _ & Hd)|(e4 & -> & ->)]);
      rewrite E3; cbn [fst snd]
  end.
  2: { failed_swap 2. }
  (* the counters *)
  unfold bind at 1. unfold update_self at 1, modify at 1. cbn [fst snd].
  unfold bind at 1. unfold self at 1, gets. cbn [fst snd].
  unfold bind at 1. unfold lift_outcome at 1.
  cbn [Trader.total_volume Trader.incr_successful_trades Trader.with_base].
  destruct S12 as (Hn & Hc & Hh & _).
  destruct (add (Trader.total_volume x) (PInt amount_in)) as [v|e5] eqn:Ev; cbn [fst snd].
  - cbn. rewrite Hh. repeat split; try assumption. eauto.
  - destruct (is_Exception e5) eqn:Ee; [|exact Ee]. cbn.
    repeat split. right. split; [reflexivity|]. eauto.
Qed.

End Swaps.

(** ** The price history of the momentum trader *)

Section PriceHistory.
Context {L : Type} {W3 : Web3 L} {R : Type} {RG : Random R}.
Context {MarketData : Type}.

Lemma get_pool_price_obs (x : Trader.t R) (l : L) :
  exists r, Trader.get_pool_price (x, l) = (r, (x, l)) /\
    ((exists p, r = Ok p) \/ exists e, r = Raise e /\ is_Exception e = false).
Proof.
  unfold Trader.get_pool_price, try_except, bind, self, gets, w3_read, read,
    lift_outcome, ret. cbn [fst snd].
  destruct (getReserves _ l) as [reserves|e]; cbn [fst snd].
  - destruct (Z.of_N (snd reserves) =? 0); cbn [fst snd].
    + eexists. split; [reflexivity|]. left. eauto.
    + destruct (int_truediv _ _) as [p|e]; cbn [fst snd].
      * eexists. split; [reflexivity|]. left. eauto.
      * destruct (is_Exception e) eqn:E; eexists; (split; [reflexivity|]);
          [left|right]; eauto.
  - destruct (is_Exception e) eqn:E; eexists; (split; [reflexivity|]);
      [left|right]; eauto.
Qed.

Lemma list_slice_from_length {A} (h : list A) (k : Z) :
  1 <= k -> Z.of_nat (List.length (list_slice_from h (- k))) =
            Z.min k (Z.of_nat (List.length h)).
Proof.
  intros Hk. unfold list_slice_from. cbv zeta. rewrite length_skipn.
  destruct (Z.ltb_spec (- k) 0); lia.
Qed.

Lemma list_slice_from_0 {A} (h : list A) : list_slice_from h (- 0) = h.
Proof.
  unfold list_slice_from. cbn. replace (Z.min 0 _) with 0 by lia. reflexivity.
Qed.

(** The history [should_act] leaves when the price read is [p]. *)
Lemma momentum_should_act_history (a : MomentumTrader.t R) (l : L) (md : MarketData) :
  exists r a' l',
    MomentumTrader.should_act md (a, l) = (r, (a', l')) /\
    MomentumTrader.lookback_periods a' = MomentumTrader.lookback_periods a /\
    ((exists p,
        fst (Trader.get_pool_price (MomentumTrader.trader a, l)) = Ok p /\
        MomentumTrader.price_history a' =
          let h := (MomentumTrader.price_history a ++ [p])%list in
          if Z.of_nat (List.length h) >? MomentumTrader.lookback_periods a * 2
          then list_slice_from h (- MomentumTrader.lookback_periods a) else h) \/
     (exists e, r = Raise e /\ is_Exception e = false /\ a' = a /\
                fst (Trader.get_pool_price (MomentumTrader.trader a, l)) = Raise e)).
Proof.
  unfold MomentumTrader.should_act.
  unfold bind at 1. unfold inherited at 1, zoom.
  cbn [fst snd upcast with_super MomentumTrader.inherits_Trader].
  destruct (get_pool_price_obs (MomentumTrader.trader a) l)
    as (r0 & -> & [[p ->]|(e & -> & Ee)]); cbn [fst snd].
  2: { do 3 eexists. split; [reflexivity|]. split; [reflexivity|]. right.
       exists e. repeat split; try assumption. destruct a; reflexivity. }
  unfold bind at 1. unfold update_self at 1, modify. cbn [fst snd].
  unfold bind at 1. unfold self at 1, gets. cbn [fst snd].
  cbn [MomentumTrader.price_history MomentumTrader.with_price_history
       MomentumTrader.lookback_periods MomentumTrader.with_trader
       MomentumTrader.trader].
  set (h := (MomentumTrader.price_history a ++ [p])%list).
  unfold bind at 1.
  set (h' := if Z.of_nat (List.length h) >? MomentumTrader.lookback_periods a * 2
             then list_slice_from h (- MomentumTrader.lookback_periods a) else h).
  match goal with |- context [(if ?c then ?u else ?v) ?s] =>
    assert (E : (if c then u else v) s =
                (Ok tt, (MomentumTrader.with_price_history h' (MomentumTrader.with_trader (MomentumTrader.trader a) a), l)))
  end.
  { subst h'. destruct (_ >? _); reflexivity. }
  rewrite E. clear E. cbn [fst snd].
  unfold MomentumTrader.calculate_momentum.
  unfold bind at 1. unfold bind at 1. unfold self at 1, gets. cbn [fst snd].
  unfold lift_outcome at 1.
  destruct (MomentumTrader.momentum_of _ _) as [momentum|e]; cbn [fst snd].
  2: { do 3 eexists. split; [reflexivity|]. split; [reflexivity|]. left.
       exists p. split; reflexivity. }
  unfold bind at 1. unfold self at 1, gets. cbn [fst snd].
  destruct (gt _ _).
  { do 3 eexists. split; [reflexivity|]. split; [reflexivity|]. left.
    exists p. split; reflexivity. }
  unfold bind at 1. unfold inherited at 1, zoom.
  cbn [fst snd upcast with_super MomentumTrader.inherits_Trader].
  unfold Trader.random_random, bind, self, gets. cbn [fst snd].
  destruct (rng_random _) as [v r']. unfold update_self, modify, ret. cbn [fst snd].
  do 3 eexists. split; [reflexivity|]. split; [reflexivity|]. left.
  exists p. split; reflexivity.
Qed.

(** X10: the momentum trader's [should_act] appends the pool price to its
    history and trims it.  With a lookback of at least one, a history of at
    most twice the lookback stays within that bound, and one that has
    reached twice the lookback is cut back to the lookback.  With a lookback
    of zero the history is never trimmed: every call with a readable price
    makes it one entry longer. *)
Theorem momentum_history_bound (a : MomentumTrader.t R) (l : L) (md : MarketData) :
  match MomentumTrader.should_act md (a, l) with
  | (_, (a', _)) =>
      MomentumTrader.lookback_periods a' = MomentumTrader.lookback_periods a /\
      (1 <= MomentumTrader.lookback_periods a ->
       Z.of_nat (List.length (MomentumTrader.price_history a))
         <= 2 * MomentumTrader.lookback_periods a ->
       Z.of_nat (List.length (MomentumTrader.price_history a'))
         <= 2 * MomentumTrader.lookback_periods a) /\
      (1 <= MomentumTrader.lookback_periods a ->
       Z.of_nat (List.length (MomentumTrader.price_history a))
         = 2 * MomentumTrader.lookback_periods a ->
       forall p, fst (Trader.get_pool_price (MomentumTrader.trader a, l)) = Ok p ->
       Z.of_nat (List.length (MomentumTrader.price_history a'))
         = MomentumTrader.lookback_periods a) /\
      (MomentumTrader.lookback_periods a = 0 ->
       forall p, fst (Trader.get_pool_price (MomentumTrader.trader a, l)) = Ok p ->
       MomentumTrader.price_history a' = (MomentumTrader.price_history a ++ [p])%list)
  end.
Proof.
  destruct (momentum_should_act_history a l md)
    as (r & a' & l' & -> & Hk & [(p & Hp & Hh)|(e & -> & _ & -> & He)]).
  - split; [exact Hk|]. cbv zeta in Hh. split; [|split].
    + intros H1 Hlen. rewrite Hh.
      destruct (Z.gtb_spec
                  (Z.of_nat (List.length (MomentumTrader.price_history a ++ [p])))
                  (MomentumTrader.lookback_periods a * 2)).
      * rewrite list_slice_from_length by lia. lia.
      * lia.
    + intros H1 Hlen p' _. rewrite Hh.
      assert (Hl : Z.of_nat (List.length (MomentumTrader.price_history a ++ [p]))
                   = 2 * MomentumTrader.lookback_periods a + 1)
        by (rewrite length_app; cbn [List.length]; lia).
      destruct (Z.gtb_spec
                  (Z.of_nat (List.length (MomentumTrader.price_history a ++ [p])))
                  (MomentumTrader.lookback_periods a * 2)); [|lia].
      rewrite list_slice_from_length by lia. lia.
    + intros H0 p' Hp'. rewrite Hp in Hp'. injection Hp' as <-.
      rewrite H0 in Hh. rewrite Hh, list_slice_from_0. destruct (_ >? _); reflexivity.
  - split; [reflexivity|]. split; [intros; assumption|].
    split; intros ? ? p Hp || intros ? p Hp; rewrite He in Hp; discriminate.
Qed.

End PriceHistory.

(** ** What a run keeps of its agents *)

Section Keeps.
Context {S : Type} (rel : S -> S -> Prop) (HP : PreOrder rel).

Lemma keeps_ret {A} (a : A) : keeps rel (ret a).
Proof. intros s. reflexivity. Qed.

Lemma keeps_raise {A} e : keeps rel (@raise S A e).
Proof. intros s. reflexivity. Qed.

Lemma keeps_gets {A} (g : S -> A) : keeps rel (gets g).
Proof. intros s. reflexivity. Qed.

Lemma keeps_read {A} (g : S -> outcome A) : keeps rel (read g).
Proof. intros s. reflexivity. Qed.

Lemma keeps_lift_outcome {A} (o : outcome A) : keeps rel (lift_outcome o).
Proof. intros s. reflexivity. Qed.

Lemma keeps_modify (g : S -> S) : (forall s, rel s (g s)) -> keeps rel (modify g).
Proof. intros H s. apply H. Qed.

Lemma keeps_bind {A B} (m : M S A) (k : A -> M S B) :
  keeps rel m -> (forall a, keeps rel (k a)) -> keeps rel (bind m k).
Proof.
  intros Hm Hk s. unfold bind. specialize (Hm s).
  destruct (m s) as [[a|e] s']; cbn [snd] in *.
  - etransitivity; [exact Hm|apply Hk].
  - exact Hm.
Qed.

Lemma keeps_try_except {A} (m : M S A) (h : exn -> M S A) :
  keeps rel m -> (forall e, keeps rel (h e)) -> keeps rel (try_except m h).
Proof.
  intros Hm Hh s. unfold try_except. specialize (Hm s).
  destruct (m s) as [[a|e] s']; cbn [snd] in *; [exact Hm|].
  destruct (is_Exception e); [|exact Hm].
  etransitivity; [exact Hm|apply Hh].
Qed.

Lemma keeps_zoom {T A} (relT : T -> T -> Prop) (proj : S -> T) (inj : T -> S -> S)
    (m : M T A) :
  keeps relT m ->
  (forall t s, relT (proj s) t -> rel s (inj t s)) ->
  keeps rel (zoom proj inj m).
Proof.
  intros Hm Hinj s. unfold zoom. specialize (Hm (proj s)).
  destruct (m (proj s)) as [r t']. cbn [snd] in *. apply Hinj. exact Hm.
Qed.

End Keeps.

#[export] Instance via_PreOrder {X Y} (f : X -> Y) (rel : Y -> Y -> Prop)
    `{!PreOrder rel} : PreOrder (via f rel).
Proof.
  split.
  - intros x. unfold via. reflexivity.
  - intros x y z. unfold via. apply transitivity.
Qed.

#[export] Instance advanced_PreOrder {R} : PreOrder (@advanced R).
Proof.
  split.
  - intros b. unfold advanced. repeat split; try lia. exists []. symmetry. apply app_nil_r.
  - intros a b c (? & ? & ? & ? & ? & ? & ? & ? & [r1 ?]) (? & ? & ? & ? & ? & ? & ? & ? & [r2 ?]).
    unfold advanced. repeat split; try congruence; try lia.
    exists (r1 ++ r2)%list. rewrite app_assoc. congruence.
Qed.

#[export] Instance agent_advanced_PreOrder {R} : PreOrder (@agent_advanced R).
Proof.
  split.
  - intros a. split; reflexivity.
  - intros a b c [? ?] [? ?]. split; [congruence|etransitivity; eassumption].
Qed.

#[export] Instance Forall2_PreOrder {A} (rel : A -> A -> Prop) `{!PreOrder rel} :
  PreOrder (Forall2 rel).
Proof.
  split.
  - intros l. induction l; constructor; [reflexivity|assumption].
  - intros l1 l2 l3 H12. revert l3.
    induction H12; intros l3 H23; inversion H23; subst; constructor;
      [etransitivity; eassumption|auto].
Qed.

#[export] Instance runner_advanced_PreOrder {R MarketData StepMetrics} :
  PreOrder (@runner_advanced R MarketData StepMetrics).
Proof.
  split.
  - intros s. unfold runner_advanced. repeat split; try reflexivity.
    exists []. symmetry. apply app_nil_r.
  - intros a b c (? & ? & ? & ? & ? & [r1 ?]) (? & ? & ? & ? & ? & [r2 ?]).
    unfold runner_advanced. repeat split; try congruence.
    + etransitivity; eassumption.
    + exists (r1 ++ r2)%list. rewrite app_assoc. congruence.
Qed.

Section KeepsObject.
Context {L X Y : Type} (f : X -> Y) (rel : Y -> Y -> Prop) (HP : PreOrder rel).

Local Abbreviation on_object := (via (fun s : X * L => f (fst s)) rel).

Lemma keeps_self : keeps on_object (@self L X).
Proof. intros s. unfold via. reflexivity. Qed.

Lemma keeps_w3_read {A} (g : L -> outcome A) : keeps on_object (w3_read g).
Proof. intros s. unfold via. reflexivity. Qed.

Lemma keeps_w3_send {A} (g : L -> outcome A * L) : keeps on_object (w3_send g).
Proof.
  intros s. unfold w3_send, via. destruct (g (snd s)). reflexivity.
Qed.

Lemma keeps_update_self (g : X -> X) :
  (forall x, rel (f x) (f (g x))) -> keeps on_object (update_self g).
Proof. intros H s. apply H. Qed.

End KeepsObject.

Lemma keeps_on_self {S A} (rel : S -> S -> Prop) (m : M S A) :
  keeps rel m -> keeps (via snd rel) (on_self m).
Proof.
  intros H s. unfold on_self, zoom, via. specialize (H (snd s)).
  destruct (m (snd s)). exact H.
Qed.

Lemma keeps_update_actions {S} (rel : S -> S -> Prop) (HP : PreOrder rel) g :
  keeps (via snd rel) (@update_actions S g).
Proof. intros s. unfold via. reflexivity. Qed.

Lemma keeps_guarded_step {S} (rel : S -> S -> Prop) (HP : PreOrder rel) actions
    (body : M (ActionReport * S) unit) :
  keeps (via snd rel) body -> keeps rel (guarded_step actions body).
Proof.
  intros H s. unfold guarded_step.
  assert (H' : keeps (via snd rel)
                 (try_except body (fun e => update_actions (set_error (str e))))).
  { apply keeps_try_except; [typeclasses eauto|exact H|].
    intros e. apply keeps_update_actions; typeclasses eauto. }
  specialize (H' (actions, s)). unfold via in H'.
  destruct (try_except _ _ _) as [[u|e] [actions' s']]; exact H'.
Qed.

Create HintDb keeps.
#[export] Hint Resolve keeps_ret keeps_raise keeps_gets keeps_read
  keeps_lift_outcome keeps_self keeps_w3_read keeps_w3_send keeps_on_self
  keeps_update_actions : keeps.

(** A field update that leaves the agent advanced. *)
Ltac advanced_update :=
  intros; cbn;
  first [ reflexivity
        | unfold advanced; cbn; repeat apply conj; try reflexivity; try lia;
          first [ exists []; symmetry; apply app_nil_r | eexists; reflexivity ]
        | unfold runner_advanced; cbn; repeat apply conj; try reflexivity;
          first [ exists []; symmetry; apply app_nil_r | eexists; reflexivity ] ].

Ltac keeps_step :=
  match goal with
  | |- keeps _ _ => solve [eauto 3 with keeps typeclass_instances]
  | |- keeps _ (bind _ _) => apply keeps_bind; [typeclasses eauto| |intros ?]
  | |- keeps _ (try_except _ _) =>
      apply keeps_try_except; [typeclasses eauto| |intros ?]
  | |- keeps _ (update_self _) =>
      first [ apply keeps_update_self | apply (keeps_update_self (fun x => x)) ];
      advanced_update
  | |- keeps _ (w3_send _) =>
      first [ apply keeps_w3_send | apply (keeps_w3_send (fun x => x)) ];
      typeclasses eauto
  | |- keeps _ (guarded_step _ _) => apply keeps_guarded_step; [typeclasses eauto|]
  | |- keeps _ (match ?x with _ => _ end) => destruct x
  | |- keeps _ (let '(_, _) := ?x in _) => destruct x
  | |- keeps _ _ => solve [eauto with keeps typeclass_instances]
  end.

Ltac keeps_tac := repeat keeps_step.

Section KeepsAgents.
Context {L : Type} {W3 : Web3 L} {R : Type} {RG : Random R}.
Context {MarketData : Type}.

Local Abbreviation base_rel :=
  (via (fun s : AgentBase.t R * L => (fun b => b) (fst s)) advanced).
Local Abbreviation mm_rel :=
  (via (fun s : MarketMaker.t R * L => MarketMaker.base (fst s)) advanced).
Local Abbreviation trader_rel :=
  (via (fun s : Trader.t R * L => Trader.base (fst s)) advanced).

Lemma keeps_contracts_getitem k : keeps base_rel (AgentBase.contracts_getitem k).
Proof. unfold AgentBase.contracts_getitem. keeps_tac. Qed.

Lemma keeps_get_eth_balance : keeps base_rel AgentBase.get_eth_balance.
Proof. unfold AgentBase.get_eth_balance. keeps_tac. Qed.
Hint Resolve keeps_contracts_getitem keeps_get_eth_balance : keeps.

Lemma keeps_get_token_balance t : keeps base_rel (AgentBase.get_token_balance t).
Proof. unfold AgentBase.get_token_balance. keeps_tac. Qed.

Lemma keeps_get_token_decimals t : keeps base_rel (AgentBase.get_token_decimals t).
Proof.
  intros [b l]. unfold via. cbn [fst].
  destruct (get_token_decimals_cases b l t) as (d & ->). reflexivity.
Qed.
Hint Resolve keeps_get_token_balance keeps_get_token_decimals : keeps.

Lemma keeps_get_all_balances_loop items : forall b,
  keeps base_rel (AgentBase.get_all_balances_loop items b).
Proof.
  induction items as [|[name info] rest IH]; intros b; cbn [AgentBase.get_all_balances_loop].
  - keeps_tac.
  - destruct (_ || _); [|apply IH]. keeps_tac.
Qed.
Hint Resolve keeps_get_all_balances_loop : keeps.

Lemma keeps_get_all_balances : keeps base_rel AgentBase.get_all_balances.
Proof. unfold AgentBase.get_all_balances. keeps_tac. Qed.
Hint Resolve keeps_get_all_balances : keeps.

Lemma keeps_calculate_pnl : keeps base_rel AgentBase.calculate_pnl.
Proof. unfold AgentBase.calculate_pnl. keeps_tac. Qed.
Hint Resolve keeps_calculate_pnl : keeps.

Lemma keeps_get_performance_stats : keeps base_rel AgentBase.get_performance_stats.
Proof. unfold AgentBase.get_performance_stats. keeps_tac. Qed.

Lemma keeps_log_trade d : keeps base_rel (AgentBase.log_trade d).
Proof.
  intros [b l]. unfold via. cbn [fst].
  destruct (log_trade_obs b l d)
    as (r & b' & -> & [(record & _ & -> & _)|(e & _ & ->)]); cbn [fst snd].
  - advanced_update.
  - reflexivity.
Qed.

Lemma keeps_send_transaction tx : keeps base_rel (AgentBase.send_transaction tx).
Proof. unfold AgentBase.send_transaction. keeps_tac. Qed.
Hint Resolve keeps_get_performance_stats keeps_log_trade keeps_send_transaction : keeps.

Lemma keeps_approve_token_spending t sp am :
  keeps base_rel (AgentBase.approve_token_spending t sp am).
Proof. unfold AgentBase.approve_token_spending. keeps_tac. Qed.

Lemma keeps_transfer_token t to am : keeps base_rel (AgentBase.transfer_token t to am).
Proof. unfold AgentBase.transfer_token. keeps_tac. Qed.
Hint Resolve keeps_approve_token_spending keeps_transfer_token : keeps.

(** *** MarketMaker *)

Lemma keeps_inherited_mm {A} (m : M (AgentBase.t R * L) A) :
  keeps base_rel m -> keeps mm_rel (inherited m).
Proof.
  intros H. unfold inherited. eapply keeps_zoom; [exact H|].
  intros t s E. exact E.
Qed.
Hint Resolve keeps_inherited_mm : keeps.

Lemma keeps_get_lp_balance : keeps mm_rel MarketMaker.get_lp_balance.
Proof. unfold MarketMaker.get_lp_balance. keeps_tac. Qed.

Lemma keeps_get_pool_reserves : keeps mm_rel MarketMaker.get_pool_reserves.
Proof. unfold MarketMaker.get_pool_reserves. keeps_tac. Qed.
Hint Resolve keeps_get_lp_balance keeps_get_pool_reserves : keeps.

Lemma keeps_calculate_optimal_liquidity_amounts a b :
  keeps mm_rel (MarketMaker.calculate_optimal_liquidity_amounts a b).
Proof. unfold MarketMaker.calculate_optimal_liquidity_amounts. keeps_tac. Qed.

Lemma keeps_add_liquidity a b : keeps mm_rel (MarketMaker.add_liquidity a b).
Proof. unfold MarketMaker.add_liquidity. keeps_tac. Qed.

Lemma keeps_remove_liquidity a b c : keeps mm_rel (MarketMaker.remove_liquidity a b c).
Proof. unfold MarketMaker.remove_liquidity. keeps_tac. Qed.

Lemma keeps_calculate_impermanent_loss :
  keeps mm_rel MarketMaker.calculate_impermanent_loss.
Proof. unfold MarketMaker.calculate_impermanent_loss. keeps_tac. Qed.

Lemma keeps_should_rebalance (md : MarketData) :
  keeps mm_rel (MarketMaker.should_rebalance md).
Proof. unfold MarketMaker.should_rebalance. keeps_tac. Qed.
Hint Resolve keeps_calculate_optimal_liquidity_amounts keeps_add_liquidity
  keeps_remove_liquidity keeps_calculate_impermanent_loss
  keeps_should_rebalance : keeps.

Lemma keeps_mm_should_act (md : MarketData) : keeps mm_rel (MarketMaker.should_act md).
Proof. unfold MarketMaker.should_act. keeps_tac. Qed.

Lemma keeps_mm_step (md : MarketData) : keeps mm_rel (MarketMaker.step md).
Proof. unfold MarketMaker.step, MarketMaker.step_body. keeps_tac. Qed.

(** *** Traders *)

Lemma keeps_inherited_trader {A} (m : M (AgentBase.t R * L) A) :
  keeps base_rel m -> keeps trader_rel (inherited m).
Proof.
  intros H. unfold inherited. eapply keeps_zoom; [exact H|].
  intros t s E. exact E.
Qed.
Hint Resolve keeps_inherited_trader : keeps.

Lemma keeps_trader_get_token_balance t : keeps trader_rel (Trader.get_token_balance t).
Proof. unfold Trader.get_token_balance. keeps_tac. Qed.

Lemma keeps_get_pool_price : keeps trader_rel Trader.get_pool_price.
Proof. unfold Trader.get_pool_price. keeps_tac. Qed.

Lemma keeps_calculate_swap_output a t :
  keeps trader_rel (Trader.calculate_swap_output a t).
Proof. unfold Trader.calculate_swap_output. keeps_tac. Qed.
Hint Resolve keeps_trader_get_token_balance keeps_get_pool_price
  keeps_calculate_swap_output : keeps.

Lemma keeps_execute_swap a t o : keeps trader_rel (Trader.execute_swap a t o).
Proof. unfold Trader.execute_swap. keeps_tac. Qed.

Lemma keeps_random_random : keeps trader_rel Trader.random_random.
Proof. unfold Trader.random_random. keeps_tac. Qed.

Lemma keeps_random_randbelow n : keeps trader_rel (Trader.random_randbelow n).
Proof. unfold Trader.random_randbelow. keeps_tac. Qed.
Hint Resolve keeps_execute_swap keeps_random_random keeps_random_randbelow : keeps.

Lemma keeps_random_choice {A} (seq : list A) : keeps trader_rel (Trader.random_choice seq).
Proof. unfold Trader.random_choice. keeps_tac. Qed.

Lemma keeps_random_randint a b : keeps trader_rel (Trader.random_randint a b).
Proof. unfold Trader.random_randint. keeps_tac. Qed.
Hint Resolve keeps_random_choice keeps_random_randint : keeps.

Local Abbreviation rt_rel :=
  (via (fun s : RandomTrader.t R * L => Trader.base (RandomTrader.trader (fst s)))
       advanced).
Local Abbreviation mt_rel :=
  (via (fun s : MomentumTrader.t R * L => Trader.base (MomentumTrader.trader (fst s)))
       advanced).
Local Abbreviation at_rel :=
  (via (fun s : ArbitrageTrader.t R * L => Trader.base (ArbitrageTrader.trader (fst s)))
       advanced).

Lemma keeps_inherited_rt {A} (m : M (Trader.t R * L) A) :
  keeps trader_rel m -> keeps rt_rel (inherited m).
Proof.
  intros H. unfold inherited. eapply keeps_zoom; [exact H|].
  intros t s E. exact E.
Qed.

Lemma keeps_inherited_mt {A} (m : M (Trader.t R * L) A) :
  keeps trader_rel m -> keeps mt_rel (inherited m).
Proof.
  intros H. unfold inherited. eapply keeps_zoom; [exact H|].
  intros t s E. exact E.
Qed.

Lemma keeps_inherited_at {A} (m : M (Trader.t R * L) A) :
  keeps trader_rel m -> keeps at_rel (inherited m).
Proof.
  intros H. unfold inherited. eapply keeps_zoom; [exact H|].
  intros t s E. exact E.
Qed.
Hint Resolve keeps_inherited_rt keeps_inherited_mt keeps_inherited_at : keeps.

Lemma keeps_rt_should_act (md : MarketData) : keeps rt_rel (RandomTrader.should_act md).
Proof. unfold RandomTrader.should_act. keeps_tac. Qed.

Lemma keeps_rt_step (md : MarketData) : keeps rt_rel (RandomTrader.step md).
Proof. unfold RandomTrader.step, RandomTrader.step_body. cbv zeta. keeps_tac. Qed.

Lemma keeps_calculate_momentum : keeps mt_rel MomentumTrader.calculate_momentum.
Proof. unfold MomentumTrader.calculate_momentum. keeps_tac. Qed.
Hint Resolve keeps_calculate_momentum : keeps.

Lemma keeps_mt_should_act (md : MarketData) : keeps mt_rel (MomentumTrader.should_act md).
Proof. unfold MomentumTrader.should_act. cbv zeta. keeps_tac. Qed.

Lemma keeps_mt_step (md : MarketData) : keeps mt_rel (MomentumTrader.step md).
Proof. unfold MomentumTrader.step, MomentumTrader.step_body. cbv zeta. keeps_tac. Qed.

Lemma keeps_find_arbitrage_opportunity :
  keeps at_rel ArbitrageTrader.find_arbitrage_opportunity.
Proof. unfold ArbitrageTrader.find_arbitrage_opportunity. cbv zeta. keeps_tac. Qed.
Hint Resolve keeps_find_arbitrage_opportunity : keeps.

Lemma keeps_at_should_act (md : MarketData) : keeps at_rel (ArbitrageTrader.should_act md).
Proof. unfold ArbitrageTrader.should_act. keeps_tac. Qed.

Lemma keeps_at_step (md : MarketData) : keeps at_rel (ArbitrageTrader.step md).
Proof. unfold ArbitrageTrader.step, ArbitrageTrader.step_body. cbv zeta. keeps_tac. Qed.

End KeepsAgents.


(** *** The runner *)

Section KeepsRunner.
Context {L : Type} {W3 : Web3 L} {R : Type} {RG : Random R}.
Context {MarketData StepMetrics OverallMetrics : Type}.
Context {MC : MetricsCalculator L MarketData StepMetrics OverallMetrics}.
Context {FS : FileSystem MarketData StepMetrics OverallMetrics}.
Context {SL : Sleep L}.

Local Abbreviation Runner := (SimulationRunner.t R MarketData StepMetrics).
Local Abbreviation agent_rel :=
  (via (fun s : Agent R * L => (fun a => a) (fst s)) agent_advanced).
Local Abbreviation agents_rel :=
  (via (fun s : list (Agent R) * L => (fun a => a) (fst s)) (Forall2 agent_advanced)).
Local Abbreviation runner_rel :=
  (via (fun s : Runner * L => (fun r => r) (fst s)) runner_advanced).

Lemma keeps_dispatch {A} (mm : M (MarketMaker.t R * L) A) rt mt at_ :
  keeps (via (fun s : MarketMaker.t R * L => MarketMaker.base (fst s)) advanced) mm ->
  keeps (via (fun s : RandomTrader.t R * L =>
                Trader.base (RandomTrader.trader (fst s))) advanced) rt ->
  keeps (via (fun s : MomentumTrader.t R * L =>
                Trader.base (MomentumTrader.trader (fst s))) advanced) mt ->
  keeps (via (fun s : ArbitrageTrader.t R * L =>
                Trader.base (ArbitrageTrader.trader (fst s))) advanced) at_ ->
  keeps agent_rel (dispatch mm rt mt at_).
Proof.
  intros Hmm Hrt Hmt Hat [[a|a|a|a] l]; unfold dispatch, via; cbn [fst snd].
  - specialize (Hmm (a, l)). destruct (mm (a, l)) as [r [a' l']].
    split; [reflexivity|exact Hmm].
  - specialize (Hrt (a, l)). destruct (rt (a, l)) as [r [a' l']].
    split; [reflexivity|exact Hrt].
  - specialize (Hmt (a, l)). destruct (mt (a, l)) as [r [a' l']].
    split; [reflexivity|exact Hmt].
  - specialize (Hat (a, l)). destruct (at_ (a, l)) as [r [a' l']].
    split; [reflexivity|exact Hat].
Qed.

Lemma keeps_agent_should_act (md : MarketData) :
  keeps agent_rel (SimulationRunner.agent_should_act md).
Proof.
  apply keeps_dispatch;
    [apply keeps_mm_should_act|apply keeps_rt_should_act|apply keeps_mt_should_act
    |apply keeps_at_should_act].
Qed.

Lemma keeps_agent_step (md : MarketData) :
  keeps agent_rel (SimulationRunner.agent_step md).
Proof.
  apply keeps_dispatch;
    [apply keeps_mm_step|apply keeps_rt_step|apply keeps_mt_step|apply keeps_at_step].
Qed.

Lemma keeps_agent_get_performance_stats :
  keeps agent_rel (SimulationRunner.agent_get_performance_stats (L:=L)).
Proof.
  unfold SimulationRunner.agent_get_performance_stats, inherited.
  eapply keeps_zoom; [apply keeps_get_performance_stats|].
  intros [b l] [a l0] E. unfold via in *. cbn [fst snd upcast with_super
    Agent_inherits_AgentBase] in *.
  destruct a; split; try reflexivity; exact E.
Qed.
Hint Resolve keeps_agent_should_act keeps_agent_step
  keeps_agent_get_performance_stats : keeps.

Lemma keeps_agent_turn (md : MarketData) :
  keeps agent_rel (SimulationRunner.agent_turn md).
Proof. unfold SimulationRunner.agent_turn. keeps_tac. Qed.

Lemma for_each_keeps {X A} (rel : X -> X -> Prop) (HP : PreOrder rel)
    (body : M (X * L) A) :
  keeps (via (fun s : X * L => (fun x => x) (fst s)) rel) body ->
  forall xs l, Forall2 rel xs (fst (snd (for_each body xs l))).
Proof.
  intros H xs. induction xs as [|x rest IH]; intros l; cbn [for_each fst snd].
  - constructor.
  - pose proof (H (x, l)) as Hx. unfold via in Hx. cbn [fst snd] in Hx.
    destruct (body (x, l)) as [[a|e] [x' l']]; cbn [fst snd] in *.
    + specialize (IH l').
      destruct (for_each body rest l') as [[r|e] [rest' l'']]; cbn [fst snd] in *;
        constructor; assumption.
    + constructor; [assumption|reflexivity].
Qed.

Lemma keeps_execute_agents (md : MarketData) :
  keeps agents_rel (SimulationRunner.execute_agents md).
Proof.
  intros [ags l]. unfold via, SimulationRunner.execute_agents. cbn [fst snd].
  pose proof (for_each_keeps agent_advanced _ _ (keeps_agent_turn md) ags l) as H.
  destruct (for_each _ ags l) as [[rs|e] [ags' l']]; exact H.
Qed.

Lemma keeps_collect_performance :
  keeps agents_rel (SimulationRunner.collect_performance (L:=L)).
Proof.
  intros [ags l]. unfold via, SimulationRunner.collect_performance. cbn [fst snd].
  match goal with |- context [for_each ?body ags l] =>
    assert (Hb : keeps agent_rel body) by keeps_tac;
    pose proof (for_each_keeps agent_advanced _ _ Hb ags l) as H;
    destruct (for_each body ags l) as [[rs|e] [ags' l']]; exact H
  end.
Qed.

Lemma keeps_on_agents {A} (m : M (list (Agent R) * L) A) :
  keeps agents_rel m -> keeps runner_rel (SimulationRunner.on_agents m).
Proof.
  intros H. unfold SimulationRunner.on_agents. eapply keeps_zoom; [exact H|].
  intros [ags l] [s l0] E. unfold via in *. cbn [fst snd] in *.
  unfold runner_advanced. cbn. repeat apply conj; try reflexivity; [exact E|].
  exists []. symmetry. apply app_nil_r.
Qed.

Lemma keeps_time_time : keeps runner_rel (SimulationRunner.time_time (L:=L)).
Proof. unfold SimulationRunner.time_time. keeps_tac. Qed.

Lemma keeps_advance_blockchain :
  keeps runner_rel (SimulationRunner._advance_blockchain (L:=L)).
Proof. unfold SimulationRunner._advance_blockchain. keeps_tac. Qed.

Lemma keeps_record_step (res : StepResult MarketData StepMetrics) :
  keeps runner_rel
    (s' <- self ;;
     update_self (SimulationRunner.with_step_results
                    (SimulationRunner.step_results s' ++ [res])%list) ;;
     ret res).
Proof. intros [s l]. unfold via. cbn. advanced_update. Qed.

Hint Resolve keeps_execute_agents keeps_collect_performance keeps_on_agents
  keeps_time_time keeps_advance_blockchain keeps_record_step : keeps.

Lemma keeps_run_step : keeps runner_rel (SimulationRunner.run_step (L:=L)).
Proof. unfold SimulationRunner.run_step. keeps_tac. Qed.

Lemma keeps_sleep_between_steps :
  keeps runner_rel (SimulationRunner.sleep_between_steps (L:=L)).
Proof.
  intros [s l]. rewrite sleep_between_steps_frame. unfold via. cbn [fst snd].
  reflexivity.
Qed.

Lemma keeps_steps_loop (n : nat) : forall step,
  keeps runner_rel (SimulationRunner.steps_loop (L:=L) n step).
Proof.
  induction n as [|n IH]; intros step; cbn [SimulationRunner.steps_loop].
  - keeps_tac.
  - pose proof keeps_run_step. pose proof keeps_sleep_between_steps. keeps_tac.
Qed.

Lemma keeps_distribute_initial_tokens :
  keeps runner_rel (SimulationRunner._distribute_initial_tokens (L:=L)).
Proof.
  intros [s l]. unfold via. cbn [fst].
  unfold SimulationRunner._distribute_initial_tokens, bind, self, gets, lift_outcome.
  cbn [fst snd].
  destruct (SimulationRunner.contract_address _ "ERC20Token") as [t|e]; [|reflexivity].
  destruct (SimulationRunner.contract_address _ "USDC") as [u|e]; [|reflexivity].
  cbv zeta. cbn [fst snd].
  match goal with |- context [SimulationRunner.distribute_loop ?d t u ?ags (s, l)] =>
    destruct (distribute_loop_frame (MarketData:=MarketData)
                (StepMetrics:=StepMetrics) d t u ags l) as (o & l' & H); rewrite H
  end.
  reflexivity.
Qed.

Lemma keeps_save_results results :
  keeps runner_rel (SimulationRunner._save_results (L:=L) results).
Proof.
  unfold SimulationRunner._save_results, SimulationRunner._save_csv_metrics. keeps_tac.
Qed.
Hint Resolve keeps_save_results : keeps.

Lemma keeps_generate_final_report start_time :
  keeps runner_rel (SimulationRunner._generate_final_report (L:=L) start_time).
Proof. unfold SimulationRunner._generate_final_report. keeps_tac. Qed.

Lemma keeps_run_simulation : keeps runner_rel (SimulationRunner.run_simulation (L:=L)).
Proof.
  intros st. unfold via. cbn beta.
  rewrite run_simulation_route.
  pose proof (keeps_distribute_initial_tokens (SimulationRunner.tick_clock (fst st), snd st))
    as H1.
  unfold via in H1. cbn [fst snd] in H1.
  assert (H0 : runner_advanced (fst st) (SimulationRunner.tick_clock (fst st)))
    by advanced_update.
  destruct (SimulationRunner._distribute_initial_tokens _) as [[u|e] st1];
    cbn [fst snd] in *; [|etransitivity; eassumption].
  pose proof (keeps_steps_loop (Z.to_nat (SimulationRunner.max_steps (fst st1))) 0 st1)
    as H2.
  unfold via in H2. cbn beta in H2.
  assert (H3 : forall start st2,
             runner_advanced (fst st1) (fst st2) ->
             runner_advanced (fst st)
               (fst (snd (SimulationRunner._generate_final_report start st2)))).
  { intros start st2 H. pose proof (keeps_generate_final_report start st2) as H4.
    unfold via in H4. cbn beta in H4.
    etransitivity; [exact H0|]. etransitivity; [exact H1|].
    etransitivity; [exact H|exact H4]. }
  destruct (SimulationRunner.steps_loop _ 0 st1) as [[u'|e] st2]; cbn [fst snd] in *.
  - apply H3. exact H2.
  - destruct (exn_class_of e); try (apply H3; exact H2);
      cbn [fst snd]; (etransitivity; [exact H0|]; etransitivity; [exact H1|exact H2]).
Qed.

(** X11: whatever a tick or a whole run does, and whether it returns or
    raises, it keeps the runner's configuration, contracts, tick limit and
    delay, only appends tick records, and keeps the same agents in the same
    order; of each agent it keeps identity, class, address, contracts, gas
    settings and configured balances, never lowers the nonce, raises the
    transaction count by exactly what it raises the nonce by, and only
    appends to the trade history. *)
Theorem run_only_advances (st : Runner * L) :
  runner_advanced (fst st) (fst (snd (SimulationRunner.run_step st))) /\
  runner_advanced (fst st) (fst (snd (SimulationRunner.run_simulation st))).
Proof.
  split.
  - exact (keeps_run_step st).
  - exact (keeps_run_simulation st).
Qed.

End KeepsRunner.

(** ** The ticks a run records *)

Section Ticks.
Context {L : Type} {W3 : Web3 L} {R : Type} {RG : Random R}.
Context {MarketData StepMetrics OverallMetrics : Type}.
Context {MC : MetricsCalculator L MarketData StepMetrics OverallMetrics}.
Context {FS : FileSystem MarketData StepMetrics OverallMetrics}.
Context {SL : Sleep L}.

Local Abbreviation Runner := (SimulationRunner.t R MarketData StepMetrics).

Lemma stable_on_agents {K A} (f : Runner * L -> K) (m : M (list (Agent R) * L) A) :
  (forall s ags l l', f (SimulationRunner.with_agents ags s, l') = f (s, l)) ->
  stable f (SimulationRunner.on_agents m).
Proof.
  intros H [s l]. unfold SimulationRunner.on_agents, zoom. cbn [fst snd].
  destruct (m _) as [r [ags l']]. cbn [fst snd]. apply H.
Qed.

Lemma run_step_current_step :
  stable (fun st : Runner * L => SimulationRunner.current_step (fst st))
         SimulationRunner.run_step.
Proof.
  assert (Ht : stable (fun st : Runner * L => SimulationRunner.current_step (fst st))
                 SimulationRunner.time_time).
  { intros [s l]. reflexivity. }
  assert (Ha : forall A (m : M (list (Agent R) * L) A),
             stable (fun st : Runner * L => SimulationRunner.current_step (fst st))
               (SimulationRunner.on_agents m)).
  { intros A m. apply stable_on_agents. reflexivity. }
  unfold SimulationRunner.run_step, SimulationRunner._advance_blockchain.
  stable_tac.
Qed.

(** A tick appends its record, numbered with the current step, when it
    returns, and appends nothing when it raises. *)
Lemma run_step_records (st : Runner * L) :
  match SimulationRunner.run_step st with
  | (Ok res, st') =>
      SimulationRunner.step_results (fst st') =
        (SimulationRunner.step_results (fst st) ++ [res])%list /\
      sr_step res = SimulationRunner.current_step (fst st)
  | (Raise _, st') =>
      SimulationRunner.step_results (fst st') = SimulationRunner.step_results (fst st)
  end.
Proof.
  destruct st as [s l].
  unfold SimulationRunner.run_step, SimulationRunner.time_time,
    SimulationRunner._advance_blockchain, SimulationRunner.on_agents, zoom,
    try_except, bind, self, gets, w3_read, read, update_self, modify, lift_outcome, ret.
  cbn [fst snd].
  destruct (get_current_market_state l) as [md|e]; cbn [fst snd]; [|reflexivity].
  destruct (SimulationRunner.execute_agents md _) as [[acts|e] [ags1 l1]];
    cbn [fst snd]; [|reflexivity].
  destruct (eth_latest_timestamp l1) as [ts|e]; cbn [fst snd];
    [|destruct (is_Exception e); cbn [fst snd]; [|reflexivity]];
  (destruct (calculate_step_metrics _ acts md l1) as [sm|e1]; cbn [fst snd];
     [|reflexivity];
   destruct (SimulationRunner.collect_performance _) as [[perf|e2] [ags2 l2]];
     cbn [fst snd]; [|reflexivity];
   destruct (int_of_float _) as [t|e3]; cbn [fst snd]; [|reflexivity];
   destruct (eth_block_number l2) as [bn|e4]; cbn [fst snd]; [|reflexivity];
   split; reflexivity).
Qed.

Lemma py_range_S start n : py_range start (S n) = start :: py_range (start + 1) n.
Proof.
  unfold py_range. cbn [seq map]. f_equal; [lia|].
  rewrite <- seq_shift, map_map. apply map_ext. intros k. lia.
Qed.

(** The loop over the ticks: the records it appends are numbered from
    [step] on.  When it returns there are [n] of them.  When it raises,
    either a tick raised, which left no record and is the current step, or
    the sleep after a tick raised, and the current step is the tick of the
    last record. *)
Lemma steps_loop_records (n : nat) : forall step (st : Runner * L),
  match SimulationRunner.steps_loop n step st with
  | (r, st') =>
      exists records,
        SimulationRunner.step_results (fst st') =
          (SimulationRunner.step_results (fst st) ++ records)%list /\
        map sr_step records = py_range step (List.length records) /\
        match r with
        | Ok _ =>
            List.length records = n /\
            SimulationRunner.current_step (fst st') =
              match n with
              | O => SimulationRunner.current_step (fst st)
              | S k => step + Z.of_nat k
              end
        | Raise e =>
            ((List.length records < n)%nat /\
             SimulationRunner.current_step (fst st') =
               step + Z.of_nat (List.length records)) \/
            ((0 < List.length records <= n)%nat /\
             SimulationRunner.current_step (fst st') =
               step + Z.of_nat (List.length records) - 1 /\
             gt (SimulationRunner.step_delay (fst st)) (PInt 0) = true /\
             exists l, time_sleep (SimulationRunner.step_delay (fst st)) l = Raise e)
        end
  end.
Proof.
  induction n as [|n IH]; intros step [s l]; cbn [SimulationRunner.steps_loop].
  - cbn. exists []. rewrite app_nil_r. repeat split.
  - unfold bind at 1. unfold update_self at 1, modify. cbn [fst snd].
    unfold bind at 1.
    pose proof (run_step_records (SimulationRunner.with_current_step step s, l)) as Hr.
    pose proof (run_step_current_step (SimulationRunner.with_current_step step s, l)) as Hc.
    pose proof (keeps_run_step (SimulationRunner.with_current_step step s, l)) as Hk.
    destruct Hk as (_ & _ & _ & Hdelay & _).
    cbn [fst snd SimulationRunner.current_step SimulationRunner.with_current_step
         SimulationRunner.step_results SimulationRunner.step_delay] in Hr, Hc, Hdelay.
    destruct (SimulationRunner.run_step _) as [[res|e] [s1 l1]]; cbn [fst snd] in *.
    + destruct Hr as [Hr Hs]. unfold bind at 1.
      rewrite sleep_between_steps_frame, Hdelay.
      destruct (gt (SimulationRunner.step_delay s) (PInt 0)) eqn:Hgt;
        [destruct (time_sleep (SimulationRunner.step_delay s) l1) as [[]|e] eqn:Hsl|].
      2: { exists [res]. cbn [fst snd map List.length]. rewrite Hr.
           split; [reflexivity|]. split; [rewrite py_range_S, Hs; reflexivity|].
           right. split; [lia|]. split; [lia|]. split; [reflexivity|].
           exists l1. exact Hsl. }
      all: specialize (IH (step + 1) (s1, l1));
        destruct (SimulationRunner.steps_loop n (step + 1) (s1, l1)) as [r st2];
        destruct IH as (records & Hrs & Hsteps & Hcase);
        cbn [fst snd] in Hrs, Hcase;
        exists (res :: records); (split; [|split]);
        [rewrite Hrs, Hr, <- app_assoc; reflexivity
        |cbn [map List.length]; rewrite py_range_S, Hs, Hsteps; reflexivity
        |destruct r as [u|e];
         [destruct Hcase as [Hl Hcur]; cbn [List.length];
          split; [lia|]; rewrite Hcur; destruct n; [rewrite Hc|]; lia
         |cbn [List.length]; rewrite Hdelay in Hcase;
          destruct Hcase as [[Hl Hcur]|(Hl & Hcur & Hd & Hsl')];
          [left; split; [lia|]; rewrite Hcur; lia
          |right; split; [lia|]; split; [rewrite Hcur; lia|];
           split; [congruence|exact Hsl']]]].
    + exists []. rewrite app_nil_r. cbn. split; [assumption|].
      split; [reflexivity|]. left. split; lia.
Qed.

Lemma distribute_runner_unchanged (s : Runner) (l : L) :
  fst (snd (SimulationRunner._distribute_initial_tokens (s, l))) = s.
Proof.
  unfold SimulationRunner._distribute_initial_tokens, bind, self, gets, lift_outcome.
  cbn [fst snd].
  destruct (SimulationRunner.contract_address _ "ERC20Token") as [t|e]; [|reflexivity].
  destruct (SimulationRunner.contract_address _ "USDC") as [u|e]; [|reflexivity].
  cbv zeta. cbn [fst snd].
  match goal with |- context [SimulationRunner.distribute_loop ?d t u ?ags (s, l)] =>
    destruct (distribute_loop_frame (MarketData:=MarketData)
                (StepMetrics:=StepMetrics) d t u ags l) as (o & l' & H); rewrite H
  end.
  reflexivity.
Qed.

(** The final report leaves the current step as it is. *)
Lemma stable_generate_final_report_step (start_time : float) :
  stable (fun st : Runner * L => SimulationRunner.current_step (fst st))
         (SimulationRunner._generate_final_report start_time).
Proof.
  assert (Ht : stable (fun st : Runner * L => SimulationRunner.current_step (fst st))
                 SimulationRunner.time_time).
  { intros [s l]. reflexivity. }
  assert (Hp : stable (fun st : Runner * L => SimulationRunner.current_step (fst st))
                 (SimulationRunner.on_agents SimulationRunner.collect_performance)).
  { apply stable_on_agents. reflexivity. }
  unfold SimulationRunner._generate_final_report, SimulationRunner._save_results,
    SimulationRunner._save_csv_metrics.
  stable_tac.
Qed.

(** X12: what the report of a run says of its ticks, for a runner as
    [__init__] leaves it (current step 0, no record).  The records the run
    leaves are numbered 0, 1, 2, ..., and the report carries the last ten.
    ['total_steps'] is the number of the last tick entered plus one.  When
    the run leaves [max_steps] records, it is [max_steps], but 1 when
    [max_steps] is zero or negative and no tick ran.  When it leaves fewer,
    the loop was interrupted from the keyboard: during a tick, which left
    no record, and ['total_steps'] is the number of records plus one; or
    after a tick had left its record, as during the sleep between two
    ticks, and ['total_steps'] is the number of records. *)
Theorem report_counts_ticks (st : Runner * L) report st' :
  SimulationRunner.current_step (fst st) = 0 ->
  SimulationRunner.step_results (fst st) = [] ->
  SimulationRunner.run_simulation st = (Ok report, st') ->
  let records := SimulationRunner.step_results (fst st') in
  let n := Z.of_nat (List.length records) in
  let limit := Z.max 0 (SimulationRunner.max_steps (fst st)) in
  map sr_step records = py_range 0 (List.length records) /\
  res_step_results report = list_slice_from records (-10) /\
  total_steps (execution_summary report) =
    SimulationRunner.current_step (fst st') + 1 /\
  (n = limit /\ total_steps (execution_summary report) = Z.max 1 limit \/
   n < limit /\ total_steps (execution_summary report) = n + 1 \/
   0 < n < limit /\ total_steps (execution_summary report) = n).
Proof.
  intros Hcur Hres Hrun. cbv zeta.
  rewrite run_simulation_route in Hrun.
  pose proof (distribute_runner_unchanged (SimulationRunner.tick_clock (fst st)) (snd st))
    as Hd.
  destruct (SimulationRunner._distribute_initial_tokens _) as [[u|e] st1];
    [|discriminate]. cbn [fst snd] in Hd.
  pose proof (steps_loop_records
                (Z.to_nat (SimulationRunner.max_steps (fst st1))) 0 st1) as Hloop.
  assert (Hgen : forall start st2 records,
            SimulationRunner._generate_final_report start st2 = (Ok report, st') ->
            SimulationRunner.step_results (fst st2) = records ->
            SimulationRunner.step_results (fst st') = records /\
            res_step_results report = list_slice_from records (-10) /\
            total_steps (execution_summary report) =
              SimulationRunner.current_step (fst st2) + 1 /\
            SimulationRunner.current_step (fst st') =
              SimulationRunner.current_step (fst st2)).
  { intros start st2 records Hg <-.
    pose proof (stable_generate_final_report start st2) as Hst. rewrite Hg in Hst.
    cbn [fst snd] in Hst.
    pose proof (stable_generate_final_report_step start st2) as Hst'.
    rewrite Hg in Hst'. cbn [fst snd] in Hst'.
    destruct (generate_final_report_Ok start st2 st' report Hg) as (_ & _ & Ht & Hs).
    repeat split; assumption. }
  rewrite Hd in Hloop. cbn [SimulationRunner.max_steps SimulationRunner.tick_clock
    SimulationRunner.step_results SimulationRunner.current_step
    SimulationRunner.step_delay] in Hloop.
  rewrite Hres, Hcur in Hloop. rewrite Hd in Hrun. cbn [SimulationRunner.max_steps
    SimulationRunner.tick_clock] in Hrun.
  destruct (SimulationRunner.steps_loop _ 0 st1) as [[u'|e] st2].
  - destruct Hloop as (records & Hrs & Hsteps & Hlen & Hc). cbn [app] in Hrs.
    destruct (Hgen _ _ _ Hrun Hrs) as (-> & -> & Ht & Hc').
    split; [exact Hsteps|]. split; [reflexivity|]. split; [congruence|]. left.
    rewrite Ht, Hlen, Hc.
    destruct (Z.to_nat (SimulationRunner.max_steps (fst st))) eqn:En; lia.
  - destruct Hloop as (records & Hrs & Hsteps & Hcase). cbn [app] in Hrs.
    destruct (exn_class_of e) eqn:Hcls; try discriminate.
    destruct (Hgen _ _ _ Hrun Hrs) as (-> & -> & Ht & Hc').
    split; [exact Hsteps|]. split; [reflexivity|]. split; [congruence|].
    rewrite Ht.
    destruct Hcase as [[Hlen Hc]|(Hlen & Hc & Hgt & l & Hsl)].
    + right. left. rewrite Hc. lia.
    + destruct (Z.eq_dec (Z.of_nat (List.length records))
                  (Z.max 0 (SimulationRunner.max_steps (fst st)))) as [E|E].
      * left. rewrite Hc. lia.
      * right. right. rewrite Hc. split; lia.
Qed.

End Ticks.

(** The scenario run to its end leaves two records and counts two ticks.
    With a second between the ticks and a user who interrupts the first
    sleep, the run leaves one record and counts one tick. *)
Lemma report_counts_ticks_witness :
  (exists report st',
     SimulationRunner.run_simulation (Scenario.runner, Scenario.ledger) =
       (Ok report, st') /\
     total_steps (execution_summary report) = 2 /\
     let records := SimulationRunner.step_results (fst st') in
     let n := Z.of_nat (List.length records) in
     map sr_step records = py_range 0 (List.length records) /\
     res_step_results report = list_slice_from records (-10) /\
     total_steps (execution_summary report) =
       SimulationRunner.current_step (fst st') + 1 /\
     (n = 2 /\ total_steps (execution_summary report) = 2 \/
      n < 2 /\ total_steps (execution_summary report) = n + 1 \/
      0 < n < 2 /\ total_steps (execution_summary report) = n)) /\
  (let paced := Scenario.runner_of (Scenario.paced_config 2 (PInt 1)) in
   exists report st',
     SimulationRunner.run_simulation (SL:=Scenario.interrupted_sleep)
       (paced, Scenario.ledger) = (Ok report, st') /\
     let records := SimulationRunner.step_results (fst st') in
     let n := Z.of_nat (List.length records) in
     n = 1 /\
     total_steps (execution_summary report) = 1 /\
     map sr_step records = py_range 0 (List.length records) /\
     res_step_results report = list_slice_from records (-10)).
Proof.
  split.
  - destruct (SimulationRunner.run_simulation (Scenario.runner, Scenario.ledger))
      as [[report|e] st'] eqn:E.
    + exists report, st'. split; [reflexivity|].
      assert (Hr : fst (SimulationRunner.run_simulation
                          (Scenario.runner, Scenario.ledger)) = Ok report)
        by (rewrite E; reflexivity).
      split; [vm_compute in Hr; injection Hr as <-; reflexivity|].
      exact (report_counts_ticks (Scenario.runner, Scenario.ledger) report st'
               eq_refl eq_refl E).
    + exfalso.
      assert (Hr : fst (SimulationRunner.run_simulation
                          (Scenario.runner, Scenario.ledger)) = Raise e)
        by (rewrite E; reflexivity).
      vm_compute in Hr. discriminate.
  - cbv zeta.
    destruct (SimulationRunner.run_simulation (SL:=Scenario.interrupted_sleep)
                (Scenario.runner_of (Scenario.paced_config 2 (PInt 1)),
                 Scenario.ledger)) as [[report|e] st'] eqn:E.
    + exists report, st'. split; [reflexivity|].
      assert (Hr : fst (SimulationRunner.run_simulation
                          (SL:=Scenario.interrupted_sleep)
                          (Scenario.runner_of (Scenario.paced_config 2 (PInt 1)),
                           Scenario.ledger)) = Ok report)
        by (rewrite E; reflexivity).
      assert (Hn : List.length
                     (SimulationRunner.step_results
                        (fst (snd (SimulationRunner.run_simulation
                                     (SL:=Scenario.interrupted_sleep)
                                     (Scenario.runner_of
                                        (Scenario.paced_config 2 (PInt 1)),
                                      Scenario.ledger))))) = 1%nat)
        by (vm_compute; reflexivity).
      rewrite E in Hn. cbn [fst snd] in Hn.
      pose proof (report_counts_ticks (SL:=Scenario.interrupted_sleep)
                    (Scenario.runner_of (Scenario.paced_config 2 (PInt 1)),
                     Scenario.ledger) report st' eq_refl eq_refl E)
        as (Hsteps & Hlast & _ & _).
      split; [rewrite Hn; reflexivity|].
      split; [vm_compute in Hr; injection Hr as <-; reflexivity|].
      split; [exact Hsteps|exact Hlast].
    + exfalso.
      assert (Hr : fst (SimulationRunner.run_simulation
                          (SL:=Scenario.interrupted_sleep)
                          (Scenario.runner_of (Scenario.paced_config 2 (PInt 1)),
                           Scenario.ledger)) = Raise e)
        by (rewrite E; reflexivity).
      vm_compute in Hr. discriminate.
Defined.

(** ** Loading the contracts and creating the agents *)

Lemma dict_set_keeps_keys {V} (k k0 : string) (v : V) (d : list (string * V)) :
  dict_get k0 d <> None -> dict_get k0 (dict_set k v d) <> None.
Proof.
  intros H. destruct (String.eqb_spec k0 k) as [->|Hne].
  - rewrite dict_get_set_same. discriminate.
  - rewrite dict_get_set_other by exact Hne. exact H.
Qed.

Lemma dict_get_set_cases {V} (k k0 : string) (v v0 : V) (d : list (string * V)) :
  dict_get k0 (dict_set k v d) = Some v0 ->
  (k0 = k /\ v0 = v) \/ (k0 <> k /\ dict_get k0 d = Some v0).
Proof.
  destruct (String.eqb_spec k0 k) as [->|Hne].
  - rewrite dict_get_set_same. intros [= <-]. left. split; reflexivity.
  - rewrite dict_get_set_other by exact Hne. intros H. right. split; assumption.
Qed.

Lemma load_contracts_loop_spec (items : list (string * DeployedContract)) :
  forall contracts loaded,
    load_contracts_loop items contracts = Ok loaded ->
    (indexed_by_address contracts -> indexed_by_address loaded) /\
    (forall key, dict_get key contracts <> None -> dict_get key loaded <> None) /\
    (forall name contract_info,
       In (name, contract_info) items ->
       dict_get name loaded <> None /\
       exists address,
         dc_address contract_info = Some address /\
         dict_get address loaded <> None).
Proof.
  induction items as [|[name c] rest IH]; intros contracts loaded H.
  - injection H as <-. repeat split; auto. contradiction.
  - cbn [load_contracts_loop] in H.
    apply obind_Ok in H as (info & Hinfo & H). cbv zeta in H.
    apply obind_Ok in H as (info' & Hinfo' & H).
    rewrite Hinfo in Hinfo'. injection Hinfo' as <-.
    assert (Haddr : dc_address c = Some (ci_address info)).
    { unfold entry_info in Hinfo. destruct (dc_address c); [|discriminate].
      destruct (dc_abi c); [|discriminate]. injection Hinfo as <-. reflexivity. }
    destruct (IH _ _ H) as (Hidx & Hkeys & Hitems).
    split; [|split].
    + intros Hc. apply Hidx. intros key v Hv.
      apply dict_get_set_cases in Hv as [[-> ->]|[Hne Hv]].
      * rewrite dict_get_set_same. discriminate.
      * apply dict_get_set_cases in Hv as [[-> ->]|[Hne' Hv]].
        -- rewrite dict_get_set_same. discriminate.
        -- do 2 apply dict_set_keeps_keys. eapply Hc. exact Hv.
    + intros key Hk. apply Hkeys. do 2 apply dict_set_keeps_keys. exact Hk.
    + intros name' c' [[= <- <-]|Hin].
      * split.
        -- apply Hkeys. apply dict_set_keeps_keys. rewrite dict_get_set_same. discriminate.
        -- exists (ci_address info). split; [exact Haddr|].
           apply Hkeys. rewrite dict_get_set_same. discriminate.
      * apply Hitems. exact Hin.
Qed.

Lemma load_contracts_indexed contracts_file file contracts :
  _load_contracts contracts_file file = Ok contracts ->
  indexed_by_address contracts.
Proof.
  unfold _load_contracts. cbv zeta.
  destruct file as [|e|[items|]]; try discriminate.
  - destruct (is_Exception e); discriminate.
  - destruct (load_contracts_loop items []) as [loaded|e] eqn:E.
    + intros [= <-].
      destruct (load_contracts_loop_spec items [] loaded E) as (Hidx & _).
      apply Hidx. intros key info H. discriminate.
    + destruct (is_Exception e); discriminate.
Qed.

(** X13: [_load_contracts] files every contract of the deployment under
    its name and under its address.  When it returns, the file was parsed and
    had a ['contracts'] object, every name of that object is a key of the
    dictionary, every entry has an address that is a key too, and every
    contract of the dictionary can be looked up by its own address.  When it
    raises, it raises a plain [Exception] (a missing file, a missing key and
    any other [Exception] are all turned into one), or what [open] or
    [json.load] raised if that is no [Exception]. *)
Theorem load_contracts_index (contracts_file : string) (file : DeploymentFile) :
  match _load_contracts contracts_file file with
  | Ok contracts =>
      exists items,
        file = Parsed (Some items) /\
        indexed_by_address contracts /\
        forall name contract_info,
          In (name, contract_info) items ->
          dict_get name contracts <> None /\
          exists address,
            dc_address contract_info = Some address /\
            dict_get address contracts <> None
  | Raise e =>
      exn_class_of e = PlainException \/
      (file = Unreadable e /\ is_Exception e = false)
  end.
Proof.
  unfold _load_contracts. cbv zeta.
  destruct file as [|e|[items|]].
  - left. reflexivity.
  - destruct (is_Exception e) eqn:E; [left; reflexivity|right; split; [reflexivity|exact E]].
  - destruct (load_contracts_loop items []) as [contracts|e] eqn:E.
    + exists items. split; [reflexivity|].
      destruct (load_contracts_loop_spec items [] contracts E) as (Hidx & _ & Hitems).
      split; [|exact Hitems]. apply Hidx. intros key info H. discriminate.
    + assert (He : is_Exception e = true).
      { clear -E. revert E. generalize (@nil (string * ContractInfo)).
        induction items as [|[name c] rest IH]; intros d H; [discriminate|].
        cbn [load_contracts_loop] in H.
        destruct (entry_info c) as [info|e'] eqn:Ei; cbn in H.
        - eapply IH. exact H.
        - injection H as <-. unfold entry_info in Ei.
          destruct (dc_address c); [destruct (dc_abi c)|]; try discriminate;
            injection Ei as <-; reflexivity. }
      rewrite He. left. reflexivity.
  - left. reflexivity.
Qed.

Section Setup.
Context {L : Type} {W3 : Web3 L} {R : Type} {RG : Random R}.
Context {MarketData StepMetrics : Type}.

Lemma AgentBase_init_Ok agent_id private_key contracts initial_balance seed e (l : L) n :
  eth_get_transaction_count (account_from_key private_key) l = Ok n ->
  exists b : AgentBase.t R,
    AgentBase.init agent_id private_key contracts initial_balance seed e l = Ok b /\
    AgentBase.address b = account_from_key private_key /\
    AgentBase.nonce b = Z.of_N n /\
    AgentBase.transaction_count b = 0 /\
    AgentBase.random b = Random_seed (match seed with Some s => s | None => e end).
Proof.
  intros H. unfold AgentBase.init. cbv zeta. rewrite H. cbn.
  eexists. split; [reflexivity|]. cbn. repeat split. destruct seed; reflexivity.
Qed.

Lemma Trader_init_Ok agent_id private_key contracts amm ta tb initial_balance sl seed e
    (l : L) n :
  eth_get_transaction_count (account_from_key private_key) l = Ok n ->
  dict_get "AMM" contracts <> None ->
  exists x : Trader.t R,
    Trader.init agent_id private_key contracts amm ta tb initial_balance sl seed e l
      = Ok x /\
    AgentBase.address (Trader.base x) = account_from_key private_key /\
    AgentBase.nonce (Trader.base x) = Z.of_N n /\
    AgentBase.transaction_count (Trader.base x) = 0 /\
    AgentBase.random (Trader.base x) =
      Random_seed (match seed with Some s => s | None => e end).
Proof.
  intros H Hamm. unfold Trader.init.
  destruct (AgentBase_init_Ok agent_id private_key contracts initial_balance seed e l n H)
    as (b & -> & Hb). cbn.
  destruct (dict_get "AMM" contracts); [|contradiction]. cbn.
  eexists. split; [reflexivity|]. exact Hb.
Qed.

(** What [_setup_agents] makes of the entry [i] of the configuration, when
    the contracts it looks up are there and the transaction count of the
    account can be read. *)
Lemma create_agent_Ok cfg contracts amm ta tb e (i : nat) (c : AgentConfig) (l : L) n :
  let private_key := nth (i mod List.length default_keys)%nat default_keys EmptyString in
  eth_get_transaction_count (account_from_key private_key) l = Ok n ->
  dict_get "AMM" contracts <> None ->
  dict_get ta contracts <> None ->
  dict_get tb contracts <> None ->
  (known_type (ac_type c) = false /\
   SimulationRunner.create_agent (R:=R) cfg contracts amm ta tb e i c l = Ok None) \/
  (known_type (ac_type c) = true /\
   exists a : Agent R,
     SimulationRunner.create_agent cfg contracts amm ta tb e i c l = Ok (Some a) /\
     AgentBase.address (agent_base a) = account_from_key private_key /\
     AgentBase.nonce (agent_base a) = Z.of_N n /\
     AgentBase.transaction_count (agent_base a) = 0 /\
     AgentBase.random (agent_base a) =
       Random_seed (get_default (cfg_random_seed cfg) 42 + Z.of_nat i)).
Proof.
  intros private_key H Hamm Hta Htb.
  unfold SimulationRunner.create_agent, known_type. cbv zeta. fold private_key.
  destruct (String.eqb (ac_type c) "market_maker").
  { right. split; [reflexivity|]. unfold MarketMaker.init.
    match goal with |- context [AgentBase.init ?id ?k ?cs ?ib ?seed e l] =>
      destruct (AgentBase_init_Ok id k cs ib seed e l n H) as (b & -> & Hb)
    end.
    cbn. destruct (dict_get "AMM" contracts); [|contradiction].
    destruct (dict_get ta contracts); [|contradiction].
    destruct (dict_get tb contracts); [|contradiction]. cbn.
    eexists. split; [reflexivity|]. exact Hb. }
  destruct (String.eqb (ac_type c) "random_trader").
  { right. split; [reflexivity|]. unfold RandomTrader.init.
    match goal with |- context [Trader.init ?id ?k ?cs ?a1 ?a2 ?a3 ?ib ?sl ?seed e l] =>
      destruct (Trader_init_Ok id k cs a1 a2 a3 ib sl seed e l n H Hamm) as (x & -> & Hx)
    end.
    cbn. eexists. split; [reflexivity|]. exact Hx. }
  destruct (String.eqb (ac_type c) "momentum_trader").
  { right. split; [reflexivity|]. unfold MomentumTrader.init.
    match goal with |- context [Trader.init ?id ?k ?cs ?a1 ?a2 ?a3 ?ib ?sl ?seed e l] =>
      destruct (Trader_init_Ok id k cs a1 a2 a3 ib sl seed e l n H Hamm) as (x & -> & Hx)
    end.
    cbn. eexists. split; [reflexivity|]. exact Hx. }
  destruct (String.eqb (ac_type c) "arbitrage_trader").
  { right. split; [reflexivity|]. unfold ArbitrageTrader.init.
    match goal with |- context [Trader.init ?id ?k ?cs ?a1 ?a2 ?a3 ?ib ?sl ?seed e l] =>
      destruct (Trader_init_Ok id k cs a1 a2 a3 ib sl seed e l n H Hamm) as (x & -> & Hx)
    end.
    cbn. eexists. split; [reflexivity|]. exact Hx. }
  left. split; reflexivity.
Qed.

Lemma default_key_In (i : nat) :
  In (nth (i mod List.length default_keys)%nat default_keys EmptyString) default_keys.
Proof.
  apply nth_In. apply Nat.mod_upper_bound. discriminate.
Qed.

Lemma setup_agents_loop_Ok cfg contracts amm ta tb e (l : L)
    (configs : list AgentConfig) :
  (forall key, In key default_keys ->
     exists n, eth_get_transaction_count (account_from_key key) l = Ok n) ->
  dict_get "AMM" contracts <> None ->
  dict_get ta contracts <> None ->
  dict_get tb contracts <> None ->
  forall i, exists ags : list (Agent R),
    SimulationRunner.setup_agents_loop cfg contracts amm ta tb e i configs l = Ok ags.
Proof.
  intros Hkeys Hamm Hta Htb.
  induction configs as [|c rest IH]; intros i; cbn [SimulationRunner.setup_agents_loop].
  - eexists. reflexivity.
  - destruct (Hkeys _ (default_key_In i)) as [n Hn].
    destruct (IH (S i)) as [ags Hags].
    destruct (create_agent_Ok cfg contracts amm ta tb e i c l n Hn Hamm Hta Htb)
      as [[_ ->]|[_ (a & -> & _)]]; cbn; rewrite Hags; cbn; eexists; reflexivity.
Qed.

(** X14: contracts loaded by [_load_contracts] are enough for
    [_setup_agents].  If the loaded dictionary has the names ['AMM'],
    ['ERC20Token'] and ['USDC'], and the transaction counts of the ten
    default accounts can be read, then [_setup_agents] raises nothing (the
    market maker's lookups of the two tokens by address succeed because the
    loader indexed them by address) and creates the agents of the known
    types, in the order of the configuration. *)
Theorem loaded_contracts_setup (cfg : Config) contracts_file file contracts
    (os_entropy : Z) (l : L) :
  _load_contracts contracts_file file = Ok contracts ->
  dict_get "AMM" contracts <> None ->
  dict_get "ERC20Token" contracts <> None ->
  dict_get "USDC" contracts <> None ->
  (forall key, In key default_keys ->
     exists n, eth_get_transaction_count (account_from_key key) l = Ok n) ->
  exists ags : list (Agent R),
    SimulationRunner._setup_agents cfg contracts os_entropy l = Ok ags /\
    map agent_id ags = registered_ids 0 (cfg_agents cfg).
Proof.
  intros Hload Hamm Hta Htb Hkeys.
  pose proof (load_contracts_indexed contracts_file file contracts Hload) as Hidx.
  unfold SimulationRunner._setup_agents, SimulationRunner.contract_address.
  destruct (dict_get "AMM" contracts) as [amm|] eqn:Eamm; [|contradiction].
  destruct (dict_get "ERC20Token" contracts) as [ta|] eqn:Eta; [|contradiction].
  destruct (dict_get "USDC" contracts) as [tb|] eqn:Etb; [|contradiction].
  cbn.
  destruct (setup_agents_loop_Ok cfg contracts (ci_address amm) (ci_address ta)
              (ci_address tb) os_entropy l (cfg_agents cfg) Hkeys)
    with (i := 0%nat) as [ags Hags].
  - rewrite Eamm. discriminate.
  - eapply Hidx. exact Eta.
  - eapply Hidx. exact Etb.
  - exists ags. split; [exact Hags|].
    eapply setup_agents_loop_ids. exact Hags.
Qed.

Lemma AgentBase_init_account id key cs ib seed e (l : L) (b : AgentBase.t R) :
  AgentBase.init id key cs ib seed e l = Ok b ->
  AgentBase.address b = account_from_key key /\
  (exists n, eth_get_transaction_count (account_from_key key) l = Ok n /\
             AgentBase.nonce b = Z.of_N n) /\
  AgentBase.transaction_count b = 0.
Proof.
  unfold AgentBase.init. cbv zeta. intros H.
  apply obind_Ok in H as (n & Hn & H). injection H as <-. cbn.
  repeat split. exists n. split; [exact Hn|reflexivity].
Qed.

Lemma Trader_init_account id key cs amm ta tb ib sl seed e (l : L) (x : Trader.t R) :
  Trader.init id key cs amm ta tb ib sl seed e l = Ok x ->
  AgentBase.address (Trader.base x) = account_from_key key /\
  (exists n, eth_get_transaction_count (account_from_key key) l = Ok n /\
             AgentBase.nonce (Trader.base x) = Z.of_N n) /\
  AgentBase.transaction_count (Trader.base x) = 0.
Proof.
  unfold Trader.init. intros H.
  apply obind_Ok in H as (b & Hb & H). apply AgentBase_init_account in Hb.
  repeat (apply obind_Ok in H as (? & _ & H)). injection H as <-. exact Hb.
Qed.

Lemma create_agent_account cfg cs amm ta tb e i c (l : L) (a : Agent R) :
  SimulationRunner.create_agent cfg cs amm ta tb e i c l = Ok (Some a) ->
  let private_key := nth (i mod List.length default_keys)%nat default_keys EmptyString in
  AgentBase.address (agent_base a) = account_from_key private_key /\
  (exists n, eth_get_transaction_count (account_from_key private_key) l = Ok n /\
             AgentBase.nonce (agent_base a) = Z.of_N n) /\
  AgentBase.transaction_count (agent_base a) = 0.
Proof.
  unfold SimulationRunner.create_agent. cbv zeta.
  destruct (String.eqb (ac_type c) "market_maker").
  { intros H. apply obind_Ok in H as (x & Hx & H). injection H as <-.
    unfold MarketMaker.init in Hx.
    apply obind_Ok in Hx as (b & Hb & Hx). apply AgentBase_init_account in Hb.
    cbv zeta in Hx. repeat (apply obind_Ok in Hx as (? & _ & Hx)).
    injection Hx as <-. exact Hb. }
  destruct (String.eqb (ac_type c) "random_trader").
  { intros H. apply obind_Ok in H as (x & Hx & H). injection H as <-.
    unfold RandomTrader.init in Hx.
    apply obind_Ok in Hx as (b & Hb & Hx). apply Trader_init_account in Hb.
    injection Hx as <-. exact Hb. }
  destruct (String.eqb (ac_type c) "momentum_trader").
  { intros H. apply obind_Ok in H as (x & Hx & H). injection H as <-.
    unfold MomentumTrader.init in Hx.
    apply obind_Ok in Hx as (b & Hb & Hx). apply Trader_init_account in Hb.
    injection Hx as <-. exact Hb. }
  destruct (String.eqb (ac_type c) "arbitrage_trader").
  { intros H. apply obind_Ok in H as (x & Hx & H). injection H as <-.
    unfold ArbitrageTrader.init in Hx.
    apply obind_Ok in Hx as (b & Hb & Hx). apply Trader_init_account in Hb.
    injection Hx as <-. exact Hb. }
  discriminate.
Qed.

(** X15: [_setup_agents] hands out its ten default keys in turn, so two
    entries of the configuration whose positions agree modulo ten get the
    same account: the agents have the same address and start from the same
    nonce, read from the same transaction count, each with a transaction
    count of its own at zero.  An agent at a position that is a multiple of
    ten has the account that [_distribute_initial_tokens] uses as the
    deployer. *)
Theorem agents_share_accounts cfg cs amm ta tb e (i j : nat) c c' (l : L)
    (a a' : Agent R) :
  SimulationRunner.create_agent cfg cs amm ta tb e i c l = Ok (Some a) ->
  SimulationRunner.create_agent cfg cs amm ta tb e j c' l = Ok (Some a') ->
  (i mod 10 = j mod 10)%nat ->
  AgentBase.address (agent_base a) = AgentBase.address (agent_base a') /\
  AgentBase.nonce (agent_base a) = AgentBase.nonce (agent_base a') /\
  AgentBase.transaction_count (agent_base a) = 0 /\
  AgentBase.transaction_count (agent_base a') = 0 /\
  ((i mod 10 = 0)%nat ->
   AgentBase.address (agent_base a) =
     account_from_key
       "0x4f3edf983ac636a65a842ce7c78d9aa706d3b113bce9c46f30d7d21715b23b1d").
Proof.
  intros Ha Ha' Hij.
  apply create_agent_account in Ha as (Haddr & (n & Hn & Hnonce) & Hc).
  apply create_agent_account in Ha' as (Haddr' & (n' & Hn' & Hnonce') & Hc').
  change (List.length default_keys) with 10%nat in *.
  rewrite <- Hij in Haddr', Hn'.
  repeat split; try assumption.
  - congruence.
  - rewrite Hn in Hn'. injection Hn' as <-. congruence.
  - intros H0. rewrite H0 in Haddr. exact Haddr.
Qed.

End Setup.

Lemma loaded_contracts_setup_witness :
  _load_contracts "deployed.json" scenario_deployment = Ok Scenario.contracts /\
  exists ags : list (Agent Z),
    SimulationRunner._setup_agents Scenario.config Scenario.contracts 0 Scenario.ledger
      = Ok ags /\
    map agent_id ags = ["market_maker_0"; "random_trader_1"; "momentum_trader_2"].
Proof.
  split; [reflexivity|].
  apply (loaded_contracts_setup Scenario.config "deployed.json" scenario_deployment
           Scenario.contracts 0 Scenario.ledger).
  - reflexivity.
  - vm_compute. discriminate.
  - vm_compute. discriminate.
  - vm_compute. discriminate.
  - intros key Hin.
    repeat (destruct Hin as [<-|Hin]; [eexists; vm_compute; reflexivity|]).
    contradiction.
Defined.

Lemma agents_share_accounts_witness :
  exists a a' : Agent Z,
    SimulationRunner.create_agent Scenario.config Scenario.contracts
      "0xAMM" "0xToken" "0xUSDC" 0 0 (Scenario.agent_config "market_maker" None)
      Scenario.ledger = Ok (Some a) /\
    SimulationRunner.create_agent Scenario.config Scenario.contracts
      "0xAMM" "0xToken" "0xUSDC" 0 10 (Scenario.agent_config "random_trader" None)
      Scenario.ledger = Ok (Some a') /\
    agent_id a = "market_maker_0" /\ agent_id a' = "random_trader_10" /\
    AgentBase.address (agent_base a) = AgentBase.address (agent_base a') /\
    AgentBase.address (agent_base a) =
      account_from_key
        "0x4f3edf983ac636a65a842ce7c78d9aa706d3b113bce9c46f30d7d21715b23b1d".
Proof.
  do 2 eexists.
  split; [vm_compute; reflexivity|]. split; [vm_compute; reflexivity|].
  split; [reflexivity|]. split; [reflexivity|].
  match goal with |- AgentBase.address (agent_base ?a) = AgentBase.address (agent_base ?a') /\ _ =>
    pose proof (agents_share_accounts Scenario.config Scenario.contracts
                  "0xAMM" "0xToken" "0xUSDC" 0 0%nat 10%nat
                  (Scenario.agent_config "market_maker" None)
                  (Scenario.agent_config "random_trader" None)
                  Scenario.ledger a a') as H
  end.
  destruct H as (H1 & _ & _ & _ & H2);
    [vm_compute; reflexivity|vm_compute; reflexivity|reflexivity|].
  split; [exact H1|]. apply H2. reflexivity.
Defined.

(** ** The search for arbitrage *)

Lemma binary_round_aux_sign sx mx ex lx :
  let q := binary_round_aux prec emax sx mx ex lx in
  q = S754_zero sx \/ (exists m e, q = S754_finite sx m e) \/
  q = S754_infinity sx \/ q = S754_nan.
Proof.
  cbv zeta. unfold binary_round_aux.
  destruct (shr_fexp _ _ _ _ _) as [mrs' e'].
  destruct (shr_fexp _ _ _ _ _) as [mrs'' e''].
  destruct (shr_m mrs'') as [|m|m].
  - left. reflexivity.
  - destruct (_ <=? _); [right; left; eauto|right; right; left; reflexivity].
  - right. right. right. reflexivity.
Qed.

(** The float quotient of an integer that is not positive by a positive
    one is not positive. *)
Lemma int_truediv_nonpos (a b : Z) q :
  a <= 0 -> 0 < b -> int_truediv a b = Ok q ->
  q = S754_zero false \/ q = S754_zero true \/ (exists m e, q = S754_finite true m e) \/
  q = S754_nan.
Proof.
  intros Ha Hb. unfold int_truediv.
  destruct (Z.eqb_spec b 0); [lia|].
  destruct b as [|pb|pb]; try lia.
  destruct a as [|pa|pa]; try lia.
  - cbn. intros [= <-]. left. reflexivity.
  - unfold fdiv, Z2SF, SFdiv.
    destruct (SFdiv_core_binary _ _ _ _ _ _) as [[mz ez] lz].
    pose proof (binary_round_aux_sign (xorb true false) mz ez lz) as H.
    cbv zeta in H. cbn [xorb] in H.
    cbn [xorb].
    destruct H as [H|[(m & e & H)|[H|H]]]; rewrite H; cbn.
    + intros [= <-]. right. left. reflexivity.
    + intros [= <-]. right. right. left. eauto.
    + discriminate.
    + intros [= <-]. right. right. right. reflexivity.
Qed.

(** A threshold that is not negative is not below a float that is not
    positive. *)
Lemma nonneg_not_below (threshold : num) (q : float) :
  lt threshold (PInt 0) = false ->
  q = S754_zero false \/ q = S754_zero true \/ (exists m e, q = S754_finite true m e) \/
  q = S754_nan ->
  gt (PFloat q) threshold = false.
Proof.
  intros Ht Hq. unfold gt, lt in *.
  destruct threshold as [z|t]; cbn [compare] in *.
  - assert (Hz : 0 <= z).
    { destruct (Z.compare_spec z 0); try discriminate; lia. }
    destruct Hq as [->|[->|[(m & e & ->)| ->]]]; cbn [compare_Z_float].
    + destruct (Z.compare_spec z 0); try reflexivity; lia.
    + destruct (Z.compare_spec z 0); try reflexivity; lia.
    + cbn [cond_Zopp]. destruct (0 <=? e).
      * pose proof (Z.shiftl_nonneg (Z.neg m) e) as Hs.
        destruct (Z.compare_spec z (Z.shiftl (- Z.pos m) e)); try reflexivity.
        change (- Z.pos m) with (Z.neg m) in *. lia.
      * pose proof (Z.shiftl_nonneg z (- e)) as Hs.
        destruct (Z.compare_spec (Z.shiftl z (- e)) (- Z.pos m)); try reflexivity. lia.
    + reflexivity.
  - destruct t as [s|s| |s m e].
    + destruct Hq as [->|[->|[(m' & e' & ->)| ->]]]; reflexivity.
    + destruct s; [discriminate|].
      destruct Hq as [->|[->|[(m' & e' & ->)| ->]]]; reflexivity.
    + destruct Hq as [->|[->|[(m' & e' & ->)| ->]]]; reflexivity.
    + destruct s.
      * exfalso. unfold compare_Z_float, option_map, cond_Zopp in Ht.
        destruct (0 <=? e).
        -- pose proof (Z.shiftl_nonneg (Z.neg m) e) as Hs.
           change (- Z.pos m) with (Z.neg m) in Ht.
           destruct (Z.compare_spec 0 (Z.shiftl (Z.neg m) e)); try discriminate; lia.
        -- rewrite Z.shiftl_0_l in Ht. discriminate.
      * destruct Hq as [->|[->|[(m' & e' & ->)| ->]]]; reflexivity.
Qed.

Section Arbitrage.
Context {L : Type} {W3 : Web3 L} {R : Type} {RG : Random R}.
Context {MarketData : Type}.

Lemma inherited_at {A} (m : M (Trader.t R * L) A) (a : ArbitrageTrader.t R) (l : L) :
  inherited m (a, l) =
  (fst (m (ArbitrageTrader.trader a, l)),
   (ArbitrageTrader.with_trader (fst (snd (m (ArbitrageTrader.trader a, l)))) a,
    snd (snd (m (ArbitrageTrader.trader a, l))))).
Proof.
  unfold inherited, zoom. cbn [fst snd upcast with_super ArbitrageTrader.inherits_Trader].
  destruct (m (ArbitrageTrader.trader a, l)) as [r [x' l']]. reflexivity.
Qed.

Lemma at_with_trader_trader (a : ArbitrageTrader.t R) :
  ArbitrageTrader.with_trader (ArbitrageTrader.trader a) a = a.
Proof. destruct a. reflexivity. Qed.

Lemma trader_get_token_balance_obs (x : Trader.t R) (l : L) token :
  exists r, Trader.get_token_balance token (x, l) = (r, (x, l)) /\
    ((exists b, r = Ok b /\ 0 <= b) \/ exists e, r = Raise e /\ is_Exception e = false).
Proof.
  unfold Trader.get_token_balance. rewrite inherited_trader.
  destruct (get_token_balance_cases (Trader.base x) l token) as (r & -> & H).
  cbn [fst snd]. rewrite trader_with_base_base. eauto.
Qed.

(** The search reads the pool and the balances and writes nothing; an
    opportunity is a round trip quoted above the threshold. *)
Lemma find_arbitrage_opportunity_obs (a : ArbitrageTrader.t R) (l : L) :
  let x := ArbitrageTrader.trader a in
  exists r,
    ArbitrageTrader.find_arbitrage_opportunity (a, l) = (r, (a, l)) /\
    match r with
    | Raise e => is_Exception e = false
    | Ok None => True
    | Ok (Some o) =>
        exists balance_a test_amount b_received a_received,
          fst (Trader.get_token_balance (Trader.token_a_address x) (x, l)) = Ok balance_a /\
          balance_a > Trader.min_trade_size x /\
          (v <-- mul (PInt balance_a) (PFloat (lit 1 10)) ;;; int v) = Ok test_amount /\
          engine_quote x l test_amount (Trader.token_a_address x) = Ok b_received /\
          0 < b_received /\
          engine_quote x l b_received (Trader.token_b_address x) = Ok a_received /\
          (if test_amount >? 0
           then truediv (PInt (a_received - test_amount)) (PInt test_amount)
           else Ok (PInt 0)) = Ok (ArbitrageTrader.profit_percentage o) /\
          gt (ArbitrageTrader.profit_percentage o)
             (ArbitrageTrader.min_profit_threshold a) = true /\
          ArbitrageTrader.direction o = "a_to_b_to_a" /\
          ArbitrageTrader.amount o = test_amount /\
          ArbitrageTrader.expected_profit o = a_received - test_amount
    end.
Proof.
  cbv zeta. unfold ArbitrageTrader.find_arbitrage_opportunity, try_except.
  unfold bind at 1. rewrite inherited_at.
  destruct (get_pool_price_obs (ArbitrageTrader.trader a) l)
    as (r0 & -> & [[p ->]|(e & -> & Ee)]); cbn [fst snd]; rewrite at_with_trader_trader.
  2: { rewrite Ee. eexists. split; [reflexivity|exact Ee]. }
  unfold bind at 1. unfold self at 1, gets. cbn [fst snd]. cbv zeta.
  unfold bind at 1. rewrite inherited_at.
  destruct (trader_get_token_balance_obs (ArbitrageTrader.trader a) l
              (Trader.token_a_address (ArbitrageTrader.trader a)))
    as (ra & Ea & [(balance_a & -> & Ha)|(e & -> & Ee)]); rewrite Ea;
    cbn [fst snd]; rewrite at_with_trader_trader.
  2: { rewrite Ee. eexists. split; [reflexivity|exact Ee]. }
  unfold bind at 1. rewrite inherited_at.
  destruct (trader_get_token_balance_obs (ArbitrageTrader.trader a) l
              (Trader.token_b_address (ArbitrageTrader.trader a)))
    as (rb & Eb & [(balance_b & -> & Hb)|(e & -> & Ee)]); rewrite Eb;
    cbn [fst snd]; rewrite at_with_trader_trader.
  2: { rewrite Ee. eexists. split; [reflexivity|exact Ee]. }
  destruct (Z.gtb_spec balance_a (Trader.min_trade_size (ArbitrageTrader.trader a)))
    as [Hmin|Hmin].
  2: { eexists. split; [reflexivity|exact I]. }
  unfold bind at 1. unfold lift_outcome at 1.
  destruct (v <-- mul (PInt balance_a) (PFloat (lit 1 10));;; int v)
    as [test_amount|e] eqn:Etest; cbn [fst snd].
  2: { destruct (is_Exception e) eqn:Ee; eexists; (split; [reflexivity|]);
         [exact I|exact Ee]. }
  unfold bind at 1. rewrite inherited_at, calculate_swap_output_spec.
  cbn [fst snd]. rewrite at_with_trader_trader.
  destruct (engine_quote _ l test_amount _) as [b_received|e] eqn:Eq1; cbn [fst snd].
  2: { destruct (is_Exception e) eqn:Ee; eexists; (split; [reflexivity|]);
         [exact I|exact Ee]. }
  destruct (Z.gtb_spec b_received 0) as [Hb0|Hb0].
  2: { eexists. split; [reflexivity|exact I]. }
  unfold bind at 1. rewrite inherited_at, calculate_swap_output_spec.
  cbn [fst snd]. rewrite at_with_trader_trader.
  destruct (engine_quote _ l b_received _) as [a_received|e] eqn:Eq2; cbn [fst snd].
  2: { destruct (is_Exception e) eqn:Ee; eexists; (split; [reflexivity|]);
         [exact I|exact Ee]. }
  unfold bind at 1. unfold lift_outcome at 1.
  destruct (if test_amount >? 0 then _ else _) as [pp|e] eqn:Epp; cbn [fst snd].
  2: { destruct (is_Exception e) eqn:Ee; eexists; (split; [reflexivity|]);
         [exact I|exact Ee]. }
  destruct (gt pp _) eqn:Egt.
  2: { eexists. split; [reflexivity|exact I]. }
  eexists. split; [reflexivity|].
  exists balance_a, test_amount, b_received, a_received.
  cbn [fst ArbitrageTrader.profit_percentage ArbitrageTrader.direction
    ArbitrageTrader.amount ArbitrageTrader.expected_profit].
  repeat split; try assumption; try lia.
Qed.

Lemma engine_quote_cases (x : Trader.t R) (l : L) amount_in token_in out :
  engine_quote x l amount_in token_in = Ok out ->
  out = 0 \/
  exists ra rb q,
    getReserves (Trader.amm_address x) l = Ok (ra, rb) /\
    out = Z.of_N q /\
    (if String.eqb token_in (Trader.token_a_address x)
     then getAmountOut (Trader.amm_address x) amount_in (Z.of_N ra) (Z.of_N rb) l
     else getAmountOut (Trader.amm_address x) amount_in (Z.of_N rb) (Z.of_N ra) l)
      = Ok q.
Proof.
  unfold engine_quote.
  destruct (getReserves _ l) as [[ra rb]|e].
  - destruct (if String.eqb _ _ then _ else _) as [q|e] eqn:E.
    + intros [= <-]. right. exists ra, rb, q. repeat split. exact E.
    + destruct (is_Exception e); [intros [= <-]; left; reflexivity|discriminate].
  - destruct (is_Exception e); [intros [= <-]; left; reflexivity|discriminate].
Qed.

(** Without an opportunity the arbitrage trader's [step] does nothing. *)
Lemma arbitrage_step_without_opportunity (a : ArbitrageTrader.t R) (l : L)
    (md : MarketData) :
  (forall o, fst (ArbitrageTrader.find_arbitrage_opportunity (a, l)) <> Ok (Some o)) ->
  match ArbitrageTrader.step md (a, l) with
  | (Ok report, s') =>
      report = new_actions
                 (AgentBase.agent_id (Trader.base (ArbitrageTrader.trader a)))
                 "arbitrage_trader" /\ s' = (a, l)
  | (Raise e, s') => is_Exception e = false /\ s' = (a, l)
  end.
Proof.
  intros Hnone.
  unfold ArbitrageTrader.step, guarded_step, try_except, ArbitrageTrader.step_body.
  unfold bind at 1. unfold self at 1, gets. cbn [fst snd].
  unfold bind at 1. unfold on_self at 1, zoom. cbn [fst snd].
  pose proof (find_arbitrage_opportunity_obs a l) as H. cbv zeta in H.
  destruct H as (r & E & H). rewrite E in Hnone |- *.
  cbn [fst snd] in *.
  destruct r as [[o|]|e].
  - exfalso. apply (Hnone o). reflexivity.
  - cbn. split; reflexivity.
  - rewrite H. cbn. split; [exact H|reflexivity].
Qed.

(** X16: the arbitrage trader quotes a round trip, first token to second
    and back, on one pool and on the reserves as they are.  When the pool's
    quotes are no better than its spot price and no more than the reserve,
    the two tokens differ and the profit threshold is not negative, the
    round trip never shows a profit above the threshold:
    [find_arbitrage_opportunity] finds nothing, [should_act] does not
    return true, and [step] sends nothing: its report has no action and no
    error, and agent and ledger are as they were. *)
Theorem arbitrage_round_trip_never_pays (a : ArbitrageTrader.t R) (l : L)
    (md : MarketData) :
  quotes_within_spot W3 ->
  Trader.token_a_address (ArbitrageTrader.trader a) <>
    Trader.token_b_address (ArbitrageTrader.trader a) ->
  lt (ArbitrageTrader.min_profit_threshold a) (PInt 0) = false ->
  (forall o, fst (ArbitrageTrader.find_arbitrage_opportunity (a, l)) <> Ok (Some o)) /\
  fst (ArbitrageTrader.should_act md (a, l)) <> Ok true /\
  match ArbitrageTrader.step md (a, l) with
  | (Ok report, s') =>
      report = new_actions
                 (AgentBase.agent_id (Trader.base (ArbitrageTrader.trader a)))
                 "arbitrage_trader" /\ s' = (a, l)
  | (Raise e, s') => is_Exception e = false /\ s' = (a, l)
  end.
Proof.
  intros Hq Hne Hthr.
  assert (Hnone : forall o,
            fst (ArbitrageTrader.find_arbitrage_opportunity (a, l)) <> Ok (Some o)).
  { intros o Ho.
    pose proof (find_arbitrage_opportunity_obs a l) as H. cbv zeta in H.
    destruct H as (r & E & H). rewrite E in Ho. cbn [fst] in Ho. subst r.
    destruct H as (balance_a & test & b_rec & a_rec & _ & _ & _ & Hq1 & Hb & Hq2 &
                   Hpp & Hgt & _).
    destruct (Z.gtb_spec test 0) as [Htest|Htest].
    2: { injection Hpp as Hpp. rewrite <- Hpp in Hgt. unfold gt in Hgt. congruence. }
    assert (Hle : a_rec - test <= 0).
    { apply engine_quote_cases in Hq1 as [->|(ra & rb & q1 & Hr1 & -> & Hg1)]; [lia|].
      rewrite String.eqb_refl in Hg1.
      apply engine_quote_cases in Hq2 as [->|(ra' & rb' & q2 & Hr2 & -> & Hg2)]; [lia|].
      rewrite Hr1 in Hr2. injection Hr2 as <- <-.
      destruct (String.eqb_spec (Trader.token_b_address (ArbitrageTrader.trader a))
                  (Trader.token_a_address (ArbitrageTrader.trader a)));
        [congruence|].
      apply Hq in Hg1 as [H1 H1']. apply Hq in Hg2 as [H2 H2'].
      assert (0 < Z.of_N rb) by lia.
      assert (Z.of_N q2 * Z.of_N rb <= test * Z.of_N rb) by lia.
      nia. }
    unfold truediv in Hpp.
    destruct (int_truediv (a_rec - test) test) as [q|e] eqn:Ediv; [|discriminate].
    cbn in Hpp. injection Hpp as Hpp. rewrite <- Hpp in Hgt.
    pose proof (int_truediv_nonpos _ _ _ Hle Htest Ediv) as Hsign.
    rewrite (nonneg_not_below _ _ Hthr Hsign) in Hgt. discriminate. }
  split; [exact Hnone|].
  split; [|apply arbitrage_step_without_opportunity; exact Hnone].
  unfold ArbitrageTrader.should_act, bind.
  destruct (ArbitrageTrader.find_arbitrage_opportunity (a, l)) as [[[o|]|e] s] eqn:E;
    cbn; try discriminate.
  exfalso. apply (Hnone o). reflexivity.
Qed.

End Arbitrage.

Lemma sim_quotes_within_spot : quotes_within_spot Sim.web3.
Proof.
  intros amm amount rin rout l out. unfold getAmountOut, Sim.web3, Sim.reading.
  destruct (Sim.reachable l); [|discriminate].
  destruct (Z.ltb_spec amount 0); [discriminate|].
  destruct (Z.ltb_spec rin 0); [discriminate|].
  destruct (Z.ltb_spec rout 0); [discriminate|]. cbn [orb].
  unfold PoolMath.quoteOut.
  destruct (N.eqb_spec (Z.to_N rin) 0); [discriminate|].
  destruct (N.eqb_spec (Z.to_N rout) 0); [discriminate|]. cbn [orb].
  intros Hout.
  assert (Hout' : (Z.to_N amount * (10000 - Sim.fee_bps l) * Z.to_N rout /
                   (Z.to_N rin * 10000 + Z.to_N amount * (10000 - Sim.fee_bps l)))%N
                  = out) by (injection Hout; intros <-; reflexivity).
  rewrite <- Hout'. clear Hout Hout'.
  set (x := (Z.to_N amount * (10000 - Sim.fee_bps l))%N).
  set (d := (Z.to_N rin * 10000 + x)%N).
  assert (Hd : (0 < d)%N) by (subst d; lia).
  assert (Hlt : (x * Z.to_N rout / d < Z.to_N rout)%N)
    by (subst d; apply quote_lt; lia).
  pose proof (N.Div0.mul_div_le (x * Z.to_N rout) d) as Hdiv.
  assert (Hx : (x <= Z.to_N amount * 10000)%N) by (subst x; nia).
  set (q := (x * Z.to_N rout / d)%N) in *. clearbody q.
  assert (Hq1 : (q * (Z.to_N rin * 10000) <= d * q)%N) by (subst d; nia).
  assert (Hq2 : (x * Z.to_N rout <= Z.to_N amount * 10000 * Z.to_N rout)%N)
    by (apply N.mul_le_mono_r; exact Hx).
  clearbody d x.
  assert (HA : (q * Z.to_N rin <= Z.to_N amount * Z.to_N rout)%N) by lia.
  split; [|lia].
  apply N2Z.inj_le in HA. rewrite !N2Z.inj_mul, !Z2N.id in HA by lia. exact HA.
Qed.

Lemma arbitrage_round_trip_never_pays_witness :
  fst (Trader.get_token_balance "0xToken"
         (ArbitrageTrader.trader scenario_arbitrage_trader, pool_ledger)) = Ok 1000000 /\
  fst (ArbitrageTrader.find_arbitrage_opportunity
         (scenario_arbitrage_trader, pool_ledger)) = Ok None /\
  (forall o, fst (ArbitrageTrader.find_arbitrage_opportunity
                    (scenario_arbitrage_trader, pool_ledger)) <> Ok (Some o)) /\
  fst (ArbitrageTrader.should_act scenario_snapshot
         (scenario_arbitrage_trader, pool_ledger)) <> Ok true /\
  ArbitrageTrader.step scenario_snapshot (scenario_arbitrage_trader, pool_ledger) =
    (Ok (new_actions "arbitrage_trader_0" "arbitrage_trader"),
     (scenario_arbitrage_trader, pool_ledger)).
Proof.
  split; [vm_compute; reflexivity|]. split; [vm_compute; reflexivity|].
  pose proof (arbitrage_round_trip_never_pays scenario_arbitrage_trader pool_ledger
                scenario_snapshot) as H.
  destruct H as (H1 & H2 & H3).
  - exact sim_quotes_within_spot.
  - vm_compute. discriminate.
  - vm_compute. reflexivity.
  - split; [exact H1|]. split; [exact H2|].
    destruct (ArbitrageTrader.step scenario_snapshot
                (scenario_arbitrage_trader, pool_ledger)) as [[report|e] s'] eqn:E.
    + destruct H3 as [-> ->]. reflexivity.
    + exfalso.
      assert (Hr : fst (ArbitrageTrader.step scenario_snapshot
                          (scenario_arbitrage_trader, pool_ledger)) = Raise e)
        by (rewrite E; reflexivity).
      vm_compute in Hr. discriminate.
Defined.

(** ** Agents that have nothing to do *)

Section Idle.
Context {L : Type} {W3 : Web3 L} {R : Type} {RG : Random R}.
Context {MarketData : Type}.

Lemma get_token_balance_Ok (b : AgentBase.t R) (l : L) token v :
  fst (AgentBase.get_token_balance token (b, l)) = Ok v ->
  AgentBase.get_token_balance token (b, l) = (Ok v, (b, l)).
Proof.
  destruct (get_token_balance_cases b l token) as (r & E & _).
  rewrite E. cbn [fst]. intros ->. reflexivity.
Qed.

(** X17: a market maker that reads an LP balance of zero (the balance is
    zero, or the read failed) while it holds some of either token decides to
    act at once: [should_act] returns true without asking the pool for its
    reserves and without drawing from the random generator; the agent's base
    state is as it was. *)
Theorem market_maker_acts_without_liquidity (m : MarketMaker.t R) (l : L)
    (md : MarketData) (balance_a balance_b : Z) :
  fst (AgentBase.get_token_balance (MarketMaker.token_a_address m)
         (MarketMaker.base m, l)) = Ok balance_a ->
  fst (AgentBase.get_token_balance (MarketMaker.token_b_address m)
         (MarketMaker.base m, l)) = Ok balance_b ->
  fst (MarketMaker.get_lp_balance (m, l)) = Ok 0 ->
  balance_a > 0 \/ balance_b > 0 ->
  exists m',
    MarketMaker.should_act md (m, l) = (Ok true, (m', l)) /\
    MarketMaker.base m' = MarketMaker.base m /\
    MarketMaker.initial_reserves m' = MarketMaker.initial_reserves m.
Proof.
  intros Ha Hb Hlp Hpos.
  apply get_token_balance_Ok in Ha, Hb.
  unfold MarketMaker.should_act.
  unfold bind at 1. unfold self at 1, gets. cbn [fst snd].
  unfold bind at 1. rewrite inherited_mm, Ha. cbn [fst snd].
  rewrite mm_with_base_base.
  unfold bind at 1. rewrite inherited_mm, Hb. cbn [fst snd].
  rewrite mm_with_base_base.
  unfold bind at 1.
  pose proof (get_lp_balance_cases m l) as Hc.
  destruct (balanceOf _ _ l) as [balance|e].
  - rewrite Hc in Hlp |- *. cbn [fst snd] in *. injection Hlp as Hlp.
    rewrite Hlp. cbn [Z.eqb andb].
    assert (Hor : (balance_a >? 0) || (balance_b >? 0) = true).
    { apply orb_true_iff. destruct Hpos; [left|right]; apply Z.gtb_lt; lia. }
    rewrite Hor. eexists. split; [reflexivity|]. split; reflexivity.
  - rewrite Hc in Hlp |- *. cbn [fst snd] in *.
    destruct (is_Exception e); [|discriminate]. cbn [Z.eqb andb].
    assert (Hor : (balance_a >? 0) || (balance_b >? 0) = true).
    { apply orb_true_iff. destruct Hpos; [left|right]; apply Z.gtb_lt; lia. }
    rewrite Hor. eexists. split; [reflexivity|]. split; reflexivity.
Qed.

Lemma rt_with_trader_trader (a : RandomTrader.t R) :
  RandomTrader.with_trader (RandomTrader.trader a) a = a.
Proof. destruct a. reflexivity. Qed.

Lemma mt_with_trader_trader (a : MomentumTrader.t R) :
  MomentumTrader.with_trader (MomentumTrader.trader a) a = a.
Proof. destruct a. reflexivity. Qed.

Lemma trader_get_token_balance_Ok (x : Trader.t R) (l : L) token v :
  fst (AgentBase.get_token_balance token (Trader.base x, l)) = Ok v ->
  Trader.get_token_balance token (x, l) = (Ok v, (x, l)).
Proof.
  intros H. apply get_token_balance_Ok in H.
  unfold Trader.get_token_balance. rewrite inherited_trader, H. cbn [fst snd].
  rewrite trader_with_base_base. reflexivity.
Qed.

(** X18: a random trader whose two balances are both at or below the
    minimum trade size has nothing to trade: its [step] returns a report
    with no action and no error, draws nothing from the random generator,
    sends nothing, and leaves the agent and the ledger as they were. *)
Theorem random_trader_idle (a : RandomTrader.t R) (l : L) (md : MarketData)
    (balance_a balance_b : Z) :
  let x := RandomTrader.trader a in
  fst (AgentBase.get_token_balance (Trader.token_a_address x) (Trader.base x, l))
    = Ok balance_a ->
  fst (AgentBase.get_token_balance (Trader.token_b_address x) (Trader.base x, l))
    = Ok balance_b ->
  balance_a <= Trader.min_trade_size x ->
  balance_b <= Trader.min_trade_size x ->
  RandomTrader.step md (a, l) =
    (Ok (new_actions (AgentBase.agent_id (Trader.base x)) "random_trader"), (a, l)).
Proof.
  intros x Ha Hb Hmin_a Hmin_b. subst x.
  apply trader_get_token_balance_Ok in Ha, Hb.
  unfold RandomTrader.step, guarded_step, try_except, RandomTrader.step_body.
  unfold bind at 1. unfold self at 1, gets. cbn [fst snd].
  unfold bind at 1. unfold on_self at 1, zoom, self, gets. cbn [fst snd]. cbv zeta.
  unfold bind at 1. unfold on_self at 1, inherited at 1, zoom.
  cbn [fst snd upcast with_super RandomTrader.inherits_Trader]. rewrite Ha.
  cbn [fst snd]. rewrite rt_with_trader_trader.
  unfold bind at 1. unfold on_self at 1, inherited at 1, zoom.
  cbn [fst snd upcast with_super RandomTrader.inherits_Trader]. rewrite Hb.
  cbn [fst snd]. rewrite rt_with_trader_trader.
  destruct (Z.gtb_spec balance_a (Trader.min_trade_size (RandomTrader.trader a)));
    [lia|].
  destruct (Z.gtb_spec balance_b (Trader.min_trade_size (RandomTrader.trader a)));
    [lia|].
  reflexivity.
Qed.

(** X19: a momentum trader trades only on a signal it can afford.  When
    the momentum is not above the threshold or the second token's balance is
    at or below the minimum trade size, and the momentum is not below minus
    the threshold or the first token's balance is at or below the minimum,
    [step] sends nothing and leaves the agent and the ledger as they were;
    its report has no action and no error, and carries the momentum and the
    length of the price history. *)
Theorem momentum_trader_quiet (a : MomentumTrader.t R) (l : L) (md : MarketData)
    (momentum : float) (balance_a balance_b : Z) :
  let x := MomentumTrader.trader a in
  MomentumTrader.momentum_of (MomentumTrader.price_history a)
    (MomentumTrader.lookback_periods a) = Ok momentum ->
  fst (AgentBase.get_token_balance (Trader.token_a_address x) (Trader.base x, l))
    = Ok balance_a ->
  fst (AgentBase.get_token_balance (Trader.token_b_address x) (Trader.base x, l))
    = Ok balance_b ->
  gt (PFloat momentum) (MomentumTrader.momentum_threshold a) = false \/
    balance_b <= Trader.min_trade_size x ->
  lt (PFloat momentum) (neg (MomentumTrader.momentum_threshold a)) = false \/
    balance_a <= Trader.min_trade_size x ->
  MomentumTrader.step md (a, l) =
    (Ok (set_momentum momentum (List.length (MomentumTrader.price_history a))
           (new_actions (AgentBase.agent_id (Trader.base x)) "momentum_trader")),
     (a, l)).
Proof.
  intros x Hm Ha Hb Hup Hdown. subst x.
  apply trader_get_token_balance_Ok in Ha, Hb.
  unfold MomentumTrader.step, guarded_step, try_except, MomentumTrader.step_body.
  unfold bind at 1. unfold self at 1, gets. cbn [fst snd].
  unfold bind at 1. unfold on_self at 1, zoom, MomentumTrader.calculate_momentum,
    bind, self, gets, lift_outcome. cbn [fst snd]. rewrite Hm. cbn [fst snd].
  unfold on_self at 1, zoom. cbn [fst snd]. cbv zeta.
  unfold on_self at 1, inherited at 1, zoom.
  cbn [fst snd upcast with_super MomentumTrader.inherits_Trader]. rewrite Ha.
  cbn [fst snd]. rewrite mt_with_trader_trader.
  unfold on_self at 1, inherited at 1, zoom.
  cbn [fst snd upcast with_super MomentumTrader.inherits_Trader]. rewrite Hb.
  cbn [fst snd]. rewrite mt_with_trader_trader.
  assert (Eup : gt (PFloat momentum) (MomentumTrader.momentum_threshold a) &&
                (balance_b >? Trader.min_trade_size (MomentumTrader.trader a)) = false).
  { apply andb_false_iff. destruct Hup as [H|H]; [left; exact H|right].
    destruct (Z.gtb_spec balance_b (Trader.min_trade_size (MomentumTrader.trader a)));
      [lia|reflexivity]. }
  assert (Edown : lt (PFloat momentum) (neg (MomentumTrader.momentum_threshold a)) &&
                  (balance_a >? Trader.min_trade_size (MomentumTrader.trader a)) = false).
  { apply andb_false_iff. destruct Hdown as [H|H]; [left; exact H|right].
    destruct (Z.gtb_spec balance_a (Trader.min_trade_size (MomentumTrader.trader a)));
      [lia|reflexivity]. }
  rewrite Eup, Edown. reflexivity.
Qed.

End Idle.

Lemma market_maker_acts_without_liquidity_witness :
  exists m',
    MarketMaker.should_act scenario_snapshot (scenario_market_maker, Scenario.ledger) =
      (Ok true, (m', Scenario.ledger)) /\
    MarketMaker.base m' = MarketMaker.base scenario_market_maker /\
    MarketMaker.initial_reserves m' = MarketMaker.initial_reserves scenario_market_maker.
Proof.
  apply (market_maker_acts_without_liquidity scenario_market_maker Scenario.ledger
           scenario_snapshot 1000000 1000000).
  - vm_compute. reflexivity.
  - vm_compute. reflexivity.
  - vm_compute. reflexivity.
  - left. lia.
Defined.

Lemma random_trader_idle_witness :
  RandomTrader.step scenario_snapshot (scenario_idle_trader, Scenario.ledger) =
    (Ok (new_actions "random_trader_2" "random_trader"),
     (scenario_idle_trader, Scenario.ledger)).
Proof.
  apply (random_trader_idle scenario_idle_trader Scenario.ledger scenario_snapshot 0 0).
  - vm_compute. reflexivity.
  - vm_compute. reflexivity.
  - vm_compute. discriminate.
  - vm_compute. discriminate.
Defined.

Lemma momentum_trader_quiet_witness :
  MomentumTrader.step scenario_snapshot (Scenario.momentum_trader [], Scenario.ledger) =
    (Ok (set_momentum f0 0 (new_actions "momentum_trader_2" "momentum_trader")),
     (Scenario.momentum_trader [], Scenario.ledger)).
Proof.
  apply (momentum_trader_quiet (Scenario.momentum_trader []) Scenario.ledger
           scenario_snapshot f0 0 0).
  - vm_compute. reflexivity.
  - vm_compute. reflexivity.
  - vm_compute. reflexivity.
  - left. vm_compute. reflexivity.
  - left. vm_compute. reflexivity.
Defined.

(** ** Funding the agents *)

Section Funding.
Context {L : Type} {W3 : Web3 L} {R : Type} {RG : Random R}.
Context {MarketData StepMetrics : Type}.

Local Abbreviation Runner := (SimulationRunner.t R MarketData StepMetrics).

Lemma try_except_ret_no_Exception {S A} (m : M S A) (v : A) (s : S) e :
  fst (try_except m (fun _ => ret v) s) = Raise e -> is_Exception e = false.
Proof.
  unfold try_except. destruct (m s) as [[a|e'] s']; cbn; [discriminate|].
  destruct (is_Exception e') eqn:E; cbn; [discriminate|].
  intros [= <-]. exact E.
Qed.

Lemma distribute_transfer_no_Exception deployer token to amount (st : Runner * L) e :
  fst (SimulationRunner.distribute_transfer deployer token to amount st) = Raise e ->
  is_Exception e = false.
Proof.
  unfold SimulationRunner.distribute_transfer. apply try_except_ret_no_Exception.
Qed.

Lemma distribute_loop_no_Exception deployer test_token usdc_token
    (ags : list (Agent R)) : forall (st : Runner * L) e,
  fst (SimulationRunner.distribute_loop deployer test_token usdc_token ags st)
    = Raise e ->
  is_Exception e = false.
Proof.
  induction ags as [|a rest IH]; intros st e; cbn [SimulationRunner.distribute_loop].
  - discriminate.
  - cbv zeta. unfold bind at 1.
    destruct (SimulationRunner.distribute_transfer deployer test_token _ _ st)
      as [[u|e1] st1] eqn:E1.
    + unfold bind at 1.
      destruct (SimulationRunner.distribute_transfer deployer usdc_token _ _ st1)
        as [[u'|e2] st2] eqn:E2.
      * apply IH.
      * cbn. intros [= <-].
        eapply distribute_transfer_no_Exception. rewrite E2. reflexivity.
    + cbn. intros [= <-].
      eapply distribute_transfer_no_Exception. rewrite E1. reflexivity.
Qed.

(** X20: [_distribute_initial_tokens] changes nothing in the runner or
    its agents, only the ledger.  Without an ['ERC20Token'] or a ['USDC']
    contract it raises [KeyError] before any transfer, the ledger untouched.
    With both it raises no [Exception]: a transfer that fails is skipped and
    the agent stays unfunded. *)
Theorem distribute_initial_tokens_errors (s : Runner) (l : L) :
  fst (snd (SimulationRunner._distribute_initial_tokens (s, l))) = s /\
  (dict_get "ERC20Token" (SimulationRunner.contracts s) = None ->
   SimulationRunner._distribute_initial_tokens (s, l) =
     (Raise (Exn KeyError "'ERC20Token'"), (s, l))) /\
  (dict_get "ERC20Token" (SimulationRunner.contracts s) <> None ->
   dict_get "USDC" (SimulationRunner.contracts s) = None ->
   SimulationRunner._distribute_initial_tokens (s, l) =
     (Raise (Exn KeyError "'USDC'"), (s, l))) /\
  (dict_get "ERC20Token" (SimulationRunner.contracts s) <> None ->
   dict_get "USDC" (SimulationRunner.contracts s) <> None ->
   forall e,
     fst (SimulationRunner._distribute_initial_tokens (s, l)) = Raise e ->
     is_Exception e = false).
Proof.
  split; [apply distribute_runner_unchanged|].
  unfold SimulationRunner._distribute_initial_tokens, SimulationRunner.contract_address,
    bind, self, gets, lift_outcome. cbn [fst snd].
  destruct (dict_get "ERC20Token" (SimulationRunner.contracts s)) as [t|].
  - destruct (dict_get "USDC" (SimulationRunner.contracts s)) as [u|].
    + split; [discriminate|]. split; [discriminate|].
      intros _ _ e. cbv zeta. apply distribute_loop_no_Exception.
    + split; [discriminate|]. split; [reflexivity|]. intros _ H. contradiction.
  - split; [reflexivity|]. split; intros H; contradiction.
Qed.

End Funding.

